(** * Container lifecycle controller of flanksource/commons-test

    A shallow embedding of package [container]: the two [Container]
    implementations (the one that drives the Docker daemon through the API
    client, and the one that shells out to the [docker] binary), and the
    readiness probes of the SQL Server and ActiveMQ containers.

    Every method is a function in a small monad [M] that threads the receiver
    (the struct behind the pointer), the outside world (engine, clock,
    context, network) and the list of interactions the call performed.  The
    world is abstract: a type [W] with one transition function per external
    operation, so a theorem holds for every behaviour of the engine. *)

From Stdlib Require Import ZArith String Ascii List Bool Lia DecimalString.
From stdpp Require Import base option list gmap strings.
Import ListNotations.

Local Open Scope Z_scope.
Local Open Scope string_scope.

(** ** Go values *)

(** A Go [error]: [None] is [nil], [Some msg] an error whose [Error()] is [msg]. *)
Definition error := option string.

(** A Go pair [(v, err)] of which the code reads [v] only when [err == nil]. *)
Inductive result (A : Type) : Type :=
| Ok (v : A)
| Err (msg : string).
Arguments Ok {A} v.
Arguments Err {A} msg.

(** The error of [io.Reader.Read]: the code tells [io.EOF] from the others. *)
Inductive ioerr : Type :=
| io_nil
| io_EOF
| io_err (msg : string).

Definition nl : string := String (ascii_of_nat 10) EmptyString.
Definition tab : ascii := ascii_of_nat 9.

(** [%d] *)
Definition itoa (z : Z) : string := NilZero.string_of_int (Z.to_int z).

(** [%v] of a [time.Duration] given in milliseconds, for the whole seconds and
    the sub-second values the package prints. *)
Definition fmtDuration (ms : Z) : string :=
  if (ms mod 1000 =? 0)%Z then itoa (ms / 1000) +:+ "s" else itoa ms +:+ "ms".

(** [fmt.Errorf(prefix + "%w", err)] *)
Definition wrap (prefix msg : string) : error := Some (prefix +:+ msg).

(** *** package strings *)

Definition isSpace (a : ascii) : bool :=
  match nat_of_ascii a with
  | 9%nat | 10%nat | 11%nat | 12%nat | 13%nat | 32%nat => true
  | _ => false
  end.

Fixpoint trimLeft (s : string) : string :=
  match s with
  | String a s' => if isSpace a then trimLeft s' else s
  | EmptyString => EmptyString
  end.

Fixpoint trimRight (s : string) : string :=
  match s with
  | String a s' =>
      match trimRight s' with
      | EmptyString => if isSpace a then EmptyString else String a EmptyString
      | t => String a t
      end
  | EmptyString => EmptyString
  end.

(** [strings.TrimSpace] on ASCII text *)
Definition TrimSpace (s : string) : string := trimRight (trimLeft s).

(** [strings.HasPrefix s p] *)
Definition HasPrefix (s p : string) : bool := String.prefix p s.

(** [strings.TrimPrefix s p] *)
Definition TrimPrefix (s p : string) : string :=
  if String.prefix p s
  then String.substring (String.length p) (String.length s - String.length p) s
  else s.

(** [strings.Contains s sub] *)
Definition Contains (s sub : string) : bool :=
  match String.index 0 sub s with Some _ => true | None => false end.

(** [strings.Split s sep] for a separator of one character *)
Fixpoint Split (s : string) (sep : ascii) : list string :=
  match s with
  | EmptyString => [EmptyString]
  | String a s' =>
      if Ascii.eqb a sep then EmptyString :: Split s' sep
      else match Split s' sep with
           | p :: ps => String a p :: ps
           | [] => [String a EmptyString]
           end
  end.

(** ** Data model (types.go) *)

Record Mount := {
  Source : string;
  Target : string;
  Type_ : string;
  ReadOnly : bool
}.

Record WaitStrategy := {
  Port : string;
  LogMatch : string;
  Timeout : string
}.

Record Config := {
  Image : string;
  Name : string;
  Ports : gmap string string;
  Env : list string;
  Mounts : list Mount;
  Wait : WaitStrategy;
  Reuse : bool
}.

(** The mutable fields of [Container]; the logger and the API client are part
    of the world. *)
Record Container := {
  config : Config;
  containerID : string;
  isRunning : bool
}.

Definition set_containerID (id : string) (c : Container) : Container :=
  {| config := config c; containerID := id; isRunning := isRunning c |}.

Definition set_isRunning (b : bool) (c : Container) : Container :=
  {| config := config c; containerID := containerID c; isRunning := b |}.

(** [New]: the handle before any container is created or located. *)
Definition New (cfg : Config) : Container :=
  {| config := cfg; containerID := ""; isRunning := false |}.

(** ** What the engine reports *)

Record ContainerState := {
  Running : bool;
  Status : string;
  ExitCode : Z;
  Error : string;
  StartedAt : string;
  FinishedAt : string
}.

Record PortBinding := {
  HostIP : string;
  HostPort : string
}.

Record ContainerJSON := {
  State : ContainerState;
  NetworkPorts : gmap string (list PortBinding)
}.

Record Summary := {
  ID : string;
  Names : list string;
  SummaryStatus : string
}.

Record MountSpec := {
  mBind : bool;
  mSource : string;
  mTarget : string;
  mReadOnly : bool
}.

Record CreateRequest := {
  crImage : string;
  crEnv : list string;
  crExposedPorts : gset string;
  crPortBindings : gmap string (list PortBinding);
  crMounts : list MountSpec;
  crAutoRemove : bool;
  crName : string
}.

(** An open log stream of the API client. *)
Definition Reader := Z.

(** The result of [clicky.Exec(...).Run()]. *)
Record Process := {
  PErr : error;
  PStdout : string;
  POut : string
}.

(** ** Interactions *)

(** What a call does to the world, each with the answer it got.  [EvCall fn]
    records that the function [fn] of the package was entered; it is how the
    invocations of a readiness predicate are counted. *)
Inductive Event : Type :=
| EvCtxDone (err : error)
| EvSleep (ms : Z)
| EvGinkgo (text : string)
| EvStdout (text : string)
| EvExec (argv : list string) (p : Process)
| EvContainerStop (id : string) (timeout : Z) (err : error)
| EvContainerInspect (id : string) (r : result ContainerJSON)
| EvContainerList (all : bool) (r : result (list Summary))
| EvContainerStart (id : string) (err : error)
| EvContainerCreate (req : CreateRequest) (r : result string)
| EvContainerRemove (id : string) (force : bool) (err : error)
| EvContainerLogs (id : string) (follow : bool) (r : result Reader)
| EvRead (rd : Reader) (size : Z) (data : string) (err : ioerr)
| EvClose (rd : Reader)
| EvImageInspect (image : string) (err : error)
| EvImagePull (image : string) (err : error)
| EvHTTPGet (url : string) (timeout : Z) (r : result Z)
| EvSqlOpen (dsn : string) (err : error)
| EvSqlPing (err : error)
| EvSqlQuery (q : string) (r : result Z)
| EvSqlClose
| EvBodyClose
| EvCall (fn : string).

Definition is_sleep (e : Event) : bool :=
  match e with EvSleep _ => true | _ => false end.

Definition is_ctx_check (e : Event) : bool :=
  match e with EvCtxDone _ => true | _ => false end.

Definition is_create (e : Event) : bool :=
  match e with
  | EvContainerCreate _ _ => true
  | EvExec ("docker" :: "create" :: _) _ => true
  | _ => false
  end.

Definition is_start (e : Event) : bool :=
  match e with
  | EvContainerStart _ _ => true
  | EvExec ("docker" :: "start" :: _) _ => true
  | _ => false
  end.

Definition is_test (e : Event) : bool :=
  match e with EvCall fn => String.eqb fn "testConnection" | _ => false end.

(** [count p tr]: how many interactions of [tr] satisfy [p]. *)
Definition count (p : Event -> bool) (tr : list Event) : nat :=
  List.length (List.filter p tr).

(** ** The monad *)

Section Monad.
Context {S W : Type}.

(** The outcome of a call: the value returned, the receiver and the world
    afterwards, and the interactions the call made, oldest first. *)
Record Out (A : Type) : Type := mkOut {
  res : A;
  hdl : S;
  wld : W;
  evs : list Event
}.
Arguments mkOut {A}.
Arguments res {A}.
Arguments hdl {A}.
Arguments wld {A}.
Arguments evs {A}.

Definition M (A : Type) : Type := S -> W -> Out A.

Definition ret {A} (a : A) : M A := fun s w => mkOut a s w [].

(** The outcome [o] with the interactions [tr] put in front of its own. *)
Definition prepend {A} (tr : list Event) (o : Out A) : Out A :=
  match o with
  | mkOut a s w tr' => mkOut a s w (tr ++ tr')
  end.

Definition bind {A B} (m : M A) (k : A -> M B) : M B :=
  fun s w =>
    match m s w with
    | mkOut a s1 w1 e1 => prepend e1 (k a s1 w1)
    end.

Definition get : M S := fun s w => mkOut s s w [].

Definition modify (f : S -> S) : M unit := fun s w => mkOut tt (f s) w [].

(** One interaction with the world, recorded with its answer. *)
Definition call {R} (op : W -> R * W) (ev : R -> Event) : M R :=
  fun s w => let r := op w in mkOut (fst r) s (snd r) [ev (fst r)].

(** An interaction without an answer. *)
Definition tell (ev : Event) : M unit := fun s w => mkOut tt s w [ev].
End Monad.

Arguments Out : clear implicits.
Arguments M : clear implicits.
Arguments mkOut {S W A}.
Arguments res {S W A}.
Arguments hdl {S W A}.
Arguments wld {S W A}.
Arguments evs {S W A}.
Arguments prepend {S W A}.

Declare Scope go_scope.
Delimit Scope go_scope with go.
Notation "x <- m ;; k" := (bind m (fun x => k))
  (at level 100, m at next level, right associativity) : go_scope.
Notation "m ;;; k" := (bind m (fun _ => k))
  (at level 100, right associativity) : go_scope.
Local Open Scope go_scope.

(** A method of an embedded struct run on the embedding one. *)
Definition embed {S T W A} (proj : T -> S) (inj : S -> T -> T) (m : M S W A) : M T W A :=
  fun t w =>
    match m (proj t) w with
    | mkOut a s w' tr => mkOut a (inj s t) w' tr
    end.

(** ** The world *)

(** The context and the clock. *)
Record Runtime (W : Type) := {
  ctx_err : W -> error;
  time_Sleep : Z -> W -> W
}.
Arguments ctx_err {W}.
Arguments time_Sleep {W}.

(** The Docker API client. *)
Record Client (W : Type) := {
  ContainerStop : string -> Z -> W -> error * W;
  ContainerInspect : string -> W -> result ContainerJSON * W;
  ContainerList : bool -> W -> result (list Summary) * W;
  ContainerStart : string -> W -> error * W;
  ContainerCreate : CreateRequest -> W -> result string * W;
  ContainerRemove : string -> bool -> W -> error * W;
  ContainerLogs : string -> bool -> W -> result Reader * W;
  ReaderRead : Reader -> Z -> W -> (string * ioerr) * W;
  ReaderClose : Reader -> W -> W;
  ImageInspectWithRaw : string -> W -> error * W;
  ImagePull : string -> W -> error * W
}.
Arguments ContainerStop {W}.
Arguments ContainerInspect {W}.
Arguments ContainerList {W}.
Arguments ContainerStart {W}.
Arguments ContainerCreate {W}.
Arguments ContainerRemove {W}.
Arguments ContainerLogs {W}.
Arguments ReaderRead {W}.
Arguments ReaderClose {W}.
Arguments ImageInspectWithRaw {W}.
Arguments ImagePull {W}.

(** The [docker] binary behind [clicky.Exec], and [encoding/json] on the two
    anonymous structs the package decodes [{{json .State}}] into. *)
Record Shell (W : Type) := {
  Run : list string -> W -> Process * W;
  Unmarshal : string -> result ContainerState
}.
Arguments Run {W}.
Arguments Unmarshal {W}.

(** [database/sql] with the SQL Server driver: one connection at a time. *)
Record Database (W : Type) := {
  sql_Open : string -> string -> W -> error * W;
  db_Ping : W -> error * W;
  db_QueryRow_Scan : string -> W -> result Z * W;
  db_Close : W -> W
}.
Arguments sql_Open {W}.
Arguments db_Ping {W}.
Arguments db_QueryRow_Scan {W}.
Arguments db_Close {W}.

(** [net/http]: building a request is pure, sending it is not; the timeout of
    the client is in milliseconds. *)
Record Network (W : Type) := {
  http_NewRequest : string -> string -> error;
  client_Do : Z -> string -> W -> result Z * W;
  body_Close : W -> W
}.
Arguments http_NewRequest {W}.
Arguments client_Do {W}.
Arguments body_Close {W}.

(** The exec calls of the Docker API client, with [io.ReadAll] on the reader
    of the attached response and the [Close] of that response. *)
Record ExecClient (W : Type) := {
  ContainerExecCreate : string -> list string -> W -> result string * W;
  ContainerExecAttach : string -> W -> result Reader * W;
  io_ReadAll : Reader -> W -> (string * error) * W;
  resp_Close : Reader -> W -> W;
  ContainerExecInspect : string -> W -> result Z * W
}.
Arguments ContainerExecCreate {W}.
Arguments ContainerExecAttach {W}.
Arguments io_ReadAll {W}.
Arguments resp_Close {W}.
Arguments ContainerExecInspect {W}.

(** The line [Infof] writes to the Ginkgo writer. *)
Definition infoLine (c : Container) (msg : string) : Event :=
  EvGinkgo ("[" +:+ Name (config c) +:+ "] " +:+ msg +:+ nl).

(** The line [Errorf] writes to the Ginkgo writer. *)
Definition errorLine (c : Container) (msg : string) : Event :=
  EvGinkgo ("[" +:+ Name (config c) +:+ "] ERROR: " +:+ msg +:+ nl).

(** Logging and waiting, shared by both implementations. *)
Section Common.
Context {W : Type} (rt : Runtime W).

(** [select { case <-ctx.Done(): ...; default: }]: [ctx.Err()] when the
    context is done, [nil] otherwise. *)
Definition ctxDone {S} : M S W error :=
  call (fun w => (ctx_err rt w, w)) EvCtxDone.

Definition Sleep {S} (ms : Z) : M S W unit :=
  fun s w => mkOut tt s (time_Sleep rt ms w) [EvSleep ms].

Definition Infof (msg : string) : M Container W unit :=
  c <- get ;; tell (infoLine c msg).

Definition Errorf (msg : string) : M Container W unit :=
  c <- get ;; tell (errorLine c msg).
End Common.

(** ** The implementation on the Docker API client *)

Module API.
Section Impl.
Context {W : Type} (rt : Runtime W) (cl : Client W).

Abbreviation M := (M Container W).

(** [Stop] *)
Definition Stop : M error :=
  c <- get ;;
  if String.eqb (containerID c) "" then ret None else
  err <- call (ContainerStop cl (containerID c) 30) (EvContainerStop (containerID c) 30) ;;
  match err with
  | Some e => ret (wrap "failed to stop container: " e)
  | None => modify (set_isRunning false) ;;; ret None
  end.

(** [Logs] *)
Definition Logs (follow : bool) : M (result Reader) :=
  c <- get ;;
  if String.eqb (containerID c) "" then ret (Err "container not started") else
  r <- call (ContainerLogs cl (containerID c) follow) (EvContainerLogs (containerID c) follow) ;;
  match r with
  | Err e => ret (Err ("failed to get container logs: " +:+ e))
  | Ok logs => ret (Ok logs)
  end.

(** [IsRunning] *)
Definition IsRunning : M (bool * error) :=
  c <- get ;;
  if String.eqb (containerID c) "" then ret (false, None) else
  r <- call (ContainerInspect cl (containerID c)) (EvContainerInspect (containerID c)) ;;
  match r with
  | Err e => ret (false, wrap "failed to inspect container: " e)
  | Ok inspect =>
      modify (set_isRunning (Running (State inspect))) ;;;
      c' <- get ;;
      ret (isRunning c', None)
  end.

(** [GetPort] *)
Definition GetPort (port : string) : M (result string) :=
  c <- get ;;
  if String.eqb (containerID c) "" then ret (Err "container not started") else
  r <- call (ContainerInspect cl (containerID c)) (EvContainerInspect (containerID c)) ;;
  match r with
  | Err e => ret (Err ("failed to inspect container: " +:+ e))
  | Ok inspect =>
      let portKey := port +:+ "/tcp" in
      match NetworkPorts inspect !! portKey with
      | Some (b :: _) => ret (Ok (HostPort b))
      | _ => ret (Err ("no port mapping found for port " +:+ port))
      end
  end.

(** [GetID] *)
Definition GetID : M string :=
  c <- get ;; ret (containerID c).

(** [Cleanup] *)
Definition Cleanup : M error :=
  c <- get ;;
  if String.eqb (containerID c) "" then ret None else
  if Reuse (config c) then Stop else
  err <- Stop ;;
  match err with
  | Some e => Errorf ("Failed to stop container before cleanup: " +:+ e)
  | None => ret tt
  end ;;;
  c <- get ;;
  err <- call (ContainerRemove cl (containerID c) true) (EvContainerRemove (containerID c) true) ;;
  match err with
  | Some e => ret (wrap "failed to remove container: " e)
  | None => modify (set_containerID "") ;;; ret None
  end.

(** The two nested loops of [findAndReuseContainer]: the first container, in
    the order of the listing, one of whose names is [name] once a leading
    slash is cut. *)
Fixpoint lookupByName (name : string) (containers : list Summary) : option Summary :=
  match containers with
  | [] => None
  | ctr :: rest =>
      if existsb (fun n => String.eqb (TrimPrefix n "/") name) (Names ctr)
      then Some ctr
      else lookupByName name rest
  end.

(** [findAndReuseContainer] *)
Definition findAndReuseContainer : M error :=
  c <- get ;;
  r <- call (ContainerList cl true) (EvContainerList true) ;;
  match r with
  | Err e => ret (wrap "failed to list containers: " e)
  | Ok containers =>
      match lookupByName (Name (config c)) containers with
      | Some ctr =>
          modify (set_containerID (ID ctr)) ;;;
          modify (set_isRunning (Contains (SummaryStatus ctr) "Up")) ;;;
          ret None
      | None =>
          ret (Some ("container with name " +:+ Name (config c) +:+ " not found"))
      end
  end.

(** [ensureContainerRunning] *)
Definition ensureContainerRunning : M error :=
  c <- get ;;
  if isRunning c then ret None else
  err <- call (ContainerStart cl (containerID c)) (EvContainerStart (containerID c)) ;;
  match err with
  | Some e => ret (wrap "failed to start existing container: " e)
  | None => modify (set_isRunning true) ;;; ret None
  end.

(** [PrintLogsOnFailure] *)
Definition PrintLogsOnFailure (reason : string) : M unit :=
  Errorf ("Container startup failed: " +:+ reason) ;;;
  c <- get ;;
  if String.eqb (containerID c) "" then
    Errorf "No container ID available for log retrieval"
  else
  r <- call (ContainerInspect cl (containerID c)) (EvContainerInspect (containerID c)) ;;
  match r with
  | Ok inspect =>
      Errorf ("Container Status - State: " +:+ Status (State inspect)
              +:+ ", ExitCode: " +:+ itoa (ExitCode (State inspect))
              +:+ ", Error: " +:+ Error (State inspect)) ;;;
      Errorf ("Container Started At: " +:+ StartedAt (State inspect)
              +:+ ", Finished At: " +:+ FinishedAt (State inspect))
  | Err e =>
      Errorf ("Failed to inspect container for status: " +:+ e)
  end ;;;
  Infof "Retrieving container logs for debugging..." ;;;
  r <- Logs false ;;
  match r with
  | Err e => Errorf ("Failed to retrieve container logs: " +:+ e)
  | Ok logs =>
      rd <- call (ReaderRead cl logs 8192) (fun x => EvRead logs 8192 (fst x) (snd x)) ;;
      let n := Z.of_nat (String.length (fst rd)) in
      match snd rd with
      | io_err e => Errorf ("Failed to read container logs: " +:+ e)
      | _ =>
          if (0 <? n)%Z then
            Errorf ("=== Container Logs (last " +:+ itoa n +:+ " bytes) ===") ;;;
            Errorf (fst rd) ;;;
            Errorf "=== End Container Logs ==="
          else
            Errorf "No container logs available"
      end ;;;
      fun s w => mkOut tt s (ReaderClose cl logs w) [EvClose logs]
  end.

Definition stabilityPeriod : Z := 3 * 1000.
Definition checkInterval : Z := 500.
Definition maxChecks : Z := stabilityPeriod / checkInterval.

(** The body of the [for] loop of [waitForStableState], run [n] more times;
    [None] means the loop ran to its end. *)
Fixpoint stabilityLoop (n : nat) : M (option error) :=
  match n with
  | O => ret None
  | S n' =>
      done <- ctxDone rt ;;
      match done with
      | Some e => ret (Some (Some e))
      | None =>
          c <- get ;;
          r <- call (ContainerInspect cl (containerID c)) (EvContainerInspect (containerID c)) ;;
          match r with
          | Err e =>
              Errorf ("Failed to inspect container during stability check: " +:+ e) ;;;
              PrintLogsOnFailure ("Failed to inspect container: " +:+ e) ;;;
              ret (Some (wrap "failed to inspect container: " e))
          | Ok inspect =>
              if negb (Running (State inspect)) then
                PrintLogsOnFailure
                  ("Container exited unexpectedly - Status: " +:+ Status (State inspect)
                   +:+ ", ExitCode: " +:+ itoa (ExitCode (State inspect))) ;;;
                ret (Some (Some ("container exited with status " +:+ Status (State inspect)
                                 +:+ " (exit code: " +:+ itoa (ExitCode (State inspect)) +:+ ")")))
              else
                Sleep rt checkInterval ;;;
                stabilityLoop n'
          end
      end
  end.

(** [waitForStableState] *)
Definition waitForStableState : M error :=
  Infof ("Monitoring container stability for " +:+ fmtDuration stabilityPeriod +:+ "...") ;;;
  r <- stabilityLoop (Z.to_nat maxChecks) ;;
  match r with
  | Some err => ret err
  | None =>
      Infof ("Container stability check passed - running consistently for "
             +:+ fmtDuration stabilityPeriod) ;;;
      ret None
  end.

Definition mountSpec (m : Mount) : MountSpec :=
  {| mBind := negb (String.eqb (Type_ m) "volume");
     mSource := Source m; mTarget := Target m; mReadOnly := ReadOnly m |}.

Definition createRequest (cfg : Config) : CreateRequest :=
  let portBindings : gmap string (list PortBinding) :=
    kmap (fun p : string => p +:+ "/tcp")
         ((fun hp => [ {| HostIP := ""; HostPort := hp |} ]) <$> Ports cfg) in
  {| crImage := Image cfg;
     crEnv := Env cfg;
     crExposedPorts := dom portBindings;
     crPortBindings := portBindings;
     crMounts := List.map mountSpec (Mounts cfg);
     crAutoRemove := false;
     crName := Name cfg |}.

(** [createAndStartContainer] *)
Definition createAndStartContainer : M error :=
  c <- get ;;
  e <- call (ImageInspectWithRaw cl (Image (config c))) (EvImageInspect (Image (config c))) ;;
  pulled <- match e with
            | None => ret None
            | Some _ =>
                Infof ("Pulling image " +:+ Image (config c) +:+ "...") ;;;
                e' <- call (ImagePull cl (Image (config c))) (EvImagePull (Image (config c))) ;;
                match e' with
                | Some m =>
                    Errorf ("Failed to pull image: " +:+ m) ;;;
                    ret (wrap "failed to pull image: " m)
                | None =>
                    Infof ("Successfully pulled image " +:+ Image (config c)) ;;;
                    ret None
                end
            end ;;
  match pulled with
  | Some m => ret (Some m)
  | None =>
      resp <- call (ContainerCreate cl (createRequest (config c)))
                   (EvContainerCreate (createRequest (config c))) ;;
      match resp with
      | Err m => ret (wrap "failed to create container: " m)
      | Ok id =>
          modify (set_containerID id) ;;;
          Infof "Starting container..." ;;;
          e <- call (ContainerStart cl id) (EvContainerStart id) ;;
          match e with
          | Some m =>
              PrintLogsOnFailure ("Failed to start container: " +:+ m) ;;;
              ret (wrap "failed to start container: " m)
          | None =>
              Infof "Container started, verifying it remains running..." ;;;
              e <- waitForStableState ;;
              match e with
              | Some m =>
                  Errorf ("Container failed to maintain stable state: " +:+ m) ;;;
                  ret (wrap "container failed to maintain stable state: " m)
              | None =>
                  modify (set_isRunning true) ;;;
                  Infof "Container startup completed successfully" ;;;
                  ret None
              end
          end
      end
  end.

(** [Start] *)
Definition Start : M error :=
  c <- get ;;
  reused <-
    (if Reuse (config c) then
       err <- findAndReuseContainer ;;
       match err with
       | Some e =>
           tell (EvStdout ("Warning: failed to reuse existing container: " +:+ e +:+ nl)) ;;;
           ret false
       | None =>
           c' <- get ;;
           ret (negb (String.eqb (containerID c') ""))
       end
     else ret false) ;;
  if reused : bool then ensureContainerRunning else createAndStartContainer.

(** [Exec]: the output and the error, both of which it can return. *)
Definition Exec (ex : ExecClient W) (cmd : list string) : M (string * error) :=
  c <- get ;;
  if String.eqb (containerID c) "" then ret ("", Some "container not started") else
  created <- call (ContainerExecCreate ex (containerID c) cmd)
                  (fun _ => EvCall "ContainerExecCreate") ;;
  match created with
  | Err e => ret ("", Some ("failed to create exec instance: " +:+ e))
  | Ok execID =>
      attached <- call (ContainerExecAttach ex execID)
                       (fun _ => EvCall "ContainerExecAttach") ;;
      match attached with
      | Err e => ret ("", Some ("failed to attach to exec instance: " +:+ e))
      | Ok resp =>
          out <- (rd <- call (io_ReadAll ex resp) (fun _ => EvCall "io.ReadAll") ;;
                  match snd rd with
                  | Some e => ret ("", Some ("failed to read exec output: " +:+ e))
                  | None =>
                      let output := fst rd in
                      inspect <- call (ContainerExecInspect ex execID)
                                      (fun _ => EvCall "ContainerExecInspect") ;;
                      match inspect with
                      | Err e => ret ("", Some ("failed to inspect exec result: " +:+ e))
                      | Ok ExitCode =>
                          if negb (ExitCode =? 0)%Z then
                            ret (output,
                                 Some ("command failed with exit code " +:+ itoa ExitCode
                                       +:+ ": " +:+ output))
                          else ret (output, None)
                      end
                  end) ;;
          (fun s w => mkOut tt s (resp_Close ex resp w) [EvClose resp]) ;;;
          ret out
      end
  end.

End Impl.
End API.

(** ** The implementation on the [docker] binary *)

Module CLI.
Section Impl.
Context {W : Type} (rt : Runtime W) (sh : Shell W).

Abbreviation M := (M Container W).

Definition dq : string := String (ascii_of_nat 34) EmptyString.

(** [clicky.Exec(argv[0], argv[1:]...).Run()] *)
Definition Exec_Run (argv : list string) : M Process :=
  call (Run sh argv) (EvExec argv).

(** [Stop] *)
Definition Stop : M error :=
  c <- get ;;
  if String.eqb (containerID c) "" then ret None else
  process <- Exec_Run ["docker"; "stop"; "-t"; "30"; containerID c] ;;
  match PErr process with
  | Some e => ret (wrap "failed to stop container: " e)
  | None => modify (set_isRunning false) ;;; ret None
  end.

(** [Logs]: the output of the command, held in a buffer. *)
Definition Logs (follow : bool) : M (result string) :=
  c <- get ;;
  if String.eqb (containerID c) "" then ret (Err "container not started") else
  let args := (["docker"; "logs"; "--timestamps"]
               ++ (if follow then ["--follow"] else []) ++ [containerID c])%list in
  process <- Exec_Run args ;;
  match PErr process with
  | Some e => ret (Err ("failed to get container logs: " +:+ e))
  | None => ret (Ok (POut process))
  end.

(** [Read] on a [bytes.Buffer] holding [data], into a buffer of [size] bytes. *)
Definition bufferRead (data : string) (size : nat) : string * ioerr :=
  match data with
  | EmptyString => (EmptyString, if Nat.eqb size 0 then io_nil else io_EOF)
  | _ => (String.substring 0 (Nat.min size (String.length data)) data, io_nil)
  end.

(** [IsRunning] *)
Definition IsRunning : M (bool * error) :=
  c <- get ;;
  if String.eqb (containerID c) "" then ret (false, None) else
  process <- Exec_Run ["docker"; "inspect"; "--format"; "{{.State.Running}}"; containerID c] ;;
  match PErr process with
  | Some e => ret (false, wrap "failed to inspect container: " e)
  | None =>
      let running := String.eqb (TrimSpace (PStdout process)) "true" in
      modify (set_isRunning running) ;;;
      c' <- get ;;
      ret (isRunning c', None)
  end.

(** [GetPort] *)
Definition GetPort (port : string) : M (result string) :=
  c <- get ;;
  if String.eqb (containerID c) "" then ret (Err "container not started") else
  let format := "{{(index (index .NetworkSettings.Ports " +:+ dq +:+ port +:+ "/tcp"
                +:+ dq +:+ ") 0).HostPort}}" in
  process <- Exec_Run ["docker"; "inspect"; "--format"; format; containerID c] ;;
  match PErr process with
  | Some e => ret (Err ("failed to inspect container: " +:+ e))
  | None =>
      let hostPort := TrimSpace (PStdout process) in
      if String.eqb hostPort "" || String.eqb hostPort "<no value>" then
        ret (Err ("no port mapping found for port " +:+ port))
      else ret (Ok hostPort)
  end.

(** [GetID] *)
Definition GetID : M string :=
  c <- get ;; ret (containerID c).

(** [Cleanup] *)
Definition Cleanup : M error :=
  c <- get ;;
  if String.eqb (containerID c) "" then ret None else
  if Reuse (config c) then Stop else
  err <- Stop ;;
  match err with
  | Some e => Errorf ("Failed to stop container before cleanup: " +:+ e)
  | None => ret tt
  end ;;;
  c <- get ;;
  process <- Exec_Run ["docker"; "rm"; "-f"; containerID c] ;;
  match PErr process with
  | Some e => ret (wrap "failed to remove container: " e)
  | None => modify (set_containerID "") ;;; ret None
  end.

(** [findAndReuseContainer] *)
Definition findAndReuseContainer : M error :=
  c <- get ;;
  process <- Exec_Run ["docker"; "ps"; "-a"; "--filter";
                       "name=^" +:+ Name (config c) +:+ "$";
                       "--format"; "{{.ID}}" +:+ String tab "{{.Status}}"] ;;
  match PErr process with
  | Some e => ret (wrap "failed to list containers: " e)
  | None =>
      let output := TrimSpace (PStdout process) in
      if String.eqb output "" then
        ret (Some ("container with name " +:+ Name (config c) +:+ " not found"))
      else
        match Split output tab with
        | id :: status :: _ =>
            modify (set_containerID id) ;;;
            modify (set_isRunning (HasPrefix status "Up")) ;;;
            ret None
        | _ => ret (Some "unexpected output format from docker ps")
        end
  end.

(** [ensureContainerRunning] *)
Definition ensureContainerRunning : M error :=
  c <- get ;;
  if isRunning c then ret None else
  process <- Exec_Run ["docker"; "start"; containerID c] ;;
  match PErr process with
  | Some e => ret (wrap "failed to start existing container: " e)
  | None => modify (set_isRunning true) ;;; ret None
  end.

(** [PrintLogsOnFailure] *)
Definition PrintLogsOnFailure (reason : string) : M unit :=
  Errorf ("Container startup failed: " +:+ reason) ;;;
  c <- get ;;
  if String.eqb (containerID c) "" then
    Errorf "No container ID available for log retrieval"
  else
  process <- Exec_Run ["docker"; "inspect"; "--format"; "{{json .State}}"; containerID c] ;;
  match PErr process with
  | None =>
      match Unmarshal sh (PStdout process) with
      | Ok state =>
          Errorf ("Container Status - State: " +:+ Status state
                  +:+ ", ExitCode: " +:+ itoa (ExitCode state)
                  +:+ ", Error: " +:+ Error state) ;;;
          Errorf ("Container Started At: " +:+ StartedAt state
                  +:+ ", Finished At: " +:+ FinishedAt state)
      | Err _ => ret tt
      end
  | Some e =>
      Errorf ("Failed to inspect container for status: " +:+ e)
  end ;;;
  Infof "Retrieving container logs for debugging..." ;;;
  r <- Logs false ;;
  match r with
  | Err e => Errorf ("Failed to retrieve container logs: " +:+ e)
  | Ok logs =>
      let rd := bufferRead logs 8192 in
      let n := Z.of_nat (String.length (fst rd)) in
      match snd rd with
      | io_err e => Errorf ("Failed to read container logs: " +:+ e)
      | _ =>
          if (0 <? n)%Z then
            Errorf ("=== Container Logs (last " +:+ itoa n +:+ " bytes) ===") ;;;
            Errorf (fst rd) ;;;
            Errorf "=== End Container Logs ==="
          else
            Errorf "No container logs available"
      end
  end.

Definition stabilityPeriod : Z := 3 * 1000.
Definition checkInterval : Z := 500.
Definition maxChecks : Z := stabilityPeriod / checkInterval.

Definition inspectStateArgv (id : string) : list string :=
  ["docker"; "inspect"; "--format"; "{{json .State}}"; id].

(** The body of the [for] loop of [waitForStableState], run [n] more times;
    [None] means the loop ran to its end. *)
Fixpoint stabilityLoop (n : nat) : M (option error) :=
  match n with
  | O => ret None
  | S n' =>
      done <- ctxDone rt ;;
      match done with
      | Some e => ret (Some (Some e))
      | None =>
          c <- get ;;
          process <- Exec_Run (inspectStateArgv (containerID c)) ;;
          match PErr process with
          | Some e =>
              Errorf ("Failed to inspect container during stability check: " +:+ e) ;;;
              PrintLogsOnFailure ("Failed to inspect container: " +:+ e) ;;;
              ret (Some (wrap "failed to inspect container: " e))
          | None =>
              match Unmarshal sh (PStdout process) with
              | Err e => ret (Some (wrap "failed to parse container state: " e))
              | Ok state =>
                  if negb (Running state) then
                    PrintLogsOnFailure
                      ("Container exited unexpectedly - Status: " +:+ Status state
                       +:+ ", ExitCode: " +:+ itoa (ExitCode state)) ;;;
                    ret (Some (Some ("container exited with status " +:+ Status state
                                     +:+ " (exit code: " +:+ itoa (ExitCode state) +:+ ")")))
                  else
                    Sleep rt checkInterval ;;;
                    stabilityLoop n'
              end
          end
      end
  end.

(** [waitForStableState] *)
Definition waitForStableState : M error :=
  Infof ("Monitoring container stability for " +:+ fmtDuration stabilityPeriod +:+ "...") ;;;
  r <- stabilityLoop (Z.to_nat maxChecks) ;;
  match r with
  | Some err => ret err
  | None =>
      Infof ("Container stability check passed - running consistently for "
             +:+ fmtDuration stabilityPeriod) ;;;
      ret None
  end.

Definition mountArgs (m : Mount) : list string :=
  let mountStr := Source m +:+ ":" +:+ Target m +:+ (if ReadOnly m then ":ro" else "") in
  if String.eqb (Type_ m) "volume" then ["-v"; mountStr]
  else ["--mount"; "type=bind,source=" +:+ Source m +:+ ",target=" +:+ Target m].

(** The command line of [docker create]; the ports come in the order in which
    the map is traversed. *)
Definition createArgv (cfg : Config) : list string :=
  (["docker"; "create"]
   ++ (if String.eqb (Name cfg) "" then [] else ["--name"; Name cfg])
   ++ List.concat (List.map (fun kv : string * string => ["-p"; snd kv +:+ ":" +:+ fst kv])
                            (map_to_list (Ports cfg)))
   ++ List.concat (List.map (fun env => ["-e"; env]) (Env cfg))
   ++ List.concat (List.map mountArgs (Mounts cfg))
   ++ [Image cfg])%list.

(** [createAndStartContainer] *)
Definition createAndStartContainer : M error :=
  c <- get ;;
  checkProcess <- Exec_Run ["docker"; "image"; "inspect"; Image (config c)] ;;
  pulled <- match PErr checkProcess with
            | None => ret None
            | Some _ =>
                Infof ("Pulling image " +:+ Image (config c) +:+ "...") ;;;
                pullProcess <- Exec_Run ["docker"; "pull"; Image (config c)] ;;
                match PErr pullProcess with
                | Some m =>
                    Errorf ("Failed to pull image: " +:+ m) ;;;
                    ret (wrap "failed to pull image: " m)
                | None =>
                    Infof ("Successfully pulled image " +:+ Image (config c)) ;;;
                    ret None
                end
            end ;;
  match pulled with
  | Some m => ret (Some m)
  | None =>
      createProcess <- Exec_Run (createArgv (config c)) ;;
      match PErr createProcess with
      | Some m => ret (wrap "failed to create container: " m)
      | None =>
          let id := TrimSpace (PStdout createProcess) in
          modify (set_containerID id) ;;;
          Infof "Starting container..." ;;;
          startProcess <- Exec_Run ["docker"; "start"; id] ;;
          match PErr startProcess with
          | Some m =>
              PrintLogsOnFailure ("Failed to start container: " +:+ m) ;;;
              ret (wrap "failed to start container: " m)
          | None =>
              Infof "Container started, verifying it remains running..." ;;;
              e <- waitForStableState ;;
              match e with
              | Some m =>
                  Errorf ("Container failed to maintain stable state: " +:+ m) ;;;
                  ret (wrap "container failed to maintain stable state: " m)
              | None =>
                  modify (set_isRunning true) ;;;
                  Infof "Container startup completed successfully" ;;;
                  ret None
              end
          end
      end
  end.

(** [Start] *)
Definition Start : M error :=
  c <- get ;;
  reused <-
    (if Reuse (config c) then
       err <- findAndReuseContainer ;;
       match err with
       | Some e =>
           tell (EvStdout ("Warning: failed to reuse existing container: " +:+ e +:+ nl)) ;;;
           ret false
       | None =>
           c' <- get ;;
           ret (negb (String.eqb (containerID c') ""))
       end
     else ret false) ;;
  if reused : bool then ensureContainerRunning else createAndStartContainer.

(** [Exec] *)
Definition Exec (cmd : list string) : M (result string) :=
  c <- get ;;
  if String.eqb (containerID c) "" then ret (Err "container not started") else
  let args := (["docker"; "exec"; containerID c] ++ cmd)%list in
  process <- Exec_Run args ;;
  match PErr process with
  | Some e => ret (Err ("command failed: " +:+ e))
  | None => ret (Ok (POut process))
  end.

End Impl.
End CLI.

(** ** The readiness probe of the SQL Server container (sqlserver.go) *)

Module SQLServer.

Record SQLServerContainer := {
  base : Container;
  password : string;
  connectionString : string
}.

Section Impl.
Context {W : Type} (rt : Runtime W) (db : Database W).

Abbreviation M := (M SQLServerContainer W).

(** [testConnection] *)
Definition testConnection : M bool :=
  tell (EvCall "testConnection") ;;;
  s <- get ;;
  err <- call (sql_Open db "sqlserver" (connectionString s)) (EvSqlOpen (connectionString s)) ;;
  match err with
  | Some _ => ret false
  | None =>
      ok <- (err <- call (db_Ping db) EvSqlPing ;;
             match err with
             | Some _ => ret false
             | None =>
                 r <- call (db_QueryRow_Scan db "SELECT 1") (EvSqlQuery "SELECT 1") ;;
                 match r with
                 | Err _ => ret false
                 | Ok result => ret (result =? 1)%Z
                 end
             end) ;;
      (fun s w => mkOut tt s (db_Close db w) [EvSqlClose]) ;;;
      ret ok
  end.

(** The [for] loop of [waitForReady] with [n] rounds left, [i] being the loop
    variable; [None] means the loop ran to its end. *)
Fixpoint readyLoop (maxRetries retryDelay : Z) (n : nat) (i : Z) : M (option error) :=
  match n with
  | O => ret None
  | S n' =>
      done <- ctxDone rt ;;
      match done with
      | Some e => ret (Some (Some e))
      | None =>
          ok <- testConnection ;;
          if ok : bool then ret (Some None) else
          (if (i <? maxRetries - 1)%Z then Sleep rt retryDelay else ret tt) ;;;
          readyLoop maxRetries retryDelay n' (i + 1)
      end
  end.

(** [waitForReady], its two local constants taken as parameters. *)
Definition waitForReadyWith (maxRetries retryDelay : Z) : M error :=
  r <- readyLoop maxRetries retryDelay (Z.to_nat maxRetries) 0 ;;
  match r with
  | Some err => ret err
  | None =>
      ret (Some ("SQL Server failed to become ready after " +:+ itoa maxRetries +:+ " attempts"))
  end.

(** [waitForReady] *)
Definition waitForReady : M error := waitForReadyWith 30 (2 * 1000).

End Impl.

Definition set_base (c : Container) (s : SQLServerContainer) : SQLServerContainer :=
  {| base := c; password := password s; connectionString := connectionString s |}.

Definition set_connectionString (cs : string) (s : SQLServerContainer)
  : SQLServerContainer :=
  {| base := base s; password := password s; connectionString := cs |}.

(** [NewSQLServer], over the [New] of the package, which can fail where it
    opens a client. *)
Definition NewSQLServer (New : Config -> result Container)
    (name password : string) (reuse : bool) : result SQLServerContainer :=
  let config :=
    {| Image := "mcr.microsoft.com/azure-sql-edge:latest";
       Name := name;
       Ports := {[ "1433" := "0" ]};
       Env := ["ACCEPT_EULA=Y"; "SA_PASSWORD=" +:+ password; "MSSQL_PID=Developer"];
       Mounts := [];
       Wait := {| Port := ""; LogMatch := ""; Timeout := "" |};
       Reuse := reuse |} in
  match New config with
  | Err e => Err e
  | Ok container =>
      Ok {| base := container; password := password; connectionString := "" |}
  end.

(** The connection string [Start] builds. *)
Definition dsn (hostPort pw : string) : string :=
  "server=localhost;port=" +:+ hostPort
  +:+ ";database=master;user id=sa;password=" +:+ pw +:+ ";encrypt=disable".

Section Lifecycle.
Context {W : Type} (rt : Runtime W) (db : Database W).

(** [Start] and [GetPort] of the embedded [*Container]. *)
Context (Container_Start : M Container W error).
Context (Container_GetPort : string -> M Container W (result string)).

Abbreviation M := (M SQLServerContainer W).

(** [Start] *)
Definition Start : M error :=
  err <- embed base set_base Container_Start ;;
  match err with
  | Some e => ret (Some e)
  | None =>
      r <- embed base set_base (Container_GetPort "1433") ;;
      match r with
      | Err e => ret (Some ("failed to get SQL Server port: " +:+ e))
      | Ok hostPort =>
          s <- get ;;
          modify (set_connectionString (dsn hostPort (password s))) ;;;
          waitForReady rt db
      end
  end.

(** [GetConnectionString] *)
Definition GetConnectionString : M string :=
  s <- get ;; ret (connectionString s).

(** [HealthCheck] *)
Definition HealthCheck : M error :=
  s <- get ;;
  if String.eqb (connectionString s) "" then
    ret (Some "connection string not set - container may not be started")
  else
  err <- call (sql_Open db "sqlserver" (connectionString s)) (EvSqlOpen (connectionString s)) ;;
  match err with
  | Some e => ret (Some ("health check failed - cannot open database: " +:+ e))
  | None =>
      out <- (err <- call (db_Ping db) EvSqlPing ;;
              match err with
              | Some e => ret (Some ("health check failed - ping failed: " +:+ e))
              | None =>
                  r <- call (db_QueryRow_Scan db "SELECT 1") (EvSqlQuery "SELECT 1") ;;
                  match r with
                  | Err e => ret (Some ("health check failed - query failed: " +:+ e))
                  | Ok result =>
                      if negb (result =? 1)%Z then
                        ret (Some ("health check failed - unexpected query result: "
                                   +:+ itoa result))
                      else ret None
                  end
              end) ;;
      (fun s w => mkOut tt s (db_Close db w) [EvSqlClose]) ;;;
      ret out
  end.

End Lifecycle.
End SQLServer.

(** ** The readiness probe of the ActiveMQ container (activemq.go) *)

Module ActiveMQ.

Record ActiveMQContainer := {
  base : Container;
  username : string;
  password : string;
  brokerURL : string;
  webConsoleURL : string
}.

Definition set_base (c : Container) (a : ActiveMQContainer) : ActiveMQContainer :=
  {| base := c; username := username a; password := password a;
     brokerURL := brokerURL a; webConsoleURL := webConsoleURL a |}.

Section Impl.
Context {W : Type} (rt : Runtime W) (net : Network W).

(** [PrintLogsOnFailure] of the embedded [*Container]. *)
Context (Container_PrintLogsOnFailure : string -> M Container W unit).

Abbreviation M := (M ActiveMQContainer W).

Definition Infof (msg : string) : M unit := embed base set_base (Infof msg).
Definition Errorf (msg : string) : M unit := embed base set_base (Errorf msg).
Definition PrintLogsOnFailure (reason : string) : M unit :=
  embed base set_base (Container_PrintLogsOnFailure reason).

Definition StatusOK : Z := 200.
Definition StatusFound : Z := 302.
Definition StatusUnauthorized : Z := 401.

(** [testConnection] *)
Definition testConnection : M bool :=
  tell (EvCall "testConnection") ;;;
  a <- get ;;
  if String.eqb (webConsoleURL a) "" then
    Errorf "Web console URL not set - container may not be properly started" ;;;
    ret false
  else
  Infof ("Testing web console health: " +:+ webConsoleURL a) ;;;
  match http_NewRequest net "GET" (webConsoleURL a +:+ "/") with
  | Some e =>
      Infof ("Failed to create web console request: " +:+ e) ;;;
      ret false
  | None =>
      resp <- call (client_Do net (3 * 1000) (webConsoleURL a +:+ "/"))
                   (EvHTTPGet (webConsoleURL a +:+ "/") (3 * 1000)) ;;
      match resp with
      | Err e =>
          Infof ("Web console request failed: " +:+ e) ;;;
          ret false
      | Ok StatusCode =>
          Infof ("Web console response status: " +:+ itoa StatusCode) ;;;
          let success := (StatusCode =? StatusUnauthorized)%Z
                         || (StatusCode =? StatusOK)%Z
                         || (StatusCode =? StatusFound)%Z in
          (if success then
             Infof "Web console health check successful - service is running"
           else
             Infof ("Web console health check failed with unexpected status "
                    +:+ itoa StatusCode)) ;;;
          (fun s w => mkOut tt s (body_Close net w) [EvBodyClose]) ;;;
          ret success
      end
  end.

(** The [for] loop of [waitForReady] with [n] rounds left, [i] being the loop
    variable; [None] means the loop ran to its end. *)
Fixpoint readyLoop (maxRetries retryDelay : Z) (n : nat) (i : Z) : M (option error) :=
  match n with
  | O => ret None
  | S n' =>
      done <- ctxDone rt ;;
      match done with
      | Some e =>
          Infof "Context cancelled during readiness check" ;;;
          ret (Some (Some e))
      | None =>
          Infof ("Readiness check attempt " +:+ itoa (i + 1) +:+ "/" +:+ itoa maxRetries) ;;;
          ok <- testConnection ;;
          if ok : bool then
            Infof ("Readiness check passed after " +:+ itoa (i + 1) +:+ " attempts") ;;;
            ret (Some None)
          else
          (if (0 <? i)%Z && (Z.rem (i + 1) 10 =? 0)%Z then
             Infof ("Printing container logs for debugging after " +:+ itoa (i + 1)
                    +:+ " failed attempts") ;;;
             PrintLogsOnFailure ("ActiveMQ readiness check failing after " +:+ itoa (i + 1)
                                 +:+ " attempts")
           else ret tt) ;;;
          (if (i <? maxRetries - 1)%Z then
             Infof ("Readiness check failed, waiting " +:+ fmtDuration retryDelay
                    +:+ " before retry...") ;;;
             Sleep rt retryDelay
           else ret tt) ;;;
          readyLoop maxRetries retryDelay n' (i + 1)
      end
  end.

(** [waitForReady], its two local constants taken as parameters. *)
Definition waitForReadyWith (maxRetries retryDelay : Z) : M error :=
  Infof ("Starting readiness check (max " +:+ itoa maxRetries +:+ " attempts, "
         +:+ fmtDuration retryDelay +:+ " between attempts)") ;;;
  r <- readyLoop maxRetries retryDelay (Z.to_nat maxRetries) 0 ;;
  match r with
  | Some err => ret err
  | None =>
      Errorf ("Readiness check failed after " +:+ itoa maxRetries +:+ " attempts") ;;;
      PrintLogsOnFailure ("ActiveMQ readiness check failed after " +:+ itoa maxRetries
                          +:+ " attempts") ;;;
      ret (Some ("ActiveMQ failed to become ready after " +:+ itoa maxRetries +:+ " attempts"))
  end.

(** [waitForReady] *)
Definition waitForReady : M error := waitForReadyWith 60 (2 * 1000).

End Impl.

Definition set_urls (broker web : string) (a : ActiveMQContainer) : ActiveMQContainer :=
  {| base := base a; username := username a; password := password a;
     brokerURL := broker; webConsoleURL := web |}.

Section Lifecycle.
Context {W : Type} (rt : Runtime W) (net : Network W).

(** [PrintLogsOnFailure], [Start] and [GetPort] of the embedded [*Container]. *)
Context (Container_PrintLogsOnFailure : string -> M Container W unit).
Context (Container_Start : M Container W error).
Context (Container_GetPort : string -> M Container W (result string)).

(** The client of package [activemq]: [NewClient], which may give [nil],
    and the error of [ListQueues]. *)
Context {Client : Type}.
Context (NewClient : string -> string -> string -> string -> option Client).
Context (ListQueues : Client -> W -> error * W).

Abbreviation M := (M ActiveMQContainer W).

(** [GetPort], promoted from the embedded [*Container]. *)
Definition GetPort (port : string) : M (result string) :=
  embed base set_base (Container_GetPort port).

(** [GetBrokerURL] *)
Definition GetBrokerURL : M string := a <- get ;; ret (brokerURL a).

(** [GetTCPBrokerURL] *)
Definition GetTCPBrokerURL : M string := a <- get ;; ret (brokerURL a).

(** [GetWebConsoleURL] *)
Definition GetWebConsoleURL : M string := a <- get ;; ret (webConsoleURL a).

(** [GetJMXPort] *)
Definition GetJMXPort : M (result string) := GetPort "1099".

(** [GetCredentials] *)
Definition GetCredentials : M (string * string) :=
  a <- get ;; ret (username a, password a).

(** [CreateClient] *)
Definition CreateClient : M (option Client) :=
  a <- get ;;
  ret (NewClient (webConsoleURL a) (username a) (password a) "localhost").

(** [HealthCheck] *)
Definition HealthCheck : M error :=
  a <- get ;;
  if String.eqb (webConsoleURL a) "" then
    ret (Some "web console URL not set - container may not be started")
  else
  match http_NewRequest net "GET" (webConsoleURL a +:+ "/") with
  | Some e => ret (Some ("health check failed - cannot create request: " +:+ e))
  | None =>
      resp <- call (client_Do net (5 * 1000) (webConsoleURL a +:+ "/"))
                   (EvHTTPGet (webConsoleURL a +:+ "/") (5 * 1000)) ;;
      match resp with
      | Err e => ret (Some ("health check failed - web console request failed: " +:+ e))
      | Ok StatusCode =>
          out <- (if negb (StatusCode =? StatusUnauthorized)%Z
                     && negb (StatusCode =? StatusOK)%Z
                     && negb (StatusCode =? StatusFound)%Z then
                    ret (Some ("health check failed - web console returned unexpected status "
                               +:+ itoa StatusCode))
                  else
                    activemqClient <- CreateClient ;;
                    match activemqClient with
                    | None => ret (Some "health check failed - cannot create ActiveMQ client")
                    | Some client =>
                        err <- call (ListQueues client) (fun _ => EvCall "ListQueues") ;;
                        match err with
                        | Some e =>
                            ret (Some ("health check failed - cannot list queues: " +:+ e))
                        | None => ret None
                        end
                    end) ;;
          (fun s w => mkOut tt s (body_Close net w) [EvBodyClose]) ;;;
          ret out
      end
  end.

(** [Start] *)
Definition Start : M error :=
  Infof "Starting container" ;;;
  err <- embed base set_base Container_Start ;;
  match err with
  | Some e =>
      PrintLogsOnFailure Container_PrintLogsOnFailure
        ("Failed to start ActiveMQ container: " +:+ e) ;;;
      ret (Some ("failed to start ActiveMQ container: " +:+ e))
  | None =>
      Infof "Container started, retrieving port mappings..." ;;;
      r1 <- GetPort "61616" ;;
      match r1 with
      | Err e =>
          Errorf ("Failed to get broker port mapping: " +:+ e) ;;;
          ret (Some ("failed to get ActiveMQ broker port: " +:+ e))
      | Ok brokerPort =>
          r2 <- GetPort "8161" ;;
          match r2 with
          | Err e =>
              Errorf ("Failed to get web console port mapping: " +:+ e) ;;;
              ret (Some ("failed to get ActiveMQ web console port: " +:+ e))
          | Ok webPort =>
              r3 <- GetPort "1099" ;;
              match r3 with
              | Err e =>
                  Errorf ("Failed to get JMX port mapping: " +:+ e) ;;;
                  ret (Some ("failed to get ActiveMQ JMX port: " +:+ e))
              | Ok jmxPort =>
                  modify (set_urls ("tcp://localhost:" +:+ brokerPort)
                                   ("http://localhost:" +:+ webPort)) ;;;
                  a <- get ;;
                  Infof ("Port mappings - Broker: " +:+ brokerPort
                         +:+ ", Web Console: " +:+ webPort +:+ ", JMX: " +:+ jmxPort) ;;;
                  Infof ("Service URLs - Broker: " +:+ brokerURL a
                         +:+ ", Web Console: " +:+ webConsoleURL a) ;;;
                  Infof "Waiting for ActiveMQ to become ready..." ;;;
                  err <- waitForReady rt net Container_PrintLogsOnFailure ;;
                  match err with
                  | Some e =>
                      PrintLogsOnFailure Container_PrintLogsOnFailure
                        ("ActiveMQ failed to become ready: " +:+ e) ;;;
                      ret (Some e)
                  | None =>
                      Infof "Running post-startup health check..." ;;;
                      err <- HealthCheck ;;
                      match err with
                      | Some e =>
                          PrintLogsOnFailure Container_PrintLogsOnFailure
                            ("ActiveMQ health check failed after startup: " +:+ e) ;;;
                          ret (Some ("ActiveMQ health check failed: " +:+ e))
                      | None =>
                          Infof "ActiveMQ container is ready and accepting connections" ;;;
                          ret None
                      end
                  end
              end
          end
      end
  end.

End Lifecycle.
End ActiveMQ.

(** ** Reading a trace *)

(** The state inspections of the API implementation and what they report. *)
Definition api_is_check (e : Event) : bool :=
  match e with EvContainerInspect _ _ => true | _ => false end.

Definition api_reports_running (e : Event) : bool :=
  match e with
  | EvContainerInspect _ (Ok inspect) => Running (State inspect)
  | _ => false
  end.

(** The state inspections of the CLI implementation and what they report. *)
Definition cli_is_check (e : Event) : bool :=
  match e with
  | EvExec ["docker"; "inspect"; "--format"; "{{json .State}}"; _] _ => true
  | _ => false
  end.

Definition cli_reports_running {W} (sh : Shell W) (e : Event) : bool :=
  match e with
  | EvExec _ p =>
      match PErr p, Unmarshal sh (PStdout p) with
      | None, Ok state => Running state
      | _, _ => false
      end
  | _ => false
  end.

(** The command line of [Stop]. *)
Definition stopArgv (id : string) : list string := ["docker"; "stop"; "-t"; "30"; id].

(** The command line of the forced removal of [Cleanup]. *)
Definition rmArgv (id : string) : list string := ["docker"; "rm"; "-f"; id].

Definition is_remove (e : Event) : bool :=
  match e with
  | EvContainerRemove _ _ _ => true
  | EvExec ("docker" :: "rm" :: _) _ => true
  | _ => false
  end.

(** The command line of the listing of [findAndReuseContainer]. *)
Definition psArgv (name : string) : list string :=
  ["docker"; "ps"; "-a"; "--filter"; "name=^" +:+ name +:+ "$";
   "--format"; "{{.ID}}" +:+ String tab "{{.Status}}"].

(** The command line of the start call. *)
Definition startArgv (id : string) : list string := ["docker"; "start"; id].

(** The command line of [IsRunning]. *)
Definition runningArgv (id : string) : list string :=
  ["docker"; "inspect"; "--format"; "{{.State.Running}}"; id].

(** The command line of [GetPort]. *)
Definition portArgv (port id : string) : list string :=
  ["docker"; "inspect"; "--format";
   "{{(index (index .NetworkSettings.Ports " +:+ CLI.dq +:+ port +:+ "/tcp"
   +:+ CLI.dq +:+ ") 0).HostPort}}"; id].

(** The trace cut at the first check that does not report the container
    running: what came before it and what came after it. *)
Fixpoint first_failure (is_check reports : Event -> bool) (tr : list Event)
  : option (list Event * list Event) :=
  match tr with
  | [] => None
  | e :: t =>
      if is_check e && negb (reports e) then Some ([], t)
      else match first_failure is_check reports t with
           | Some (pre, post) => Some (e :: pre, post)
           | None => None
           end
  end.

(** What the stability check promises about one run [o]. *)
Definition stability_contract {W} (is_check reports : Event -> bool)
    (o : Out Container W error) : Prop :=
  let checks := List.filter is_check (evs o) in
  (res o = None <-> List.length checks = 6%nat /\ forallb reports checks = true)
  /\ (res o = None -> count is_sleep (evs o) = 6%nat)
  /\ List.Forall (fun e => is_sleep e = true -> e = EvSleep 500) (evs o)
  /\ (forall pre post,
        first_failure is_check reports (evs o) = Some (pre, post) ->
        res o <> None
        /\ count is_sleep post = 0%nat
        /\ count is_ctx_check post = 0%nat
        /\ count is_sleep pre = count is_check pre
        /\ (count is_check pre < 6)%nat)
  /\ (forall e rest,
        checks = e :: rest -> reports e = false ->
        res o <> None /\ count is_sleep (evs o) = 0%nat).

(** The sleeps of a trace, counted between the invocations of the readiness
    predicate: before the first, between consecutive ones, after the last. *)
Fixpoint sleep_profile (tr : list Event) : list nat :=
  match tr with
  | [] => [0%nat]
  | e :: t =>
      if is_test e then 0%nat :: sleep_profile t
      else match sleep_profile t with
           | k :: ks => (if is_sleep e then Datatypes.S k else k) :: ks
           | [] => []
           end
  end.

(** The profile of a probe that ran out of its [N] attempts: no sleep before
    the first invocation, one between consecutive invocations, none after the
    last one. *)
Definition exhausted_profile (N : Z) : list nat :=
  match Z.to_nat N with
  | O => [0%nat]
  | Datatypes.S m => 0%nat :: repeat 1%nat m ++ [0%nat]
  end.

(** What a probe with budget [N] and delay [delay] promises about a run
    whose predicate never held. *)
Definition exhausted (N delay : Z) (tr : list Event) : Prop :=
  count is_test tr = Z.to_nat N
  /\ count is_sleep tr = (Z.to_nat N - 1)%nat
  /\ sleep_profile tr = exhausted_profile N
  /\ List.Forall (fun e => is_sleep e = true -> e = EvSleep delay) tr.

(** What a probe with budget [N] and delay [delay] promises about any run,
    [r] being what the run returned: never more than [N] invocations of the
    predicate; every sleep lasts [delay]; a run that succeeded slept once
    less than it invoked the predicate; a run that failed slept after every
    invocation (it was cancelled) or used all [N] invocations with [N - 1]
    sleeps (it ran out). *)
Definition attempts_contract (N delay : Z) (r : error) (tr : list Event) : Prop :=
  (count is_test tr <= Z.to_nat N)%nat
  /\ List.Forall (fun e => is_sleep e = true -> e = EvSleep delay) tr
  /\ (r = None ->
      (1 <= count is_test tr)%nat
      /\ count is_sleep tr = (count is_test tr - 1)%nat)
  /\ (r <> None ->
      count is_sleep tr = count is_test tr
      \/ (count is_test tr = Z.to_nat N
          /\ count is_sleep tr = (Z.to_nat N - 1)%nat)).

(** The same counts for a run of the loop of a probe with [n] rounds left,
    [r] being what the loop returned: [Some None] when the predicate held,
    [Some (Some e)] when the context was done, [None] when it ran to its
    end. *)
Definition loop_counts (d : Z) (n : nat) (r : option error) (tr : list Event) : Prop :=
  (count is_test tr <= n)%nat
  /\ List.Forall (fun e => is_sleep e = true -> e = EvSleep d) tr
  /\ match r with
     | Some None => (1 <= count is_test tr)%nat
                    /\ (count is_sleep tr + 1 = count is_test tr)%nat
     | Some (Some _) => count is_sleep tr = count is_test tr
                        /\ (count is_test tr < n)%nat
     | None => count is_test tr = n /\ count is_sleep tr = (n - 1)%nat
     end.

(** Two runs that cannot be told apart from outside the handle: same
    result, same world afterwards, same interactions. *)
Definition same_run {S W A} (o o' : Out S W A) : Prop :=
  res o = res o' /\ wld o = wld o' /\ evs o = evs o'.

(** Interactions that neither sleep, nor look at the context, nor invoke the
    readiness predicate. *)
Definition is_quiet (e : Event) : bool :=
  negb (is_sleep e) && negb (is_ctx_check e) && negb (is_test e).

(** The interactions diagnostics may make: logging, inspecting, reading logs. *)
Definition is_diag (e : Event) : bool :=
  match e with
  | EvGinkgo _ | EvContainerInspect _ _ | EvContainerLogs _ _ _
  | EvRead _ _ _ _ | EvClose _ => true
  | EvExec ("docker" :: "inspect" :: _) _ | EvExec ("docker" :: "logs" :: _) _ => true
  | _ => false
  end.

(** The shapes a run of the loop of the stability check can take with [n]
    rounds left, as a relation between what the loop returns ([None] when it
    ran to its end) and its trace: no round left; the context found done; a
    check that does not report the container running, followed by
    diagnostics at most; a check that does, a sleep, and the rest. *)
Inductive stable_run (is_check reports : Event -> bool)
  : nat -> option error -> list Event -> Prop :=
| sr_end : stable_run is_check reports 0 None []
| sr_cancelled n e :
    stable_run is_check reports (Datatypes.S n) (Some (Some e)) [EvCtxDone (Some e)]
| sr_failed n ev msg diag :
    is_check ev = true -> reports ev = false ->
    List.Forall (fun e => is_diag e = true) diag ->
    stable_run is_check reports (Datatypes.S n) (Some (Some msg))
               (EvCtxDone None :: ev :: diag)
| sr_running n ev r tr :
    is_check ev = true -> reports ev = true ->
    stable_run is_check reports n r tr ->
    stable_run is_check reports (Datatypes.S n) r
               (EvCtxDone None :: ev :: EvSleep 500 :: tr).

(** ** The rounds of a polling loop, read off the world

    A polling loop starts each of its rounds in some world.  For the round
    with loop variable [i] that starts in [w], [goes_on i w] tells whether
    the loop goes on to the next round, and [tick i w] is the world in which
    that next round starts.  [world_at tick i k w] is then the world in
    which the round [k] rounds later starts, and [rounds_go_on] tells
    whether the [k] rounds from there on all go on. *)
Fixpoint world_at {W} (tick : Z -> W -> W) (i : Z) (k : nat) (w : W) : W :=
  match k with
  | O => w
  | Datatypes.S k' => world_at tick (i + 1) k' (tick i w)
  end.

Fixpoint rounds_go_on {W} (goes_on : Z -> W -> bool) (tick : Z -> W -> W)
    (i : Z) (k : nat) (w : W) : bool :=
  match k with
  | O => true
  | Datatypes.S k' => goes_on i w && rounds_go_on goes_on tick (i + 1) k' (tick i w)
  end.

(** The context is not done in [w]. *)
Definition not_cancelled {W} (rt : Runtime W) (w : W) : bool :=
  match ctx_err rt w with None => true | Some _ => false end.

(** The stability check on the API client: what the engine answers in [w] to
    the inspection of [id], whether that answer reports the container
    running, and the world after the inspection and the sleep of the round. *)
Definition api_check {W} (cl : Client W) (id : string) (w : W) : Event :=
  EvContainerInspect id (fst (ContainerInspect cl id w)).

Definition api_running {W} (cl : Client W) (id : string) (w : W) : bool :=
  api_reports_running (api_check cl id w).

Definition api_goes_on {W} (rt : Runtime W) (cl : Client W) (id : string)
    (i : Z) (w : W) : bool :=
  not_cancelled rt w && api_running cl id w.

Definition api_tick {W} (rt : Runtime W) (cl : Client W) (id : string)
    (i : Z) (w : W) : W :=
  time_Sleep rt API.checkInterval (snd (ContainerInspect cl id w)).

(** The same for the stability check on the [docker] binary. *)
Definition cli_check {W} (sh : Shell W) (id : string) (w : W) : Event :=
  EvExec (CLI.inspectStateArgv id) (fst (Run sh (CLI.inspectStateArgv id) w)).

Definition cli_running {W} (sh : Shell W) (id : string) (w : W) : bool :=
  cli_reports_running sh (cli_check sh id w).

Definition cli_goes_on {W} (rt : Runtime W) (sh : Shell W) (id : string)
    (i : Z) (w : W) : bool :=
  not_cancelled rt w && cli_running sh id w.

Definition cli_tick {W} (rt : Runtime W) (sh : Shell W) (id : string)
    (i : Z) (w : W) : W :=
  time_Sleep rt CLI.checkInterval (snd (Run sh (CLI.inspectStateArgv id) w)).

(** The readiness probe of the SQL Server container: a round goes on when
    the context is not done and the predicate does not hold; the next round
    starts after the predicate and, but after the last attempt, the sleep. *)
Definition sql_goes_on {W} (rt : Runtime W) (db : Database W)
    (s : SQLServer.SQLServerContainer) (i : Z) (w : W) : bool :=
  not_cancelled rt w && negb (res (SQLServer.testConnection db s w)).

Definition sql_tick {W} (rt : Runtime W) (db : Database W) (maxRetries retryDelay : Z)
    (s : SQLServer.SQLServerContainer) (i : Z) (w : W) : W :=
  let w1 := wld (SQLServer.testConnection db s w) in
  if (i <? maxRetries - 1)%Z then time_Sleep rt retryDelay w1 else w1.

(** The readiness probe of the ActiveMQ container: every tenth failed
    attempt prints the logs of the container before the sleep. *)
Definition amq_goes_on {W} (rt : Runtime W) (net : Network W)
    (a : ActiveMQ.ActiveMQContainer) (i : Z) (w : W) : bool :=
  not_cancelled rt w && negb (res (ActiveMQ.testConnection net a w)).

Definition amq_tick {W} (rt : Runtime W) (net : Network W)
    (Container_PrintLogsOnFailure : string -> M Container W unit)
    (maxRetries retryDelay : Z) (a : ActiveMQ.ActiveMQContainer) (i : Z) (w : W) : W :=
  let w0 := wld (ActiveMQ.testConnection net a w) in
  let w1 := if (0 <? i)%Z && (Z.rem (i + 1) 10 =? 0)%Z
            then wld (Container_PrintLogsOnFailure
                        ("ActiveMQ readiness check failing after " +:+ itoa (i + 1)
                         +:+ " attempts") (ActiveMQ.base a) w0)
            else w0 in
  if (i <? maxRetries - 1)%Z then time_Sleep rt retryDelay w1 else w1.

(** The command line of the log fetch of [Logs] without [--follow]. *)
Definition logsArgv (id : string) : list string :=
  ["docker"; "logs"; "--timestamps"; id].

(** Lines of log. *)
Definition is_log (e : Event) : bool :=
  match e with EvGinkgo _ => true | _ => false end.

(** ** A scripted world

    A small concrete world on which the definitions run: every operation of
    the engine answers from a script.  It is the input of the concrete runs
    below. *)

Module Toy.

Record World := {
  clock : Z;
  deadline : option Z;
  stop_answer : error;
  remove_answer : error;
  start_answer : error;
  create_answer : result string;
  inspect_script : list (result ContainerJSON);
  listing : result (list Summary);
  ps_stdout : string;
  port_stdout : string;
  logs_answer : result string;
  db_up : bool;
  http_status : result Z
}.

Definition tick (ms : Z) (w : World) : World :=
  {| clock := clock w + ms; deadline := deadline w;
     stop_answer := stop_answer w; remove_answer := remove_answer w;
     start_answer := start_answer w; create_answer := create_answer w;
     inspect_script := inspect_script w; listing := listing w;
     ps_stdout := ps_stdout w; port_stdout := port_stdout w;
     logs_answer := logs_answer w; db_up := db_up w; http_status := http_status w |}.

Definition with_inspects (l : list (result ContainerJSON)) (w : World) : World :=
  {| clock := clock w; deadline := deadline w;
     stop_answer := stop_answer w; remove_answer := remove_answer w;
     start_answer := start_answer w; create_answer := create_answer w;
     inspect_script := l; listing := listing w;
     ps_stdout := ps_stdout w; port_stdout := port_stdout w;
     logs_answer := logs_answer w; db_up := db_up w; http_status := http_status w |}.

(** The context is done once the clock has reached the deadline. *)
Definition runtime : Runtime World :=
  {| ctx_err := fun w =>
       match deadline w with
       | Some d => if (d <=? clock w)%Z then Some "context deadline exceeded" else None
       | None => None
       end;
     time_Sleep := tick |}.

(** The next scripted answer to an inspection; the last one repeats. *)
Definition next_inspect (w : World) : result ContainerJSON * World :=
  match inspect_script w with
  | [] => (Err "No such container", w)
  | [a] => (a, w)
  | a :: rest => (a, with_inspects rest w)
  end.

Definition client : Client World :=
  {| ContainerStop := fun _ _ w => (stop_answer w, w);
     ContainerInspect := fun _ w => next_inspect w;
     ContainerList := fun _ w => (listing w, w);
     ContainerStart := fun _ w => (start_answer w, w);
     ContainerCreate := fun _ w => (create_answer w, w);
     ContainerRemove := fun _ _ w => (remove_answer w, w);
     ContainerLogs := fun _ _ w =>
       (match logs_answer w with Ok _ => Ok 3%Z | Err e => Err e end, w);
     ReaderRead := fun _ _ w =>
       (match logs_answer w with Ok s => (s, io_EOF) | Err e => (EmptyString, io_err e) end, w);
     ReaderClose := fun _ w => w;
     ImageInspectWithRaw := fun _ w => (None, w);
     ImagePull := fun _ w => (None, w) |}.

Definition proc (e : error) (out : string) : Process :=
  {| PErr := e; PStdout := out; POut := out |}.

Definition stateJSON (running : bool) : string :=
  if running then "{running}" else "{exited}".

Definition state (running : bool) : ContainerState :=
  {| Running := running; Status := if running then "running" else "exited";
     ExitCode := if running then 0 else 1; Error := "";
     StartedAt := "2024-01-01T00:00:00Z"; FinishedAt := "0001-01-01T00:00:00Z" |}.

Definition shell : Shell World :=
  {| Run := fun argv w =>
       match argv with
       | "docker" :: "stop" :: _ => (proc (stop_answer w) "", w)
       | "docker" :: "rm" :: _ => (proc (remove_answer w) "", w)
       | "docker" :: "start" :: _ => (proc (start_answer w) "", w)
       | "docker" :: "create" :: _ =>
           (match create_answer w with
            | Ok id => proc None (id +:+ nl)
            | Err e => proc (Some e) ""
            end, w)
       | "docker" :: "ps" :: _ => (proc None (ps_stdout w), w)
       | "docker" :: "logs" :: _ =>
           (match logs_answer w with
            | Ok s => proc None s
            | Err e => proc (Some e) ""
            end, w)
       | ["docker"; "inspect"; "--format"; format; _] =>
           let r := next_inspect w in
           (match fst r with
            | Err e => proc (Some e) ""
            | Ok j =>
                if String.eqb format "{{json .State}}"
                then proc None (stateJSON (Running (State j)))
                else if String.eqb format "{{.State.Running}}"
                then proc None ((if Running (State j) then "true" else "false") +:+ nl)
                else proc None (port_stdout w)
            end, snd r)
       | _ => (proc None "", w)
       end;
     Unmarshal := fun s =>
       if String.eqb s "{running}" then Ok (state true)
       else if String.eqb s "{exited}" then Ok (state false)
       else Err "invalid character" |}.

Definition database : Database World :=
  {| sql_Open := fun _ _ w => (None, w);
     db_Ping := fun w => (if db_up w then None else Some "connection refused", w);
     db_QueryRow_Scan := fun _ w => (Ok 1%Z, w);
     db_Close := fun w => w |}.

Definition network : Network World :=
  {| http_NewRequest := fun _ _ => None;
     client_Do := fun _ _ w => (http_status w, w);
     body_Close := fun w => w |}.

(** [context.Background()]: never done. *)
Definition background : Runtime World :=
  {| ctx_err := fun _ => None; time_Sleep := tick |}.

(** A context that is already done. *)
Definition cancelled : Runtime World :=
  {| ctx_err := fun _ => Some "context canceled"; time_Sleep := tick |}.

(** A server that refuses every connection. *)
Definition database_down : Database World :=
  {| sql_Open := fun _ _ w => (None, w);
     db_Ping := fun w => (Some "connection refused", w);
     db_QueryRow_Scan := fun _ w => (Err "connection refused", w);
     db_Close := fun w => w |}.

(** A console that answers 503 to every request. *)
Definition network_down : Network World :=
  {| http_NewRequest := fun _ _ => None;
     client_Do := fun _ _ w => (Ok 503%Z, w);
     body_Close := fun w => w |}.

Definition inspectJSON (running : bool) (ports : list (string * list PortBinding))
  : ContainerJSON :=
  {| State := state running; NetworkPorts := list_to_map ports |}.

(** A daemon with one container, [abc] named [web], up, port 80 published on
    32768; every call succeeds and the context is never done. *)
Definition w0 : World :=
  {| clock := 0; deadline := None;
     stop_answer := None; remove_answer := None; start_answer := None;
     create_answer := Ok "def";
     inspect_script :=
       [Ok (inspectJSON true [("80/tcp", [ {| HostIP := "0.0.0.0"; HostPort := "32768" |} ])])];
     listing := Ok [ {| ID := "abc"; Names := ["/web"]; SummaryStatus := "Up 2 hours" |} ];
     ps_stdout := "abc" +:+ String tab "Up 2 hours" +:+ nl;
     port_stdout := "32768" +:+ nl;
     logs_answer := Ok "started";
     db_up := false;
     http_status := Ok 503 |}.

Definition cfg (reuse : bool) : Config :=
  {| Image := "nginx:latest"; Name := "web";
     Ports := {[ "80" := "0" ]}; Env := []; Mounts := [];
     Wait := {| Port := ""; LogMatch := ""; Timeout := "" |};
     Reuse := reuse |}.

(** The same daemon refusing every stop. *)
Definition w_stop_fails : World :=
  {| clock := 0; deadline := None;
     stop_answer := Some "cannot stop container"; remove_answer := None;
     start_answer := None; create_answer := create_answer w0;
     inspect_script := inspect_script w0; listing := listing w0;
     ps_stdout := ps_stdout w0; port_stdout := port_stdout w0;
     logs_answer := logs_answer w0; db_up := false; http_status := http_status w0 |}.

(** The same daemon with the container exited. *)
Definition w_exited : World :=
  with_inspects [Ok (inspectJSON false [])] w0.

(** The same daemon with the container listed as exited. *)
Definition w_listed_exited : World :=
  {| clock := 0; deadline := None;
     stop_answer := None; remove_answer := None;
     start_answer := None; create_answer := create_answer w0;
     inspect_script := inspect_script w0;
     listing := Ok [ {| ID := "abc"; Names := ["/web"];
                        SummaryStatus := "Exited (0) 5 minutes ago" |} ];
     ps_stdout := "abc" +:+ String tab "Exited (0) 5 minutes ago" +:+ nl;
     port_stdout := port_stdout w0;
     logs_answer := logs_answer w0; db_up := false; http_status := http_status w0 |}.

(** A handle on container [abc]. *)
Definition handle (reuse running : bool) : Container :=
  {| config := cfg reuse; containerID := "abc"; isRunning := running |}.

Definition sqlserver : SQLServer.SQLServerContainer :=
  {| SQLServer.base := handle false true; SQLServer.password := "secret";
     SQLServer.connectionString := "server=localhost;port=32768" |}.

Definition activemq : ActiveMQ.ActiveMQContainer :=
  {| ActiveMQ.base := handle false true;
     ActiveMQ.username := "admin"; ActiveMQ.password := "admin";
     ActiveMQ.brokerURL := "tcp://localhost:32769";
     ActiveMQ.webConsoleURL := "http://localhost:32768" |}.

(** The same daemon with no container listed. *)
Definition w_none_listed : World :=
  {| clock := 0; deadline := None;
     stop_answer := None; remove_answer := None;
     start_answer := None; create_answer := create_answer w0;
     inspect_script := inspect_script w0;
     listing := Ok [];
     ps_stdout := "";
     port_stdout := port_stdout w0;
     logs_answer := logs_answer w0; db_up := false; http_status := http_status w0 |}.

(** The same daemon refusing every create. *)
Definition w_create_fails : World :=
  {| clock := 0; deadline := None;
     stop_answer := None; remove_answer := None;
     start_answer := None; create_answer := Err "Conflict";
     inspect_script := inspect_script w0; listing := listing w0;
     ps_stdout := ps_stdout w0; port_stdout := port_stdout w0;
     logs_answer := logs_answer w0; db_up := false; http_status := http_status w0 |}.

(** The same daemon refusing every start. *)
Definition w_start_fails : World :=
  {| clock := 0; deadline := None;
     stop_answer := None; remove_answer := None;
     start_answer := Some "port is already allocated"; create_answer := create_answer w0;
     inspect_script := inspect_script w0; listing := listing w0;
     ps_stdout := ps_stdout w0; port_stdout := port_stdout w0;
     logs_answer := logs_answer w0; db_up := false; http_status := http_status w0 |}.

(** The same daemon with the server up and the console answering 401. *)
Definition w_ready : World :=
  {| clock := 0; deadline := None;
     stop_answer := None; remove_answer := None;
     start_answer := None; create_answer := create_answer w0;
     inspect_script := inspect_script w0; listing := listing w0;
     ps_stdout := ps_stdout w0; port_stdout := port_stdout w0;
     logs_answer := logs_answer w0; db_up := true; http_status := Ok 401 |}.

(** A client of a daemon that lacks every image and cannot pull. *)
Definition client_no_image : Client World :=
  {| ContainerStop := ContainerStop client;
     ContainerInspect := ContainerInspect client;
     ContainerList := ContainerList client;
     ContainerStart := ContainerStart client;
     ContainerCreate := ContainerCreate client;
     ContainerRemove := ContainerRemove client;
     ContainerLogs := ContainerLogs client;
     ReaderRead := ReaderRead client;
     ReaderClose := ReaderClose client;
     ImageInspectWithRaw := fun _ w => (Some "No such image", w);
     ImagePull := fun _ w => (Some "pull access denied", w) |}.

(** The [docker] binary of the same daemon. *)
Definition shell_no_image : Shell World :=
  {| Run := fun argv w =>
       match argv with
       | "docker" :: "image" :: _ => (proc (Some "No such image") "", w)
       | "docker" :: "pull" :: _ => (proc (Some "pull access denied") "", w)
       | _ => Run shell argv w
       end;
     Unmarshal := Unmarshal shell |}.

(** A handle that was never started. *)
Definition fresh (reuse : bool) : Container := New (cfg reuse).


(** The same daemon with the ports of both services published, the server
    up and the console answering 401. *)
Definition w_services : World :=
  {| clock := 0; deadline := None;
     stop_answer := None; remove_answer := None;
     start_answer := None; create_answer := create_answer w0;
     inspect_script :=
       [Ok (inspectJSON true
              [("1433/tcp", [ {| HostIP := "0.0.0.0"; HostPort := "32770" |} ]);
               ("61616/tcp", [ {| HostIP := "0.0.0.0"; HostPort := "32771" |} ]);
               ("8161/tcp", [ {| HostIP := "0.0.0.0"; HostPort := "32772" |} ]);
               ("1099/tcp", [ {| HostIP := "0.0.0.0"; HostPort := "32773" |} ])])];
     listing := listing w0;
     ps_stdout := ps_stdout w0; port_stdout := port_stdout w0;
     logs_answer := logs_answer w0; db_up := true; http_status := Ok 401 |}.

(** A broker handle that was never started. *)
Definition activemq_fresh : ActiveMQ.ActiveMQContainer :=
  {| ActiveMQ.base := fresh false;
     ActiveMQ.username := "admin"; ActiveMQ.password := "admin";
     ActiveMQ.brokerURL := ""; ActiveMQ.webConsoleURL := "" |}.

(** An engine on which every command prints [hello] and exits with 2. *)
Definition exec_client : ExecClient World :=
  {| ContainerExecCreate := fun _ _ w => (Ok "exec1", w);
     ContainerExecAttach := fun _ w => (Ok 7%Z, w);
     io_ReadAll := fun _ w => (("hello", None), w);
     resp_Close := fun _ w => w;
     ContainerExecInspect := fun _ w => (Ok 2%Z, w) |}.

(** A client of the broker that lists no queue and never fails. *)
Definition NewClient (url user pass host : string) : option unit := Some tt.
Definition ListQueues (_ : unit) (w : World) : error * World := (None, w).

Definition with_stop (a : error) (w : World) : World :=
  {| clock := clock w; deadline := deadline w;
     stop_answer := a; remove_answer := remove_answer w;
     start_answer := start_answer w; create_answer := create_answer w;
     inspect_script := inspect_script w; listing := listing w;
     ps_stdout := ps_stdout w; port_stdout := port_stdout w;
     logs_answer := logs_answer w; db_up := db_up w; http_status := http_status w |}.

(** An engine that removes a container as soon as it has stopped it (the
    container was created with auto-remove, or a reaper prunes stopped
    containers): it answers the stop call from the script and knows the
    container no more afterwards. *)
Definition client_removing : Client World :=
  {| ContainerStop := fun id _ w =>
       (stop_answer w, with_stop (Some ("No such container: " +:+ id)) w);
     ContainerInspect := ContainerInspect client;
     ContainerList := ContainerList client;
     ContainerStart := ContainerStart client;
     ContainerCreate := ContainerCreate client;
     ContainerRemove := ContainerRemove client;
     ContainerLogs := ContainerLogs client;
     ReaderRead := ReaderRead client;
     ReaderClose := ReaderClose client;
     ImageInspectWithRaw := ImageInspectWithRaw client;
     ImagePull := ImagePull client |}.

(** The [docker] binary of the same engine. *)
Definition shell_removing : Shell World :=
  {| Run := fun argv w =>
       match argv with
       | ["docker"; "stop"; "-t"; "30"; id] =>
           (proc (stop_answer w) "", with_stop (Some ("No such container: " +:+ id)) w)
       | _ => Run shell argv w
       end;
     Unmarshal := Unmarshal shell |}.

(** A [docker] binary whose state inspection succeeds and prints a warning
    in front of the state, which then does not decode. *)
Definition shell_garbled : Shell World :=
  {| Run := fun argv w =>
       match argv with
       | ["docker"; "inspect"; "--format"; "{{json .State}}"; _] =>
           (proc None "WARNING: Error loading config file {running}", w)
       | _ => Run shell argv w
       end;
     Unmarshal := Unmarshal shell |}.

(** A deadline on the clock of the world. *)
Definition with_deadline (d : Z) (w : World) : World :=
  {| clock := clock w; deadline := Some d;
     stop_answer := stop_answer w; remove_answer := remove_answer w;
     start_answer := start_answer w; create_answer := create_answer w;
     inspect_script := inspect_script w; listing := listing w;
     ps_stdout := ps_stdout w; port_stdout := port_stdout w;
     logs_answer := logs_answer w; db_up := db_up w; http_status := http_status w |}.

End Toy.

(** * Properties *)

(** ** The helpers on concrete inputs *)

Example TrimSpace_true : TrimSpace (" true" +:+ nl) = "true".
Proof. reflexivity. Qed.

Example TrimSpace_blank : TrimSpace ("  " +:+ nl) = "".
Proof. reflexivity. Qed.

Example Split_ps :
  Split ("abc" +:+ String tab "Up 2 hours") tab = ["abc"; "Up 2 hours"].
Proof. reflexivity. Qed.

Example Split_no_separator : Split "abc" tab = ["abc"].
Proof. reflexivity. Qed.

Example TrimPrefix_slash : TrimPrefix "/web" "/" = "web".
Proof. reflexivity. Qed.

Example TrimPrefix_none : TrimPrefix "web" "/" = "web".
Proof. reflexivity. Qed.

Example Contains_up : Contains "Up 2 hours" "Up" = true.
Proof. reflexivity. Qed.

Example Contains_exited : Contains "Exited (0) 5 minutes ago" "Up" = false.
Proof. reflexivity. Qed.

Example itoa_30 : itoa 30 = "30".
Proof. reflexivity. Qed.

Example fmtDuration_3s : fmtDuration 3000 = "3s".
Proof. reflexivity. Qed.

Example lookupByName_web :
  API.lookupByName "web"
    [ {| ID := "x1"; Names := ["/webx"]; SummaryStatus := "Up" |};
      {| ID := "x2"; Names := ["/other"; "/web"]; SummaryStatus := "Exited (1)" |} ]
  = Some {| ID := "x2"; Names := ["/other"; "/web"]; SummaryStatus := "Exited (1)" |}.
Proof. reflexivity. Qed.

Example lookupByName_case :
  API.lookupByName "web" [ {| ID := "x1"; Names := ["/Web"]; SummaryStatus := "Up" |} ]
  = None.
Proof. reflexivity. Qed.

Example Stop_run :
  API.Stop Toy.client (Toy.handle false true) Toy.w0
  = mkOut None (Toy.handle false false) Toy.w0 [EvContainerStop "abc" 30 None].
Proof. reflexivity. Qed.

(** ** The monad *)

Section MonadFacts.
Context {S W : Type}.

Lemma out_eta {A} (o : Out S W A) : mkOut (res o) (hdl o) (wld o) (evs o) = o.
Proof. now destruct o. Qed.

Lemma prepend_out {A} tr (a : A) (s : S) (w : W) tr' :
  prepend tr (mkOut a s w tr') = mkOut a s w (tr ++ tr').
Proof. reflexivity. Qed.

Lemma prepend_nil {A} (o : Out S W A) : prepend [] o = o.
Proof. now destruct o. Qed.

Lemma prepend_prepend {A} tr1 tr2 (o : Out S W A) :
  prepend tr1 (prepend tr2 o) = prepend (tr1 ++ tr2) o.
Proof. destruct o. cbn [prepend]. now rewrite app_assoc. Qed.

Lemma res_prepend {A} tr (o : Out S W A) : res (prepend tr o) = res o.
Proof. now destruct o. Qed.

Lemma hdl_prepend {A} tr (o : Out S W A) : hdl (prepend tr o) = hdl o.
Proof. now destruct o. Qed.

Lemma wld_prepend {A} tr (o : Out S W A) : wld (prepend tr o) = wld o.
Proof. now destruct o. Qed.

Lemma evs_prepend {A} tr (o : Out S W A) : evs (prepend tr o) = (tr ++ evs o)%list.
Proof. now destruct o. Qed.

Lemma bind_out {A B} (m : M S W A) (k : A -> M S W B) s w a s1 w1 e1 :
  m s w = mkOut a s1 w1 e1 -> bind m k s w = prepend e1 (k a s1 w1).
Proof. intros H. unfold bind. now rewrite H. Qed.

Lemma bind_get {A} (k : S -> M S W A) s w : bind get k s w = k s s w.
Proof. unfold bind, get. apply prepend_nil. Qed.

Lemma bind_ret {A B} (a : A) (k : A -> M S W B) s w : bind (ret a) k s w = k a s w.
Proof. unfold bind, ret. apply prepend_nil. Qed.

Lemma bind_tell {A} ev (k : unit -> M S W A) s w :
  bind (tell ev) k s w = prepend [ev] (k tt s w).
Proof. reflexivity. Qed.

Lemma bind_modify {A} f (k : unit -> M S W A) s w :
  bind (modify f) k s w = k tt (f s) w.
Proof. unfold bind, modify. apply prepend_nil. Qed.

Lemma bind_call {A R} (op : W -> R * W) ev (k : R -> M S W A) s w :
  bind (call op ev) k s w = prepend [ev (fst (op w))] (k (fst (op w)) s (snd (op w))).
Proof. reflexivity. Qed.

Lemma res_bind {A B} (m : M S W A) (k : A -> M S W B) s w :
  res (bind m k s w) = res (k (res (m s w)) (hdl (m s w)) (wld (m s w))).
Proof.
  unfold bind. destruct (m s w) as [a s1 w1 e1]. cbn [res hdl wld evs].
  apply res_prepend.
Qed.

Lemma hdl_bind {A B} (m : M S W A) (k : A -> M S W B) s w :
  hdl (bind m k s w) = hdl (k (res (m s w)) (hdl (m s w)) (wld (m s w))).
Proof.
  unfold bind. destruct (m s w) as [a s1 w1 e1]. cbn [res hdl wld evs].
  apply hdl_prepend.
Qed.

Lemma wld_bind {A B} (m : M S W A) (k : A -> M S W B) s w :
  wld (bind m k s w) = wld (k (res (m s w)) (hdl (m s w)) (wld (m s w))).
Proof.
  unfold bind. destruct (m s w) as [a s1 w1 e1]. cbn [res hdl wld evs].
  apply wld_prepend.
Qed.

Lemma evs_bind {A B} (m : M S W A) (k : A -> M S W B) s w :
  evs (bind m k s w)
  = (evs (m s w) ++ evs (k (res (m s w)) (hdl (m s w)) (wld (m s w))))%list.
Proof.
  unfold bind. destruct (m s w) as [a s1 w1 e1]. cbn [res hdl wld evs].
  apply evs_prepend.
Qed.

End MonadFacts.

(** ** Stop *)

Section StopFacts.
Context {W : Type} (cl : Client W) (sh : Shell W).

Lemma api_Stop_empty c w :
  containerID c = "" -> API.Stop cl c w = mkOut None c w [].
Proof.
  intros H. unfold API.Stop, bind, get. cbn. rewrite H. reflexivity.
Qed.

Lemma api_Stop_set c w :
  containerID c <> "" ->
  API.Stop cl c w =
    let r := ContainerStop cl (containerID c) 30 w in
    mkOut (match fst r with Some e => Some ("failed to stop container: " +:+ e) | None => None end)
          (match fst r with Some _ => c | None => set_isRunning false c end)
          (snd r)
          [EvContainerStop (containerID c) 30 (fst r)].
Proof.
  intros H. unfold API.Stop, bind, get. cbn.
  destruct (String.eqb_spec (containerID c) ""); [contradiction|].
  cbn. destruct (fst (ContainerStop cl (containerID c) 30 w)); reflexivity.
Qed.

Lemma cli_Stop_empty c w :
  containerID c = "" -> CLI.Stop sh c w = mkOut None c w [].
Proof.
  intros H. unfold CLI.Stop, bind, get. cbn. rewrite H. reflexivity.
Qed.

Lemma cli_Stop_set c w :
  containerID c <> "" ->
  CLI.Stop sh c w =
    let r := Run sh (stopArgv (containerID c)) w in
    mkOut (match PErr (fst r) with
           | Some e => Some ("failed to stop container: " +:+ e) | None => None end)
          (match PErr (fst r) with Some _ => c | None => set_isRunning false c end)
          (snd r)
          [EvExec (stopArgv (containerID c)) (fst r)].
Proof.
  intros H. unfold CLI.Stop, CLI.Exec_Run, bind, get. cbn.
  destruct (String.eqb_spec (containerID c) ""); [contradiction|].
  cbn. unfold stopArgv.
  destruct (PErr (fst (Run sh _ w))); reflexivity.
Qed.

End StopFacts.


(** C10. [Stop] is atomic on error: with an identifier set, a failing stop
    call makes [Stop] return the error wrapped and leaves the handle as it
    was, identifier and [isRunning] included. *)
Theorem C10_Stop_atomic_on_error :
  forall (W : Type) (cl : Client W) (sh : Shell W) (c : Container) (w : W) (e : string),
    containerID c <> "" ->
    (fst (ContainerStop cl (containerID c) 30 w) = Some e ->
       res (API.Stop cl c w) = Some ("failed to stop container: " +:+ e)
       /\ hdl (API.Stop cl c w) = c)
    /\ (PErr (fst (Run sh (stopArgv (containerID c)) w)) = Some e ->
       res (CLI.Stop sh c w) = Some ("failed to stop container: " +:+ e)
       /\ hdl (CLI.Stop sh c w) = c).
Proof.
  intros W cl sh c w e Hid. split; intros E.
  - rewrite api_Stop_set by exact Hid. cbn [res hdl]. rewrite E. auto.
  - rewrite cli_Stop_set by exact Hid. cbn [res hdl]. rewrite E. auto.
Qed.

Lemma C10_Stop_atomic_on_error_witness :
  let c := Toy.handle false true in
  (res (API.Stop Toy.client c Toy.w_stop_fails)
     = Some "failed to stop container: cannot stop container"
   /\ hdl (API.Stop Toy.client c Toy.w_stop_fails) = c)
  /\ (res (CLI.Stop Toy.shell c Toy.w_stop_fails)
     = Some "failed to stop container: cannot stop container"
   /\ hdl (CLI.Stop Toy.shell c Toy.w_stop_fails) = c).
Proof.
  assert (Hid : containerID (Toy.handle false true) <> "") by discriminate.
  destruct (C10_Stop_atomic_on_error Toy.World Toy.client Toy.shell
              (Toy.handle false true) Toy.w_stop_fails "cannot stop container" Hid)
    as (Ha & Hc).
  split; [exact (Ha eq_refl) | exact (Hc eq_refl)].
Defined.

(** ** IsRunning *)

Section IsRunningFacts.
Context {W : Type} (cl : Client W) (sh : Shell W).

Lemma api_IsRunning_empty c w :
  containerID c = "" -> API.IsRunning cl c w = mkOut (false, None) c w [].
Proof.
  intros H. unfold API.IsRunning, bind, get. cbn. rewrite H. reflexivity.
Qed.

Lemma api_IsRunning_set c w :
  containerID c <> "" ->
  API.IsRunning cl c w =
    let r := ContainerInspect cl (containerID c) w in
    mkOut (match fst r with
           | Ok inspect => (Running (State inspect), None)
           | Err e => (false, Some ("failed to inspect container: " +:+ e))
           end)
          (match fst r with
           | Ok inspect => set_isRunning (Running (State inspect)) c
           | Err _ => c
           end)
          (snd r)
          [EvContainerInspect (containerID c) (fst r)].
Proof.
  intros H. unfold API.IsRunning, bind, get. cbn.
  destruct (String.eqb_spec (containerID c) ""); [contradiction|].
  cbn. destruct (fst (ContainerInspect cl (containerID c) w)); reflexivity.
Qed.

Lemma cli_IsRunning_empty c w :
  containerID c = "" -> CLI.IsRunning sh c w = mkOut (false, None) c w [].
Proof.
  intros H. unfold CLI.IsRunning, bind, get. cbn. rewrite H. reflexivity.
Qed.

Lemma cli_IsRunning_set c w :
  containerID c <> "" ->
  CLI.IsRunning sh c w =
    let r := Run sh (runningArgv (containerID c)) w in
    let running := String.eqb (TrimSpace (PStdout (fst r))) "true" in
    mkOut (match PErr (fst r) with
           | None => (running, None)
           | Some e => (false, Some ("failed to inspect container: " +:+ e))
           end)
          (match PErr (fst r) with
           | None => set_isRunning running c
           | Some _ => c
           end)
          (snd r)
          [EvExec (runningArgv (containerID c)) (fst r)].
Proof.
  intros H. unfold CLI.IsRunning, CLI.Exec_Run, bind, get. cbn.
  destruct (String.eqb_spec (containerID c) ""); [contradiction|].
  cbn. unfold runningArgv.
  destruct (PErr (fst (Run sh _ w))); reflexivity.
Qed.

End IsRunningFacts.

(** C9. [IsRunning] answers [(false, nil)] without asking the engine as long
    as no identifier has been assigned, in particular on a handle fresh from
    [New].  With an identifier set it asks the engine every time, with one
    state inspection, and returns what this inspection reports: the value of
    the cached [isRunning] flag has no influence on the answer. *)
Theorem C9_IsRunning_requeries :
  forall (W : Type) (cl : Client W) (sh : Shell W) (c : Container) (w : W),
    (forall cfg, API.IsRunning cl (New cfg) w = mkOut (false, None) (New cfg) w []
                 /\ CLI.IsRunning sh (New cfg) w = mkOut (false, None) (New cfg) w [])
    /\ (containerID c = "" ->
        API.IsRunning cl c w = mkOut (false, None) c w []
        /\ CLI.IsRunning sh c w = mkOut (false, None) c w [])
    /\ (containerID c <> "" ->
        let r := ContainerInspect cl (containerID c) w in
        let o := API.IsRunning cl c w in
        evs o = [EvContainerInspect (containerID c) (fst r)]
        /\ (forall inspect, fst r = Ok inspect ->
              res o = (Running (State inspect), None)
              /\ isRunning (hdl o) = Running (State inspect))
        /\ (forall e, fst r = Err e ->
              res o = (false, Some ("failed to inspect container: " +:+ e)) /\ hdl o = c)
        /\ (forall cached, res (API.IsRunning cl (set_isRunning cached c) w) = res o))
    /\ (containerID c <> "" ->
        let r := Run sh (runningArgv (containerID c)) w in
        let o := CLI.IsRunning sh c w in
        evs o = [EvExec (runningArgv (containerID c)) (fst r)]
        /\ (PErr (fst r) = None ->
              res o = (String.eqb (TrimSpace (PStdout (fst r))) "true", None)
              /\ isRunning (hdl o) = String.eqb (TrimSpace (PStdout (fst r))) "true")
        /\ (forall e, PErr (fst r) = Some e ->
              res o = (false, Some ("failed to inspect container: " +:+ e)) /\ hdl o = c)
        /\ (forall cached, res (CLI.IsRunning sh (set_isRunning cached c) w) = res o)).
Proof.
  intros W cl sh c w.
  split; [|split; [|split]].
  - intros cfg. split; [now apply api_IsRunning_empty | now apply cli_IsRunning_empty].
  - intros Hid. split; [now apply api_IsRunning_empty | now apply cli_IsRunning_empty].
  - intros Hid r o. subst r o. rewrite api_IsRunning_set by exact Hid.
    cbn [res hdl wld evs]. split; [reflexivity|]. split; [|split].
    + intros inspect E. rewrite E. auto.
    + intros e E. rewrite E. auto.
    + intros cached. rewrite api_IsRunning_set by exact Hid. reflexivity.
  - intros Hid r o. subst r o. rewrite cli_IsRunning_set by exact Hid.
    cbn [res hdl wld evs]. split; [reflexivity|]. split; [|split].
    + intros E. rewrite E. auto.
    + intros e E. rewrite E. auto.
    + intros cached. rewrite cli_IsRunning_set by exact Hid. reflexivity.
Qed.

Lemma C9_IsRunning_requeries_witness :
  res (API.IsRunning Toy.client (Toy.handle false false) Toy.w0) = (true, None)
  /\ res (API.IsRunning Toy.client (Toy.handle false true) Toy.w_exited) = (false, None)
  /\ res (CLI.IsRunning Toy.shell (Toy.handle false false) Toy.w0) = (true, None).
Proof.
  assert (Hid : forall b, containerID (Toy.handle false b) <> "") by discriminate.
  destruct (C9_IsRunning_requeries Toy.World Toy.client Toy.shell
              (Toy.handle false false) Toy.w0) as (_ & _ & Ha & Hc).
  destruct (C9_IsRunning_requeries Toy.World Toy.client Toy.shell
              (Toy.handle false true) Toy.w_exited) as (_ & _ & Ha' & _).
  destruct (Ha (Hid false)) as (_ & Hok & _).
  destruct (Ha' (Hid true)) as (_ & Hok' & _).
  destruct (Hc (Hid false)) as (_ & Hcok & _).
  split; [exact (proj1 (Hok _ eq_refl)) | split; [exact (proj1 (Hok' _ eq_refl)) |]].
  exact (proj1 (Hcok eq_refl)).
Defined.

(** ** GetPort *)

Lemma length_append (p s : string) :
  String.length (p +:+ s) = (String.length p + String.length s)%nat.
Proof. induction p as [|a p IH]; simpl; [reflexivity | now f_equal]. Qed.

Lemma append_inv_tail (s p q : string) : p +:+ s = q +:+ s -> p = q.
Proof.
  revert q. induction p as [|a p IH]; intros [|b q] H; simpl in H.
  - reflexivity.
  - apply (f_equal String.length) in H. simpl in H.
    rewrite !length_append in H. simpl in H. lia.
  - apply (f_equal String.length) in H. simpl in H.
    rewrite !length_append in H. simpl in H. lia.
  - injection H as -> H. f_equal. now apply IH.
Qed.

Section GetPortFacts.
Context {W : Type} (cl : Client W) (sh : Shell W).

Lemma api_GetPort_empty port c w :
  containerID c = "" ->
  API.GetPort cl port c w = mkOut (Err "container not started") c w [].
Proof.
  intros H. unfold API.GetPort, bind, get. cbn. rewrite H. reflexivity.
Qed.

Lemma api_GetPort_set port c w :
  containerID c <> "" ->
  API.GetPort cl port c w =
    let r := ContainerInspect cl (containerID c) w in
    mkOut (match fst r with
           | Err e => Err ("failed to inspect container: " +:+ e)
           | Ok inspect =>
               match NetworkPorts inspect !! (port +:+ "/tcp") with
               | Some (b :: _) => Ok (HostPort b)
               | _ => Err ("no port mapping found for port " +:+ port)
               end
           end)
          c (snd r) [EvContainerInspect (containerID c) (fst r)].
Proof.
  intros H. unfold API.GetPort, bind, get. cbn.
  destruct (String.eqb_spec (containerID c) ""); [contradiction|].
  cbn. destruct (fst (ContainerInspect cl (containerID c) w)) as [inspect|e]; [|reflexivity].
  destruct (NetworkPorts inspect !! _) as [[|b bs]|]; reflexivity.
Qed.

Lemma cli_GetPort_empty port c w :
  containerID c = "" ->
  CLI.GetPort sh port c w = mkOut (Err "container not started") c w [].
Proof.
  intros H. unfold CLI.GetPort, bind, get. cbn. rewrite H. reflexivity.
Qed.

Lemma cli_GetPort_set port c w :
  containerID c <> "" ->
  CLI.GetPort sh port c w =
    let r := Run sh (portArgv port (containerID c)) w in
    let hostPort := TrimSpace (PStdout (fst r)) in
    mkOut (match PErr (fst r) with
           | Some e => Err ("failed to inspect container: " +:+ e)
           | None =>
               if String.eqb hostPort "" || String.eqb hostPort "<no value>"
               then Err ("no port mapping found for port " +:+ port)
               else Ok hostPort
           end)
          c (snd r) [EvExec (portArgv port (containerID c)) (fst r)].
Proof.
  intros H. unfold CLI.GetPort, CLI.Exec_Run, bind, get. cbn.
  destruct (String.eqb_spec (containerID c) ""); [contradiction|].
  cbn. unfold portArgv.
  destruct (PErr (fst (Run sh _ w))); [reflexivity|].
  destruct (_ || _); reflexivity.
Qed.

End GetPortFacts.



(** ** Cleanup *)

Section CleanupFacts.
Context {W : Type} (cl : Client W) (sh : Shell W).

Lemma api_Stop_keeps_id c w : containerID (hdl (API.Stop cl c w)) = containerID c.
Proof.
  destruct (String.eqb_spec (containerID c) "") as [Hid|Hid].
  - now rewrite api_Stop_empty.
  - rewrite api_Stop_set by exact Hid. cbn [hdl].
    destruct (fst (ContainerStop cl (containerID c) 30 w)); reflexivity.
Qed.

Lemma cli_Stop_keeps_id c w : containerID (hdl (CLI.Stop sh c w)) = containerID c.
Proof.
  destruct (String.eqb_spec (containerID c) "") as [Hid|Hid].
  - now rewrite cli_Stop_empty.
  - rewrite cli_Stop_set by exact Hid. cbn [hdl].
    destruct (PErr (fst (Run sh (stopArgv (containerID c)) w))); reflexivity.
Qed.

Lemma api_Cleanup_empty c w :
  containerID c = "" -> API.Cleanup cl c w = mkOut None c w [].
Proof.
  intros H. unfold API.Cleanup, bind, get. cbn. rewrite H. reflexivity.
Qed.

Lemma cli_Cleanup_empty c w :
  containerID c = "" -> CLI.Cleanup sh c w = mkOut None c w [].
Proof.
  intros H. unfold CLI.Cleanup, bind, get. cbn. rewrite H. reflexivity.
Qed.

Lemma api_Cleanup_reuse c w :
  containerID c <> "" -> Reuse (config c) = true ->
  API.Cleanup cl c w = API.Stop cl c w.
Proof.
  intros Hid Hr. unfold API.Cleanup. rewrite bind_get.
  destruct (String.eqb_spec (containerID c) ""); [contradiction|].
  now rewrite Hr.
Qed.

Lemma cli_Cleanup_reuse c w :
  containerID c <> "" -> Reuse (config c) = true ->
  CLI.Cleanup sh c w = CLI.Stop sh c w.
Proof.
  intros Hid Hr. unfold CLI.Cleanup. rewrite bind_get.
  destruct (String.eqb_spec (containerID c) ""); [contradiction|].
  now rewrite Hr.
Qed.

Lemma api_Cleanup_remove c w :
  containerID c <> "" -> Reuse (config c) = false ->
  API.Cleanup cl c w =
    let s := API.Stop cl c w in
    let r := ContainerRemove cl (containerID c) true (wld s) in
    mkOut (match fst r with
           | Some e => Some ("failed to remove container: " +:+ e)
           | None => None
           end)
          (match fst r with
           | Some _ => hdl s
           | None => set_containerID "" (hdl s)
           end)
          (snd r)
          (evs s
           ++ match res s with
              | Some e => [errorLine c ("Failed to stop container before cleanup: " +:+ e)]
              | None => []
              end
           ++ [EvContainerRemove (containerID c) true (fst r)]).
Proof.
  intros Hid Hr. unfold API.Cleanup. rewrite bind_get.
  destruct (String.eqb_spec (containerID c) ""); [contradiction|].
  rewrite Hr. unfold bind, get.
  pose proof (api_Stop_keeps_id c w) as Hk.
  assert (Hcfg : config (hdl (API.Stop cl c w)) = config c).
  { rewrite api_Stop_set by exact Hid. cbn [hdl].
    destruct (fst (ContainerStop cl (containerID c) 30 w)); reflexivity. }
  destruct (API.Stop cl c w) as [rs hs ws es]. cbn [res hdl wld evs] in *.
  destruct rs as [e|];
    unfold Errorf, bind, get, tell, call, modify, ret; cbn [prepend res hdl wld evs fst snd];
    rewrite Hk; unfold errorLine; rewrite ?Hcfg;
    destruct (fst (ContainerRemove cl (containerID c) true ws));
    cbn [res hdl wld evs app]; rewrite ?app_nil_r; reflexivity.
Qed.

Lemma cli_Cleanup_remove c w :
  containerID c <> "" -> Reuse (config c) = false ->
  CLI.Cleanup sh c w =
    let s := CLI.Stop sh c w in
    let r := Run sh (rmArgv (containerID c)) (wld s) in
    mkOut (match PErr (fst r) with
           | Some e => Some ("failed to remove container: " +:+ e)
           | None => None
           end)
          (match PErr (fst r) with
           | Some _ => hdl s
           | None => set_containerID "" (hdl s)
           end)
          (snd r)
          (evs s
           ++ match res s with
              | Some e => [errorLine c ("Failed to stop container before cleanup: " +:+ e)]
              | None => []
              end
           ++ [EvExec (rmArgv (containerID c)) (fst r)]).
Proof.
  intros Hid Hr. unfold CLI.Cleanup. rewrite bind_get.
  destruct (String.eqb_spec (containerID c) ""); [contradiction|].
  rewrite Hr. unfold bind, get.
  pose proof (cli_Stop_keeps_id c w) as Hk.
  assert (Hcfg : config (hdl (CLI.Stop sh c w)) = config c).
  { rewrite cli_Stop_set by exact Hid. cbn [hdl].
    destruct (PErr (fst (Run sh (stopArgv (containerID c)) w))); reflexivity. }
  destruct (CLI.Stop sh c w) as [rs hs ws es]. cbn [res hdl wld evs] in *.
  destruct rs as [e|];
    unfold Errorf, CLI.Exec_Run, bind, get, tell, call, modify, ret, rmArgv;
    cbn [prepend res hdl wld evs fst snd];
    rewrite Hk; unfold errorLine; rewrite ?Hcfg;
    destruct (PErr (fst (Run sh ["docker"; "rm"; "-f"; containerID c] ws)));
    cbn [res hdl wld evs app]; rewrite ?app_nil_r; reflexivity.
Qed.

End CleanupFacts.

(** C5, as the code has it.  On a handle with an identifier: with reuse
    enabled [Cleanup] is [Stop] and nothing else, so no remove call is made,
    the identifier is kept, and [isRunning] is false once the stop call has
    succeeded.  With reuse disabled [Cleanup] runs [Stop], logs its failure
    without giving up, then issues the forced remove; when the remove
    succeeds it returns [nil] and the identifier is empty, and the handle is
    the one [New] made if [Stop] succeeded, while after a failed [Stop] the
    [isRunning] flag still has the value it had before. *)
Theorem C5_Cleanup_amended :
  forall (W : Type) (cl : Client W) (sh : Shell W) (c : Container) (w : W),
    containerID c <> "" ->
    (Reuse (config c) = true ->
       (let o := API.Cleanup cl c w in
        o = API.Stop cl c w
        /\ containerID (hdl o) = containerID c
        /\ (res o = None -> isRunning (hdl o) = false)
        /\ count is_remove (evs o) = 0%nat)
       /\ (let o := CLI.Cleanup sh c w in
           o = CLI.Stop sh c w
           /\ containerID (hdl o) = containerID c
           /\ (res o = None -> isRunning (hdl o) = false)
           /\ count is_remove (evs o) = 0%nat))
    /\ (Reuse (config c) = false ->
        (let s := API.Stop cl c w in
         let r := ContainerRemove cl (containerID c) true (wld s) in
         let o := API.Cleanup cl c w in
         evs o = (evs s
                  ++ match res s with
                     | Some e =>
                         [errorLine c ("Failed to stop container before cleanup: " +:+ e)]
                     | None => []
                     end
                  ++ [EvContainerRemove (containerID c) true (fst r)])%list
         /\ (fst r = None ->
             res o = None /\ containerID (hdl o) = ""
             /\ (res s = None -> hdl o = New (config c))
             /\ (res s <> None -> isRunning (hdl o) = isRunning c))
         /\ (forall e, fst r = Some e ->
               res o = Some ("failed to remove container: " +:+ e)
               /\ containerID (hdl o) = containerID c))
        /\ (let s := CLI.Stop sh c w in
            let r := Run sh (rmArgv (containerID c)) (wld s) in
            let o := CLI.Cleanup sh c w in
            evs o = (evs s
                     ++ match res s with
                        | Some e =>
                            [errorLine c ("Failed to stop container before cleanup: " +:+ e)]
                        | None => []
                        end
                     ++ [EvExec (rmArgv (containerID c)) (fst r)])%list
            /\ (PErr (fst r) = None ->
                res o = None /\ containerID (hdl o) = ""
                /\ (res s = None -> hdl o = New (config c))
                /\ (res s <> None -> isRunning (hdl o) = isRunning c))
            /\ (forall e, PErr (fst r) = Some e ->
                  res o = Some ("failed to remove container: " +:+ e)
                  /\ containerID (hdl o) = containerID c))).
Proof.
  intros W cl sh c w Hid. split; intros Hr.
  - split.
    + intros o. subst o. rewrite api_Cleanup_reuse by assumption.
      split; [reflexivity|]. split; [apply api_Stop_keeps_id|].
      rewrite api_Stop_set by exact Hid. cbn [res hdl evs].
      destruct (fst (ContainerStop cl (containerID c) 30 w)); split;
        try discriminate; reflexivity.
    + intros o. subst o. rewrite cli_Cleanup_reuse by assumption.
      split; [reflexivity|]. split; [apply cli_Stop_keeps_id|].
      rewrite cli_Stop_set by exact Hid. cbn [res hdl evs].
      destruct (PErr (fst (Run sh (stopArgv (containerID c)) w))); split;
        try discriminate; reflexivity.
  - split.
    + intros s r o. subst o r. rewrite api_Cleanup_remove by assumption.
      fold s. cbn [res hdl wld evs]. split; [reflexivity|]. split.
      * intros E. rewrite E. split; [reflexivity|]. split; [reflexivity|].
        subst s. rewrite api_Stop_set by exact Hid. cbn [res hdl].
        destruct (fst (ContainerStop cl (containerID c) 30 w)); split;
          try discriminate; try congruence; reflexivity.
      * intros e E. rewrite E. split; [reflexivity|]. apply api_Stop_keeps_id.
    + intros s r o. subst o r. rewrite cli_Cleanup_remove by assumption.
      fold s. cbn [res hdl wld evs]. split; [reflexivity|]. split.
      * intros E. rewrite E. split; [reflexivity|]. split; [reflexivity|].
        subst s. rewrite cli_Stop_set by exact Hid. cbn [res hdl].
        destruct (PErr (fst (Run sh (stopArgv (containerID c)) w))); split;
          try discriminate; try congruence; reflexivity.
      * intros e E. rewrite E. split; [reflexivity|]. apply cli_Stop_keeps_id.
Qed.

Lemma C5_Cleanup_amended_witness :
  let c := Toy.handle false true in
  let o := API.Cleanup Toy.client c Toy.w0 in
  res o = None /\ hdl o = New (config c)
  /\ evs o = [EvContainerStop "abc" 30 None; EvContainerRemove "abc" true None].
Proof.
  assert (Hid : containerID (Toy.handle false true) <> "") by discriminate.
  destruct (C5_Cleanup_amended Toy.World Toy.client Toy.shell
              (Toy.handle false true) Toy.w0 Hid) as (_ & Hrm).
  destruct (Hrm eq_refl) as ((Hevs & Hok & _) & _).
  destruct (Hok eq_refl) as (R & _ & Hnew & _).
  split; [exact R | split; [exact (Hnew eq_refl) | exact Hevs]].
Defined.

(** C5 as stated fails on a handle whose container is running and whose
    engine refuses the stop: without reuse, [Cleanup] logs the failure,
    removes the container and returns [nil] with the identifier empty, yet
    [isRunning] is still true, which is not the state the handle had before
    the container was created; with reuse, [Cleanup] leaves [isRunning] true. *)
Lemma C5_Cleanup_counterexample :
  (let c := Toy.handle false true in
   let o := API.Cleanup Toy.client c Toy.w_stop_fails in
   containerID c <> "" /\ Reuse (config c) = false
   /\ res o = None /\ containerID (hdl o) = ""
   /\ isRunning (hdl o) = true /\ hdl o <> New (config c))
  /\ (let c := Toy.handle false true in
      let o := CLI.Cleanup Toy.shell c Toy.w_stop_fails in
      res o = None /\ containerID (hdl o) = ""
      /\ isRunning (hdl o) = true /\ hdl o <> New (config c))
  /\ (let c := Toy.handle true true in
      let o := API.Cleanup Toy.client c Toy.w_stop_fails in
      containerID c <> "" /\ Reuse (config c) = true
      /\ isRunning (hdl o) = true /\ containerID (hdl o) = "abc").
Proof.
  split; [|split].
  - cbv zeta. repeat (split; [first [reflexivity | discriminate]|]).
    vm_compute. discriminate.
  - cbv zeta. repeat (split; [first [reflexivity | discriminate]|]).
    vm_compute. discriminate.
  - cbv zeta. repeat (split; [first [reflexivity | discriminate]|]). reflexivity.
Qed.

(** ** Diagnostics *)

Ltac break_match :=
  match goal with
  | |- context [match ?x with _ => _ end] =>
      lazymatch x with
      | context [match _ with _ => _ end] => fail
      | _ => let E := fresh "E" in destruct x eqn:E
      end
  end.

Ltac run_monad :=
  unfold Errorf, Infof, Sleep, ctxDone, bind, get, tell, call, modify, ret;
  cbn [prepend res hdl wld evs fst snd app].

Ltac find_in :=
  cbn [In app]; repeat first [left; reflexivity | right].

Section DiagnosticsFacts.
Context {W : Type} (cl : Client W) (sh : Shell W).

Lemma api_PrintLogs_frame reason c w :
  hdl (API.PrintLogsOnFailure cl reason c w) = c.
Proof.
  unfold API.PrintLogsOnFailure, API.Logs. run_monad.
  repeat (break_match; cbn [prepend res hdl wld evs fst snd app]); reflexivity.
Qed.

Lemma api_PrintLogs_diag reason c w :
  List.Forall (fun e => is_diag e = true) (evs (API.PrintLogsOnFailure cl reason c w)).
Proof.
  unfold API.PrintLogsOnFailure, API.Logs. run_monad.
  repeat (break_match; cbn [prepend res hdl wld evs fst snd app]);
    unfold errorLine, infoLine; repeat constructor.
Qed.

Lemma cli_PrintLogs_frame reason c w :
  hdl (CLI.PrintLogsOnFailure sh reason c w) = c.
Proof.
  unfold CLI.PrintLogsOnFailure, CLI.Logs, CLI.Exec_Run. run_monad.
  repeat (break_match; cbn [prepend res hdl wld evs fst snd app]); reflexivity.
Qed.

Lemma cli_PrintLogs_diag reason c w :
  List.Forall (fun e => is_diag e = true) (evs (CLI.PrintLogsOnFailure sh reason c w)).
Proof.
  unfold CLI.PrintLogsOnFailure, CLI.Logs, CLI.Exec_Run. run_monad.
  repeat (break_match; cbn [prepend res hdl wld evs fst snd app]);
    unfold errorLine, infoLine; repeat constructor.
Qed.

End DiagnosticsFacts.

(** ** The stability check *)

Lemma diag_not_sleep e : is_diag e = true -> is_sleep e = false.
Proof. destruct e; cbn; congruence. Qed.

Lemma diag_not_ctx e : is_diag e = true -> is_ctx_check e = false.
Proof. destruct e; cbn; congruence. Qed.

Lemma diag_not_test e : is_diag e = true -> is_test e = false.
Proof. destruct e; cbn; congruence. Qed.

Lemma count_cons p e (t : list Event) :
  count p (e :: t) = ((if p e then 1 else 0) + count p t)%nat.
Proof. unfold count. cbn [List.filter]. destruct (p e); reflexivity. Qed.

Lemma count_app p (t1 t2 : list Event) :
  count p (t1 ++ t2) = (count p t1 + count p t2)%nat.
Proof. unfold count. rewrite List.filter_app, List.length_app. reflexivity. Qed.

Lemma count_none p q (t : list Event) :
  (forall e, q e = true -> p e = false) ->
  List.Forall (fun e => q e = true) t -> count p t = 0%nat.
Proof.
  intros Hpq H. induction H as [|e t He _ IH]; [reflexivity|].
  rewrite count_cons, (Hpq _ He), IH. reflexivity.
Qed.

Section StableRun.
Variables is_check reports : Event -> bool.
Hypothesis check_not_sleep : forall e, is_check e = true -> is_sleep e = false.
Hypothesis check_not_ctx : forall e, is_check e = true -> is_ctx_check e = false.

Lemma sleep_not_check ms : is_check (EvSleep ms) = false.
Proof.
  destruct (is_check (EvSleep ms)) eqn:E; [|reflexivity].
  apply check_not_sleep in E. discriminate.
Qed.

Lemma ctx_not_check e : is_check (EvCtxDone e) = false.
Proof.
  destruct (is_check (EvCtxDone e)) eqn:E; [|reflexivity].
  apply check_not_ctx in E. discriminate.
Qed.

Lemma stable_run_success n r tr :
  stable_run is_check reports n r tr ->
  r = None ->
  List.length (List.filter is_check tr) = n
  /\ forallb reports (List.filter is_check tr) = true
  /\ count is_sleep tr = n
  /\ first_failure is_check reports tr = None.
Proof.
  induction 1 as [|n e|n ev msg diag Hc Hr Hd|n ev r tr Hc Hr Hrun IH]; intros Hnone;
    try discriminate.
  - repeat split.
  - destruct (IH Hnone) as (Hlen & Hall & Hsl & Hff).
    cbn [List.filter first_failure]. rewrite ctx_not_check, sleep_not_check, Hc, Hr.
    cbn [andb negb List.length forallb]. rewrite Hlen, Hall, Hff.
    rewrite !count_cons, Hsl, (check_not_sleep _ Hc), Hr. cbn. auto.
Qed.

Lemma stable_run_failure n r tr :
  stable_run is_check reports n r tr ->
  r <> None ->
  (exists e, r = Some (Some e))
  /\ ((List.length (List.filter is_check tr) < n)%nat
      \/ forallb reports (List.filter is_check tr) = false).
Proof.
  induction 1 as [|n e|n ev msg diag Hc Hr Hd|n ev r tr Hc Hr Hrun IH]; intros Hsome.
  - contradiction.
  - split; [eauto|]. left. cbn [List.filter]. rewrite ctx_not_check. cbn. lia.
  - split; [eauto|]. right. cbn [List.filter]. rewrite ctx_not_check, Hc.
    cbn [forallb]. now rewrite Hr.
  - destruct (IH Hsome) as (He & Hor). split; [exact He|].
    cbn [List.filter]. rewrite ctx_not_check, sleep_not_check, Hc.
    cbn [List.length forallb]. rewrite Hr. cbn [andb].
    destruct Hor as [Hlt|Hall]; [left; lia | right; exact Hall].
Qed.

Lemma stable_run_sleeps n r tr :
  stable_run is_check reports n r tr ->
  List.Forall (fun e => is_sleep e = true -> e = EvSleep 500) tr.
Proof.
  induction 1 as [|n e|n ev msg diag Hc Hr Hd|n ev r tr Hc Hr Hrun IH].
  - constructor.
  - repeat constructor. discriminate.
  - constructor; [discriminate|]. constructor.
    + rewrite (check_not_sleep _ Hc). discriminate.
    + eapply List.Forall_impl; [|exact Hd]. cbn. intros a Ha Hs.
      rewrite (diag_not_sleep _ Ha) in Hs. discriminate.
  - constructor; [discriminate|]. constructor.
    + rewrite (check_not_sleep _ Hc). discriminate.
    + constructor; [reflexivity | exact IH].
Qed.

Lemma stable_run_first_failure n r tr pre post :
  stable_run is_check reports n r tr ->
  first_failure is_check reports tr = Some (pre, post) ->
  (exists e, r = Some (Some e))
  /\ count is_sleep post = 0%nat
  /\ count is_ctx_check post = 0%nat
  /\ count is_sleep pre = count is_check pre
  /\ (count is_check pre < n)%nat.
Proof.
  intros Hrun. revert pre post.
  induction Hrun as [|n e|n ev msg diag Hc Hr Hd|n ev r tr Hc Hr Hrun IH];
    intros pre post Hff; cbn [first_failure] in Hff.
  - discriminate.
  - rewrite ctx_not_check in Hff. discriminate.
  - rewrite ctx_not_check, Hc, Hr in Hff. cbn in Hff. injection Hff as <- <-.
    split; [eauto|].
    rewrite (count_none is_sleep is_diag diag diag_not_sleep Hd).
    rewrite (count_none is_ctx_check is_diag diag diag_not_ctx Hd).
    rewrite !count_cons, ctx_not_check. cbn. repeat split; lia.
  - rewrite ctx_not_check, Hc, Hr, sleep_not_check in Hff. cbn [andb negb] in Hff.
    destruct (first_failure is_check reports tr) as [[pre' post']|] eqn:E; [|discriminate].
    injection Hff as <- <-.
    destruct (IH _ _ eq_refl) as (He & Hs & Hx & Hp & Hlt).
    split; [exact He|]. split; [exact Hs|]. split; [exact Hx|].
    rewrite !count_cons, ctx_not_check, sleep_not_check, Hc, (check_not_sleep _ Hc).
    cbn. split; lia.
Qed.

Lemma stable_run_first_check n r tr e rest :
  stable_run is_check reports n r tr ->
  List.filter is_check tr = e :: rest -> reports e = false ->
  (exists m, r = Some (Some m)) /\ count is_sleep tr = 0%nat.
Proof.
  intros Hrun Hf He.
  destruct Hrun as [|n e'|n ev msg diag Hc Hr Hd|n ev r tr Hc Hr Hrun];
    cbn [List.filter] in Hf; rewrite ?ctx_not_check, ?Hc in Hf; try discriminate.
  - injection Hf as <- _. split; [eauto|].
    rewrite !count_cons, (check_not_sleep _ Hc).
    rewrite (count_none is_sleep is_diag diag diag_not_sleep Hd). reflexivity.
  - injection Hf as <- _. congruence.
Qed.

Lemma stable_run_cancelled n r tr e :
  stable_run is_check reports n r tr ->
  In (EvCtxDone (Some e)) tr ->
  r = Some (Some e) /\ exists pre, tr = (pre ++ [EvCtxDone (Some e)])%list.
Proof.
  induction 1 as [|n e'|n ev msg diag Hc Hr Hd|n ev r tr Hc Hr Hrun IH]; intros Hin.
  - destruct Hin.
  - destruct Hin as [[= ->]|[]]. split; [reflexivity|]. now exists [].
  - destruct Hin as [[=]|[->|Hin]].
    + apply check_not_ctx in Hc. cbn in Hc. discriminate.
    + rewrite List.Forall_forall in Hd. apply Hd in Hin. cbn in Hin. discriminate.
  - destruct Hin as [[=]|[->|[[=]|Hin]]].
    + apply check_not_ctx in Hc. cbn in Hc. discriminate.
    + destruct (IH Hin) as (-> & pre & ->). split; [reflexivity|].
      now exists (EvCtxDone None :: ev :: EvSleep 500 :: pre).
Qed.

End StableRun.

Lemma api_check_not_sleep e : api_is_check e = true -> is_sleep e = false.
Proof. destruct e; cbn; congruence. Qed.

Lemma api_check_not_ctx e : api_is_check e = true -> is_ctx_check e = false.
Proof. destruct e; cbn; congruence. Qed.

Lemma cli_check_not_sleep e : cli_is_check e = true -> is_sleep e = false.
Proof. destruct e; cbn; congruence. Qed.

Lemma cli_check_not_ctx e : cli_is_check e = true -> is_ctx_check e = false.
Proof. destruct e; cbn; congruence. Qed.

Section StabilityLoops.
Context {W : Type} (rt : Runtime W) (cl : Client W) (sh : Shell W).

Lemma api_stabilityLoop_step n c w :
  API.stabilityLoop rt cl (Datatypes.S n) c w =
    match ctx_err rt w with
    | Some e => mkOut (Some (Some e)) c w [EvCtxDone (Some e)]
    | None =>
        let r := ContainerInspect cl (containerID c) w in
        match fst r with
        | Err e =>
            let d := API.PrintLogsOnFailure cl ("Failed to inspect container: " +:+ e)
                       c (snd r) in
            mkOut (Some (Some ("failed to inspect container: " +:+ e))) (hdl d) (wld d)
                  (EvCtxDone None :: EvContainerInspect (containerID c) (Err e)
                   :: errorLine c ("Failed to inspect container during stability check: "
                                   +:+ e)
                   :: evs d)
        | Ok inspect =>
            if Running (State inspect) then
              let o := API.stabilityLoop rt cl n c (time_Sleep rt 500 (snd r)) in
              mkOut (res o) (hdl o) (wld o)
                    (EvCtxDone None :: EvContainerInspect (containerID c) (Ok inspect)
                     :: EvSleep 500 :: evs o)
            else
              let d := API.PrintLogsOnFailure cl
                         ("Container exited unexpectedly - Status: "
                          +:+ Status (State inspect)
                          +:+ ", ExitCode: " +:+ itoa (ExitCode (State inspect)))
                         c (snd r) in
              mkOut (Some (Some ("container exited with status " +:+ Status (State inspect)
                                 +:+ " (exit code: " +:+ itoa (ExitCode (State inspect))
                                 +:+ ")")))
                    (hdl d) (wld d)
                    (EvCtxDone None :: EvContainerInspect (containerID c) (Ok inspect)
                     :: evs d)
        end
    end.
Proof.
  cbn [API.stabilityLoop]. run_monad.
  destruct (ctx_err rt w) as [e|]; [reflexivity|]. cbv zeta.
  destruct (fst (ContainerInspect cl (containerID c) w)) as [inspect|e].
  - destruct (Running (State inspect)); cbn [negb].
    + destruct (API.stabilityLoop rt cl n c _) as [xr xh xw xe]. reflexivity.
    + destruct (API.PrintLogsOnFailure cl _ c _) as [xr xh xw xe]. cbn [prepend res hdl wld evs app].
      now rewrite app_nil_r.
  - destruct (API.PrintLogsOnFailure cl _ c _) as [xr xh xw xe]. cbn [prepend res hdl wld evs app].
    now rewrite app_nil_r.
Qed.

Lemma api_stabilityLoop_frame n c w :
  hdl (API.stabilityLoop rt cl n c w) = c.
Proof.
  revert w. induction n as [|n IH]; intros w; [reflexivity|].
  rewrite api_stabilityLoop_step.
  destruct (ctx_err rt w); [reflexivity|]. cbv zeta.
  destruct (fst (ContainerInspect cl (containerID c) w)) as [inspect|e]; cbn [hdl].
  - destruct (Running (State inspect)); cbn [hdl].
    + apply IH.
    + apply api_PrintLogs_frame.
  - apply api_PrintLogs_frame.
Qed.

Lemma api_stabilityLoop_shape n c w :
  stable_run api_is_check api_reports_running n
    (res (API.stabilityLoop rt cl n c w)) (evs (API.stabilityLoop rt cl n c w)).
Proof.
  revert w. induction n as [|n IH]; intros w; [constructor|].
  rewrite api_stabilityLoop_step.
  destruct (ctx_err rt w) as [e|]; [constructor|]. cbv zeta.
  destruct (fst (ContainerInspect cl (containerID c) w)) as [inspect|e] eqn:E.
  - destruct (Running (State inspect)) eqn:R; cbn [res evs].
    + apply sr_running; [reflexivity | exact R | apply IH].
    + apply sr_failed; [reflexivity | exact R | apply api_PrintLogs_diag].
  - cbn [res evs]. apply sr_failed; [reflexivity | reflexivity |].
    constructor; [reflexivity | apply api_PrintLogs_diag].
Qed.

Lemma cli_stabilityLoop_step n c w :
  CLI.stabilityLoop rt sh (Datatypes.S n) c w =
    match ctx_err rt w with
    | Some e => mkOut (Some (Some e)) c w [EvCtxDone (Some e)]
    | None =>
        let argv := CLI.inspectStateArgv (containerID c) in
        let r := Run sh argv w in
        match PErr (fst r) with
        | Some e =>
            let d := CLI.PrintLogsOnFailure sh ("Failed to inspect container: " +:+ e)
                       c (snd r) in
            mkOut (Some (Some ("failed to inspect container: " +:+ e))) (hdl d) (wld d)
                  (EvCtxDone None :: EvExec argv (fst r)
                   :: errorLine c ("Failed to inspect container during stability check: "
                                   +:+ e)
                   :: evs d)
        | None =>
            match Unmarshal sh (PStdout (fst r)) with
            | Err e =>
                mkOut (Some (Some ("failed to parse container state: " +:+ e))) c (snd r)
                      [EvCtxDone None; EvExec argv (fst r)]
            | Ok state =>
                if Running state then
                  let o := CLI.stabilityLoop rt sh n c (time_Sleep rt 500 (snd r)) in
                  mkOut (res o) (hdl o) (wld o)
                        (EvCtxDone None :: EvExec argv (fst r) :: EvSleep 500 :: evs o)
                else
                  let d := CLI.PrintLogsOnFailure sh
                             ("Container exited unexpectedly - Status: " +:+ Status state
                              +:+ ", ExitCode: " +:+ itoa (ExitCode state))
                             c (snd r) in
                  mkOut (Some (Some ("container exited with status " +:+ Status state
                                     +:+ " (exit code: " +:+ itoa (ExitCode state) +:+ ")")))
                        (hdl d) (wld d)
                        (EvCtxDone None :: EvExec argv (fst r) :: evs d)
            end
        end
    end.
Proof.
  cbn [CLI.stabilityLoop]. unfold CLI.Exec_Run. run_monad.
  destruct (ctx_err rt w) as [e|]; [reflexivity|]. cbv zeta.
  destruct (PErr (fst (Run sh (CLI.inspectStateArgv (containerID c)) w))) as [e|].
  - destruct (CLI.PrintLogsOnFailure sh _ c _) as [xr xh xw xe]. cbn [prepend res hdl wld evs app].
    now rewrite app_nil_r.
  - destruct (Unmarshal sh _) as [state|e]; [|reflexivity].
    destruct (Running state); cbn [negb].
    + destruct (CLI.stabilityLoop rt sh n c _) as [xr xh xw xe]. reflexivity.
    + destruct (CLI.PrintLogsOnFailure sh _ c _) as [xr xh xw xe]. cbn [prepend res hdl wld evs app].
      now rewrite app_nil_r.
Qed.

Lemma cli_stabilityLoop_frame n c w :
  hdl (CLI.stabilityLoop rt sh n c w) = c.
Proof.
  revert w. induction n as [|n IH]; intros w; [reflexivity|].
  rewrite cli_stabilityLoop_step.
  destruct (ctx_err rt w); [reflexivity|]. cbv zeta.
  destruct (PErr (fst (Run sh (CLI.inspectStateArgv (containerID c)) w))) as [e|];
    cbn [hdl].
  - apply cli_PrintLogs_frame.
  - destruct (Unmarshal sh _) as [state|e]; [|reflexivity].
    destruct (Running state); cbn [hdl].
    + apply IH.
    + apply cli_PrintLogs_frame.
Qed.

Lemma cli_stabilityLoop_shape n c w :
  stable_run cli_is_check (cli_reports_running sh) n
    (res (CLI.stabilityLoop rt sh n c w)) (evs (CLI.stabilityLoop rt sh n c w)).
Proof.
  revert w. induction n as [|n IH]; intros w; [constructor|].
  rewrite cli_stabilityLoop_step.
  destruct (ctx_err rt w) as [e|]; [constructor|]. cbv zeta.
  destruct (PErr (fst (Run sh (CLI.inspectStateArgv (containerID c)) w))) as [e|] eqn:E.
  - cbn [res evs]. apply sr_failed; [reflexivity | cbn; now rewrite E |].
    constructor; [reflexivity | apply cli_PrintLogs_diag].
  - destruct (Unmarshal sh _) as [state|e] eqn:U.
    + destruct (Running state) eqn:R; cbn [res evs].
      * apply sr_running; [reflexivity | cbn; now rewrite E, U | apply IH].
      * apply sr_failed; [reflexivity | cbn; now rewrite E, U | apply cli_PrintLogs_diag].
    + cbn [res evs]. apply sr_failed; [reflexivity | cbn; now rewrite E, U | constructor].
Qed.

End StabilityLoops.

Section StabilityContract.
Variables is_check reports : Event -> bool.
Hypothesis check_not_sleep : forall e, is_check e = true -> is_sleep e = false.
Hypothesis check_not_ctx : forall e, is_check e = true -> is_ctx_check e = false.
Hypothesis check_not_log : forall s, is_check (EvGinkgo s) = false.

Lemma first_failure_app_none tr s :
  first_failure is_check reports tr = None ->
  first_failure is_check reports (tr ++ [EvGinkgo s]) = None.
Proof.
  induction tr as [|e tr IH]; cbn [app first_failure]; intros H.
  - now rewrite check_not_log.
  - destruct (is_check e && negb (reports e)); [discriminate|].
    destruct (first_failure is_check reports tr) as [[pre post]|]; [discriminate|].
    now rewrite IH.
Qed.

(** A run of [waitForStableState] is a line of log, a run of the loop with
    six rounds, and one more line when the loop ran to its end. *)
Lemma stable_run_contract {W} (o : Out Container W error) r tr s1 s2 :
  stable_run is_check reports 6 r tr ->
  res o = match r with Some err => err | None => None end ->
  evs o = EvGinkgo s1 :: tr ++ match r with Some _ => [] | None => [EvGinkgo s2] end ->
  stability_contract is_check reports o.
Proof.
  intros Hrun Hres Hevs. unfold stability_contract. rewrite Hevs, Hres.
  assert (Hfilter : List.filter is_check
            (EvGinkgo s1 :: tr ++ match r with Some _ => [] | None => [EvGinkgo s2] end)
          = List.filter is_check tr).
  { cbn [List.filter]. rewrite check_not_log, List.filter_app.
    destruct r; cbn [List.filter]; rewrite ?check_not_log; apply app_nil_r. }
  assert (Hsleep : count is_sleep
            (EvGinkgo s1 :: tr ++ match r with Some _ => [] | None => [EvGinkgo s2] end)
          = count is_sleep tr).
  { rewrite count_cons, count_app. destruct r; cbn; lia. }
  cbv zeta. rewrite Hfilter, Hsleep.
  destruct r as [err|].
  - destruct (stable_run_failure is_check reports check_not_sleep check_not_ctx
                _ _ _ Hrun ltac:(discriminate)) as ((m & [= ->]) & Hor).
    rewrite app_nil_r. cbn [first_failure]. rewrite check_not_log. cbn [andb].
    split; [|split; [|split; [|split]]].
    + split; [discriminate|]. intros (Hlen & Hall).
      destruct Hor as [Hlt|Hf]; [lia | congruence].
    + discriminate.
    + constructor; [discriminate|].
      apply (stable_run_sleeps is_check reports check_not_sleep _ _ _ Hrun).
    + intros pre post Hff.
      destruct (first_failure is_check reports tr) as [[pre' post']|] eqn:E; [|discriminate].
      injection Hff as <- <-.
      destruct (stable_run_first_failure is_check reports check_not_sleep check_not_ctx
                  _ _ _ _ _ Hrun E) as (_ & Hs & Hx & Hp & Hlt).
      rewrite !count_cons, check_not_log. cbn. repeat split; try assumption; discriminate.
    + intros e rest Hf He.
      destruct (stable_run_first_check is_check reports check_not_sleep check_not_ctx
                  _ _ _ _ _ Hrun Hf He) as (_ & Hz).
      split; [discriminate | exact Hz].
  - destruct (stable_run_success is_check reports check_not_sleep check_not_ctx
                _ _ _ Hrun eq_refl) as (Hlen & Hall & Hsl & Hff).
    cbn [first_failure]. rewrite check_not_log. cbn [andb].
    rewrite (first_failure_app_none _ s2 Hff).
    split; [|split; [|split; [|split]]].
    + split; auto.
    + auto.
    + constructor; [discriminate|]. apply List.Forall_app. split.
      * apply (stable_run_sleeps is_check reports check_not_sleep _ _ _ Hrun).
      * repeat constructor. discriminate.
    + discriminate.
    + intros e rest Hf He. rewrite Hf in Hall. cbn in Hall. rewrite He in Hall. discriminate.
Qed.

End StabilityContract.

(** ** Readiness probes *)

Lemma quiet_not_sleep e : is_quiet e = true -> is_sleep e = false.
Proof. unfold is_quiet. destruct (is_sleep e); [discriminate | reflexivity]. Qed.

Lemma quiet_not_ctx e : is_quiet e = true -> is_ctx_check e = false.
Proof.
  unfold is_quiet. destruct (is_ctx_check e); [|reflexivity].
  rewrite andb_false_r. discriminate.
Qed.

Lemma quiet_not_test e : is_quiet e = true -> is_test e = false.
Proof.
  unfold is_quiet. destruct (is_test e); [|reflexivity].
  rewrite andb_false_r. discriminate.
Qed.

Lemma diag_quiet e : is_diag e = true -> is_quiet e = true.
Proof.
  intros H. unfold is_quiet.
  now rewrite (diag_not_sleep _ H), (diag_not_ctx _ H), (diag_not_test _ H).
Qed.

Lemma sleep_profile_nonempty tr : sleep_profile tr <> [].
Proof.
  induction tr as [|e tr IH]; cbn [sleep_profile]; [discriminate|].
  destruct (is_test e); [discriminate|].
  destruct (sleep_profile tr); [contradiction | discriminate].
Qed.

Lemma sleep_profile_skip e tr :
  is_test e = false -> is_sleep e = false ->
  sleep_profile (e :: tr) = sleep_profile tr.
Proof.
  intros Ht Hs. cbn [sleep_profile]. rewrite Ht, Hs.
  pose proof (sleep_profile_nonempty tr). now destruct (sleep_profile tr).
Qed.

Lemma sleep_profile_quiet e tr :
  is_quiet e = true -> sleep_profile (e :: tr) = sleep_profile tr.
Proof.
  intros H. apply sleep_profile_skip; [now apply quiet_not_test | now apply quiet_not_sleep].
Qed.

Lemma sleep_profile_quiet_app q tr :
  List.Forall (fun e => is_quiet e = true) q ->
  sleep_profile (q ++ tr) = sleep_profile tr.
Proof.
  induction 1 as [|e q He _ IH]; [reflexivity|].
  cbn [app]. now rewrite sleep_profile_quiet.
Qed.

Lemma sleep_profile_length tr :
  List.length (sleep_profile tr) = Datatypes.S (count is_test tr).
Proof.
  induction tr as [|e tr IH]; [reflexivity|].
  cbn [sleep_profile]. rewrite count_cons.
  destruct (is_test e); cbn [List.length]; [now rewrite IH|].
  pose proof (sleep_profile_nonempty tr).
  destruct (sleep_profile tr); [contradiction|]. cbn [List.length] in *. lia.
Qed.

Lemma sleep_profile_sum tr :
  list_sum (sleep_profile tr) = count is_sleep tr.
Proof.
  induction tr as [|e tr IH]; [reflexivity|].
  cbn [sleep_profile]. rewrite count_cons.
  destruct (is_test e) eqn:T.
  - destruct e; try discriminate. cbn. exact IH.
  - pose proof (sleep_profile_nonempty tr).
    destruct (sleep_profile tr) as [|k ks]; [contradiction|].
    destruct (is_sleep e); simpl in *; lia.
Qed.

Lemma list_sum_repeat_1 m : list_sum (repeat 1%nat m ++ [0%nat]) = m.
Proof. induction m as [|m IH]; simpl; [reflexivity | now f_equal]. Qed.

Lemma exhausted_of_profile N delay tr :
  sleep_profile tr = exhausted_profile N ->
  List.Forall (fun e => is_sleep e = true -> e = EvSleep delay) tr ->
  exhausted N delay tr.
Proof.
  intros Hp Hs. unfold exhausted.
  pose proof (sleep_profile_length tr) as Hl.
  pose proof (sleep_profile_sum tr) as Hsum.
  rewrite Hp in Hl, Hsum. unfold exhausted_profile in Hl, Hsum.
  destruct (Z.to_nat N) as [|m].
  - cbn in Hl, Hsum. repeat split; [lia | lia | exact Hp | exact Hs].
  - change (list_sum (0%nat :: repeat 1%nat m ++ [0%nat]))
      with (list_sum (repeat 1%nat m ++ [0%nat])) in Hsum.
    rewrite list_sum_repeat_1 in Hsum.
    cbn [List.length] in Hl. rewrite List.length_app, List.repeat_length in Hl.
    cbn in Hl.
    repeat split; [lia | lia | exact Hp | exact Hs].
Qed.

Section SQLServerProbe.
Context {W : Type} (rt : Runtime W) (db : Database W).

Lemma sql_testConnection_trace s w :
  hdl (SQLServer.testConnection db s w) = s
  /\ exists t, evs (SQLServer.testConnection db s w) = EvCall "testConnection" :: t
               /\ List.Forall (fun e => is_quiet e = true) t.
Proof.
  unfold SQLServer.testConnection. run_monad.
  repeat (break_match; cbn [prepend res hdl wld evs fst snd app]);
    (split; [reflexivity|]); eexists; (split; [reflexivity|]); repeat constructor.
Qed.

Lemma sql_readyLoop_step N d n i s w :
  SQLServer.readyLoop rt db N d (Datatypes.S n) i s w =
    match ctx_err rt w with
    | Some e => mkOut (Some (Some e)) s w [EvCtxDone (Some e)]
    | None =>
        let t := SQLServer.testConnection db s w in
        if res t then mkOut (Some None) (hdl t) (wld t) (EvCtxDone None :: evs t)
        else
          let sl := (i <? N - 1)%Z in
          let o := SQLServer.readyLoop rt db N d n (i + 1) (hdl t)
                     (if sl then time_Sleep rt d (wld t) else wld t) in
          mkOut (res o) (hdl o) (wld o)
                (EvCtxDone None :: evs t ++ (if sl then [EvSleep d] else []) ++ evs o)
    end.
Proof.
  cbn [SQLServer.readyLoop]. unfold ctxDone. rewrite bind_call. cbn [fst snd].
  destruct (ctx_err rt w) as [e|]; [reflexivity|]. cbv zeta.
  unfold bind at 1.
  destruct (SQLServer.testConnection db s w) as [ok ts tw te]. cbn [res hdl wld evs].
  destruct ok.
  - unfold ret. cbn [prepend app]. now rewrite app_nil_r.
  - unfold bind, ret, Sleep. destruct (i <? N - 1)%Z.
    + destruct (SQLServer.readyLoop rt db N d n (i + 1) ts _) as [xr xh xw xe].
      reflexivity.
    + destruct (SQLServer.readyLoop rt db N d n (i + 1) ts _) as [xr xh xw xe].
      reflexivity.
Qed.

End SQLServerProbe.

Lemma sleep_profile_test tr :
  sleep_profile (EvCall "testConnection" :: tr) = 0%nat :: sleep_profile tr.
Proof. reflexivity. Qed.

Lemma quiet_sleeps delay (t : list Event) :
  List.Forall (fun e => is_quiet e = true) t ->
  List.Forall (fun e => is_sleep e = true -> e = EvSleep delay) t.
Proof.
  intros H. eapply List.Forall_impl; [|exact H]. cbn. intros e He Hs.
  rewrite (quiet_not_sleep _ He) in Hs. discriminate.
Qed.

Section SQLServerExhausted.
Context {W : Type} (rt : Runtime W) (db : Database W).
Hypothesis ctx_live : forall w, ctx_err rt w = None.
Hypothesis never_ready : forall s w, res (SQLServer.testConnection db s w) = false.

Lemma sql_readyLoop_exhausted N d n i s w :
  (i + Z.of_nat n = N)%Z ->
  let o := SQLServer.readyLoop rt db N d n i s w in
  res o = None /\ hdl o = s
  /\ sleep_profile (evs o)
     = match n with
       | O => [0%nat]
       | Datatypes.S m => 0%nat :: repeat 1%nat m ++ [0%nat]
       end
  /\ List.Forall (fun e => is_sleep e = true -> e = EvSleep d) (evs o).
Proof.
  revert i s w. induction n as [|n IH]; intros i s w Hi.
  - cbn. repeat split. constructor.
  - cbv zeta. rewrite sql_readyLoop_step, ctx_live. cbv zeta. rewrite never_ready.
    destruct (sql_testConnection_trace db s w) as (Hh & t & Ht & Hq).
    rewrite Ht, Hh. cbn [res hdl evs].
    set (w' := if (i <? N - 1)%Z then _ else _).
    destruct (IH (i + 1)%Z s w' ltac:(lia)) as (Hr & Hs & Hp & Hf).
    split; [exact Hr|]. split; [exact Hs|]. split.
    + rewrite sleep_profile_skip by reflexivity.
      cbn [app]. rewrite sleep_profile_test, sleep_profile_quiet_app by exact Hq.
      destruct n as [|m].
      * replace (i <? N - 1)%Z with false by (symmetry; apply Z.ltb_ge; lia).
        cbn [app]. rewrite Hp. reflexivity.
      * replace (i <? N - 1)%Z with true by (symmetry; apply Z.ltb_lt; lia).
        cbn [app sleep_profile is_test is_sleep]. rewrite Hp. reflexivity.
    + constructor; [discriminate|]. cbn [app]. constructor; [discriminate|].
      apply List.Forall_app. split; [now apply quiet_sleeps|].
      apply List.Forall_app. split; [|exact Hf].
      destruct (i <? N - 1)%Z; repeat constructor.
Qed.

Lemma sql_waitForReady_exhausted N d s w :
  (0 <= N)%Z ->
  let o := SQLServer.waitForReadyWith rt db N d s w in
  res o = Some ("SQL Server failed to become ready after " +:+ itoa N +:+ " attempts")
  /\ hdl o = s
  /\ exhausted N d (evs o).
Proof.
  intros HN. cbv zeta. unfold SQLServer.waitForReadyWith.
  destruct (sql_readyLoop_exhausted N d (Z.to_nat N) 0 s w ltac:(lia)) as (Hr & Hs & Hp & Hf).
  rewrite res_bind, hdl_bind, evs_bind, Hr. cbn [ret res hdl evs]. rewrite app_nil_r.
  split; [reflexivity|]. split; [exact Hs|].
  apply exhausted_of_profile; [|exact Hf]. exact Hp.
Qed.

End SQLServerExhausted.

Lemma set_base_base a : ActiveMQ.set_base (ActiveMQ.base a) a = a.
Proof. now destruct a. Qed.

Section ActiveMQProbe.
Context {W : Type} (rt : Runtime W) (net : Network W).
Context (PL : string -> M Container W unit).
Hypothesis PL_frame : forall reason c w, hdl (PL reason c w) = c.
Hypothesis PL_diag :
  forall reason c w, List.Forall (fun e => is_diag e = true) (evs (PL reason c w)).

Lemma amq_testConnection_trace a w :
  hdl (ActiveMQ.testConnection net a w) = a
  /\ exists t, evs (ActiveMQ.testConnection net a w) = EvCall "testConnection" :: t
               /\ List.Forall (fun e => is_quiet e = true) t.
Proof.
  unfold ActiveMQ.testConnection, ActiveMQ.Infof, ActiveMQ.Errorf, embed. run_monad.
  repeat (break_match; cbn [prepend res hdl wld evs fst snd app]);
    rewrite ?set_base_base;
    (split; [reflexivity|]); eexists; (split; [reflexivity|]); repeat constructor.
Qed.

Lemma amq_Infof msg a (w : W) :
  ActiveMQ.Infof msg a w = mkOut tt a w [infoLine (ActiveMQ.base a) msg].
Proof.
  unfold ActiveMQ.Infof, embed, Infof. rewrite bind_get. unfold tell.
  now rewrite set_base_base.
Qed.

Lemma amq_Errorf msg a (w : W) :
  ActiveMQ.Errorf msg a w = mkOut tt a w [errorLine (ActiveMQ.base a) msg].
Proof.
  unfold ActiveMQ.Errorf, embed, Errorf. rewrite bind_get. unfold tell.
  now rewrite set_base_base.
Qed.

Lemma amq_PrintLogs reason a w :
  ActiveMQ.PrintLogsOnFailure PL reason a w
  = mkOut tt a (wld (PL reason (ActiveMQ.base a) w)) (evs (PL reason (ActiveMQ.base a) w)).
Proof.
  unfold ActiveMQ.PrintLogsOnFailure, embed.
  pose proof (PL_frame reason (ActiveMQ.base a) w) as Hp.
  destruct (PL reason (ActiveMQ.base a) w) as [[] ph pw pe].
  cbn [res hdl wld evs] in *. subst ph. now rewrite set_base_base.
Qed.

Lemma amq_readyLoop_step N d n i a w :
  ActiveMQ.readyLoop rt net PL N d (Datatypes.S n) i a w =
    match ctx_err rt w with
    | Some e =>
        mkOut (Some (Some e)) a w
              [EvCtxDone (Some e);
               infoLine (ActiveMQ.base a) "Context cancelled during readiness check"]
    | None =>
        let t := ActiveMQ.testConnection net a w in
        let attempt := infoLine (ActiveMQ.base a)
                         ("Readiness check attempt " +:+ itoa (i + 1) +:+ "/" +:+ itoa N) in
        if res t then
          mkOut (Some None) a (wld t)
                (EvCtxDone None :: attempt :: evs t
                 ++ [infoLine (ActiveMQ.base a)
                       ("Readiness check passed after " +:+ itoa (i + 1) +:+ " attempts")])
        else
          let dg := (0 <? i)%Z && (Z.rem (i + 1) 10 =? 0)%Z in
          let p := PL ("ActiveMQ readiness check failing after " +:+ itoa (i + 1)
                       +:+ " attempts") (ActiveMQ.base a) (wld t) in
          let w1 := if dg then wld p else wld t in
          let e1 := if dg
                    then infoLine (ActiveMQ.base a)
                           ("Printing container logs for debugging after "
                            +:+ itoa (i + 1) +:+ " failed attempts") :: evs p
                    else [] in
          let sl := (i <? N - 1)%Z in
          let w2 := if sl then time_Sleep rt d w1 else w1 in
          let e2 := if sl
                    then [infoLine (ActiveMQ.base a)
                            ("Readiness check failed, waiting " +:+ fmtDuration d
                             +:+ " before retry...");
                          EvSleep d]
                    else [] in
          prepend (EvCtxDone None :: attempt :: evs t ++ e1 ++ e2)
                  (ActiveMQ.readyLoop rt net PL N d n (i + 1) a w2)
    end.
Proof.
  cbn [ActiveMQ.readyLoop]. unfold ctxDone. rewrite bind_call. cbn [fst snd].
  destruct (ctx_err rt w) as [e|].
  - rewrite (bind_out _ _ _ _ _ _ _ _ (amq_Infof _ a w)). reflexivity.
  - rewrite (bind_out _ _ _ _ _ _ _ _ (amq_Infof _ a w)). cbv zeta.
    unfold bind at 1.
    destruct (amq_testConnection_trace a w) as (Hh & _).
    destruct (ActiveMQ.testConnection net a w) as [ok ta tw te].
    cbn [res hdl wld evs] in *. subst ta. destruct ok.
    + rewrite (bind_out _ _ _ _ _ _ _ _ (amq_Infof _ a tw)).
      unfold ret. cbn [prepend app]. reflexivity.
    + unfold bind at 1.
      destruct ((0 <? i)%Z && (Z.rem (i + 1) 10 =? 0)%Z).
      * rewrite (bind_out _ _ _ _ _ _ _ _ (amq_Infof _ a tw)).
        rewrite amq_PrintLogs. cbn [prepend app].
        unfold bind at 1. destruct (i <? N - 1)%Z.
        -- rewrite (bind_out _ _ _ _ _ _ _ _ (amq_Infof _ a _)).
           unfold Sleep. cbn [prepend app].
           rewrite !prepend_prepend. f_equal.
           cbn [app]. rewrite <- !app_assoc. reflexivity.
        -- unfold ret. rewrite !prepend_prepend. f_equal.
           cbn [app]. rewrite <- !app_assoc. reflexivity.
      * unfold ret at 1. unfold bind at 1. destruct (i <? N - 1)%Z.
        -- rewrite (bind_out _ _ _ _ _ _ _ _ (amq_Infof _ a _)).
           unfold Sleep. cbn [prepend app].
           rewrite !prepend_prepend. f_equal.
           cbn [app]. rewrite <- !app_assoc. reflexivity.
        -- unfold ret. rewrite !prepend_prepend. f_equal.
           cbn [app]. rewrite <- !app_assoc. reflexivity.
Qed.

End ActiveMQProbe.

Lemma sleep_profile_app_quiet tr q :
  List.Forall (fun e => is_quiet e = true) q ->
  sleep_profile (tr ++ q) = sleep_profile tr.
Proof.
  intros Hq. induction tr as [|e tr IH]; cbn [app].
  - rewrite <- (app_nil_r q). now apply sleep_profile_quiet_app.
  - cbn [sleep_profile]. now rewrite IH.
Qed.

Section ActiveMQExhausted.
Context {W : Type} (rt : Runtime W) (net : Network W).
Context (PL : string -> M Container W unit).
Hypothesis PL_frame : forall reason c w, hdl (PL reason c w) = c.
Hypothesis PL_diag :
  forall reason c w, List.Forall (fun e => is_diag e = true) (evs (PL reason c w)).
Hypothesis ctx_live : forall w, ctx_err rt w = None.
Hypothesis never_ready : forall a w, res (ActiveMQ.testConnection net a w) = false.

Lemma PL_quiet reason c w :
  List.Forall (fun e => is_quiet e = true) (evs (PL reason c w)).
Proof.
  eapply List.Forall_impl; [|apply PL_diag]. intros e. apply diag_quiet.
Qed.

Lemma amq_readyLoop_exhausted N d n i a w :
  (i + Z.of_nat n = N)%Z ->
  let o := ActiveMQ.readyLoop rt net PL N d n i a w in
  res o = None /\ hdl o = a
  /\ sleep_profile (evs o)
     = match n with
       | O => [0%nat]
       | Datatypes.S m => 0%nat :: repeat 1%nat m ++ [0%nat]
       end
  /\ List.Forall (fun e => is_sleep e = true -> e = EvSleep d) (evs o).
Proof.
  revert i a w. induction n as [|n IH]; intros i a w Hi.
  - cbn. repeat split. constructor.
  - cbv zeta. rewrite (amq_readyLoop_step rt net PL PL_frame), ctx_live.
    cbv zeta. rewrite never_ready.
    destruct (amq_testConnection_trace net a w) as (Hh & t & Ht & Hq).
    rewrite Ht. rewrite res_prepend, hdl_prepend, evs_prepend.
    set (p := PL _ (ActiveMQ.base a) _).
    set (dg := (0 <? i)%Z && _).
    set (w2 := if (i <? N - 1)%Z then _ else _).
    destruct (IH (i + 1)%Z a w2 ltac:(lia)) as (Hr & Hs & Hp & Hf).
    split; [exact Hr|]. split; [exact Hs|].
    assert (He1 : List.Forall (fun e => is_quiet e = true)
                    (if dg then infoLine (ActiveMQ.base a)
                                  ("Printing container logs for debugging after "
                                   +:+ itoa (i + 1) +:+ " failed attempts") :: evs p
                     else [])).
    { destruct dg; [|constructor]. constructor; [reflexivity | apply PL_quiet]. }
    split.
    + cbn [app]. rewrite sleep_profile_skip by reflexivity.
      rewrite sleep_profile_skip by reflexivity.
      rewrite sleep_profile_test. rewrite <- !app_assoc.
      rewrite sleep_profile_quiet_app by exact Hq.
      rewrite sleep_profile_quiet_app by exact He1.
      destruct n as [|m].
      * replace (i <? N - 1)%Z with false by (symmetry; apply Z.ltb_ge; lia).
        cbn [app]. rewrite Hp. reflexivity.
      * replace (i <? N - 1)%Z with true by (symmetry; apply Z.ltb_lt; lia).
        cbn [app]. rewrite sleep_profile_skip by reflexivity.
        cbn [sleep_profile is_test is_sleep]. rewrite Hp. reflexivity.
    + cbn [app]. constructor; [discriminate|]. constructor; [discriminate|].
      constructor; [discriminate|]. rewrite <- !app_assoc.
      apply List.Forall_app. split; [now apply quiet_sleeps|].
      apply List.Forall_app. split; [now apply quiet_sleeps|].
      apply List.Forall_app. split; [|exact Hf].
      destruct (i <? N - 1)%Z; repeat constructor. discriminate.
Qed.

Lemma amq_waitForReady_exhausted N d a w :
  (0 <= N)%Z ->
  let o := ActiveMQ.waitForReadyWith rt net PL N d a w in
  res o = Some ("ActiveMQ failed to become ready after " +:+ itoa N +:+ " attempts")
  /\ hdl o = a
  /\ exhausted N d (evs o).
Proof.
  intros HN. cbv zeta. unfold ActiveMQ.waitForReadyWith.
  rewrite (bind_out _ _ _ _ _ _ _ _ (amq_Infof _ a w)).
  rewrite res_prepend, hdl_prepend, evs_prepend.
  destruct (amq_readyLoop_exhausted N d (Z.to_nat N) 0 a w ltac:(lia)) as (Hr & Hs & Hp & Hf).
  rewrite res_bind, hdl_bind, evs_bind, Hr, Hs.
  rewrite (bind_out _ _ _ _ _ _ _ _ (amq_Errorf _ a _)).
  rewrite res_prepend, hdl_prepend, evs_prepend.
  rewrite res_bind, hdl_bind, evs_bind.
  rewrite (amq_PrintLogs PL PL_frame). cbn [ret res hdl wld evs].
  split; [reflexivity|]. split; [reflexivity|].
  rewrite app_nil_r.
  set (p := PL _ (ActiveMQ.base a) _).
  assert (Htail : List.Forall (fun e => is_quiet e = true)
                    ([errorLine (ActiveMQ.base a)
                        ("Readiness check failed after " +:+ itoa N +:+ " attempts")]
                     ++ evs p)).
  { constructor; [reflexivity | apply PL_quiet]. }
  apply exhausted_of_profile.
  - cbn [app]. rewrite sleep_profile_skip by reflexivity.
    rewrite sleep_profile_app_quiet by exact Htail. exact Hp.
  - cbn [app]. constructor; [discriminate|].
    apply List.Forall_app. split; [exact Hf | now apply quiet_sleeps].
Qed.

End ActiveMQExhausted.

(** C3. A readiness probe with a budget of [N] attempts whose predicate
    never holds, the context staying live, invokes the predicate exactly [N]
    times, sleeps the fixed delay between consecutive attempts and not after
    the last one ([N - 1] sleeps, placed as [exhausted_profile] says), and
    returns the error "... failed to become ready after N attempts".  The
    SQL Server probe has [N = 30], the ActiveMQ probe [N = 60], both with a
    delay of 2 seconds. *)
Theorem C3_readiness_exhausted :
  forall (W : Type) (rt : Runtime W) (db : Database W) (net : Network W)
         (cl : Client W) (sh : Shell W) (N delay : Z),
    (0 <= N)%Z ->
    (forall w, ctx_err rt w = None) ->
    ((forall s w, res (SQLServer.testConnection db s w) = false) ->
     forall s w,
       let o := SQLServer.waitForReadyWith rt db N delay s w in
       res o = Some ("SQL Server failed to become ready after " +:+ itoa N +:+ " attempts")
       /\ exhausted N delay (evs o))
    /\ ((forall a w, res (ActiveMQ.testConnection net a w) = false) ->
        forall a w,
          (let o := ActiveMQ.waitForReadyWith rt net (API.PrintLogsOnFailure cl)
                      N delay a w in
           res o = Some ("ActiveMQ failed to become ready after " +:+ itoa N
                         +:+ " attempts")
           /\ exhausted N delay (evs o))
          /\ (let o := ActiveMQ.waitForReadyWith rt net (CLI.PrintLogsOnFailure sh)
                         N delay a w in
              res o = Some ("ActiveMQ failed to become ready after " +:+ itoa N
                            +:+ " attempts")
              /\ exhausted N delay (evs o)))
    /\ SQLServer.waitForReady rt db = SQLServer.waitForReadyWith rt db 30 2000
    /\ (forall PL, ActiveMQ.waitForReady rt net PL = ActiveMQ.waitForReadyWith rt net PL 60 2000).
Proof.
  intros W rt db net cl sh N delay HN Hctx.
  split; [|split; [|split]].
  - intros Hsql s w.
    destruct (sql_waitForReady_exhausted rt db Hctx Hsql N delay s w HN) as (Hr & _ & He).
    split; assumption.
  - intros Hamq a w. split.
    + destruct (amq_waitForReady_exhausted rt net (API.PrintLogsOnFailure cl)
                  (api_PrintLogs_frame cl) (api_PrintLogs_diag cl) Hctx Hamq N delay a w HN)
        as (Hr & _ & He).
      split; assumption.
    + destruct (amq_waitForReady_exhausted rt net (CLI.PrintLogsOnFailure sh)
                  (cli_PrintLogs_frame sh) (cli_PrintLogs_diag sh) Hctx Hamq N delay a w HN)
        as (Hr & _ & He).
      split; assumption.
  - reflexivity.
  - reflexivity.
Qed.

Lemma C3_readiness_exhausted_witness :
  (let o := SQLServer.waitForReady Toy.background Toy.database_down Toy.sqlserver Toy.w0 in
   res o = Some "SQL Server failed to become ready after 30 attempts"
   /\ count is_test (evs o) = 30%nat
   /\ count is_sleep (evs o) = 29%nat)
  /\ (let o := ActiveMQ.waitForReady Toy.background Toy.network_down
                 (API.PrintLogsOnFailure Toy.client) Toy.activemq Toy.w0 in
      res o = Some "ActiveMQ failed to become ready after 60 attempts"
      /\ count is_test (evs o) = 60%nat
      /\ count is_sleep (evs o) = 59%nat).
Proof.
  assert (Hamq : forall a w, res (ActiveMQ.testConnection Toy.network_down a w) = false).
  { intros a w. unfold ActiveMQ.testConnection, ActiveMQ.Infof, ActiveMQ.Errorf, embed.
    unfold Errorf, Infof, bind, get, tell, call, ret.
    cbn [prepend res hdl wld evs fst snd].
    destruct (String.eqb (ActiveMQ.webConsoleURL a) ""); reflexivity. }
  destruct (C3_readiness_exhausted Toy.World Toy.background Toy.database_down
              Toy.network_down Toy.client Toy.shell 30 2000
              ltac:(lia) (fun _ => eq_refl))
    as (Hsql & _ & Heq & _).
  destruct (C3_readiness_exhausted Toy.World Toy.background Toy.database_down
              Toy.network_down Toy.client Toy.shell 60 2000
              ltac:(lia) (fun _ => eq_refl))
    as (_ & Hmq & _ & Heq').
  split; cbv zeta.
  - rewrite Heq.
    destruct (Hsql (fun _ _ => eq_refl) Toy.sqlserver Toy.w0) as (Hr & Ht & Hs & _).
    split; [exact Hr | split; [exact Ht | exact Hs]].
  - rewrite Heq'.
    destruct (Hmq Hamq Toy.activemq Toy.w0) as ((Hr & Ht & Hs & _) & _).
    split; [exact Hr | split; [exact Ht | exact Hs]].
Defined.

(** ** Cancellation *)

Lemma quiet_no_ctx (t : list Event) x :
  List.Forall (fun e => is_quiet e = true) t -> ~ In (EvCtxDone x) t.
Proof.
  intros H Hin. rewrite List.Forall_forall in H. apply H in Hin. discriminate.
Qed.

Section CancelledStability.
Variables is_check reports : Event -> bool.
Hypothesis check_not_sleep : forall e, is_check e = true -> is_sleep e = false.
Hypothesis check_not_ctx : forall e, is_check e = true -> is_ctx_check e = false.

(** A run of [waitForStableState] that found the context done. *)
Lemma stable_run_cancelled_run {W} (o : Out Container W error) r tr s1 s2 e :
  stable_run is_check reports 6 r tr ->
  res o = match r with Some err => err | None => None end ->
  evs o = EvGinkgo s1 :: tr ++ match r with Some _ => [] | None => [EvGinkgo s2] end ->
  In (EvCtxDone (Some e)) (evs o) ->
  res o = Some e /\ exists pre, evs o = (pre ++ [EvCtxDone (Some e)])%list.
Proof.
  intros Hrun Hres Hevs Hin. rewrite Hevs in Hin. destruct Hin as [[=]|Hin].
  apply in_app_or in Hin. destruct Hin as [Hin|Hin].
  - destruct (stable_run_cancelled is_check reports check_not_ctx _ _ _ _ Hrun Hin)
      as (-> & pre & ->).
    rewrite Hres, Hevs, app_nil_r. split; [reflexivity|].
    now exists (EvGinkgo s1 :: pre).
  - destruct r; [destruct Hin|]. destruct Hin as [[=]|[]].
Qed.

End CancelledStability.

Section CancelledProbes.
Context {W : Type} (rt : Runtime W) (db : Database W) (net : Network W).
Context (PL : string -> M Container W unit).
Hypothesis PL_frame : forall reason c w, hdl (PL reason c w) = c.
Hypothesis PL_diag :
  forall reason c w, List.Forall (fun e => is_diag e = true) (evs (PL reason c w)).

Lemma sql_readyLoop_cancelled N d n i s w e :
  let o := SQLServer.readyLoop rt db N d n i s w in
  In (EvCtxDone (Some e)) (evs o) ->
  res o = Some (Some e) /\ exists pre, evs o = (pre ++ [EvCtxDone (Some e)])%list.
Proof.
  revert i s w. induction n as [|n IH]; intros i s w; cbv zeta.
  - intros [].
  - rewrite sql_readyLoop_step.
    destruct (ctx_err rt w) as [e'|].
    + intros [[= ->]|[]]. split; [reflexivity|]. now exists [].
    + cbv zeta.
      destruct (sql_testConnection_trace db s w) as (_ & t & Ht & Hq).
      assert (Hno : ~ In (EvCtxDone (Some e)) (evs (SQLServer.testConnection db s w))).
      { rewrite Ht. intros [[=]|Hin]. exact (quiet_no_ctx _ _ Hq Hin). }
      destruct (res (SQLServer.testConnection db s w)); cbn [res evs].
      * intros [[=]|Hin]. contradiction.
      * intros [[=]|Hin].
        apply in_app_or in Hin. destruct Hin as [Hin|Hin]; [contradiction|].
        apply in_app_or in Hin. destruct Hin as [Hin|Hin].
        { destruct (i <? N - 1)%Z; [destruct Hin as [[=]|[]] | destruct Hin]. }
        destruct (IH _ _ _ Hin) as (Hr & pre & Hpre).
        split; [exact Hr|]. rewrite Hpre.
        rewrite !app_assoc, app_comm_cons. eexists. reflexivity.
Qed.

Lemma sql_waitForReady_cancelled N d s w e :
  let o := SQLServer.waitForReadyWith rt db N d s w in
  In (EvCtxDone (Some e)) (evs o) ->
  res o = Some e /\ exists pre, evs o = (pre ++ [EvCtxDone (Some e)])%list.
Proof.
  cbv zeta. unfold SQLServer.waitForReadyWith. rewrite res_bind, evs_bind.
  intros Hin. apply in_app_or in Hin. destruct Hin as [Hin|Hin].
  - destruct (sql_readyLoop_cancelled _ _ _ _ _ _ _ Hin) as (Hr & pre & Hpre).
    rewrite Hr, Hpre. cbn [ret res evs]. rewrite app_nil_r. eauto.
  - destruct (res (SQLServer.readyLoop rt db N d (Z.to_nat N) 0 s w)); destruct Hin.
Qed.

Lemma amq_readyLoop_cancelled N d n i a w e :
  let o := ActiveMQ.readyLoop rt net PL N d n i a w in
  In (EvCtxDone (Some e)) (evs o) ->
  res o = Some (Some e) /\ hdl o = a
  /\ exists pre,
       evs o = (pre ++ [EvCtxDone (Some e);
                        infoLine (ActiveMQ.base a)
                          "Context cancelled during readiness check"])%list.
Proof.
  revert i w. induction n as [|n IH]; intros i w; cbv zeta.
  - intros [].
  - rewrite (amq_readyLoop_step rt net PL PL_frame).
    destruct (ctx_err rt w) as [e'|].
    + intros [[= ->]|[[=]|[]]]. split; [reflexivity|]. split; [reflexivity|]. now exists [].
    + cbv zeta.
      destruct (amq_testConnection_trace net a w) as (_ & t & Ht & Hq).
      assert (Hno : ~ In (EvCtxDone (Some e)) (evs (ActiveMQ.testConnection net a w))).
      { rewrite Ht. intros [[=]|Hin]. exact (quiet_no_ctx _ _ Hq Hin). }
      destruct (res (ActiveMQ.testConnection net a w)); cbn [res evs].
      * intros [[=]|[[=]|Hin]].
        apply in_app_or in Hin. destruct Hin as [Hin|[[=]|[]]]. contradiction.
      * rewrite res_prepend, hdl_prepend, evs_prepend.
        intros Hin. apply in_app_or in Hin. destruct Hin as [Hin|Hin].
        { exfalso. destruct Hin as [[=]|[[=]|Hin]].
          apply in_app_or in Hin. destruct Hin as [Hin|Hin]; [contradiction|].
          apply in_app_or in Hin. destruct Hin as [Hin|Hin].
          - destruct (_ && _); [|destruct Hin]. destruct Hin as [[=]|Hin].
            eapply quiet_no_ctx; [|exact Hin].
            eapply List.Forall_impl; [|apply PL_diag]. intros x. apply diag_quiet.
          - destruct (i <? N - 1)%Z; [|destruct Hin]. destruct Hin as [[=]|[[=]|[]]]. }
        destruct (IH _ _ Hin) as (Hr & Hh & pre & Hpre).
        split; [exact Hr|]. split; [exact Hh|]. rewrite Hpre.
        rewrite app_assoc. eexists. reflexivity.
Qed.

Lemma amq_waitForReady_cancelled N d a w e :
  let o := ActiveMQ.waitForReadyWith rt net PL N d a w in
  In (EvCtxDone (Some e)) (evs o) ->
  res o = Some e
  /\ exists pre,
       evs o = (pre ++ [EvCtxDone (Some e);
                        infoLine (ActiveMQ.base a)
                          "Context cancelled during readiness check"])%list.
Proof.
  cbv zeta. unfold ActiveMQ.waitForReadyWith.
  rewrite (bind_out _ _ _ _ _ _ _ _ (amq_Infof _ a w)).
  rewrite res_prepend, evs_prepend, res_bind, evs_bind.
  intros Hin. apply in_app_or in Hin. destruct Hin as [[[=]|[]]|Hin].
  apply in_app_or in Hin. destruct Hin as [Hin|Hin].
  - destruct (amq_readyLoop_cancelled _ _ _ _ _ _ _ Hin) as (Hr & Hh & pre & Hpre).
    rewrite Hr, Hpre. cbn [ret res evs]. rewrite app_nil_r. split; [reflexivity|].
    rewrite app_assoc. eexists. reflexivity.
  - exfalso.
    destruct (res (ActiveMQ.readyLoop rt net PL N d (Z.to_nat N) 0 a w)); [destruct Hin|].
    rewrite (bind_out _ _ _ _ _ _ _ _ (amq_Errorf _ _ _)) in Hin.
    rewrite evs_prepend, evs_bind in Hin.
    rewrite (amq_PrintLogs PL PL_frame) in Hin. cbn [ret res hdl wld evs] in Hin.
    rewrite app_nil_r in Hin.
    apply in_app_or in Hin. destruct Hin as [[[=]|[]]|Hin].
    eapply quiet_no_ctx; [|exact Hin].
    eapply List.Forall_impl; [|apply PL_diag]. intros x. apply diag_quiet.
Qed.

End CancelledProbes.

Section RoundsStartWithCheck.
Context {W : Type} (rt : Runtime W) (cl : Client W) (sh : Shell W).
Context (db : Database W) (net : Network W).

Lemma api_round_checks_first n c w :
  exists rest, evs (API.stabilityLoop rt cl (Datatypes.S n) c w)
               = EvCtxDone (ctx_err rt w) :: rest.
Proof.
  rewrite api_stabilityLoop_step.
  destruct (ctx_err rt w); [eexists; reflexivity|]. cbv zeta.
  destruct (fst (ContainerInspect cl (containerID c) w)) as [inspect|e].
  - destruct (Running (State inspect)); eexists; reflexivity.
  - eexists; reflexivity.
Qed.

Lemma cli_round_checks_first n c w :
  exists rest, evs (CLI.stabilityLoop rt sh (Datatypes.S n) c w)
               = EvCtxDone (ctx_err rt w) :: rest.
Proof.
  rewrite cli_stabilityLoop_step.
  destruct (ctx_err rt w); [eexists; reflexivity|]. cbv zeta.
  destruct (PErr (fst (Run sh (CLI.inspectStateArgv (containerID c)) w))).
  - eexists; reflexivity.
  - destruct (Unmarshal sh _) as [state|e]; [|eexists; reflexivity].
    destruct (Running state); eexists; reflexivity.
Qed.

Lemma sql_round_checks_first N d n i s w :
  exists rest, evs (SQLServer.readyLoop rt db N d (Datatypes.S n) i s w)
               = EvCtxDone (ctx_err rt w) :: rest.
Proof.
  rewrite sql_readyLoop_step.
  destruct (ctx_err rt w); [eexists; reflexivity|]. cbv zeta.
  destruct (res (SQLServer.testConnection db s w)); eexists; reflexivity.
Qed.

Lemma amq_round_cancelled PL N d n i a w e :
  ctx_err rt w = Some e ->
  ActiveMQ.readyLoop rt net PL N d (Datatypes.S n) i a w
  = mkOut (Some (Some e)) a w
          [EvCtxDone (Some e);
           infoLine (ActiveMQ.base a) "Context cancelled during readiness check"].
Proof.
  intros H. cbn [ActiveMQ.readyLoop]. unfold ctxDone. rewrite bind_call. cbn [fst snd].
  rewrite H. rewrite (bind_out _ _ _ _ _ _ _ _ (amq_Infof _ a w)). reflexivity.
Qed.

Lemma amq_round_checks_first PL N d n i a w :
  exists rest, evs (ActiveMQ.readyLoop rt net PL N d (Datatypes.S n) i a w)
               = EvCtxDone (ctx_err rt w) :: rest.
Proof.
  cbn [ActiveMQ.readyLoop]. unfold ctxDone. rewrite bind_call. cbn [fst snd].
  rewrite evs_prepend. eexists. reflexivity.
Qed.

End RoundsStartWithCheck.

(** ** Start on the reuse path *)

Lemma lookupByName_spec name containers ctr :
  API.lookupByName name containers = Some ctr ->
  In ctr containers
  /\ exists n, In n (Names ctr) /\ TrimPrefix n "/" = name.
Proof.
  induction containers as [|c0 rest IH]; cbn [API.lookupByName]; [discriminate|].
  destruct (existsb _ (Names c0)) eqn:E.
  - intros [= <-]. split; [now left|].
    apply List.existsb_exists in E. destruct E as (n & Hn & Heq).
    exists n. split; [exact Hn|]. now apply String.eqb_eq.
  - intros H. destruct (IH H) as (Hin & Hex). split; [now right | exact Hex].
Qed.

Lemma lookupByName_finds name containers ctr0 n :
  In ctr0 containers -> In n (Names ctr0) -> TrimPrefix n "/" = name ->
  exists ctr, API.lookupByName name containers = Some ctr.
Proof.
  induction containers as [|c0 rest IH]; intros Hin Hn Heq; [destruct Hin|].
  cbn [API.lookupByName]. destruct (existsb _ (Names c0)) eqn:E; [eauto|].
  destruct Hin as [->|Hin]; [|now apply IH].
  exfalso. rewrite <- Bool.not_true_iff_false in E. apply E.
  apply List.existsb_exists. exists n. split; [exact Hn|]. now apply String.eqb_eq.
Qed.

Section ReuseFacts.
Context {W : Type} (rt : Runtime W) (cl : Client W) (sh : Shell W).

Lemma api_findAndReuse c w :
  API.findAndReuseContainer cl c w =
    let r := ContainerList cl true w in
    match fst r with
    | Err e =>
        mkOut (Some ("failed to list containers: " +:+ e)) c (snd r)
              [EvContainerList true (fst r)]
    | Ok containers =>
        match API.lookupByName (Name (config c)) containers with
        | Some ctr =>
            mkOut None
                  {| config := config c; containerID := ID ctr;
                     isRunning := Contains (SummaryStatus ctr) "Up" |}
                  (snd r) [EvContainerList true (fst r)]
        | None =>
            mkOut (Some ("container with name " +:+ Name (config c) +:+ " not found"))
                  c (snd r) [EvContainerList true (fst r)]
        end
    end.
Proof.
  unfold API.findAndReuseContainer. rewrite bind_get, bind_call. cbv zeta.
  destruct (fst (ContainerList cl true w)) as [containers|e]; [|reflexivity].
  destruct (API.lookupByName (Name (config c)) containers) as [ctr|]; reflexivity.
Qed.

Lemma api_ensureRunning c w :
  API.ensureContainerRunning cl c w =
    if isRunning c then mkOut None c w []
    else
      let r := ContainerStart cl (containerID c) w in
      mkOut (match fst r with
             | Some e => Some ("failed to start existing container: " +:+ e)
             | None => None
             end)
            (match fst r with Some _ => c | None => set_isRunning true c end)
            (snd r) [EvContainerStart (containerID c) (fst r)].
Proof.
  unfold API.ensureContainerRunning. rewrite bind_get.
  destruct (isRunning c); [reflexivity|]. rewrite bind_call. cbv zeta.
  destruct (fst (ContainerStart cl (containerID c) w)); reflexivity.
Qed.

Lemma api_Start_reuse c w containers ctr :
  Reuse (config c) = true ->
  fst (ContainerList cl true w) = Ok containers ->
  API.lookupByName (Name (config c)) containers = Some ctr ->
  ID ctr <> "" ->
  API.Start rt cl c w
  = prepend [EvContainerList true (Ok containers)]
      (API.ensureContainerRunning cl
         {| config := config c; containerID := ID ctr;
            isRunning := Contains (SummaryStatus ctr) "Up" |}
         (snd (ContainerList cl true w))).
Proof.
  intros Hre Hls Hlk Hid. unfold API.Start. rewrite bind_get, Hre.
  unfold bind at 1. unfold bind at 1. rewrite api_findAndReuse. cbv zeta.
  rewrite Hls, Hlk. cbn [prepend]. rewrite bind_get. unfold ret. cbn [prepend containerID].
  destruct (String.eqb_spec (ID ctr) ""); [contradiction|]. cbn [negb app].
  reflexivity.
Qed.

Lemma cli_findAndReuse c w :
  CLI.findAndReuseContainer sh c w =
    let r := Run sh (psArgv (Name (config c))) w in
    let output := TrimSpace (PStdout (fst r)) in
    mkOut (match PErr (fst r) with
           | Some e => Some ("failed to list containers: " +:+ e)
           | None =>
               if String.eqb output "" then
                 Some ("container with name " +:+ Name (config c) +:+ " not found")
               else match Split output tab with
                    | _ :: _ :: _ => None
                    | _ => Some "unexpected output format from docker ps"
                    end
           end)
          (match PErr (fst r) with
           | Some _ => c
           | None =>
               if String.eqb output "" then c
               else match Split output tab with
                    | id :: status :: _ =>
                        {| config := config c; containerID := id;
                           isRunning := HasPrefix status "Up" |}
                    | _ => c
                    end
           end)
          (snd r) [EvExec (psArgv (Name (config c))) (fst r)].
Proof.
  unfold CLI.findAndReuseContainer, CLI.Exec_Run. rewrite bind_get, bind_call. cbv zeta.
  fold (psArgv (Name (config c))).
  destruct (PErr (fst (Run sh (psArgv (Name (config c))) w))); [reflexivity|].
  destruct (String.eqb _ ""); [reflexivity|].
  destruct (Split _ tab) as [|id [|status rest]]; reflexivity.
Qed.

Lemma cli_ensureRunning c w :
  CLI.ensureContainerRunning sh c w =
    if isRunning c then mkOut None c w []
    else
      let r := Run sh (startArgv (containerID c)) w in
      mkOut (match PErr (fst r) with
             | Some e => Some ("failed to start existing container: " +:+ e)
             | None => None
             end)
            (match PErr (fst r) with Some _ => c | None => set_isRunning true c end)
            (snd r) [EvExec (startArgv (containerID c)) (fst r)].
Proof.
  unfold CLI.ensureContainerRunning, CLI.Exec_Run. rewrite bind_get.
  destruct (isRunning c); [reflexivity|]. rewrite bind_call. cbv zeta.
  fold (startArgv (containerID c)).
  destruct (PErr (fst (Run sh (startArgv (containerID c)) w))); reflexivity.
Qed.

Lemma cli_Start_reuse c w id status rest :
  Reuse (config c) = true ->
  let p := fst (Run sh (psArgv (Name (config c))) w) in
  PErr p = None ->
  TrimSpace (PStdout p) <> "" ->
  Split (TrimSpace (PStdout p)) tab = id :: status :: rest ->
  id <> "" ->
  CLI.Start rt sh c w
  = prepend [EvExec (psArgv (Name (config c))) p]
      (CLI.ensureContainerRunning sh
         {| config := config c; containerID := id; isRunning := HasPrefix status "Up" |}
         (snd (Run sh (psArgv (Name (config c))) w))).
Proof.
  intros Hre p He Hout Hsp Hid. subst p. unfold CLI.Start. rewrite bind_get, Hre.
  unfold bind at 1. unfold bind at 1. rewrite cli_findAndReuse. cbv zeta.
  rewrite He, Hsp.
  destruct (String.eqb_spec (TrimSpace (PStdout (fst (Run sh (psArgv (Name (config c))) w)))) "");
    [contradiction|].
  cbn [prepend]. rewrite bind_get. unfold ret. cbn [prepend containerID].
  destruct (String.eqb_spec id ""); [contradiction|]. cbn [negb app].
  reflexivity.
Qed.

End ReuseFacts.

(** ** Diagnostics never fail *)

Ltac in_cases :=
  repeat match goal with
         | H : In _ [] |- _ => destruct H
         | H : In _ (_ :: _) |- _ =>
             destruct H as [H|H]; [try discriminate H; try (injection H as ?; subst)|]
         end.

Section DiagnosticsSwallow.
Context {W : Type} (cl : Client W) (sh : Shell W).

Lemma api_PrintLogs_reports reason c w :
  let tr := evs (API.PrintLogsOnFailure cl reason c w) in
  (forall id e, In (EvContainerInspect id (Err e)) tr ->
     In (errorLine c ("Failed to inspect container for status: " +:+ e)) tr
     /\ exists r, In (EvContainerLogs id false r) tr)
  /\ (forall id follow e, In (EvContainerLogs id follow (Err e)) tr ->
        In (errorLine c ("Failed to retrieve container logs: "
                         +:+ "failed to get container logs: " +:+ e)) tr)
  /\ (forall rd size data e, In (EvRead rd size data (io_err e)) tr ->
        In (errorLine c ("Failed to read container logs: " +:+ e)) tr
        /\ In (EvClose rd) tr).
Proof.
  unfold API.PrintLogsOnFailure, API.Logs. run_monad. unfold errorLine, infoLine.
  repeat (break_match; cbn [prepend res hdl wld evs fst snd app]);
    cbv zeta; (split; [|split]); intros; in_cases; try congruence;
    try (split; [find_in | eexists; find_in]); try (split; find_in); find_in.
Qed.

Lemma cli_PrintLogs_reports reason c w :
  let tr := evs (CLI.PrintLogsOnFailure sh reason c w) in
  (forall id p e, In (EvExec (CLI.inspectStateArgv id) p) tr -> PErr p = Some e ->
     In (errorLine c ("Failed to inspect container for status: " +:+ e)) tr
     /\ exists p', In (EvExec ["docker"; "logs"; "--timestamps"; id] p') tr)
  /\ (forall id p e, In (EvExec ["docker"; "logs"; "--timestamps"; id] p) tr ->
        PErr p = Some e ->
        In (errorLine c ("Failed to retrieve container logs: "
                         +:+ "failed to get container logs: " +:+ e)) tr).
Proof.
  unfold CLI.PrintLogsOnFailure, CLI.Logs, CLI.Exec_Run, CLI.inspectStateArgv. run_monad.
  unfold errorLine, infoLine.
  repeat (break_match; cbn [prepend res hdl wld evs fst snd app]);
    cbv zeta; split; intros; in_cases; try congruence;
    repeat match goal with
           | H1 : ?x = Some _, H2 : ?x = Some _ |- _ =>
               rewrite H1 in H2; injection H2 as ?; subst
           end;
    try (split; [find_in | eexists; find_in]); find_in.
Qed.

End DiagnosticsSwallow.

(** * Further properties of the code *)

(** ** The lookup of [findAndReuseContainer] *)

(** X1 - the two nested loops of findAndReuseContainer (API client) pick the
    first container of the listing one of whose names equals the wanted name
    once a leading slash is cut: every container listed before the one
    picked has no such name, and nothing is picked only if no listed
    container has one. *)
Theorem lookupByName_first_match :
  forall (name : string) (containers : list Summary),
    match API.lookupByName name containers with
    | Some ctr =>
        exists pre post,
          containers = (pre ++ ctr :: post)%list
          /\ (exists n, In n (Names ctr) /\ TrimPrefix n "/" = name)
          /\ (forall c n, In c pre -> In n (Names c) -> TrimPrefix n "/" <> name)
    | None =>
        forall c n, In c containers -> In n (Names c) -> TrimPrefix n "/" <> name
    end.
Proof.
  intros name containers. induction containers as [|ctr rest IH]; cbn [API.lookupByName].
  - intros c n [].
  - destruct (existsb (fun n => String.eqb (TrimPrefix n "/") name) (Names ctr)) eqn:E.
    + exists [], rest. split; [reflexivity|]. split.
      * apply existsb_exists in E. destruct E as (n & Hn & He).
        exists n. split; [exact Hn|]. now apply String.eqb_eq.
      * intros c n [].
    + assert (Hno : forall n, In n (Names ctr) -> TrimPrefix n "/" <> name).
      { intros n Hn He.
        assert (existsb (fun n => String.eqb (TrimPrefix n "/") name) (Names ctr) = true)
          as Ht by (apply existsb_exists; exists n; split; [exact Hn|now apply String.eqb_eq]).
        congruence. }
      destruct (API.lookupByName name rest) as [found|].
      * destruct IH as (pre & post & -> & Hm & Hpre).
        exists (ctr :: pre), post. split; [reflexivity|]. split; [exact Hm|].
        intros c n [<-|Hc] Hn; [now apply Hno|now apply (Hpre c)].
      * intros c n [<-|Hc] Hn; [now apply Hno|now apply (IH c)].
Qed.

(** ** The create request and the port lookup *)

Lemma tcp_key_inj : Inj (=) (=) (fun p : string => p +:+ "/tcp").
Proof. intros p q H. exact (append_inv_tail _ _ _ H). Qed.

Lemma createRequest_lookup cfg p :
  crPortBindings (API.createRequest cfg) !! (p +:+ "/tcp")
  = (fun hp => [ {| HostIP := ""; HostPort := hp |} ]) <$> (Ports cfg !! p).
Proof.
  unfold API.createRequest. cbn [crPortBindings].
  pose proof tcp_key_inj.
  rewrite (lookup_kmap (fun p : string => p +:+ "/tcp")).
  now rewrite lookup_fmap.
Qed.



(** ** Creation and start *)

Section BindFacts.
Context {S W : Type}.

Lemma bind_eq {A B} (m : M S W A) (k : A -> M S W B) s w :
  bind m k s w = prepend (evs (m s w)) (k (res (m s w)) (hdl (m s w)) (wld (m s w))).
Proof. unfold bind. destruct (m s w) as [xr xh xw xe]. reflexivity. Qed.

Lemma bind_framed {A B} (m : M S W A) (k : A -> M S W B) s w :
  hdl (m s w) = s ->
  bind m k s w = prepend (evs (m s w)) (k (res (m s w)) s (wld (m s w))).
Proof. intros H. rewrite bind_eq, H. reflexivity. Qed.

Lemma bind_assoc {A B C} (m : M S W A) (f : A -> M S W B) (k : B -> M S W C) s w :
  bind (bind m f) k s w = bind m (fun a => bind (f a) k) s w.
Proof.
  unfold bind. destruct (m s w) as [xr xh xw xe].
  destruct (f xr xh xw) as [yr yh yw ye]. cbn [prepend].
  destruct (k yr yh yw) as [zr zh zw ze]. cbn [prepend].
  now rewrite app_assoc.
Qed.

End BindFacts.

Lemma bind_Infof {W A} msg (k : unit -> M Container W A) c w :
  bind (Infof msg) k c w = prepend [infoLine c msg] (k tt c w).
Proof. reflexivity. Qed.

Lemma bind_Errorf {W A} msg (k : unit -> M Container W A) c w :
  bind (Errorf msg) k c w = prepend [errorLine c msg] (k tt c w).
Proof. reflexivity. Qed.

Ltac step :=
  first [ rewrite bind_assoc | rewrite bind_Infof | rewrite bind_Errorf | rewrite bind_get
        | rewrite bind_call | rewrite bind_modify | rewrite bind_ret
        | rewrite bind_tell ].

Ltac tidy :=
  rewrite ?prepend_prepend, ?prepend_out;
  cbn [prepend res hdl wld evs fst snd app].

Section WaitFrames.
Context {W : Type} (rt : Runtime W) (cl : Client W) (sh : Shell W).

Lemma api_waitForStableState_frame c w :
  hdl (API.waitForStableState rt cl c w) = c.
Proof.
  unfold API.waitForStableState. step.
  rewrite bind_framed by apply api_stabilityLoop_frame.
  rewrite !hdl_prepend.
  destruct (res (API.stabilityLoop rt cl (Z.to_nat API.maxChecks) c w)); reflexivity.
Qed.

Lemma cli_waitForStableState_frame c w :
  hdl (CLI.waitForStableState rt sh c w) = c.
Proof.
  unfold CLI.waitForStableState. step.
  rewrite bind_framed by apply cli_stabilityLoop_frame.
  rewrite !hdl_prepend.
  destruct (res (CLI.stabilityLoop rt sh (Z.to_nat CLI.maxChecks) c w)); reflexivity.
Qed.

End WaitFrames.

Section CreateAndStart.
Context {W : Type} (rt : Runtime W) (cl : Client W) (sh : Shell W).

(** What [createAndStartContainer] does, stage by stage (API client). *)
Lemma api_createAndStart c w :
  API.createAndStartContainer rt cl c w =
    let img := Image (config c) in
    let req := API.createRequest (config c) in
    let r1 := ImageInspectWithRaw cl img w in
    let r2 := ImagePull cl img (snd r1) in
    let t1 := EvImageInspect img (fst r1)
              :: match fst r1 with
                 | None => []
                 | Some _ => [infoLine c ("Pulling image " +:+ img +:+ "...");
                              EvImagePull img (fst r2)]
                 end in
    let w1 := match fst r1 with None => snd r1 | Some _ => snd r2 end in
    match fst r1, fst r2 with
    | Some _, Some m =>
        mkOut (Some ("failed to pull image: " +:+ m)) c w1
              (t1 ++ [errorLine c ("Failed to pull image: " +:+ m)])
    | _, _ =>
        let t1' := (t1 ++ match fst r1 with
                          | None => []
                          | Some _ => [infoLine c ("Successfully pulled image " +:+ img)]
                          end)%list in
        let r3 := ContainerCreate cl req w1 in
        match fst r3 with
        | Err m =>
            mkOut (Some ("failed to create container: " +:+ m)) c (snd r3)
                  (t1' ++ [EvContainerCreate req (fst r3)])
        | Ok id =>
            let c1 := set_containerID id c in
            let r4 := ContainerStart cl id (snd r3) in
            let t2 := (t1' ++ [EvContainerCreate req (fst r3);
                               infoLine c "Starting container...";
                               EvContainerStart id (fst r4)])%list in
            match fst r4 with
            | Some m =>
                let d := API.PrintLogsOnFailure cl ("Failed to start container: " +:+ m)
                           c1 (snd r4) in
                mkOut (Some ("failed to start container: " +:+ m)) c1 (wld d) (t2 ++ evs d)
            | None =>
                let s := API.waitForStableState rt cl c1 (snd r4) in
                let t3 := (t2 ++ infoLine c "Container started, verifying it remains running..."
                              :: evs s)%list in
                match res s with
                | Some m =>
                    mkOut (Some ("container failed to maintain stable state: " +:+ m))
                          c1 (wld s)
                          (t3 ++ [errorLine c ("Container failed to maintain stable state: "
                                               +:+ m)])
                | None =>
                    mkOut None (set_isRunning true c1) (wld s)
                          (t3 ++ [infoLine c "Container startup completed successfully"])
                end
            end
        end
    end.
Proof.
  assert (Htail : forall (t : list Event) id w',
    prepend t
      (match fst (ContainerStart cl id w') with
       | Some m =>
           API.PrintLogsOnFailure cl ("Failed to start container: " +:+ m) ;;;
           ret (wrap "failed to start container: " m)
       | None =>
           Infof "Container started, verifying it remains running..." ;;;
           e <- API.waitForStableState rt cl ;;
           match e with
           | Some m =>
               Errorf ("Container failed to maintain stable state: " +:+ m) ;;;
               ret (wrap "container failed to maintain stable state: " m)
           | None =>
               modify (set_isRunning true) ;;;
               Infof "Container startup completed successfully" ;;; ret None
           end
       end (set_containerID id c) (snd (ContainerStart cl id w')))
    = match fst (ContainerStart cl id w') with
      | Some m =>
          let d := API.PrintLogsOnFailure cl ("Failed to start container: " +:+ m)
                     (set_containerID id c) (snd (ContainerStart cl id w')) in
          mkOut (Some ("failed to start container: " +:+ m)) (set_containerID id c)
                (wld d) (t ++ evs d)
      | None =>
          let s := API.waitForStableState rt cl (set_containerID id c)
                     (snd (ContainerStart cl id w')) in
          let t3 := (t ++ infoLine c "Container started, verifying it remains running..."
                        :: evs s)%list in
          match res s with
          | Some m =>
              mkOut (Some ("container failed to maintain stable state: " +:+ m))
                    (set_containerID id c) (wld s)
                    (t3 ++ [errorLine c ("Container failed to maintain stable state: "
                                         +:+ m)])
          | None =>
              mkOut None (set_isRunning true (set_containerID id c)) (wld s)
                    (t3 ++ [infoLine c "Container startup completed successfully"])
          end
      end).
  { intros t id w'. destruct (fst (ContainerStart cl id w')) as [m|]; cbv zeta.
    - rewrite bind_framed by apply api_PrintLogs_frame. repeat step.
      unfold ret; tidy. now rewrite app_nil_r.
    - step. rewrite bind_framed by apply api_waitForStableState_frame.
      destruct (res (API.waitForStableState rt cl (set_containerID id c)
                       (snd (ContainerStart cl id w')))) as [m|];
        repeat step; unfold ret; tidy; rewrite <- ?app_assoc; reflexivity. }
  unfold API.createAndStartContainer. cbv zeta. repeat step.
  destruct (fst (ImageInspectWithRaw cl (Image (config c)) w)) as [m1|].
  - repeat step.
    destruct (fst (ImagePull cl (Image (config c))
                     (snd (ImageInspectWithRaw cl (Image (config c)) w)))) as [m2|].
    + repeat step. tidy. reflexivity.
    + repeat step. tidy.
      destruct (fst (ContainerCreate cl _ _)) as [id|m] eqn:E3.
      * repeat step. tidy. rewrite Htail. reflexivity.
      * tidy. reflexivity.
  - repeat step. tidy.
    destruct (fst (ContainerCreate cl _ _)) as [id|m] eqn:E3.
    + repeat step. tidy. rewrite Htail. reflexivity.
    + tidy. reflexivity.
Qed.

(** The same for the implementation on the [docker] binary. *)
Lemma cli_createAndStart c w :
  CLI.createAndStartContainer rt sh c w =
    let img := Image (config c) in
    let a1 := ["docker"; "image"; "inspect"; img] in
    let a2 := ["docker"; "pull"; img] in
    let r1 := Run sh a1 w in
    let r2 := Run sh a2 (snd r1) in
    let t1 := EvExec a1 (fst r1)
              :: match PErr (fst r1) with
                 | None => []
                 | Some _ => [infoLine c ("Pulling image " +:+ img +:+ "...");
                              EvExec a2 (fst r2)]
                 end in
    let w1 := match PErr (fst r1) with None => snd r1 | Some _ => snd r2 end in
    match PErr (fst r1), PErr (fst r2) with
    | Some _, Some m =>
        mkOut (Some ("failed to pull image: " +:+ m)) c w1
              (t1 ++ [errorLine c ("Failed to pull image: " +:+ m)])
    | _, _ =>
        let t1' := (t1 ++ match PErr (fst r1) with
                          | None => []
                          | Some _ => [infoLine c ("Successfully pulled image " +:+ img)]
                          end)%list in
        let r3 := Run sh (CLI.createArgv (config c)) w1 in
        match PErr (fst r3) with
        | Some m =>
            mkOut (Some ("failed to create container: " +:+ m)) c (snd r3)
                  (t1' ++ [EvExec (CLI.createArgv (config c)) (fst r3)])
        | None =>
            let id := TrimSpace (PStdout (fst r3)) in
            let c1 := set_containerID id c in
            let r4 := Run sh (startArgv id) (snd r3) in
            let t2 := (t1' ++ [EvExec (CLI.createArgv (config c)) (fst r3);
                               infoLine c "Starting container...";
                               EvExec (startArgv id) (fst r4)])%list in
            match PErr (fst r4) with
            | Some m =>
                let d := CLI.PrintLogsOnFailure sh ("Failed to start container: " +:+ m)
                           c1 (snd r4) in
                mkOut (Some ("failed to start container: " +:+ m)) c1 (wld d) (t2 ++ evs d)
            | None =>
                let s := CLI.waitForStableState rt sh c1 (snd r4) in
                let t3 := (t2 ++ infoLine c "Container started, verifying it remains running..."
                              :: evs s)%list in
                match res s with
                | Some m =>
                    mkOut (Some ("container failed to maintain stable state: " +:+ m))
                          c1 (wld s)
                          (t3 ++ [errorLine c ("Container failed to maintain stable state: "
                                               +:+ m)])
                | None =>
                    mkOut None (set_isRunning true c1) (wld s)
                          (t3 ++ [infoLine c "Container startup completed successfully"])
                end
            end
        end
    end.
Proof.
  assert (Htail : forall (t : list Event) id w',
    prepend t
      (match PErr (fst (Run sh (startArgv id) w')) with
       | Some m =>
           CLI.PrintLogsOnFailure sh ("Failed to start container: " +:+ m) ;;;
           ret (wrap "failed to start container: " m)
       | None =>
           Infof "Container started, verifying it remains running..." ;;;
           e <- CLI.waitForStableState rt sh ;;
           match e with
           | Some m =>
               Errorf ("Container failed to maintain stable state: " +:+ m) ;;;
               ret (wrap "container failed to maintain stable state: " m)
           | None =>
               modify (set_isRunning true) ;;;
               Infof "Container startup completed successfully" ;;; ret None
           end
       end (set_containerID id c) (snd (Run sh (startArgv id) w')))
    = match PErr (fst (Run sh (startArgv id) w')) with
      | Some m =>
          let d := CLI.PrintLogsOnFailure sh ("Failed to start container: " +:+ m)
                     (set_containerID id c) (snd (Run sh (startArgv id) w')) in
          mkOut (Some ("failed to start container: " +:+ m)) (set_containerID id c)
                (wld d) (t ++ evs d)
      | None =>
          let s := CLI.waitForStableState rt sh (set_containerID id c)
                     (snd (Run sh (startArgv id) w')) in
          let t3 := (t ++ infoLine c "Container started, verifying it remains running..."
                        :: evs s)%list in
          match res s with
          | Some m =>
              mkOut (Some ("container failed to maintain stable state: " +:+ m))
                    (set_containerID id c) (wld s)
                    (t3 ++ [errorLine c ("Container failed to maintain stable state: "
                                         +:+ m)])
          | None =>
              mkOut None (set_isRunning true (set_containerID id c)) (wld s)
                    (t3 ++ [infoLine c "Container startup completed successfully"])
          end
      end).
  { intros t id w'. destruct (PErr (fst (Run sh (startArgv id) w'))) as [m|]; cbv zeta.
    - rewrite bind_framed by apply cli_PrintLogs_frame. repeat step.
      unfold ret; tidy. now rewrite app_nil_r.
    - step. rewrite bind_framed by apply cli_waitForStableState_frame.
      destruct (res (CLI.waitForStableState rt sh (set_containerID id c)
                       (snd (Run sh (startArgv id) w')))) as [m|];
        repeat step; unfold ret; tidy; rewrite <- ?app_assoc; reflexivity. }
  unfold CLI.createAndStartContainer, CLI.Exec_Run. cbv zeta. repeat step.
  destruct (PErr (fst (Run sh ["docker"; "image"; "inspect"; Image (config c)] w)))
    as [m1|].
  - repeat step.
    destruct (PErr (fst (Run sh ["docker"; "pull"; Image (config c)] _))) as [m2|].
    + repeat step. tidy. reflexivity.
    + repeat step. tidy.
      destruct (PErr (fst (Run sh (CLI.createArgv (config c)) _))) as [m|] eqn:E3.
      * tidy. reflexivity.
      * repeat step. tidy. fold (startArgv (TrimSpace (PStdout (fst (Run sh (CLI.createArgv (config c)) (snd (Run sh ["docker"; "pull"; Image (config c)] (snd (Run sh ["docker"; "image"; "inspect"; Image (config c)] w))))))))).
        rewrite Htail. reflexivity.
  - repeat step. tidy.
    destruct (PErr (fst (Run sh (CLI.createArgv (config c)) _))) as [m|] eqn:E3.
    + tidy. reflexivity.
    + repeat step. tidy.
      fold (startArgv (TrimSpace (PStdout (fst (Run sh (CLI.createArgv (config c)) (snd (Run sh ["docker"; "image"; "inspect"; Image (config c)] w))))))).
      rewrite Htail. reflexivity.
Qed.

End CreateAndStart.

Section StartFacts.
Context {W : Type} (rt : Runtime W) (cl : Client W) (sh : Shell W).

Lemma api_findAndReuse_atomic c w :
  res (API.findAndReuseContainer cl c w) <> None ->
  hdl (API.findAndReuseContainer cl c w) = c.
Proof.
  rewrite api_findAndReuse. cbv zeta.
  destruct (fst (ContainerList cl true w)) as [containers|e]; [|reflexivity].
  destruct (API.lookupByName (Name (config c)) containers); [|reflexivity].
  intros H. now contradiction H.
Qed.

Lemma cli_findAndReuse_atomic c w :
  res (CLI.findAndReuseContainer sh c w) <> None ->
  hdl (CLI.findAndReuseContainer sh c w) = c.
Proof.
  rewrite cli_findAndReuse. cbv zeta. cbn [res hdl].
  destruct (PErr (fst (Run sh (psArgv (Name (config c))) w))); [reflexivity|].
  destruct (String.eqb _ ""); [reflexivity|].
  destruct (Split _ tab) as [|id [|status rest]]; try reflexivity.
  intros H. now contradiction H.
Qed.

Lemma api_findAndReuse_config c w :
  config (hdl (API.findAndReuseContainer cl c w)) = config c.
Proof.
  rewrite api_findAndReuse. cbv zeta.
  destruct (fst (ContainerList cl true w)) as [containers|e]; [|reflexivity].
  destruct (API.lookupByName (Name (config c)) containers); reflexivity.
Qed.

Lemma cli_findAndReuse_config c w :
  config (hdl (CLI.findAndReuseContainer sh c w)) = config c.
Proof.
  rewrite cli_findAndReuse. cbv zeta. cbn [res hdl].
  destruct (PErr (fst (Run sh (psArgv (Name (config c))) w))); [reflexivity|].
  destruct (String.eqb _ ""); [reflexivity|].
  destruct (Split _ tab) as [|id [|status rest]]; reflexivity.
Qed.

Lemma api_Start_fresh c w :
  Reuse (config c) = false ->
  API.Start rt cl c w = API.createAndStartContainer rt cl c w.
Proof. intros H. unfold API.Start. step. rewrite H. now step. Qed.

Lemma cli_Start_fresh c w :
  Reuse (config c) = false ->
  CLI.Start rt sh c w = CLI.createAndStartContainer rt sh c w.
Proof. intros H. unfold CLI.Start. step. rewrite H. now step. Qed.

Lemma api_Start_miss c w e :
  Reuse (config c) = true ->
  res (API.findAndReuseContainer cl c w) = Some e ->
  API.Start rt cl c w
  = prepend [EvContainerList true (fst (ContainerList cl true w));
             EvStdout ("Warning: failed to reuse existing container: " +:+ e +:+ nl)]
      (API.createAndStartContainer rt cl c (snd (ContainerList cl true w))).
Proof.
  intros H He. unfold API.Start. step. rewrite H. step.
  assert (Hh : hdl (API.findAndReuseContainer cl c w) = c)
    by (apply api_findAndReuse_atomic; congruence).
  assert (Hw : wld (API.findAndReuseContainer cl c w) = snd (ContainerList cl true w)).
  { rewrite api_findAndReuse. cbv zeta.
    destruct (fst (ContainerList cl true w)) as [containers|e']; [|reflexivity].
    destruct (API.lookupByName (Name (config c)) containers); reflexivity. }
  assert (Ht : evs (API.findAndReuseContainer cl c w)
               = [EvContainerList true (fst (ContainerList cl true w))]).
  { rewrite api_findAndReuse. cbv zeta.
    destruct (fst (ContainerList cl true w)) as [containers|e']; [|reflexivity].
    destruct (API.lookupByName (Name (config c)) containers); reflexivity. }
  rewrite bind_framed by exact Hh. rewrite He, Hw, Ht. repeat step. tidy. reflexivity.
Qed.

Lemma cli_Start_miss c w e :
  Reuse (config c) = true ->
  res (CLI.findAndReuseContainer sh c w) = Some e ->
  CLI.Start rt sh c w
  = prepend [EvExec (psArgv (Name (config c))) (fst (Run sh (psArgv (Name (config c))) w));
             EvStdout ("Warning: failed to reuse existing container: " +:+ e +:+ nl)]
      (CLI.createAndStartContainer rt sh c (snd (Run sh (psArgv (Name (config c))) w))).
Proof.
  intros H He. unfold CLI.Start. step. rewrite H. step.
  assert (Hh : hdl (CLI.findAndReuseContainer sh c w) = c)
    by (apply cli_findAndReuse_atomic; congruence).
  assert (Hw : wld (CLI.findAndReuseContainer sh c w)
               = snd (Run sh (psArgv (Name (config c))) w))
    by (rewrite cli_findAndReuse; reflexivity).
  assert (Ht : evs (CLI.findAndReuseContainer sh c w)
               = [EvExec (psArgv (Name (config c)))
                         (fst (Run sh (psArgv (Name (config c))) w))])
    by (rewrite cli_findAndReuse; reflexivity).
  rewrite bind_framed by exact Hh. rewrite He, Hw, Ht. repeat step. tidy. reflexivity.
Qed.

(** Whatever the listing gives, [Start] ends in one of its two branches, run
    on a handle with the configuration it was given. *)
Lemma api_Start_branches c w :
  exists t c' w',
    config c' = config c
    /\ (API.Start rt cl c w = prepend t (API.ensureContainerRunning cl c' w')
        \/ API.Start rt cl c w = prepend t (API.createAndStartContainer rt cl c' w')).
Proof.
  destruct (Reuse (config c)) eqn:Hr.
  - destruct (res (API.findAndReuseContainer cl c w)) as [e|] eqn:He.
    + rewrite (api_Start_miss c w e Hr He).
      eexists _, c, _. split; [reflexivity|]. right. reflexivity.
    + unfold API.Start. step. rewrite Hr. step. rewrite bind_eq, He. repeat step.
      exists (evs (API.findAndReuseContainer cl c w)),
             (hdl (API.findAndReuseContainer cl c w)),
             (wld (API.findAndReuseContainer cl c w)).
      split; [apply api_findAndReuse_config|].
      destruct (negb _); tidy; [left|right]; reflexivity.
  - exists [], c, w. split; [reflexivity|]. right.
    rewrite prepend_nil. now apply api_Start_fresh.
Qed.

Lemma cli_Start_branches c w :
  exists t c' w',
    config c' = config c
    /\ (CLI.Start rt sh c w = prepend t (CLI.ensureContainerRunning sh c' w')
        \/ CLI.Start rt sh c w = prepend t (CLI.createAndStartContainer rt sh c' w')).
Proof.
  destruct (Reuse (config c)) eqn:Hr.
  - destruct (res (CLI.findAndReuseContainer sh c w)) as [e|] eqn:He.
    + rewrite (cli_Start_miss c w e Hr He).
      eexists _, c, _. split; [reflexivity|]. right. reflexivity.
    + unfold CLI.Start. step. rewrite Hr. step. rewrite bind_eq, He. repeat step.
      exists (evs (CLI.findAndReuseContainer sh c w)),
             (hdl (CLI.findAndReuseContainer sh c w)),
             (wld (CLI.findAndReuseContainer sh c w)).
      split; [apply cli_findAndReuse_config|].
      destruct (negb _); tidy; [left|right]; reflexivity.
  - exists [], c, w. split; [reflexivity|]. right.
    rewrite prepend_nil. now apply cli_Start_fresh.
Qed.

Lemma api_createAndStart_outcome c w :
  let o := API.createAndStartContainer rt cl c w in
  config (hdl o) = config c
  /\ (res o = None -> isRunning (hdl o) = true)
  /\ (res o <> None -> isRunning (hdl o) = isRunning c).
Proof.
  cbv zeta. rewrite api_createAndStart. cbv zeta.
  repeat (break_match; cbn [res hdl wld evs]);
    (split; [reflexivity|split; [intros H|intros H]]);
    first [reflexivity | discriminate | now contradiction H].
Qed.

Lemma cli_createAndStart_outcome c w :
  let o := CLI.createAndStartContainer rt sh c w in
  config (hdl o) = config c
  /\ (res o = None -> isRunning (hdl o) = true)
  /\ (res o <> None -> isRunning (hdl o) = isRunning c).
Proof.
  cbv zeta. rewrite cli_createAndStart. cbv zeta.
  repeat (break_match; cbn [res hdl wld evs]);
    (split; [reflexivity|split; [intros H|intros H]]);
    first [reflexivity | discriminate | now contradiction H].
Qed.

Lemma api_Start_result c w :
  config (hdl (API.Start rt cl c w)) = config c
  /\ (res (API.Start rt cl c w) = None -> isRunning (hdl (API.Start rt cl c w)) = true).
Proof.
  destruct (api_Start_branches c w) as (t & c' & w' & Hc & [E|E]); rewrite E;
    rewrite res_prepend, hdl_prepend.
  - rewrite api_ensureRunning. destruct (isRunning c') eqn:Hr; cbv zeta; cbn [res hdl].
    + split; [exact Hc|]. intros _. exact Hr.
    + destruct (fst (ContainerStart cl (containerID c') w')); cbn;
        (split; [exact Hc|]); [discriminate|reflexivity].
  - destruct (api_createAndStart_outcome c' w') as (H1 & H2 & _).
    split; [congruence|exact H2].
Qed.

Lemma cli_Start_result c w :
  config (hdl (CLI.Start rt sh c w)) = config c
  /\ (res (CLI.Start rt sh c w) = None -> isRunning (hdl (CLI.Start rt sh c w)) = true).
Proof.
  destruct (cli_Start_branches c w) as (t & c' & w' & Hc & [E|E]); rewrite E;
    rewrite res_prepend, hdl_prepend.
  - rewrite cli_ensureRunning. destruct (isRunning c') eqn:Hr; cbv zeta; cbn [res hdl].
    + split; [exact Hc|]. intros _. exact Hr.
    + destruct (PErr (fst (Run sh (startArgv (containerID c')) w'))); cbn;
        (split; [exact Hc|]); [discriminate|reflexivity].
  - destruct (cli_createAndStart_outcome c' w') as (H1 & H2 & _).
    split; [congruence|exact H2].
Qed.

End StartFacts.

(** X3 - what Start leaves in the handle, in both implementations: the
    configuration is never changed; a Start that returns nil leaves
    isRunning set, on the reuse path and on the creation path alike; and
    without reuse a Start that fails leaves isRunning as it found it. *)
Theorem Start_outcome :
  forall (W : Type) (rt : Runtime W) (cl : Client W) (sh : Shell W) (c : Container) (w : W),
    let a := API.Start rt cl c w in
    let b := CLI.Start rt sh c w in
    config (hdl a) = config c
    /\ config (hdl b) = config c
    /\ (res a = None -> isRunning (hdl a) = true)
    /\ (res b = None -> isRunning (hdl b) = true)
    /\ (Reuse (config c) = false -> res a <> None -> isRunning (hdl a) = isRunning c)
    /\ (Reuse (config c) = false -> res b <> None -> isRunning (hdl b) = isRunning c).
Proof.
  intros W rt cl sh c w. cbv zeta.
  pose proof (api_Start_result rt cl c w) as Ha.
  pose proof (cli_Start_result rt sh c w) as Hb.
  destruct Ha as (Ha1 & Ha2), Hb as (Hb1 & Hb2).
  repeat (split; [assumption|]). split.
  - intros Hr. rewrite api_Start_fresh by exact Hr.
    apply (api_createAndStart_outcome rt cl c w).
  - intros Hr. rewrite cli_Start_fresh by exact Hr.
    apply (cli_createAndStart_outcome rt sh c w).
Qed.

Lemma Start_outcome_witness :
  isRunning (hdl (API.Start Toy.runtime Toy.client (Toy.fresh false) Toy.w0)) = true
  /\ isRunning (hdl (CLI.Start Toy.runtime Toy.shell (Toy.fresh true) Toy.w_listed_exited))
     = true
  /\ isRunning (hdl (API.Start Toy.runtime Toy.client (Toy.fresh false) Toy.w_start_fails))
     = false.
Proof.
  split; [|split].
  - apply (Start_outcome Toy.World Toy.runtime Toy.client Toy.shell (Toy.fresh false) Toy.w0).
    vm_compute. reflexivity.
  - apply (Start_outcome Toy.World Toy.runtime Toy.client Toy.shell (Toy.fresh true)
             Toy.w_listed_exited).
    vm_compute. reflexivity.
  - destruct (Start_outcome Toy.World Toy.runtime Toy.client Toy.shell (Toy.fresh false)
                Toy.w_start_fails) as (_ & _ & _ & _ & H & _).
    rewrite H; [reflexivity|reflexivity|vm_compute; discriminate].
Defined.

(** X4 - the fatal stages of createAndStartContainer before a container
    exists, in both implementations: when the image is missing and the pull
    fails the call returns the wrapped pull error, leaves the handle as it
    was and makes neither a create nor a start call; when the create call
    fails it returns the wrapped create error, leaves the handle as it was
    (no identifier is recorded) and makes no start call. *)
Theorem creation_fatal_stages :
  forall (W : Type) (rt : Runtime W) (cl : Client W) (sh : Shell W) (c : Container) (w : W),
    (let img := Image (config c) in
     let r1 := ImageInspectWithRaw cl img w in
     let r2 := ImagePull cl img (snd r1) in
     let w1 := match fst r1 with None => snd r1 | Some _ => snd r2 end in
     let r3 := ContainerCreate cl (API.createRequest (config c)) w1 in
     let o := API.createAndStartContainer rt cl c w in
     (forall m1 m, fst r1 = Some m1 -> fst r2 = Some m ->
        res o = Some ("failed to pull image: " +:+ m) /\ hdl o = c
        /\ count is_create (evs o) = 0%nat /\ count is_start (evs o) = 0%nat)
     /\ (forall m, fst r1 = None \/ fst r2 = None -> fst r3 = Err m ->
           res o = Some ("failed to create container: " +:+ m) /\ hdl o = c
           /\ count is_create (evs o) = 1%nat /\ count is_start (evs o) = 0%nat))
    /\ (let img := Image (config c) in
        let r1 := Run sh ["docker"; "image"; "inspect"; img] w in
        let r2 := Run sh ["docker"; "pull"; img] (snd r1) in
        let w1 := match PErr (fst r1) with None => snd r1 | Some _ => snd r2 end in
        let r3 := Run sh (CLI.createArgv (config c)) w1 in
        let o := CLI.createAndStartContainer rt sh c w in
        (forall m1 m, PErr (fst r1) = Some m1 -> PErr (fst r2) = Some m ->
           res o = Some ("failed to pull image: " +:+ m) /\ hdl o = c
           /\ count is_create (evs o) = 0%nat /\ count is_start (evs o) = 0%nat)
        /\ (forall m, PErr (fst r1) = None \/ PErr (fst r2) = None ->
              PErr (fst r3) = Some m ->
              res o = Some ("failed to create container: " +:+ m) /\ hdl o = c
              /\ count is_create (evs o) = 1%nat /\ count is_start (evs o) = 0%nat)).
Proof.
  intros W rt cl sh c w. split; cbv zeta.
  - rewrite api_createAndStart. cbv zeta. split.
    + intros m1 m H1 H2. rewrite H1, H2. cbn. repeat split; reflexivity.
    + intros m Hp H3.
      destruct (fst (ImageInspectWithRaw cl (Image (config c)) w)) as [m1|] eqn:H1.
      * destruct Hp as [Hp|Hp]; [discriminate|]. rewrite Hp in *. rewrite H3.
        cbn. repeat split; reflexivity.
      * rewrite H3. cbn. repeat split; reflexivity.
  - rewrite cli_createAndStart. cbv zeta. split.
    + intros m1 m H1 H2. rewrite H1, H2. cbn. repeat split; reflexivity.
    + intros m Hp H3.
      destruct (PErr (fst (Run sh ["docker"; "image"; "inspect"; Image (config c)] w)))
        as [m1|] eqn:H1.
      * destruct Hp as [Hp|Hp]; [discriminate|]. rewrite Hp in *. rewrite H3.
        cbn. repeat split; reflexivity.
      * rewrite H3. cbn. repeat split; reflexivity.
Qed.

Lemma creation_fatal_stages_witness :
  (let o := API.createAndStartContainer Toy.runtime Toy.client_no_image
              (Toy.fresh false) Toy.w0 in
   res o = Some "failed to pull image: pull access denied" /\ hdl o = Toy.fresh false
   /\ count is_create (evs o) = 0%nat /\ count is_start (evs o) = 0%nat)
  /\ (let o := CLI.createAndStartContainer Toy.runtime Toy.shell
                 (Toy.fresh false) Toy.w_create_fails in
      res o = Some "failed to create container: Conflict" /\ hdl o = Toy.fresh false
      /\ count is_create (evs o) = 1%nat /\ count is_start (evs o) = 0%nat).
Proof.
  split.
  - destruct (creation_fatal_stages Toy.World Toy.runtime Toy.client_no_image Toy.shell
                (Toy.fresh false) Toy.w0) as ((H & _) & _).
    exact (H "No such image" "pull access denied" eq_refl eq_refl).
  - destruct (creation_fatal_stages Toy.World Toy.runtime Toy.client Toy.shell
                (Toy.fresh false) Toy.w_create_fails) as (_ & _ & H).
    exact (H "Conflict" (or_introl eq_refl) eq_refl).
Defined.

(** X5 - a failed reuse is never fatal and a disabled reuse never lists, in
    both implementations: with reuse disabled Start is
    createAndStartContainer, with no listing call; with reuse enabled and a
    findAndReuseContainer that fails (listing error, no container of that
    name, unexpected listing format) Start writes one warning to standard
    output and then runs createAndStartContainer on the handle as it was
    given, in the world the listing left. *)
Theorem Start_falls_back_to_creation :
  forall (W : Type) (rt : Runtime W) (cl : Client W) (sh : Shell W) (c : Container) (w : W),
    (Reuse (config c) = false ->
       API.Start rt cl c w = API.createAndStartContainer rt cl c w
       /\ CLI.Start rt sh c w = CLI.createAndStartContainer rt sh c w)
    /\ (Reuse (config c) = true ->
        (forall e, res (API.findAndReuseContainer cl c w) = Some e ->
           API.Start rt cl c w
           = prepend [EvContainerList true (fst (ContainerList cl true w));
                      EvStdout ("Warning: failed to reuse existing container: "
                                +:+ e +:+ nl)]
               (API.createAndStartContainer rt cl c (snd (ContainerList cl true w))))
        /\ (forall e, res (CLI.findAndReuseContainer sh c w) = Some e ->
              CLI.Start rt sh c w
              = prepend [EvExec (psArgv (Name (config c)))
                                (fst (Run sh (psArgv (Name (config c))) w));
                         EvStdout ("Warning: failed to reuse existing container: "
                                   +:+ e +:+ nl)]
                  (CLI.createAndStartContainer rt sh c
                     (snd (Run sh (psArgv (Name (config c))) w))))).
Proof.
  intros W rt cl sh c w. split; intros Hr.
  - split; [now apply api_Start_fresh|now apply cli_Start_fresh].
  - split; intros e He; [now apply api_Start_miss|now apply cli_Start_miss].
Qed.

Lemma Start_falls_back_to_creation_witness :
  (let o := API.Start Toy.runtime Toy.client (Toy.fresh true) Toy.w_none_listed in
   res o = None /\ containerID (hdl o) = "def"
   /\ count is_create (evs o) = 1%nat
   /\ In (EvStdout ("Warning: failed to reuse existing container: "
                    +:+ "container with name web not found" +:+ nl)) (evs o))
  /\ (let o := CLI.Start Toy.runtime Toy.shell (Toy.fresh true) Toy.w_none_listed in
      res o = None /\ containerID (hdl o) = "def"
      /\ count is_create (evs o) = 1%nat).
Proof.
  destruct (Start_falls_back_to_creation Toy.World Toy.runtime Toy.client Toy.shell
              (Toy.fresh true) Toy.w_none_listed) as (_ & H).
  destruct (H eq_refl) as (Ha & Hc).
  split; cbv zeta.
  - rewrite (Ha "container with name web not found" eq_refl).
    vm_compute. repeat split. right. left. reflexivity.
  - rewrite (Hc "container with name web not found" eq_refl).
    vm_compute. repeat split.
Defined.

(** X6 - findAndReuseContainer is all or nothing, in both implementations:
    its trace is the one listing call; when it fails the handle is exactly
    as before; when it succeeds identifier and isRunning are both replaced
    and the configuration is kept.  Its errors: a failed listing is wrapped
    as failed to list containers; no match (API), or an empty listing
    (CLI), is container with name N not found; a CLI listing line without
    a tab is unexpected output format from docker ps. *)
Theorem findAndReuse_all_or_nothing :
  forall (W : Type) (cl : Client W) (sh : Shell W) (c : Container) (w : W),
    (let r := ContainerList cl true w in
     let o := API.findAndReuseContainer cl c w in
     evs o = [EvContainerList true (fst r)]
     /\ config (hdl o) = config c
     /\ (res o <> None -> hdl o = c)
     /\ (forall e, fst r = Err e -> res o = Some ("failed to list containers: " +:+ e))
     /\ (forall l, fst r = Ok l -> API.lookupByName (Name (config c)) l = None ->
           res o = Some ("container with name " +:+ Name (config c) +:+ " not found"))
     /\ (forall l ctr, fst r = Ok l -> API.lookupByName (Name (config c)) l = Some ctr ->
           res o = None /\ containerID (hdl o) = ID ctr
           /\ isRunning (hdl o) = Contains (SummaryStatus ctr) "Up"))
    /\ (let r := Run sh (psArgv (Name (config c))) w in
        let output := TrimSpace (PStdout (fst r)) in
        let o := CLI.findAndReuseContainer sh c w in
        evs o = [EvExec (psArgv (Name (config c))) (fst r)]
        /\ config (hdl o) = config c
        /\ (res o <> None -> hdl o = c)
        /\ (forall e, PErr (fst r) = Some e ->
              res o = Some ("failed to list containers: " +:+ e))
        /\ (PErr (fst r) = None -> output = "" ->
              res o = Some ("container with name " +:+ Name (config c) +:+ " not found"))
        /\ (forall id, PErr (fst r) = None -> output <> "" ->
              Split output tab = [id] ->
              res o = Some "unexpected output format from docker ps")
        /\ (forall id status rest,
              PErr (fst r) = None -> output <> "" ->
              Split output tab = id :: status :: rest ->
              res o = None /\ containerID (hdl o) = id
              /\ isRunning (hdl o) = HasPrefix status "Up")).
Proof.
  intros W cl sh c w. split; cbv zeta.
  - split; [|split; [apply api_findAndReuse_config|split; [apply api_findAndReuse_atomic|]]];
      rewrite api_findAndReuse; cbv zeta.
    + destruct (fst (ContainerList cl true w)) as [l|e]; [|reflexivity].
      destruct (API.lookupByName (Name (config c)) l); reflexivity.
    + split; [intros e ->; reflexivity|].
      split; [intros l -> ->; reflexivity|].
      intros l ctr -> ->. repeat split.
  - split; [|split; [apply cli_findAndReuse_config|split; [apply cli_findAndReuse_atomic|]]];
      rewrite cli_findAndReuse; cbv zeta; cbn [res hdl evs]; [reflexivity|].
    split; [intros e ->; reflexivity|].
    split; [intros -> ->; reflexivity|].
    split.
    + intros id -> Hne ->. destruct (String.eqb_spec (TrimSpace
        (PStdout (fst (Run sh (psArgv (Name (config c))) w)))) ""); [contradiction|].
      reflexivity.
    + intros id status rest -> Hne ->. destruct (String.eqb_spec (TrimSpace
        (PStdout (fst (Run sh (psArgv (Name (config c))) w)))) ""); [contradiction|].
      repeat split.
Qed.

Lemma findAndReuse_all_or_nothing_witness :
  (let o := API.findAndReuseContainer Toy.client (Toy.fresh true) Toy.w_none_listed in
   res o = Some "container with name web not found" /\ hdl o = Toy.fresh true)
  /\ (let o := CLI.findAndReuseContainer Toy.shell (Toy.fresh true) Toy.w_listed_exited in
      res o = None /\ containerID (hdl o) = "abc" /\ isRunning (hdl o) = false).
Proof.
  destruct (findAndReuse_all_or_nothing Toy.World Toy.client Toy.shell
              (Toy.fresh true) Toy.w_none_listed) as ((_ & _ & Hat & _ & Hmiss & _) & _).
  destruct (findAndReuse_all_or_nothing Toy.World Toy.client Toy.shell
              (Toy.fresh true) Toy.w_listed_exited) as (_ & _ & _ & _ & _ & _ & _ & Hhit).
  split; cbv zeta.
  - pose proof (Hmiss [] eq_refl eq_refl) as Hr. split; [exact Hr|].
    apply Hat. rewrite Hr. discriminate.
  - exact (Hhit "abc" "Exited (0) 5 minutes ago" [] eq_refl
             ltac:(vm_compute; discriminate) eq_refl).
Defined.

(** ** A failed start and the cleanup after it *)

Section CreatedIdentifier.
Context {W : Type} (rt : Runtime W) (cl : Client W) (sh : Shell W).

(** The identifier [createAndStartContainer] leaves is the one it was given
    or the one its create call returned. *)
Lemma api_createAndStart_id c w :
  let o := API.createAndStartContainer rt cl c w in
  hdl o = c
  \/ In (EvContainerCreate (API.createRequest (config c)) (Ok (containerID (hdl o))))
        (evs o).
Proof.
  cbv zeta. rewrite api_createAndStart. cbv zeta.
  destruct (fst (ImageInspectWithRaw cl (Image (config c)) w)) as [m1|];
    [destruct (fst (ImagePull cl (Image (config c)) _)) as [m2|]|];
    cbn [res hdl wld evs]; try (left; reflexivity).
  all: match goal with
       | |- context [fst (ContainerCreate cl ?r ?w1)] =>
           destruct (fst (ContainerCreate cl r w1)) as [id|m]
       end; cbn [res hdl wld evs]; try (left; reflexivity).
  all: right.
  all: match goal with
       | |- context [fst (ContainerStart cl ?i ?w1)] =>
           destruct (fst (ContainerStart cl i w1)) as [m|]
       end; cbn [res hdl wld evs].
  all: try match goal with
       | |- context [res (API.waitForStableState rt cl ?c1 ?w1)] =>
           destruct (res (API.waitForStableState rt cl c1 w1)) as [m|]
       end; cbn [res hdl wld evs containerID set_containerID set_isRunning].
  all: rewrite <- ?app_assoc; cbn [app]; rewrite ?in_app_iff; cbn [In]; auto 10.
Qed.

Lemma cli_createAndStart_id c w :
  let o := CLI.createAndStartContainer rt sh c w in
  hdl o = c
  \/ exists p, In (EvExec (CLI.createArgv (config c)) p) (evs o)
               /\ PErr p = None /\ TrimSpace (PStdout p) = containerID (hdl o).
Proof.
  cbv zeta. rewrite cli_createAndStart. cbv zeta.
  destruct (PErr (fst (Run sh ["docker"; "image"; "inspect"; Image (config c)] w)))
    as [m1|];
    [destruct (PErr (fst (Run sh ["docker"; "pull"; Image (config c)] _))) as [m2|]|];
    cbn [res hdl wld evs]; try (left; reflexivity).
  all: match goal with
       | |- context [PErr (fst (Run sh (CLI.createArgv ?cf) ?w1))] =>
           destruct (PErr (fst (Run sh (CLI.createArgv cf) w1))) as [m|] eqn:E3
       end; cbn [res hdl wld evs]; try (left; reflexivity).
  all: right; eexists; split; [|split; [exact E3|]].
  all: match goal with
       | |- context [PErr (fst (Run sh (startArgv ?i) ?w1))] =>
           destruct (PErr (fst (Run sh (startArgv i) w1))) as [m|]
       end; cbn [res hdl wld evs].
  all: try match goal with
       | |- context [res (CLI.waitForStableState rt sh ?c1 ?w1)] =>
           destruct (res (CLI.waitForStableState rt sh c1 w1)) as [m|]
       end; cbn [res hdl wld evs containerID set_containerID set_isRunning].
  all: try reflexivity.
  all: rewrite <- ?app_assoc; cbn [app]; rewrite ?in_app_iff; cbn [In]; auto 10.
Qed.

End CreatedIdentifier.

(** X7 - a container that was created but did not come up is not lost, in
    both implementations: when Start, without reuse and on a handle that
    was never started, fails and leaves an identifier in the handle, that
    identifier is the one the create call of this very Start returned, and a
    Cleanup on the handle ends with the forced removal of that container,
    after which (the removal accepted) the identifier is empty again. *)
Theorem failed_start_can_be_cleaned :
  forall (W : Type) (rt : Runtime W) (cl : Client W) (sh : Shell W) (c : Container) (w : W),
    Reuse (config c) = false -> containerID c = "" ->
    (let o := API.Start rt cl c w in
     let id := containerID (hdl o) in
     id <> "" ->
     In (EvContainerCreate (API.createRequest (config c)) (Ok id)) (evs o)
     /\ let s := API.Stop cl (hdl o) (wld o) in
        let r := ContainerRemove cl id true (wld s) in
        let o2 := API.Cleanup cl (hdl o) (wld o) in
        (exists pre, evs o2 = (pre ++ [EvContainerRemove id true (fst r)])%list)
        /\ (fst r = None -> res o2 = None /\ containerID (hdl o2) = ""))
    /\ (let o := CLI.Start rt sh c w in
        let id := containerID (hdl o) in
        id <> "" ->
        (exists p, In (EvExec (CLI.createArgv (config c)) p) (evs o)
                   /\ PErr p = None /\ TrimSpace (PStdout p) = id)
        /\ let s := CLI.Stop sh (hdl o) (wld o) in
           let r := Run sh (rmArgv id) (wld s) in
           let o2 := CLI.Cleanup sh (hdl o) (wld o) in
           (exists pre, evs o2 = (pre ++ [EvExec (rmArgv id) (fst r)])%list)
           /\ (PErr (fst r) = None -> res o2 = None /\ containerID (hdl o2) = "")).
Proof.
  intros W rt cl sh c w Hr Hid. split; cbv zeta; intros Hne.
  - assert (Hcfg : config (hdl (API.Start rt cl c w)) = config c)
      by apply api_Start_result.
    split.
    + revert Hne. rewrite api_Start_fresh by exact Hr. intros Hne.
      destruct (api_createAndStart_id rt cl c w) as [H|H]; [|exact H].
      rewrite H in Hne. contradiction.
    + rewrite api_Cleanup_remove by (try exact Hne; rewrite Hcfg; exact Hr).
      cbv zeta. cbn [res hdl wld evs]. split.
      * eexists. rewrite app_assoc. reflexivity.
      * intros ->. split; [reflexivity|]. reflexivity.
  - assert (Hcfg : config (hdl (CLI.Start rt sh c w)) = config c)
      by apply cli_Start_result.
    split.
    + revert Hne. rewrite cli_Start_fresh by exact Hr. intros Hne.
      destruct (cli_createAndStart_id rt sh c w) as [H|H]; [|exact H].
      rewrite H in Hne. contradiction.
    + rewrite cli_Cleanup_remove by (try exact Hne; rewrite Hcfg; exact Hr).
      cbv zeta. cbn [res hdl wld evs]. split.
      * eexists. rewrite app_assoc. reflexivity.
      * intros ->. split; [reflexivity|]. reflexivity.
Qed.

Lemma failed_start_can_be_cleaned_witness :
  let o := API.Start Toy.runtime Toy.client (Toy.fresh false) Toy.w_start_fails in
  let o2 := API.Cleanup Toy.client (hdl o) (wld o) in
  res o = Some "failed to start container: port is already allocated"
  /\ containerID (hdl o) = "def"
  /\ (exists pre, evs o2 = (pre ++ [EvContainerRemove "def" true None])%list)
  /\ res o2 = None /\ containerID (hdl o2) = "".
Proof.
  destruct (failed_start_can_be_cleaned Toy.World Toy.runtime Toy.client Toy.shell
              (Toy.fresh false) Toy.w_start_fails eq_refl eq_refl) as (H & _).
  destruct (H ltac:(vm_compute; discriminate)) as (_ & Hpre & Hok).
  cbv zeta. split; [vm_compute; reflexivity|]. split; [vm_compute; reflexivity|].
  split; [exact Hpre|]. exact (Hok eq_refl).
Defined.

(** ** What the methods leave in the handle *)

Section HandleFacts.
Context {W : Type} (rt : Runtime W) (cl : Client W) (sh : Shell W).

Lemma api_Logs_eq follow c w :
  API.Logs cl follow c w =
    if String.eqb (containerID c) "" then mkOut (Err "container not started") c w []
    else
      let r := ContainerLogs cl (containerID c) follow w in
      mkOut (match fst r with
             | Err e => Err ("failed to get container logs: " +:+ e)
             | Ok logs => Ok logs
             end)
            c (snd r) [EvContainerLogs (containerID c) follow (fst r)].
Proof.
  unfold API.Logs. step. destruct (String.eqb (containerID c) ""); [reflexivity|].
  step. cbv zeta. destruct (fst (ContainerLogs cl (containerID c) follow w)); reflexivity.
Qed.

Lemma cli_Logs_eq follow c w :
  CLI.Logs sh follow c w =
    if String.eqb (containerID c) "" then mkOut (Err "container not started") c w []
    else
      let argv := (["docker"; "logs"; "--timestamps"]
                   ++ (if follow then ["--follow"] else []) ++ [containerID c])%list in
      let r := Run sh argv w in
      mkOut (match PErr (fst r) with
             | Some e => Err ("failed to get container logs: " +:+ e)
             | None => Ok (POut (fst r))
             end)
            c (snd r) [EvExec argv (fst r)].
Proof.
  unfold CLI.Logs, CLI.Exec_Run. step.
  destruct (String.eqb (containerID c) ""); [reflexivity|].
  cbv zeta. step. destruct (PErr (fst (Run sh _ w))); reflexivity.
Qed.

Lemma cli_Exec_eq cmd c w :
  CLI.Exec sh cmd c w =
    if String.eqb (containerID c) "" then mkOut (Err "container not started") c w []
    else
      let argv := ("docker" :: "exec" :: containerID c :: cmd) in
      let r := Run sh argv w in
      mkOut (match PErr (fst r) with
             | Some e => Err ("command failed: " +:+ e)
             | None => Ok (POut (fst r))
             end)
            c (snd r) [EvExec argv (fst r)].
Proof.
  unfold CLI.Exec, CLI.Exec_Run. step.
  destruct (String.eqb (containerID c) ""); [reflexivity|].
  cbv zeta. step. cbn [app]. destruct (PErr (fst (Run sh _ w))); reflexivity.
Qed.

Lemma api_Stop_config c w : config (hdl (API.Stop cl c w)) = config c.
Proof.
  destruct (String.eqb_spec (containerID c) "") as [E|E].
  - now rewrite api_Stop_empty.
  - rewrite api_Stop_set by exact E. cbv zeta. cbn [hdl].
    destruct (fst (ContainerStop cl (containerID c) 30 w)); reflexivity.
Qed.

Lemma cli_Stop_config c w : config (hdl (CLI.Stop sh c w)) = config c.
Proof.
  destruct (String.eqb_spec (containerID c) "") as [E|E].
  - now rewrite cli_Stop_empty.
  - rewrite cli_Stop_set by exact E. cbv zeta. cbn [hdl].
    destruct (PErr (fst (Run sh (stopArgv (containerID c)) w))); reflexivity.
Qed.

Lemma api_Cleanup_handle c w :
  config (hdl (API.Cleanup cl c w)) = config c
  /\ (containerID (hdl (API.Cleanup cl c w)) = containerID c
      \/ containerID (hdl (API.Cleanup cl c w)) = "").
Proof.
  destruct (String.eqb_spec (containerID c) "") as [E|E].
  - rewrite api_Cleanup_empty by exact E. auto.
  - destruct (Reuse (config c)) eqn:Hr.
    + rewrite api_Cleanup_reuse by assumption.
      split; [apply api_Stop_config|left; apply api_Stop_keeps_id].
    + rewrite api_Cleanup_remove by assumption. cbv zeta. cbn [hdl].
      destruct (fst (ContainerRemove cl _ _ _)); cbn.
      * split; [apply api_Stop_config|left; apply api_Stop_keeps_id].
      * split; [apply api_Stop_config|right; reflexivity].
Qed.

Lemma cli_Cleanup_handle c w :
  config (hdl (CLI.Cleanup sh c w)) = config c
  /\ (containerID (hdl (CLI.Cleanup sh c w)) = containerID c
      \/ containerID (hdl (CLI.Cleanup sh c w)) = "").
Proof.
  destruct (String.eqb_spec (containerID c) "") as [E|E].
  - rewrite cli_Cleanup_empty by exact E. auto.
  - destruct (Reuse (config c)) eqn:Hr.
    + rewrite cli_Cleanup_reuse by assumption.
      split; [apply cli_Stop_config|left; apply cli_Stop_keeps_id].
    + rewrite cli_Cleanup_remove by assumption. cbv zeta. cbn [hdl].
      destruct (PErr (fst (Run sh _ _))); cbn.
      * split; [apply cli_Stop_config|left; apply cli_Stop_keeps_id].
      * split; [apply cli_Stop_config|right; reflexivity].
Qed.

Lemma api_IsRunning_handle c w :
  config (hdl (API.IsRunning cl c w)) = config c
  /\ containerID (hdl (API.IsRunning cl c w)) = containerID c.
Proof.
  destruct (String.eqb_spec (containerID c) "") as [E|E].
  - rewrite api_IsRunning_empty by exact E. auto.
  - rewrite api_IsRunning_set by exact E. cbv zeta. cbn [hdl].
    destruct (fst (ContainerInspect cl (containerID c) w)); auto.
Qed.

Lemma cli_IsRunning_handle c w :
  config (hdl (CLI.IsRunning sh c w)) = config c
  /\ containerID (hdl (CLI.IsRunning sh c w)) = containerID c.
Proof.
  destruct (String.eqb_spec (containerID c) "") as [E|E].
  - rewrite cli_IsRunning_empty by exact E. auto.
  - rewrite cli_IsRunning_set by exact E. cbv zeta. cbn [hdl].
    destruct (PErr (fst (Run sh _ w))); auto.
Qed.

Lemma api_GetPort_frame port c w : hdl (API.GetPort cl port c w) = c.
Proof.
  destruct (String.eqb_spec (containerID c) "") as [E|E].
  - now rewrite api_GetPort_empty.
  - now rewrite api_GetPort_set.
Qed.

Lemma cli_GetPort_frame port c w : hdl (CLI.GetPort sh port c w) = c.
Proof.
  destruct (String.eqb_spec (containerID c) "") as [E|E].
  - now rewrite cli_GetPort_empty.
  - now rewrite cli_GetPort_set.
Qed.

End HandleFacts.

(** X8 - what each method of a Container may change in the handle, in both
    implementations: no method ever changes the configuration; GetPort,
    Logs, Exec, GetID and waitForStableState leave the whole handle as it
    was; Stop and IsRunning keep the identifier; Cleanup keeps the
    identifier or empties it, and nothing else does empty it. *)
Theorem handle_invariants :
  forall (W : Type) (rt : Runtime W) (cl : Client W) (sh : Shell W) (c : Container) (w : W)
         (port : string) (follow : bool) (cmd : list string),
    (hdl (API.GetPort cl port c w) = c /\ hdl (CLI.GetPort sh port c w) = c
     /\ hdl (API.Logs cl follow c w) = c /\ hdl (CLI.Logs sh follow c w) = c
     /\ hdl (CLI.Exec sh cmd c w) = c
     /\ API.GetID c w = mkOut (containerID c) c w []
     /\ CLI.GetID c w = mkOut (containerID c) c w []
     /\ hdl (API.waitForStableState rt cl c w) = c
     /\ hdl (CLI.waitForStableState rt sh c w) = c)
    /\ (config (hdl (API.Stop cl c w)) = config c
        /\ containerID (hdl (API.Stop cl c w)) = containerID c
        /\ config (hdl (CLI.Stop sh c w)) = config c
        /\ containerID (hdl (CLI.Stop sh c w)) = containerID c)
    /\ (config (hdl (API.IsRunning cl c w)) = config c
        /\ containerID (hdl (API.IsRunning cl c w)) = containerID c
        /\ config (hdl (CLI.IsRunning sh c w)) = config c
        /\ containerID (hdl (CLI.IsRunning sh c w)) = containerID c)
    /\ (config (hdl (API.Cleanup cl c w)) = config c
        /\ (containerID (hdl (API.Cleanup cl c w)) = containerID c
            \/ containerID (hdl (API.Cleanup cl c w)) = "")
        /\ config (hdl (CLI.Cleanup sh c w)) = config c
        /\ (containerID (hdl (CLI.Cleanup sh c w)) = containerID c
            \/ containerID (hdl (CLI.Cleanup sh c w)) = ""))
    /\ (config (hdl (API.Start rt cl c w)) = config c
        /\ config (hdl (CLI.Start rt sh c w)) = config c).
Proof.
  intros W rt cl sh c w port follow cmd.
  split; [|split; [|split; [|split]]].
  - split; [apply api_GetPort_frame|]. split; [apply cli_GetPort_frame|].
    split; [rewrite api_Logs_eq; destruct (String.eqb _ _); reflexivity|].
    split; [rewrite cli_Logs_eq; destruct (String.eqb _ _); reflexivity|].
    split; [rewrite cli_Exec_eq; destruct (String.eqb _ _); reflexivity|].
    split; [reflexivity|]. split; [reflexivity|].
    split; [apply api_waitForStableState_frame|apply cli_waitForStableState_frame].
  - split; [apply api_Stop_config|]. split; [apply api_Stop_keeps_id|].
    split; [apply cli_Stop_config|apply cli_Stop_keeps_id].
  - destruct (api_IsRunning_handle cl c w), (cli_IsRunning_handle sh c w). auto.
  - destruct (api_Cleanup_handle cl c w), (cli_Cleanup_handle sh c w). auto.
  - split; [apply api_Start_result|apply cli_Start_result].
Qed.

(** X9 - Logs and Exec on the identifier, in both implementations of Logs
    and in the docker-binary Exec: on a handle without identifier each
    returns container not started and does not touch the engine; otherwise
    each makes exactly one call, Logs asking for timestamps and passing the
    follow flag on, Exec running docker exec on the identifier followed by
    the command as given, and an engine error comes back wrapped (failed to
    get container logs, command failed), a success as the output. *)
Theorem Logs_and_Exec_contract :
  forall (W : Type) (cl : Client W) (sh : Shell W) (c : Container) (w : W)
         (follow : bool) (cmd : list string),
    (containerID c = "" ->
       API.Logs cl follow c w = mkOut (Err "container not started") c w []
       /\ CLI.Logs sh follow c w = mkOut (Err "container not started") c w []
       /\ CLI.Exec sh cmd c w = mkOut (Err "container not started") c w [])
    /\ (containerID c <> "" ->
        (let r := ContainerLogs cl (containerID c) follow w in
         let o := API.Logs cl follow c w in
         evs o = [EvContainerLogs (containerID c) follow (fst r)]
         /\ wld o = snd r
         /\ (forall e, fst r = Err e ->
               res o = Err ("failed to get container logs: " +:+ e))
         /\ (forall logs, fst r = Ok logs -> res o = Ok logs))
        /\ (let argv := if follow
                        then ["docker"; "logs"; "--timestamps"; "--follow"; containerID c]
                        else ["docker"; "logs"; "--timestamps"; containerID c] in
            let r := Run sh argv w in
            let o := CLI.Logs sh follow c w in
            evs o = [EvExec argv (fst r)]
            /\ wld o = snd r
            /\ (forall e, PErr (fst r) = Some e ->
                  res o = Err ("failed to get container logs: " +:+ e))
            /\ (PErr (fst r) = None -> res o = Ok (POut (fst r))))
        /\ (let argv := "docker" :: "exec" :: containerID c :: cmd in
            let r := Run sh argv w in
            let o := CLI.Exec sh cmd c w in
            evs o = [EvExec argv (fst r)]
            /\ wld o = snd r
            /\ (forall e, PErr (fst r) = Some e ->
                  res o = Err ("command failed: " +:+ e))
            /\ (PErr (fst r) = None -> res o = Ok (POut (fst r))))).
Proof.
  intros W cl sh c w follow cmd. split; intros Hid.
  - rewrite api_Logs_eq, cli_Logs_eq, cli_Exec_eq, Hid. cbn. auto.
  - rewrite api_Logs_eq, cli_Logs_eq, cli_Exec_eq.
    destruct (String.eqb_spec (containerID c) ""); [contradiction|]. cbv zeta.
    split; [|split].
    + repeat split; cbn [res]; intros; match goal with H : _ = _ |- _ => now rewrite H end.
    + destruct follow; cbn [app];
        repeat split; cbn [res]; intros; match goal with H : _ = _ |- _ => now rewrite H end.
    + repeat split; cbn [res]; intros; match goal with H : _ = _ |- _ => now rewrite H end.
Qed.

Lemma Logs_and_Exec_contract_witness :
  API.Logs Toy.client false (Toy.fresh false) Toy.w0
  = mkOut (Err "container not started") (Toy.fresh false) Toy.w0 []
  /\ evs (CLI.Exec Toy.shell ["ls"; "-l"] (Toy.handle false true) Toy.w0)
     = [EvExec ["docker"; "exec"; "abc"; "ls"; "-l"] (Toy.proc None "")]
  /\ res (CLI.Logs Toy.shell true (Toy.handle false true) Toy.w0) = Ok "started".
Proof.
  destruct (Logs_and_Exec_contract Toy.World Toy.client Toy.shell (Toy.fresh false) Toy.w0
              false []) as (H0 & _).
  destruct (H0 eq_refl) as (Ha & _).
  destruct (Logs_and_Exec_contract Toy.World Toy.client Toy.shell (Toy.handle false true)
              Toy.w0 true ["ls"; "-l"]) as (_ & H1).
  destruct (H1 ltac:(discriminate)) as (_ & (_ & _ & _ & Hl) & (He & _)).
  split; [exact Ha|]. split; [exact He|]. exact (Hl eq_refl).
Defined.

(** ** Mounts, the command line of create, and ports *)



Lemma length_concat_pairs {A} (f : A -> list string) (l : list A) :
  (forall a, List.length (f a) = 2%nat) ->
  List.length (List.concat (List.map f l)) = (2 * List.length l)%nat.
Proof.
  intros H. induction l as [|a l IH]; [reflexivity|].
  cbn [List.map List.concat]. rewrite List.length_app, H, IH. cbn [List.length]. lia.
Qed.

Lemma concat_pairs_split {A} (f : A -> list string) (l : list A) a :
  In a l ->
  exists pre post, List.concat (List.map f l) = (pre ++ f a ++ post)%list.
Proof.
  intros H. apply List.in_split in H. destruct H as (l1 & l2 & ->).
  rewrite List.map_app, List.concat_app. cbn [List.map List.concat].
  eauto.
Qed.

(** X11 - the command line createAndStartContainer (docker binary) builds:
    docker create, then options, then the image as the last argument; the
    options hold --name NAME first exactly when a name is configured, one
    -p HOST:CONTAINER pair for every configured port, one -e pair for every
    environment entry, and two arguments for every mount, and nothing
    else. *)
Theorem createArgv_shape :
  forall (cfg : Config),
    exists opts,
      CLI.createArgv cfg = ("docker" :: "create" :: opts ++ [Image cfg])%list
      /\ List.length opts
         = ((if String.eqb (Name cfg) "" then 0 else 2)
            + 2 * List.length (map_to_list (Ports cfg))
            + 2 * List.length (Env cfg) + 2 * List.length (Mounts cfg))%nat
      /\ (Name cfg <> "" -> exists rest, opts = "--name" :: Name cfg :: rest)
      /\ (forall p hp, Ports cfg !! p = Some hp ->
            exists pre post, opts = (pre ++ "-p" :: (hp +:+ ":" +:+ p) :: post)%list)
      /\ (forall e, In e (Env cfg) ->
            exists pre post, opts = (pre ++ "-e" :: e :: post)%list).
Proof.
  intros cfg. unfold CLI.createArgv. cbn [app].
  set (nm := if String.eqb (Name cfg) "" then [] else ["--name"; Name cfg]).
  set (ps := List.concat (List.map (fun kv : string * string =>
                                      ["-p"; snd kv +:+ ":" +:+ fst kv])
                                   (map_to_list (Ports cfg)))).
  set (es := List.concat (List.map (fun env => ["-e"; env]) (Env cfg))).
  set (ms := List.concat (List.map CLI.mountArgs (Mounts cfg))).
  exists (nm ++ ps ++ es ++ ms)%list. split; [|split; [|split; [|split]]].
  - now rewrite <- !app_assoc.
  - rewrite !List.length_app. subst ps es ms.
    rewrite !length_concat_pairs; try reflexivity.
    + subst nm. destruct (String.eqb (Name cfg) ""); cbn [List.length]; lia.
    + intros m. unfold CLI.mountArgs.
      destruct (String.eqb (Type_ m) "volume"); reflexivity.
  - intros Hn. subst nm. destruct (String.eqb_spec (Name cfg) ""); [contradiction|].
    cbn [app]. eauto.
  - intros p hp Hp. apply elem_of_map_to_list in Hp.
    apply list_elem_of_In in Hp.
    destruct (concat_pairs_split (fun kv : string * string =>
                                    ["-p"; snd kv +:+ ":" +:+ fst kv]) _ _ Hp)
      as (pre & post & E).
    fold ps in E. rewrite E. cbn [fst snd app].
    exists (nm ++ pre)%list, (post ++ es ++ ms)%list.
    rewrite <- !app_assoc. reflexivity.
  - intros e He.
    destruct (concat_pairs_split (fun env => ["-e"; env]) _ _ He) as (pre & post & E).
    fold es in E. rewrite E. cbn [app].
    exists (nm ++ ps ++ pre)%list, (post ++ ms)%list.
    rewrite <- !app_assoc. reflexivity.
Qed.

Lemma createArgv_shape_witness :
  exists pre post,
    CLI.createArgv (Toy.cfg false)
    = ("docker" :: "create" :: (pre ++ "-p" :: "0:80" :: post) ++ ["nginx:latest"])%list.
Proof.
  destruct (createArgv_shape (Toy.cfg false)) as (opts & E & _ & _ & Hp & _).
  destruct (Hp "80" "0" ltac:(vm_compute; reflexivity)) as (pre & post & Ho).
  exists pre, post. rewrite E, Ho. reflexivity.
Defined.

Lemma createRequest_exposed cfg k :
  k ∈ crExposedPorts (API.createRequest cfg)
  <-> is_Some (crPortBindings (API.createRequest cfg) !! k).
Proof. unfold API.createRequest. cbn [crExposedPorts crPortBindings]. apply elem_of_dom. Qed.

Section CreateThenGetPort.
Context {W : Type} (cl : Client W).

(** X12 - the create request and GetPort fit together (API client): on an
    engine that publishes exactly the ports the request of this
    configuration exposes, each with at least one binding, GetPort succeeds
    on a port exactly when the configuration lists it, and otherwise
    reports no port mapping. *)
Theorem GetPort_after_createRequest :
  forall (c : Container) (w : W) (inspect : ContainerJSON) (port : string),
    containerID c <> "" ->
    fst (ContainerInspect cl (containerID c) w) = Ok inspect ->
    dom (NetworkPorts inspect) = crExposedPorts (API.createRequest (config c)) ->
    map_Forall (fun _ bs => bs <> []) (NetworkPorts inspect) ->
    ((exists hp, res (API.GetPort cl port c w) = Ok hp)
     <-> is_Some (Ports (config c) !! port))
    /\ (Ports (config c) !! port = None ->
        res (API.GetPort cl port c w) = Err ("no port mapping found for port " +:+ port)).
Proof.
  intros c w inspect port Hid Hi Hdom Hne.
  rewrite api_GetPort_set by exact Hid. cbv zeta. cbn [res]. rewrite Hi.
  assert (Hk : is_Some (NetworkPorts inspect !! (port +:+ "/tcp"))
               <-> is_Some (Ports (config c) !! port)).
  { rewrite <- elem_of_dom, Hdom, createRequest_exposed, createRequest_lookup.
    rewrite fmap_is_Some. reflexivity. }
  destruct (NetworkPorts inspect !! (port +:+ "/tcp")) as [bs|] eqn:E.
  - destruct bs as [|b bs]; [exfalso; exact (Hne _ _ E eq_refl)|].
    split.
    + split; [intros _; apply Hk; eauto|intros _; eauto].
    + intros Hn. destruct (proj1 Hk ltac:(eauto)) as [x Hx]. congruence.
  - split.
    + split; [intros [hp H]; discriminate|].
      intros H. apply Hk in H. destruct H; discriminate.
    + reflexivity.
Qed.

End CreateThenGetPort.

Lemma GetPort_after_createRequest_witness :
  (exists hp, res (API.GetPort Toy.client "80" (Toy.handle false true) Toy.w0) = Ok hp)
  /\ res (API.GetPort Toy.client "8080" (Toy.handle false true) Toy.w0)
     = Err "no port mapping found for port 8080".
Proof.
  assert (Hd : dom (NetworkPorts
                      (Toy.inspectJSON true
                         [("80/tcp", [ {| HostIP := "0.0.0.0"; HostPort := "32768" |} ])]))
               = crExposedPorts (API.createRequest (config (Toy.handle false true)))).
  { unfold Toy.inspectJSON, API.createRequest, Toy.handle, Toy.cfg.
    cbn [NetworkPorts crExposedPorts config Ports list_to_map foldr uncurry fst snd].
    rewrite map_fmap_singleton, kmap_singleton.
    rewrite insert_empty. reflexivity. }
  assert (Hn : map_Forall (fun _ bs => bs <> [])
                 (NetworkPorts
                    (Toy.inspectJSON true
                       [("80/tcp", [ {| HostIP := "0.0.0.0"; HostPort := "32768" |} ])]))).
  { unfold Toy.inspectJSON. cbn [NetworkPorts list_to_map foldr uncurry fst snd].
    rewrite insert_empty. apply map_Forall_singleton. discriminate. }
  split.
  - apply (GetPort_after_createRequest Toy.client (Toy.handle false true) Toy.w0 _ "80"
             ltac:(discriminate) eq_refl Hd Hn).
    vm_compute. eauto.
  - apply (GetPort_after_createRequest Toy.client (Toy.handle false true) Toy.w0 _ "8080"
             ltac:(discriminate) eq_refl Hd Hn).
    vm_compute. reflexivity.
Defined.

(** ** The log excerpt of the diagnostics *)

Lemma substring_0_length n s :
  (n <= String.length s)%nat -> String.length (String.substring 0 n s) = n.
Proof.
  revert s. induction n as [|n IH]; intros s H.
  - destruct s; reflexivity.
  - destruct s as [|a s]; cbn in H; [lia|]. cbn. f_equal. apply IH. lia.
Qed.

Lemma substring_0_prefix n s : String.prefix (String.substring 0 n s) s = true.
Proof.
  revert s. induction n as [|n IH]; intros s.
  - destruct s; reflexivity.
  - destruct s as [|a s]; [reflexivity|]. cbn.
    destruct (Ascii.ascii_dec a a) as [_|N]; [apply IH|contradiction].
Qed.

Lemma substring_0_all s : String.substring 0 (String.length s) s = s.
Proof. induction s as [|a s IH]; [reflexivity|]. cbn. now rewrite IH. Qed.

Section LogExcerpt.
Context {W : Type} (sh : Shell W).

(** X13 - the excerpt PrintLogsOnFailure (docker binary) prints: when the
    handle has an identifier and the logs command succeeds with a non-empty
    output, the diagnostics end with a header line, one line holding the
    excerpt and a footer line; the excerpt is the first 8192 bytes of the
    output (the whole output when it is shorter), although the header
    announces it as the last bytes; its length is the number the header
    gives. *)
Theorem diagnostics_print_log_head :
  forall (reason : string) (c : Container) (w : W),
    containerID c <> "" ->
    let w1 := snd (Run sh (CLI.inspectStateArgv (containerID c)) w) in
    let r := Run sh ["docker"; "logs"; "--timestamps"; containerID c] w1 in
    let data := POut (fst r) in
    let chunk := String.substring 0 (Nat.min 8192 (String.length data)) data in
    PErr (fst r) = None -> data <> "" ->
    (exists pre,
       evs (CLI.PrintLogsOnFailure sh reason c w)
       = (pre ++ [errorLine c ("=== Container Logs (last "
                               +:+ itoa (Z.of_nat (String.length chunk)) +:+ " bytes) ===");
                  errorLine c chunk;
                  errorLine c "=== End Container Logs ==="])%list)
    /\ (String.length chunk <= 8192)%nat
    /\ String.prefix chunk data = true
    /\ ((String.length data <= 8192)%nat -> chunk = data).
Proof.
  intros reason c w Hid. cbv zeta. intros Herr Hdata.
  set (data := POut (fst (Run sh ["docker"; "logs"; "--timestamps"; containerID c]
                                (snd (Run sh (CLI.inspectStateArgv (containerID c)) w))))) in *.
  assert (Hlen : String.length (String.substring 0 (Nat.min 8192 (String.length data)) data)
                 = Nat.min 8192 (String.length data))
    by (apply substring_0_length; apply Nat.le_min_r).
  split; [|split; [rewrite Hlen; apply Nat.le_min_l|split; [apply substring_0_prefix|]]].
  - unfold CLI.PrintLogsOnFailure. step. step.
    destruct (String.eqb_spec (containerID c) ""); [contradiction|].
    unfold CLI.Exec_Run at 1. step. fold (CLI.inspectStateArgv (containerID c)).
    set (w1 := snd (Run sh (CLI.inspectStateArgv (containerID c)) w)) in *.
    assert (Hmid : forall (m : M Container W unit) (k : M Container W unit) c0 w0,
              hdl (m c0 w0) = c0 -> wld (m c0 w0) = w0 ->
              bind m (fun _ => k) c0 w0 = prepend (evs (m c0 w0)) (k c0 w0)).
    { intros m k c0 w0 Hh Hw. rewrite bind_eq, Hh, Hw. reflexivity. }
    match goal with
    | |- context [bind ?m (fun _ => ?k) c w1] =>
        assert (Hm : hdl (m c w1) = c /\ wld (m c w1) = w1)
    end.
    { destruct (PErr (fst (Run sh (CLI.inspectStateArgv (containerID c)) w))).
      - split; reflexivity.
      - destruct (Unmarshal sh _); split; reflexivity. }
    destruct Hm as (Hh & Hw). rewrite Hmid by assumption.
    repeat step. rewrite bind_eq. rewrite !cli_Logs_eq.
    destruct (String.eqb_spec (containerID c) ""); [contradiction|].
    cbv zeta. cbn [app res hdl wld evs]. fold w1.
    rewrite Herr. fold data.
    unfold CLI.bufferRead. destruct data as [|a d] eqn:Ed; [contradiction|].
    rewrite <- Ed in *. cbn [fst snd].
    assert (Hpos : (0 <? Z.of_nat (String.length
                     (String.substring 0 (Nat.min 8192 (String.length data)) data)))%Z = true).
    { rewrite Hlen. apply Z.ltb_lt. rewrite Ed. cbn [String.length].
      change 0%Z with (Z.of_nat 0). apply Nat2Z.inj_lt. apply Nat.min_glb_lt.
      - apply Nat.ltb_lt. vm_compute. reflexivity.
      - apply Nat.lt_0_succ. }
    rewrite Hpos. repeat step. unfold ret. tidy.
    rewrite evs_prepend.
    match goal with
    | |- context [(evs ?m ++ [infoLine c ?s])%list] => set (X := evs m)
    end.
    exists (errorLine c ("Container startup failed: " +:+ reason)
            :: EvExec (CLI.inspectStateArgv (containerID c))
                      (fst (Run sh (CLI.inspectStateArgv (containerID c)) w))
            :: X ++ [infoLine c "Retrieving container logs for debugging...";
                     EvExec ["docker"; "logs"; "--timestamps"; containerID c]
                            (fst (Run sh ["docker"; "logs"; "--timestamps"; containerID c]
                                      w1))])%list.
    change (evs (Errorf "=== End Container Logs ===" c
                   (snd (Run sh ["docker"; "logs"; "--timestamps"; containerID c] w1))))
      with [errorLine c "=== End Container Logs ==="].
    repeat (cbn [app]; rewrite <- app_assoc). cbn [app]. reflexivity.
  - intros Hle. rewrite Nat.min_r by exact Hle. apply substring_0_all.
Qed.

End LogExcerpt.

Lemma diagnostics_print_log_head_witness :
  exists pre,
    evs (CLI.PrintLogsOnFailure Toy.shell "probe" (Toy.handle false true) Toy.w0)
    = (pre ++ [errorLine (Toy.handle false true) "=== Container Logs (last 7 bytes) ===";
               errorLine (Toy.handle false true) "started";
               errorLine (Toy.handle false true) "=== End Container Logs ==="])%list.
Proof.
  destruct (diagnostics_print_log_head Toy.shell "probe" (Toy.handle false true) Toy.w0
              ltac:(discriminate) eq_refl ltac:(vm_compute; discriminate))
    as ((pre & H) & _).
  exists pre. rewrite H. reflexivity.
Defined.

(** ** The SQL Server container *)

Section SQLServerFacts.
Context {W : Type} (rt : Runtime W) (db : Database W).

Lemma sql_testConnection_eq s w :
  SQLServer.testConnection db s w =
    let cs := SQLServer.connectionString s in
    let r1 := sql_Open db "sqlserver" cs w in
    match fst r1 with
    | Some e => mkOut false s (snd r1) [EvCall "testConnection"; EvSqlOpen cs (Some e)]
    | None =>
        let r2 := db_Ping db (snd r1) in
        match fst r2 with
        | Some e =>
            mkOut false s (db_Close db (snd r2))
                  [EvCall "testConnection"; EvSqlOpen cs None; EvSqlPing (Some e); EvSqlClose]
        | None =>
            let r3 := db_QueryRow_Scan db "SELECT 1" (snd r2) in
            mkOut (match fst r3 with Ok v => (v =? 1)%Z | Err _ => false end) s
                  (db_Close db (snd r3))
                  [EvCall "testConnection"; EvSqlOpen cs None; EvSqlPing None;
                   EvSqlQuery "SELECT 1" (fst r3); EvSqlClose]
        end
    end.
Proof.
  unfold SQLServer.testConnection. cbv zeta. repeat step.
  destruct (fst (sql_Open db "sqlserver" (SQLServer.connectionString s) w)) as [e|].
  - unfold ret. tidy. reflexivity.
  - repeat step.
    destruct (fst (db_Ping db _)) as [e|].
    + repeat step. unfold bind, ret. tidy. reflexivity.
    + repeat step. destruct (fst (db_QueryRow_Scan db "SELECT 1" _)) as [v|e];
        repeat step; unfold bind, ret; tidy; reflexivity.
Qed.

Lemma sql_HealthCheck_eq s w :
  SQLServer.HealthCheck db s w =
    let cs := SQLServer.connectionString s in
    if String.eqb cs "" then
      mkOut (Some "connection string not set - container may not be started") s w []
    else
    let r1 := sql_Open db "sqlserver" cs w in
    match fst r1 with
    | Some e =>
        mkOut (Some ("health check failed - cannot open database: " +:+ e)) s (snd r1)
              [EvSqlOpen cs (Some e)]
    | None =>
        let r2 := db_Ping db (snd r1) in
        match fst r2 with
        | Some e =>
            mkOut (Some ("health check failed - ping failed: " +:+ e)) s
                  (db_Close db (snd r2))
                  [EvSqlOpen cs None; EvSqlPing (Some e); EvSqlClose]
        | None =>
            let r3 := db_QueryRow_Scan db "SELECT 1" (snd r2) in
            mkOut (match fst r3 with
                   | Err e => Some ("health check failed - query failed: " +:+ e)
                   | Ok v =>
                       if (v =? 1)%Z then None
                       else Some ("health check failed - unexpected query result: "
                                  +:+ itoa v)
                   end) s
                  (db_Close db (snd r3))
                  [EvSqlOpen cs None; EvSqlPing None; EvSqlQuery "SELECT 1" (fst r3);
                   EvSqlClose]
        end
    end.
Proof.
  unfold SQLServer.HealthCheck. cbv zeta. repeat step.
  destruct (String.eqb (SQLServer.connectionString s) ""); [reflexivity|].
  repeat step.
  destruct (fst (sql_Open db "sqlserver" (SQLServer.connectionString s) w)) as [e|].
  - unfold ret. tidy. reflexivity.
  - repeat step.
    destruct (fst (db_Ping db _)) as [e|].
    + repeat step. unfold bind, ret. tidy. reflexivity.
    + repeat step. destruct (fst (db_QueryRow_Scan db "SELECT 1" _)) as [v|e].
      * destruct (v =? 1)%Z; repeat step; unfold bind, ret; tidy; reflexivity.
      * repeat step; unfold bind, ret; tidy; reflexivity.
Qed.

Lemma sql_readyLoop_frame N d n : forall i s w,
  hdl (SQLServer.readyLoop rt db N d n i s w) = s.
Proof.
  induction n as [|n IH]; intros i s w; [reflexivity|].
  rewrite sql_readyLoop_step. destruct (ctx_err rt w); [reflexivity|]. cbv zeta.
  destruct (sql_testConnection_trace db s w) as (Hh & _).
  destruct (res (SQLServer.testConnection db s w)); cbn [hdl]; [exact Hh|].
  rewrite IH. exact Hh.
Qed.

Lemma sql_waitForReady_frame N d s w :
  hdl (SQLServer.waitForReadyWith rt db N d s w) = s.
Proof.
  unfold SQLServer.waitForReadyWith.
  rewrite bind_framed by apply sql_readyLoop_frame. rewrite hdl_prepend.
  destruct (res (SQLServer.readyLoop rt db N d (Z.to_nat N) 0 s w)); reflexivity.
Qed.

End SQLServerFacts.

(** X14 - what testConnection of the SQL Server container answers: true
    exactly when the database opens, answers the ping and returns 1 to
    SELECT 1; it stops at the first step that fails; the handle is never
    changed; and the database is closed, as the last interaction, exactly
    when it was opened. *)
Theorem sql_testConnection_spec :
  forall (W : Type) (db : Database W) (s : SQLServer.SQLServerContainer) (w : W),
    let cs := SQLServer.connectionString s in
    let r1 := sql_Open db "sqlserver" cs w in
    let r2 := db_Ping db (snd r1) in
    let r3 := db_QueryRow_Scan db "SELECT 1" (snd r2) in
    let o := SQLServer.testConnection db s w in
    hdl o = s
    /\ (res o = true <-> fst r1 = None /\ fst r2 = None /\ fst r3 = Ok 1)
    /\ (forall e, fst r1 = Some e ->
          evs o = [EvCall "testConnection"; EvSqlOpen cs (Some e)] /\ wld o = snd r1)
    /\ (fst r1 = None -> forall e, fst r2 = Some e ->
          evs o = [EvCall "testConnection"; EvSqlOpen cs None; EvSqlPing (Some e);
                   EvSqlClose])
    /\ (fst r1 = None ->
          exists pre, evs o = (pre ++ [EvSqlClose])%list /\ ~ In EvSqlClose pre)
    /\ (fst r1 <> None -> ~ In EvSqlClose (evs o)).
Proof.
  intros W db s w. cbv zeta. rewrite sql_testConnection_eq. cbv zeta.
  destruct (fst (sql_Open db "sqlserver" (SQLServer.connectionString s) w)) as [e1|].
  - cbn [res hdl wld evs]. split; [reflexivity|]. split.
    { split; [discriminate|]. intros (H & _). discriminate. }
    split; [intros e [= <-]; auto|]. split; [discriminate|]. split; [discriminate|].
    intros _ [H|[H|[]]]; discriminate.
  - destruct (fst (db_Ping db _)) as [e2|]; cbn [res hdl wld evs].
    + split; [reflexivity|]. split.
      { split; [discriminate|]. intros (_ & H & _). discriminate. }
      split; [discriminate|]. split; [intros _ e [= <-]; reflexivity|].
      split; [|intros H; now contradiction H].
      intros _. exists [EvCall "testConnection"; EvSqlOpen (SQLServer.connectionString s) None;
                        EvSqlPing (Some e2)].
      split; [reflexivity|]. intros [H|[H|[H|[]]]]; discriminate.
    + split; [reflexivity|]. split.
      { destruct (fst (db_QueryRow_Scan db "SELECT 1" _)) as [v|e3].
        - split.
          + intros H. apply Z.eqb_eq in H. subst v. auto.
          + intros (_ & _ & [= ->]). reflexivity.
        - split; [discriminate|]. intros (_ & _ & H). discriminate. }
      split; [discriminate|]. split; [discriminate|].
      split; [|intros H; now contradiction H].
      intros _. eexists [_; _; _; _].
      split; [reflexivity|]. intros [H|[H|[H|[H|[]]]]]; discriminate.
Qed.

Lemma sql_testConnection_spec_witness :
  res (SQLServer.testConnection Toy.database Toy.sqlserver Toy.w_services) = true
  /\ res (SQLServer.testConnection Toy.database Toy.sqlserver Toy.w0) = false.
Proof.
  split.
  - apply (sql_testConnection_spec Toy.World Toy.database Toy.sqlserver Toy.w_services).
    repeat split.
  - destruct (sql_testConnection_spec Toy.World Toy.database Toy.sqlserver Toy.w0)
      as (_ & H & _).
    destruct (res (SQLServer.testConnection Toy.database Toy.sqlserver Toy.w0));
      [|reflexivity].
    destruct (proj1 H eq_refl) as (_ & Hp & _). discriminate Hp.
Defined.

(** X15 - HealthCheck of the SQL Server container: without a connection
    string (a container never started) it reports connection string not set
    and does not touch the database; with one it makes exactly the
    interactions of testConnection, leaves the same world and returns nil
    exactly when testConnection returns true; its error names the step that
    failed (open, ping, query, a result other than 1). *)
Theorem sql_HealthCheck_spec :
  forall (W : Type) (db : Database W) (s : SQLServer.SQLServerContainer) (w : W),
    (SQLServer.connectionString s = "" ->
       SQLServer.HealthCheck db s w
       = mkOut (Some "connection string not set - container may not be started") s w [])
    /\ (SQLServer.connectionString s <> "" ->
        let cs := SQLServer.connectionString s in
        let r1 := sql_Open db "sqlserver" cs w in
        let r2 := db_Ping db (snd r1) in
        let r3 := db_QueryRow_Scan db "SELECT 1" (snd r2) in
        let o := SQLServer.HealthCheck db s w in
        let t := SQLServer.testConnection db s w in
        (res o = None <-> res t = true)
        /\ hdl o = s /\ wld o = wld t
        /\ evs t = EvCall "testConnection" :: evs o
        /\ (forall e, fst r1 = Some e ->
              res o = Some ("health check failed - cannot open database: " +:+ e))
        /\ (fst r1 = None -> forall e, fst r2 = Some e ->
              res o = Some ("health check failed - ping failed: " +:+ e))
        /\ (fst r1 = None -> fst r2 = None -> forall e, fst r3 = Err e ->
              res o = Some ("health check failed - query failed: " +:+ e))
        /\ (fst r1 = None -> fst r2 = None -> forall v, fst r3 = Ok v -> v <> 1 ->
              res o = Some ("health check failed - unexpected query result: " +:+ itoa v))).
Proof.
  intros W db s w. split.
  - intros H. rewrite sql_HealthCheck_eq. cbv zeta. now rewrite H.
  - intros H. cbv zeta. rewrite sql_HealthCheck_eq, sql_testConnection_eq. cbv zeta.
    destruct (String.eqb_spec (SQLServer.connectionString s) ""); [contradiction|].
    destruct (fst (sql_Open db "sqlserver" (SQLServer.connectionString s) w)) as [e1|].
    { cbn [res hdl wld evs]. repeat split; try discriminate.
      intros e [= <-]. reflexivity. }
    destruct (fst (db_Ping db _)) as [e2|].
    { cbn [res hdl wld evs]. repeat split; try discriminate.
      intros _ e [= <-]. reflexivity. }
    cbn [res hdl wld evs].
    destruct (fst (db_QueryRow_Scan db "SELECT 1" _)) as [v|e3].
    + destruct (Z.eqb_spec v 1) as [->|Hv]; repeat split; try discriminate; try reflexivity.
      * intros _ _ v' [= <-] Hv'. now contradiction Hv'.
      * intros _ _ v' [= <-] _. reflexivity.
    + repeat split; try discriminate. intros _ _ e [= <-]. reflexivity.
Qed.

Lemma sql_HealthCheck_spec_witness :
  (forall New name pw reuse s,
      SQLServer.NewSQLServer New name pw reuse = Ok s ->
      res (SQLServer.HealthCheck Toy.database s Toy.w_services)
      = Some "connection string not set - container may not be started")
  /\ res (SQLServer.HealthCheck Toy.database Toy.sqlserver Toy.w_services) = None
  /\ res (SQLServer.HealthCheck Toy.database Toy.sqlserver Toy.w0)
     = Some "health check failed - ping failed: connection refused".
Proof.
  split; [|split].
  - intros New name pw reuse s H.
    destruct (sql_HealthCheck_spec Toy.World Toy.database s Toy.w_services) as (H0 & _).
    rewrite H0; [reflexivity|].
    unfold SQLServer.NewSQLServer in H. destruct (New _); [|discriminate].
    injection H as <-. reflexivity.
  - destruct (sql_HealthCheck_spec Toy.World Toy.database Toy.sqlserver Toy.w_services)
      as (_ & H1).
    destruct (H1 ltac:(discriminate)) as (Hiff & _). apply Hiff. reflexivity.
  - destruct (sql_HealthCheck_spec Toy.World Toy.database Toy.sqlserver Toy.w0)
      as (_ & H1).
    destruct (H1 ltac:(discriminate)) as (_ & _ & _ & _ & _ & Hping & _).
    exact (Hping eq_refl "connection refused" eq_refl).
Defined.

Lemma embed_eq {S T W A} (proj : T -> S) (inj : S -> T -> T) (m : M S W A) t w :
  embed proj inj m t w
  = mkOut (res (m (proj t) w)) (inj (hdl (m (proj t) w)) t) (wld (m (proj t) w))
          (evs (m (proj t) w)).
Proof. unfold embed. destruct (m (proj t) w) as [xr xh xw xe]. reflexivity. Qed.

Section SQLServerStart.
Context {W : Type} (rt : Runtime W) (db : Database W).
Context (CS : M Container W error) (GP : string -> M Container W (result string)).

Lemma sql_Start_eq s w :
  SQLServer.Start rt db CS GP s w =
    let o1 := CS (SQLServer.base s) w in
    let s1 := SQLServer.set_base (hdl o1) s in
    match res o1 with
    | Some e => mkOut (Some e) s1 (wld o1) (evs o1)
    | None =>
        let o2 := GP "1433" (hdl o1) (wld o1) in
        let s2 := SQLServer.set_base (hdl o2) s1 in
        match res o2 with
        | Err e =>
            mkOut (Some ("failed to get SQL Server port: " +:+ e)) s2 (wld o2)
                  (evs o1 ++ evs o2)
        | Ok hostPort =>
            let s3 := SQLServer.set_connectionString
                        (SQLServer.dsn hostPort (SQLServer.password s)) s2 in
            prepend (evs o1 ++ evs o2) (SQLServer.waitForReady rt db s3 (wld o2))
        end
    end.
Proof.
  unfold SQLServer.Start. cbv zeta. rewrite bind_eq, embed_eq. cbn [res hdl wld evs].
  destruct (res (CS (SQLServer.base s) w)) as [e|].
  - unfold ret. tidy. now rewrite app_nil_r.
  - rewrite bind_eq, embed_eq. cbn [res hdl wld evs SQLServer.base SQLServer.set_base].
    destruct (res (GP "1433" _ _)) as [p|e].
    + repeat step. tidy. reflexivity.
    + unfold ret. tidy. now rewrite app_nil_r.
Qed.

End SQLServerStart.

(** X16 - Start of the SQL Server container, over any Start and GetPort of
    the embedded Container: a failure of the embedded Start is returned as
    it is, with no port lookup and no database interaction; a failure of the
    lookup of port 1433 is returned wrapped; in both cases the connection
    string is left as it was; once the port is known the connection string
    is built from that port and the password of the handle and Start then
    returns what waitForReady returns.  The password is never changed, and
    after a Start that returns nil the connection string is set, so that
    HealthCheck does not report a container never started. *)
Theorem sql_Start_spec :
  forall (W : Type) (rt : Runtime W) (db : Database W)
         (CS : M Container W error) (GP : string -> M Container W (result string))
         (s : SQLServer.SQLServerContainer) (w : W),
    let o := SQLServer.Start rt db CS GP s w in
    let o1 := CS (SQLServer.base s) w in
    let o2 := GP "1433" (hdl o1) (wld o1) in
    SQLServer.password (hdl o) = SQLServer.password s
    /\ (forall e, res o1 = Some e ->
          res o = Some e /\ evs o = evs o1 /\ wld o = wld o1
          /\ SQLServer.connectionString (hdl o) = SQLServer.connectionString s)
    /\ (res o1 = None -> forall e, res o2 = Err e ->
          res o = Some ("failed to get SQL Server port: " +:+ e)
          /\ evs o = (evs o1 ++ evs o2)%list /\ wld o = wld o2
          /\ SQLServer.connectionString (hdl o) = SQLServer.connectionString s)
    /\ (res o1 = None -> forall hostPort, res o2 = Ok hostPort ->
          let cs := "server=localhost;port=" +:+ hostPort
                    +:+ ";database=master;user id=sa;password=" +:+ SQLServer.password s
                    +:+ ";encrypt=disable" in
          let s3 := {| SQLServer.base := hdl o2; SQLServer.password := SQLServer.password s;
                       SQLServer.connectionString := cs |} in
          hdl o = s3
          /\ res o = res (SQLServer.waitForReady rt db s3 (wld o2))
          /\ evs o = (evs o1 ++ evs o2
                      ++ evs (SQLServer.waitForReady rt db s3 (wld o2)))%list)
    /\ (res o = None ->
          SQLServer.connectionString (hdl o) <> ""
          /\ forall w', res (SQLServer.HealthCheck db (hdl o) w')
                        <> Some "connection string not set - container may not be started").
Proof.
  intros W rt db CS GP s w. cbv zeta.
  assert (Hne : forall p pw, SQLServer.dsn p pw <> "") by (intros p pw; discriminate).
  rewrite sql_Start_eq. cbv zeta.
  destruct (res (CS (SQLServer.base s) w)) as [e1|] eqn:E1.
  - cbn [res hdl wld evs]. split; [reflexivity|].
    split; [intros e [= <-]; auto|]. repeat split; discriminate.
  - destruct (res (GP "1433" _ _)) as [p|e2] eqn:E2.
    + rewrite res_prepend, hdl_prepend, evs_prepend.
      unfold SQLServer.waitForReady. rewrite sql_waitForReady_frame.
      cbn [SQLServer.password SQLServer.set_connectionString SQLServer.set_base
           SQLServer.base SQLServer.connectionString].
      split; [reflexivity|]. split; [discriminate|]. split; [discriminate|].
      split.
      * intros _ hostPort [= <-]. split; [reflexivity|]. split; [reflexivity|].
        now rewrite app_assoc.
      * intros _. split; [apply Hne|].
        intros w'. rewrite sql_HealthCheck_eq. cbv zeta.
        cbn [SQLServer.connectionString].
        destruct (String.eqb_spec (SQLServer.dsn p (SQLServer.password s)) "") as [Hq|_];
          [now apply Hne in Hq|].
        repeat (break_match; cbn [res]); discriminate.
    + cbn [res hdl wld evs]. split; [reflexivity|]. split; [discriminate|].
      split; [intros _ e [= <-]; auto|]. split; discriminate.
Qed.

Lemma sql_Start_spec_witness :
  (forall s, SQLServer.NewSQLServer (fun cfg => Ok (New cfg)) "mssql" "secret" false = Ok s ->
     let o := SQLServer.Start Toy.runtime Toy.database
                (API.Start Toy.runtime Toy.client) (API.GetPort Toy.client)
                s Toy.w_services in
     res o = None
     /\ SQLServer.connectionString (hdl o)
        = "server=localhost;port=32770;database=master;user id=sa;password=secret;encrypt=disable"
     /\ In "SA_PASSWORD=secret" (Env (config (SQLServer.base s))))
  /\ res (SQLServer.Start Toy.runtime Toy.database
            (API.Start Toy.runtime Toy.client) (API.GetPort Toy.client)
            Toy.sqlserver Toy.w0)
     = Some "failed to get SQL Server port: no port mapping found for port 1433".
Proof.
  split.
  - intros s [= <-]. cbv zeta.
    match goal with
    | |- context [SQLServer.Start _ _ _ _ ?s0 _] =>
        destruct (sql_Start_spec Toy.World Toy.runtime Toy.database
                    (API.Start Toy.runtime Toy.client) (API.GetPort Toy.client)
                    s0 Toy.w_services)
          as (_ & _ & _ & Hok & _)
    end.
    destruct (Hok ltac:(vm_compute; reflexivity) "32770" ltac:(vm_compute; reflexivity))
      as (Hh & Hr & _).
    split; [rewrite Hr; vm_compute; reflexivity|].
    split; [rewrite Hh; reflexivity|]. cbn. auto.
  - destruct (sql_Start_spec Toy.World Toy.runtime Toy.database
                (API.Start Toy.runtime Toy.client) (API.GetPort Toy.client)
                Toy.sqlserver Toy.w0) as (_ & _ & Hport & _).
    apply (Hport ltac:(vm_compute; reflexivity) "no port mapping found for port 1433"
             ltac:(vm_compute; reflexivity)).
Defined.

(** ** Attempts and sleeps of the readiness probes, for any run *)

Lemma count_quiet_test (q : list Event) :
  List.Forall (fun e => is_quiet e = true) q -> count is_test q = 0%nat.
Proof. apply count_none. apply quiet_not_test. Qed.

Lemma count_quiet_sleep (q : list Event) :
  List.Forall (fun e => is_quiet e = true) q -> count is_sleep q = 0%nat.
Proof. apply count_none. apply quiet_not_sleep. Qed.

Lemma loop_counts_round d n r (q1 q2 tr : list Event) (sl : bool) :
  List.Forall (fun e => is_quiet e = true) q1 ->
  List.Forall (fun e => is_quiet e = true) q2 ->
  sl = negb (Nat.eqb n 0) ->
  loop_counts d n r tr ->
  loop_counts d (Datatypes.S n) r
    (EvCtxDone None :: q1 ++ EvCall "testConnection" :: q2
     ++ (if sl then [EvSleep d] else []) ++ tr).
Proof.
  intros Hq1 Hq2 Hsl (Hle & Hf & Hr). unfold loop_counts.
  rewrite !count_cons, !count_app, !count_cons, !count_app.
  rewrite !(count_quiet_test q1), !(count_quiet_test q2) by assumption.
  rewrite !(count_quiet_sleep q1), !(count_quiet_sleep q2) by assumption.
  cbn [is_test is_sleep String.eqb Ascii.eqb Bool.eqb].
  assert (Hsl' : count is_test (if sl then [EvSleep d] else []) = 0%nat
                 /\ count is_sleep (if sl then [EvSleep d] else [])
                    = (if sl then 1 else 0)%nat)
    by (destruct sl; split; reflexivity).
  destruct Hsl' as (-> & ->).
  split; [lia|]. split.
  - constructor; [discriminate|].
    apply List.Forall_app. split; [now apply quiet_sleeps|].
    constructor; [discriminate|].
    apply List.Forall_app. split; [now apply quiet_sleeps|].
    apply List.Forall_app. split; [|exact Hf].
    destruct sl; repeat constructor.
  - destruct n as [|m]; cbn in Hsl; subst sl.
    + destruct r as [[e|]|]; lia.
    + destruct r as [[e|]|]; lia.
Qed.

Lemma loop_counts_attempts N d r (tr : list Event) msg :
  loop_counts d (Z.to_nat N) r tr ->
  attempts_contract N d (match r with Some e => e | None => Some msg end) tr.
Proof.
  intros (Hle & Hf & Hr). unfold attempts_contract.
  split; [exact Hle|]. split; [exact Hf|].
  destruct r as [[e|]|].
  - split; [discriminate|]. intros _. left. apply Hr.
  - split; [intros _; lia|]. intros H. now contradiction H.
  - split; [discriminate|]. intros _. right. lia.
Qed.

Section SQLServerCounts.
Context {W : Type} (rt : Runtime W) (db : Database W).

Lemma sql_readyLoop_counts N d n : forall i s w,
  (i + Z.of_nat n = N)%Z ->
  loop_counts d n (res (SQLServer.readyLoop rt db N d n i s w))
              (evs (SQLServer.readyLoop rt db N d n i s w)).
Proof.
  induction n as [|n IH]; intros i s w Hi.
  - cbn. repeat split; constructor.
  - rewrite sql_readyLoop_step.
    destruct (ctx_err rt w) as [e|].
    { cbn [res evs]. unfold loop_counts. cbn. repeat split; try lia.
      repeat constructor. discriminate. }
    cbv zeta.
    destruct (sql_testConnection_trace db s w) as (Hh & t & Ht & Hq).
    destruct (res (SQLServer.testConnection db s w)).
    + cbn [res evs]. rewrite Ht. unfold loop_counts.
      rewrite !count_cons, count_quiet_test, count_quiet_sleep by assumption.
      cbn. repeat split; try lia.
      constructor; [discriminate|]. constructor; [discriminate|]. now apply quiet_sleeps.
    + cbn [res evs]. rewrite Ht, Hh. cbn [app].
      apply (loop_counts_round d n _ [] t); [constructor|exact Hq| |].
      * destruct n as [|m]; cbn [Nat.eqb negb];
          [apply Z.ltb_ge|apply Z.ltb_lt]; lia.
      * apply IH. lia.
Qed.

Lemma sql_waitForReady_counts N d s w :
  (0 <= N)%Z ->
  attempts_contract N d (res (SQLServer.waitForReadyWith rt db N d s w))
                    (evs (SQLServer.waitForReadyWith rt db N d s w)).
Proof.
  intros HN. unfold SQLServer.waitForReadyWith. rewrite bind_eq.
  rewrite res_prepend, evs_prepend.
  pose proof (sql_readyLoop_counts N d (Z.to_nat N) 0 s w ltac:(lia)) as H.
  destruct (res (SQLServer.readyLoop rt db N d (Z.to_nat N) 0 s w)) as [r|] eqn:E;
    cbn [ret res evs]; rewrite app_nil_r.
  - exact (loop_counts_attempts N d (Some r) _ "" H).
  - exact (loop_counts_attempts N d None _ _ H).
Qed.

End SQLServerCounts.

Section ActiveMQCounts.
Context {W : Type} (rt : Runtime W) (net : Network W).
Context (PL : string -> M Container W unit).
Hypothesis PL_frame : forall reason c w, hdl (PL reason c w) = c.
Hypothesis PL_diag :
  forall reason c w, List.Forall (fun e => is_diag e = true) (evs (PL reason c w)).

Lemma PL_is_quiet reason c w :
  List.Forall (fun e => is_quiet e = true) (evs (PL reason c w)).
Proof.
  eapply List.Forall_impl; [|apply PL_diag]. intros e. apply diag_quiet.
Qed.

Lemma amq_readyLoop_frame N d n : forall i a w,
  hdl (ActiveMQ.readyLoop rt net PL N d n i a w) = a.
Proof.
  induction n as [|n IH]; intros i a w; [reflexivity|].
  rewrite (amq_readyLoop_step rt net PL PL_frame).
  destruct (ctx_err rt w); [reflexivity|]. cbv zeta.
  destruct (res (ActiveMQ.testConnection net a w)); [reflexivity|].
  rewrite hdl_prepend. apply IH.
Qed.

Lemma amq_readyLoop_counts N d n : forall i a w,
  (i + Z.of_nat n = N)%Z ->
  loop_counts d n (res (ActiveMQ.readyLoop rt net PL N d n i a w))
              (evs (ActiveMQ.readyLoop rt net PL N d n i a w)).
Proof.
  induction n as [|n IH]; intros i a w Hi.
  - cbn. repeat split; constructor.
  - rewrite (amq_readyLoop_step rt net PL PL_frame).
    destruct (ctx_err rt w) as [e|].
    { cbn [res evs]. unfold loop_counts. cbn. repeat split; try lia.
      repeat constructor; discriminate. }
    cbv zeta.
    destruct (amq_testConnection_trace net a w) as (Hh & t & Ht & Hq).
    destruct (res (ActiveMQ.testConnection net a w)).
    + cbn [res evs]. rewrite Ht. unfold loop_counts. cbn [app].
      rewrite !count_cons, !count_app, count_quiet_test, count_quiet_sleep by assumption.
      cbn. repeat split; try lia.
      constructor; [discriminate|]. constructor; [discriminate|].
      constructor; [discriminate|].
      apply List.Forall_app. split; [now apply quiet_sleeps|].
      repeat constructor. discriminate.
    + rewrite res_prepend, evs_prepend. rewrite Ht.
      set (p := PL _ (ActiveMQ.base a) _).
      set (dg := (0 <? i)%Z && _).
      set (w2 := if (i <? N - 1)%Z then _ else _).
      specialize (IH (i + 1)%Z a w2 ltac:(lia)).
      set (o' := ActiveMQ.readyLoop rt net PL N d n (i + 1) a w2) in *.
      assert (He1 : List.Forall (fun e => is_quiet e = true)
                      (if dg then infoLine (ActiveMQ.base a)
                                    ("Printing container logs for debugging after "
                                     +:+ itoa (i + 1) +:+ " failed attempts") :: evs p
                       else [])).
      { destruct dg; [|constructor]. constructor; [reflexivity | apply PL_is_quiet]. }
      set (e1 := if dg then infoLine _ _ :: _ else []) in *.
      assert (Hsl : (i <? N - 1)%Z = negb (Nat.eqb n 0)).
      { destruct n as [|m]; cbn [Nat.eqb negb]; [apply Z.ltb_ge|apply Z.ltb_lt]; lia. }
      pose proof (loop_counts_round d n (res o')
                    [infoLine (ActiveMQ.base a)
                       ("Readiness check attempt " +:+ itoa (i + 1) +:+ "/" +:+ itoa N)]
                    (t ++ e1 ++ (if (i <? N - 1)%Z
                                 then [infoLine (ActiveMQ.base a)
                                         ("Readiness check failed, waiting "
                                          +:+ fmtDuration d +:+ " before retry...")]
                                 else []))
                    (evs o') ((i <? N - 1)%Z)
                    ltac:(repeat constructor)) as Hround.
      assert (Hq2 : List.Forall (fun e => is_quiet e = true)
                      (t ++ e1 ++ (if (i <? N - 1)%Z
                                   then [infoLine (ActiveMQ.base a)
                                           ("Readiness check failed, waiting "
                                            +:+ fmtDuration d +:+ " before retry...")]
                                   else []))).
      { apply List.Forall_app. split; [exact Hq|].
        apply List.Forall_app. split; [exact He1|].
        destruct (i <? N - 1)%Z; repeat constructor. }
      specialize (Hround Hq2 Hsl IH).
      replace ((EvCtxDone None
                :: infoLine (ActiveMQ.base a)
                     ("Readiness check attempt " +:+ itoa (i + 1) +:+ "/" +:+ itoa N)
                   :: (EvCall "testConnection" :: t) ++ e1 ++
                      (if (i <? N - 1)%Z
                       then [infoLine (ActiveMQ.base a)
                               ("Readiness check failed, waiting "
                                +:+ fmtDuration d +:+ " before retry...");
                             EvSleep d]
                       else [])) ++ evs o')%list
        with (EvCtxDone None
              :: [infoLine (ActiveMQ.base a)
                    ("Readiness check attempt " +:+ itoa (i + 1) +:+ "/" +:+ itoa N)]
                 ++ EvCall "testConnection"
                    :: (t ++ e1 ++
                        (if (i <? N - 1)%Z
                         then [infoLine (ActiveMQ.base a)
                                 ("Readiness check failed, waiting "
                                  +:+ fmtDuration d +:+ " before retry...")]
                         else []))
                       ++ (if (i <? N - 1)%Z then [EvSleep d] else []) ++ evs o')%list;
        [exact Hround|].
      cbn [app]. do 3 f_equal. rewrite <- !app_assoc. do 2 f_equal.
      destruct (i <? N - 1)%Z; reflexivity.
Qed.

Lemma amq_waitForReady_counts N d a w :
  (0 <= N)%Z ->
  attempts_contract N d (res (ActiveMQ.waitForReadyWith rt net PL N d a w))
                    (evs (ActiveMQ.waitForReadyWith rt net PL N d a w)).
Proof.
  intros HN. unfold ActiveMQ.waitForReadyWith.
  rewrite (bind_out _ _ _ _ _ _ _ _ (amq_Infof _ a w)).
  rewrite res_prepend, evs_prepend.
  rewrite bind_framed by apply amq_readyLoop_frame.
  rewrite res_prepend, evs_prepend.
  pose proof (amq_readyLoop_counts N d (Z.to_nat N) 0 a w ltac:(lia)) as H.
  set (o := ActiveMQ.readyLoop rt net PL N d (Z.to_nat N) 0 a w) in *.
  assert (Hadd : forall r (q1 : Event) (q2 : list Event),
            is_quiet q1 = true -> List.Forall (fun e => is_quiet e = true) q2 ->
            attempts_contract N d r (evs o) ->
            attempts_contract N d r ([q1] ++ evs o ++ q2)).
  { intros r q1 q2 H1 H2 (A & B & C & D). unfold attempts_contract.
    rewrite !count_app, !(count_quiet_test q2), !(count_quiet_sleep q2) by assumption.
    rewrite !(count_quiet_test [q1]), !(count_quiet_sleep [q1]) by (repeat constructor; exact H1).
    rewrite !Nat.add_0_r. cbn [Nat.add].
    split; [exact A|]. split; [|split; assumption].
    apply List.Forall_app. split; [apply quiet_sleeps; repeat constructor; exact H1|].
    apply List.Forall_app. split; [exact B|now apply quiet_sleeps]. }
  destruct (res o) as [r|] eqn:E.
  - cbn [ret res evs].
    apply Hadd; [reflexivity|constructor|].
    exact (loop_counts_attempts N d (Some r) _ "" H).
  - rewrite (bind_out _ _ _ _ _ _ _ _ (amq_Errorf _ a _)).
    rewrite res_prepend, evs_prepend.
    rewrite bind_eq, res_prepend, evs_prepend. cbn [ret res evs].
    rewrite app_nil_r.
    apply Hadd; [reflexivity| |].
    + constructor; [reflexivity|].
      rewrite (amq_PrintLogs PL PL_frame). cbn [evs]. apply PL_is_quiet.
    + exact (loop_counts_attempts N d None _ _ H).
Qed.

End ActiveMQCounts.

(** X17 - attempts and sleeps of the two readiness probes for any run,
    whatever the predicate answers and whenever the context is cancelled,
    with the loop's constants as parameters N and delay: the predicate is
    invoked at most N times; every sleep lasts the fixed delay; a probe that
    returns nil has slept exactly once less than it invoked the predicate
    (it returns at once on the first success); a probe that fails has either
    slept after every invocation (the context was found done) or used all N
    invocations with N - 1 sleeps.  For the ActiveMQ probe this holds over
    both Container implementations. *)
Theorem readiness_attempts :
  forall (W : Type) (rt : Runtime W) (db : Database W) (net : Network W)
         (cl : Client W) (sh : Shell W) (N delay : Z),
    (0 <= N)%Z ->
    (forall s w,
       let o := SQLServer.waitForReadyWith rt db N delay s w in
       attempts_contract N delay (res o) (evs o) /\ hdl o = s)
    /\ (forall a w,
          (let o := ActiveMQ.waitForReadyWith rt net (API.PrintLogsOnFailure cl)
                      N delay a w in
           attempts_contract N delay (res o) (evs o))
          /\ (let o := ActiveMQ.waitForReadyWith rt net (CLI.PrintLogsOnFailure sh)
                         N delay a w in
              attempts_contract N delay (res o) (evs o))).
Proof.
  intros W rt db net cl sh N delay HN. split.
  - intros s w. cbv zeta. split; [now apply sql_waitForReady_counts|].
    apply sql_waitForReady_frame.
  - intros a w. split; cbv zeta.
    + apply amq_waitForReady_counts; [apply api_PrintLogs_frame|apply api_PrintLogs_diag|exact HN].
    + apply amq_waitForReady_counts; [apply cli_PrintLogs_frame|apply cli_PrintLogs_diag|exact HN].
Qed.

Lemma readiness_attempts_witness :
  let o := SQLServer.waitForReady Toy.background Toy.database Toy.sqlserver Toy.w_services in
  res o = None /\ count is_test (evs o) = 1%nat /\ count is_sleep (evs o) = 0%nat.
Proof.
  destruct (readiness_attempts Toy.World Toy.background Toy.database Toy.network
              Toy.client Toy.shell 30 (2 * 1000) ltac:(lia)) as (H & _).
  destruct (H Toy.sqlserver Toy.w_services) as ((_ & _ & Hok & _) & _).
  cbv zeta. assert (Hr : res (SQLServer.waitForReady Toy.background Toy.database
                               Toy.sqlserver Toy.w_services) = None)
    by (vm_compute; reflexivity).
  assert (Ht : count is_test (evs (SQLServer.waitForReady Toy.background Toy.database
                                     Toy.sqlserver Toy.w_services)) = 1%nat)
    by (vm_compute; reflexivity).
  split; [exact Hr|]. split; [exact Ht|].
  destruct (Hok Hr) as (_ & Hs). unfold SQLServer.waitForReady. rewrite Hs.
  unfold SQLServer.waitForReady in Ht. rewrite Ht. reflexivity.
Defined.

(** ** The ActiveMQ container *)

Section ActiveMQFacts.
Context {W : Type} (rt : Runtime W) (net : Network W).

Lemma bind_amq_Infof {A} msg (k : unit -> M ActiveMQ.ActiveMQContainer W A) a w :
  bind (ActiveMQ.Infof msg) k a w = prepend [infoLine (ActiveMQ.base a) msg] (k tt a w).
Proof. now rewrite (bind_out _ _ _ _ _ _ _ _ (amq_Infof msg a w)). Qed.

Lemma bind_amq_Errorf {A} msg (k : unit -> M ActiveMQ.ActiveMQContainer W A) a w :
  bind (ActiveMQ.Errorf msg) k a w = prepend [errorLine (ActiveMQ.base a) msg] (k tt a w).
Proof. now rewrite (bind_out _ _ _ _ _ _ _ _ (amq_Errorf msg a w)). Qed.

Lemma amq_testConnection_eq a w :
  ActiveMQ.testConnection net a w =
    let url := ActiveMQ.webConsoleURL a in
    let c := ActiveMQ.base a in
    if String.eqb url "" then
      mkOut false a w
            [EvCall "testConnection";
             errorLine c "Web console URL not set - container may not be properly started"]
    else
    let t0 := [EvCall "testConnection"; infoLine c ("Testing web console health: " +:+ url)] in
    match http_NewRequest net "GET" (url +:+ "/") with
    | Some e =>
        mkOut false a w (t0 ++ [infoLine c ("Failed to create web console request: " +:+ e)])
    | None =>
        let r := client_Do net (3 * 1000) (url +:+ "/") w in
        match fst r with
        | Err e =>
            mkOut false a (snd r)
                  (t0 ++ [EvHTTPGet (url +:+ "/") (3 * 1000) (fst r);
                          infoLine c ("Web console request failed: " +:+ e)])
        | Ok code =>
            let success := (code =? 401)%Z || (code =? 200)%Z || (code =? 302)%Z in
            mkOut success a (body_Close net (snd r))
                  (t0 ++ [EvHTTPGet (url +:+ "/") (3 * 1000) (fst r);
                          infoLine c ("Web console response status: " +:+ itoa code);
                          infoLine c
                            (if success
                             then "Web console health check successful - service is running"
                             else "Web console health check failed with unexpected status "
                                  +:+ itoa code);
                          EvBodyClose])
        end
    end.
Proof.
  unfold ActiveMQ.testConnection. cbv zeta. repeat step.
  destruct (String.eqb (ActiveMQ.webConsoleURL a) "").
  - rewrite bind_amq_Errorf. unfold ret. tidy. reflexivity.
  - rewrite bind_amq_Infof.
    destruct (http_NewRequest net "GET" _) as [e|].
    + rewrite bind_amq_Infof. unfold ret. tidy. reflexivity.
    + repeat step. destruct (fst (client_Do net _ _ w)) as [code|e].
      * rewrite bind_amq_Infof. unfold ActiveMQ.StatusUnauthorized, ActiveMQ.StatusOK,
          ActiveMQ.StatusFound.
        destruct ((code =? 401)%Z || (code =? 200)%Z || (code =? 302)%Z);
          repeat step; rewrite bind_amq_Infof; unfold bind, ret; tidy; reflexivity.
      * rewrite bind_amq_Infof. unfold ret. tidy. reflexivity.
Qed.

End ActiveMQFacts.

(** X18 - what testConnection of the ActiveMQ container answers: true
    exactly when the web console URL is set, the request can be built, the
    console responds, and the status is 401, 200 or 302; without a URL it
    logs an error and makes no request; the handle is never changed; and
    the response body is closed, as the last interaction, exactly when a
    response was received. *)
Theorem amq_testConnection_spec :
  forall (W : Type) (net : Network W) (a : ActiveMQ.ActiveMQContainer) (w : W),
    let url := ActiveMQ.webConsoleURL a in
    let r := client_Do net (3 * 1000) (url +:+ "/") w in
    let o := ActiveMQ.testConnection net a w in
    hdl o = a
    /\ (res o = true <->
        url <> "" /\ http_NewRequest net "GET" (url +:+ "/") = None
        /\ exists code, fst r = Ok code /\ (code = 401 \/ code = 200 \/ code = 302))
    /\ (url = "" ->
        wld o = w
        /\ evs o = [EvCall "testConnection";
                    errorLine (ActiveMQ.base a)
                      "Web console URL not set - container may not be properly started"])
    /\ (url <> "" -> http_NewRequest net "GET" (url +:+ "/") = None ->
        In (EvHTTPGet (url +:+ "/") (3 * 1000) (fst r)) (evs o)
        /\ forall code, fst r = Ok code ->
             wld o = body_Close net (snd r)
             /\ exists pre, evs o = (pre ++ [EvBodyClose])%list)
    /\ ((forall code, fst r <> Ok code) -> ~ In EvBodyClose (evs o)).
Proof.
  intros W net a w. cbv zeta. rewrite amq_testConnection_eq. cbv zeta.
  destruct (String.eqb_spec (ActiveMQ.webConsoleURL a) "") as [Hu|Hu].
  - cbn [res hdl wld evs]. split; [reflexivity|]. split.
    { split; [discriminate|]. intros (H & _). contradiction. }
    split; [auto|]. split; [intros H; contradiction|].
    intros _ [H|[H|[]]]; discriminate.
  - destruct (http_NewRequest net "GET" _) as [e|] eqn:En.
    + cbn [res hdl wld evs app]. split; [reflexivity|]. split.
      { split; [discriminate|]. intros (_ & H & _). discriminate. }
      split; [intros H; contradiction|]. split; [discriminate|].
      intros _ [H|[H|[H|[]]]]; discriminate.
    + destruct (fst (client_Do net _ _ w)) as [code|e] eqn:Er; cbn [res hdl wld evs app].
      * split; [reflexivity|]. split.
        { split.
          - intros H. split; [exact Hu|]. split; [reflexivity|]. exists code.
            split; [reflexivity|].
            apply orb_true_iff in H. destruct H as [H|H];
              [apply orb_true_iff in H; destruct H as [H|H]|];
              apply Z.eqb_eq in H; auto.
          - intros (_ & _ & code' & Hk & Hc). injection Hk as <-.
            destruct Hc as [-> | [-> | ->]]; reflexivity. }
        split; [intros H; contradiction|]. split.
        { intros _ _. split; [find_in|]. intros code' _. split; [reflexivity|].
          eexists [_; _; _; _; _]. reflexivity. }
        intros H. exfalso. exact (H code eq_refl).
      * split; [reflexivity|]. split.
        { split; [discriminate|]. intros (_ & _ & code & H & _). discriminate. }
        split; [intros H; contradiction|]. split.
        { intros _ _. split; [find_in|]. intros code Hd; discriminate Hd. }
        intros _ [H|[H|[H|[H|[]]]]]; discriminate.
Qed.

Lemma amq_testConnection_spec_witness :
  res (ActiveMQ.testConnection Toy.network Toy.activemq Toy.w_services) = true
  /\ evs (ActiveMQ.testConnection Toy.network Toy.activemq_fresh Toy.w_services)
     = [EvCall "testConnection";
        errorLine (Toy.fresh false)
          "Web console URL not set - container may not be properly started"].
Proof.
  split.
  - apply (amq_testConnection_spec Toy.World Toy.network Toy.activemq Toy.w_services).
    split; [discriminate|]. split; [reflexivity|]. exists 401. auto.
  - apply (amq_testConnection_spec Toy.World Toy.network Toy.activemq_fresh Toy.w_services).
    reflexivity.
Defined.

Section ActiveMQHealth.
Context {W : Type} (net : Network W).
Context {Client : Type}.
Context (NewClient : string -> string -> string -> string -> option Client).
Context (ListQueues : Client -> W -> error * W).

Lemma amq_HealthCheck_eq a w :
  ActiveMQ.HealthCheck net NewClient ListQueues a w =
    let url := ActiveMQ.webConsoleURL a in
    if String.eqb url "" then
      mkOut (Some "web console URL not set - container may not be started") a w []
    else
    match http_NewRequest net "GET" (url +:+ "/") with
    | Some e => mkOut (Some ("health check failed - cannot create request: " +:+ e)) a w []
    | None =>
        let r := client_Do net (5 * 1000) (url +:+ "/") w in
        match fst r with
        | Err e =>
            mkOut (Some ("health check failed - web console request failed: " +:+ e))
                  a (snd r) [EvHTTPGet (url +:+ "/") (5 * 1000) (fst r)]
        | Ok code =>
            if negb (code =? 401)%Z && negb (code =? 200)%Z && negb (code =? 302)%Z then
              mkOut (Some ("health check failed - web console returned unexpected status "
                           +:+ itoa code))
                    a (body_Close net (snd r))
                    [EvHTTPGet (url +:+ "/") (5 * 1000) (fst r); EvBodyClose]
            else
              match NewClient url (ActiveMQ.username a) (ActiveMQ.password a) "localhost" with
              | None =>
                  mkOut (Some "health check failed - cannot create ActiveMQ client")
                        a (body_Close net (snd r))
                        [EvHTTPGet (url +:+ "/") (5 * 1000) (fst r); EvBodyClose]
              | Some client =>
                  let q := ListQueues client (snd r) in
                  mkOut (match fst q with
                         | Some e => Some ("health check failed - cannot list queues: " +:+ e)
                         | None => None
                         end)
                        a (body_Close net (snd q))
                        [EvHTTPGet (url +:+ "/") (5 * 1000) (fst r);
                         EvCall "ListQueues"; EvBodyClose]
              end
        end
    end.
Proof.
  unfold ActiveMQ.HealthCheck, ActiveMQ.CreateClient. cbv zeta. repeat step.
  destruct (String.eqb (ActiveMQ.webConsoleURL a) ""); [reflexivity|].
  destruct (http_NewRequest net "GET" _) as [e|]; [reflexivity|].
  repeat step. destruct (fst (client_Do net _ _ w)) as [code|e].
  - unfold ActiveMQ.StatusUnauthorized, ActiveMQ.StatusOK, ActiveMQ.StatusFound.
    destruct (negb (code =? 401)%Z && negb (code =? 200)%Z && negb (code =? 302)%Z).
    + repeat step. unfold bind, ret. tidy. reflexivity.
    + repeat step.
      destruct (NewClient _ _ _ _) as [client|].
      * repeat step. destruct (fst (ListQueues client _));
          repeat step; unfold bind, ret; tidy; reflexivity.
      * repeat step. unfold bind, ret. tidy. reflexivity.
  - unfold ret. tidy. reflexivity.
Qed.

End ActiveMQHealth.

(** X19 - HealthCheck of the ActiveMQ container: without a web console URL
    (a container never started) it reports web console URL not set and
    makes no request; otherwise it returns nil exactly when the request can
    be built, the console responds with 401, 200 or 302, a client can be
    created and ListQueues succeeds; each failure is reported with the step
    that failed, the client being created only after an accepted status;
    the handle is never changed; and the response body is closed, as the
    last interaction, exactly when a response was received, also when a later
    step fails. *)
Theorem amq_HealthCheck_spec :
  forall (W : Type) (net : Network W) (Client : Type)
         (NewClient : string -> string -> string -> string -> option Client)
         (ListQueues : Client -> W -> error * W)
         (a : ActiveMQ.ActiveMQContainer) (w : W),
    let url := ActiveMQ.webConsoleURL a in
    let r := client_Do net (5 * 1000) (url +:+ "/") w in
    let nc := NewClient url (ActiveMQ.username a) (ActiveMQ.password a) "localhost" in
    let o := ActiveMQ.HealthCheck net NewClient ListQueues a w in
    hdl o = a
    /\ (url = "" ->
        o = mkOut (Some "web console URL not set - container may not be started") a w [])
    /\ (res o = None <->
        url <> "" /\ http_NewRequest net "GET" (url +:+ "/") = None
        /\ exists code client,
             fst r = Ok code /\ (code = 401 \/ code = 200 \/ code = 302)
             /\ nc = Some client /\ fst (ListQueues client (snd r)) = None)
    /\ (url <> "" -> http_NewRequest net "GET" (url +:+ "/") = None ->
        (forall e, fst r = Err e ->
           res o = Some ("health check failed - web console request failed: " +:+ e)
           /\ ~ In EvBodyClose (evs o))
        /\ (forall code, fst r = Ok code ->
              (exists pre, evs o = (pre ++ [EvBodyClose])%list)
              /\ (code <> 401 -> code <> 200 -> code <> 302 ->
                  res o = Some ("health check failed - web console returned unexpected status "
                                +:+ itoa code)
                  /\ count (fun e => match e with EvCall _ => true | _ => false end) (evs o)
                     = 0%nat)
              /\ (code = 401 \/ code = 200 \/ code = 302 -> nc = None ->
                  res o = Some "health check failed - cannot create ActiveMQ client")
              /\ (code = 401 \/ code = 200 \/ code = 302 ->
                  forall client e, nc = Some client ->
                    fst (ListQueues client (snd r)) = Some e ->
                    res o = Some ("health check failed - cannot list queues: " +:+ e)))).
Proof.
  intros W net Client NewClient ListQueues a w. cbv zeta.
  rewrite amq_HealthCheck_eq. cbv zeta.
  destruct (String.eqb_spec (ActiveMQ.webConsoleURL a) "") as [Hu|Hu].
  { cbn [res hdl wld evs]. split; [reflexivity|]. split; [reflexivity|]. split.
    - split; [discriminate|]. intros (H & _). contradiction.
    - intros H. contradiction. }
  destruct (http_NewRequest net "GET" _) as [e|] eqn:En.
  { cbn [res hdl wld evs]. split; [reflexivity|]. split; [intros H; contradiction|]. split.
    - split; [discriminate|]. intros (_ & H & _). discriminate.
    - discriminate. }
  destruct (fst (client_Do net _ _ w)) as [code|e] eqn:Er.
  2:{ cbn [res hdl wld evs]. split; [reflexivity|]. split; [intros H; contradiction|]. split.
      - split; [discriminate|]. intros (_ & _ & code & client & H & _). discriminate.
      - intros _ _. split; [|discriminate].
        intros e' [= <-]. split; [reflexivity|]. intros [H|[]]. discriminate. }
  assert (Hcode : negb (code =? 401)%Z && negb (code =? 200)%Z && negb (code =? 302)%Z = false
                  <-> code = 401 \/ code = 200 \/ code = 302).
  { destruct (Z.eqb_spec code 401), (Z.eqb_spec code 200), (Z.eqb_spec code 302);
      cbn; split; auto; intros H; try discriminate; lia. }
  destruct (negb (code =? 401)%Z && negb (code =? 200)%Z && negb (code =? 302)%Z) eqn:Eb.
  { assert (Hn : ~ (code = 401 \/ code = 200 \/ code = 302))
      by (intros H; apply Hcode in H; discriminate).
    cbn [res hdl wld evs]. split; [reflexivity|]. split; [intros H; contradiction|]. split.
    - split; [discriminate|]. intros (_ & _ & code' & client & Hk & Hc & _).
      injection Hk as <-. contradiction.
    - intros _ _. split; [discriminate|]. intros code' [= <-].
      split; [eexists [_]; reflexivity|]. split; [intros _ _ _; split; reflexivity|].
      split; intros H; contradiction. }
  assert (Hy : code = 401 \/ code = 200 \/ code = 302) by (now apply Hcode).
  destruct (NewClient _ _ _ _) as [client|] eqn:Ec.
  2:{ cbn [res hdl wld evs]. split; [reflexivity|]. split; [intros H; contradiction|]. split.
      - split; [discriminate|]. intros (_ & _ & code' & client & _ & _ & H & _). discriminate.
      - intros _ _. split; [discriminate|]. intros code' [= <-].
        split; [eexists [_]; reflexivity|]. split; [intros; lia|].
        split; [reflexivity|]. intros _ client e Hd; discriminate Hd. }
  cbn [res hdl wld evs]. split; [reflexivity|]. split; [intros H; contradiction|]. split.
  - split.
    + intros H. split; [exact Hu|]. split; [reflexivity|]. exists code, client.
      repeat split; try assumption.
      destruct (fst (ListQueues client _)); [discriminate|reflexivity].
    + intros (_ & _ & code' & client' & Hk & _ & Hk2 & Hq).
      injection Hk as <-. injection Hk2 as <-. rewrite Hq. reflexivity.
  - intros _ _. split; [discriminate|]. intros code' [= <-].
    split; [eexists [_; _]; reflexivity|]. split; [intros; lia|].
    split; [discriminate|]. intros _ client' e [= <-] ->. reflexivity.
Qed.

Lemma amq_HealthCheck_spec_witness :
  ActiveMQ.HealthCheck Toy.network Toy.NewClient Toy.ListQueues Toy.activemq_fresh Toy.w0
  = mkOut (Some "web console URL not set - container may not be started")
          Toy.activemq_fresh Toy.w0 []
  /\ res (ActiveMQ.HealthCheck Toy.network Toy.NewClient Toy.ListQueues Toy.activemq
            Toy.w_services) = None
  /\ res (ActiveMQ.HealthCheck Toy.network Toy.NewClient Toy.ListQueues Toy.activemq Toy.w0)
     = Some "health check failed - web console returned unexpected status 503".
Proof.
  split; [|split].
  - apply (amq_HealthCheck_spec Toy.World Toy.network unit Toy.NewClient Toy.ListQueues
             Toy.activemq_fresh Toy.w0). reflexivity.
  - apply (amq_HealthCheck_spec Toy.World Toy.network unit Toy.NewClient Toy.ListQueues
             Toy.activemq Toy.w_services).
    split; [discriminate|]. split; [reflexivity|]. exists 401, tt. auto 6.
  - destruct (amq_HealthCheck_spec Toy.World Toy.network unit Toy.NewClient Toy.ListQueues
                Toy.activemq Toy.w0) as (_ & _ & _ & H).
    destruct (H ltac:(discriminate) eq_refl) as (_ & Hc).
    destruct (Hc 503 eq_refl) as (_ & Hbad & _).
    apply Hbad; discriminate.
Defined.

Section ActiveMQStart.
Context {W : Type} (rt : Runtime W) (net : Network W).
Context (PL : string -> M Container W unit).
Context (CS : M Container W error) (GP : string -> M Container W (result string)).
Context {Client : Type}.
Context (NewClient : string -> string -> string -> string -> option Client).
Context (ListQueues : Client -> W -> error * W).
Hypothesis PL_frame : forall reason c w, hdl (PL reason c w) = c.

Lemma amq_waitForReady_frame N d a w :
  hdl (ActiveMQ.waitForReadyWith rt net PL N d a w) = a.
Proof.
  unfold ActiveMQ.waitForReadyWith. rewrite bind_amq_Infof, hdl_prepend.
  rewrite bind_framed by (apply amq_readyLoop_frame; exact PL_frame).
  rewrite hdl_prepend.
  destruct (res (ActiveMQ.readyLoop rt net PL N d (Z.to_nat N) 0 a w)); [reflexivity|].
  rewrite bind_amq_Errorf, hdl_prepend.
  rewrite bind_eq, hdl_prepend. rewrite (amq_PrintLogs PL PL_frame). reflexivity.
Qed.

Lemma amq_HealthCheck_frame a w :
  hdl (ActiveMQ.HealthCheck net NewClient ListQueues a w) = a.
Proof.
  rewrite amq_HealthCheck_eq. cbv zeta.
  repeat (break_match; cbn [hdl]); reflexivity.
Qed.

(** What [Start] does once the three ports are known. *)
Lemma amq_Start_tail a w :
  let wait := ActiveMQ.waitForReady rt net PL a w in
  let hc := ActiveMQ.HealthCheck net NewClient ListQueues a (wld wait) in
  let o :=
    (err <- ActiveMQ.waitForReady rt net PL ;;
     match err with
     | Some e =>
         ActiveMQ.PrintLogsOnFailure PL ("ActiveMQ failed to become ready: " +:+ e) ;;;
         ret (Some e)
     | None =>
         ActiveMQ.Infof "Running post-startup health check..." ;;;
         err <- ActiveMQ.HealthCheck net NewClient ListQueues ;;
         match err with
         | Some e =>
             ActiveMQ.PrintLogsOnFailure PL
               ("ActiveMQ health check failed after startup: " +:+ e) ;;;
             ret (Some ("ActiveMQ health check failed: " +:+ e))
         | None =>
             ActiveMQ.Infof "ActiveMQ container is ready and accepting connections" ;;;
             ret None
         end
     end) a w in
  hdl o = a
  /\ res o = match res wait with
             | Some e => Some e
             | None =>
                 match res hc with
                 | Some e => Some ("ActiveMQ health check failed: " +:+ e)
                 | None => None
                 end
             end.
Proof.
  cbv zeta. unfold ActiveMQ.waitForReady.
  rewrite bind_framed by apply amq_waitForReady_frame.
  rewrite hdl_prepend, res_prepend.
  destruct (res (ActiveMQ.waitForReadyWith rt net PL 60 (2 * 1000) a w)) as [e|].
  - rewrite bind_eq, hdl_prepend, res_prepend, (amq_PrintLogs PL PL_frame). split; reflexivity.
  - rewrite bind_amq_Infof, hdl_prepend, res_prepend.
    rewrite bind_framed by apply amq_HealthCheck_frame.
    rewrite hdl_prepend, res_prepend.
    destruct (res (ActiveMQ.HealthCheck net NewClient ListQueues a _)) as [e|].
    + rewrite bind_eq, hdl_prepend, res_prepend, (amq_PrintLogs PL PL_frame).
      split; reflexivity.
    + rewrite bind_amq_Infof. split; reflexivity.
Qed.

Lemma amq_Start_fields a w :
  let o := ActiveMQ.Start rt net PL CS GP NewClient ListQueues a w in
  let o1 := CS (ActiveMQ.base a) w in
  let o2 := GP "61616" (hdl o1) (wld o1) in
  let o3 := GP "8161" (hdl o2) (wld o2) in
  let o4 := GP "1099" (hdl o3) (wld o3) in
  match res o1 with
  | Some e =>
      res o = Some ("failed to start ActiveMQ container: " +:+ e)
      /\ exists c, hdl o = ActiveMQ.set_base c a
  | None =>
      match res o2 with
      | Err e =>
          res o = Some ("failed to get ActiveMQ broker port: " +:+ e)
          /\ exists c, hdl o = ActiveMQ.set_base c a
      | Ok p1 =>
          match res o3 with
          | Err e =>
              res o = Some ("failed to get ActiveMQ web console port: " +:+ e)
              /\ exists c, hdl o = ActiveMQ.set_base c a
          | Ok p2 =>
              match res o4 with
              | Err e =>
                  res o = Some ("failed to get ActiveMQ JMX port: " +:+ e)
                  /\ exists c, hdl o = ActiveMQ.set_base c a
              | Ok p3 =>
                  let a5 := ActiveMQ.set_urls ("tcp://localhost:" +:+ p1)
                                              ("http://localhost:" +:+ p2)
                                              (ActiveMQ.set_base (hdl o4) a) in
                  let wait := ActiveMQ.waitForReady rt net PL a5 (wld o4) in
                  let hc := ActiveMQ.HealthCheck net NewClient ListQueues a5 (wld wait) in
                  hdl o = a5
                  /\ res o = match res wait with
                             | Some e => Some e
                             | None =>
                                 match res hc with
                                 | Some e => Some ("ActiveMQ health check failed: " +:+ e)
                                 | None => None
                                 end
                             end
              end
          end
      end
  end.
Proof.
  assert (Hsb : forall c1 c2 x, ActiveMQ.set_base c1 (ActiveMQ.set_base c2 x)
                                = ActiveMQ.set_base c1 x) by reflexivity.
  cbv zeta. unfold ActiveMQ.Start, ActiveMQ.GetPort.
  rewrite bind_amq_Infof, res_prepend, hdl_prepend.
  rewrite bind_eq, embed_eq, res_prepend, hdl_prepend. cbn [res hdl wld evs].
  destruct (res (CS (ActiveMQ.base a) w)) as [e|].
  { rewrite bind_eq, res_prepend, hdl_prepend.
    unfold ActiveMQ.PrintLogsOnFailure. rewrite embed_eq. cbn [res hdl wld evs ret].
    split; [reflexivity|]. rewrite Hsb. eauto. }
  rewrite bind_amq_Infof, res_prepend, hdl_prepend.
  rewrite bind_eq, embed_eq, res_prepend, hdl_prepend.
  cbn [res hdl wld evs ActiveMQ.base ActiveMQ.set_base].
  destruct (res (GP "61616" _ _)) as [p1|e].
  2:{ rewrite bind_amq_Errorf, res_prepend, hdl_prepend. cbn [res hdl ret].
      split; [reflexivity|]. eauto. }
  rewrite bind_eq, embed_eq, res_prepend, hdl_prepend.
  cbn [res hdl wld evs ActiveMQ.base ActiveMQ.set_base].
  destruct (res (GP "8161" _ _)) as [p2|e].
  2:{ rewrite bind_amq_Errorf, res_prepend, hdl_prepend. cbn [res hdl ret].
      split; [reflexivity|]. eauto. }
  rewrite bind_eq, embed_eq, res_prepend, hdl_prepend.
  cbn [res hdl wld evs ActiveMQ.base ActiveMQ.set_base].
  destruct (res (GP "1099" _ _)) as [p3|e].
  2:{ rewrite bind_amq_Errorf, res_prepend, hdl_prepend. cbn [res hdl ret].
      split; [reflexivity|]. eauto. }
  repeat step. rewrite !bind_amq_Infof, !res_prepend, !hdl_prepend.
  match goal with
  | |- context [?m ?a5 ?w5] =>
      match m with
      | bind (ActiveMQ.waitForReady rt net PL) _ =>
          destruct (amq_Start_tail a5 w5) as (Hh & Hr)
      end
  end.
  split; [exact Hh|exact Hr].
Qed.

End ActiveMQStart.

(** X20 - Start of the ActiveMQ container, over any Start, GetPort and
    PrintLogsOnFailure of the embedded Container (the last one leaving the
    handle as it is, as both implementations do): credentials are never
    changed; a failure of the embedded Start, or of the lookup of any of the
    ports 61616, 8161 and 1099, is returned wrapped with its own message and
    leaves both URLs as they were; once the three ports are known the broker
    URL is tcp://localhost: followed by the port of 61616 and the web
    console URL http://localhost: followed by the port of 8161, and Start
    returns nil exactly when waitForReady and then HealthCheck return nil
    on that handle; so after a Start that returns nil both URLs are set. *)
Theorem amq_Start_spec :
  forall (W : Type) (rt : Runtime W) (net : Network W)
         (PL : string -> M Container W unit)
         (CS : M Container W error) (GP : string -> M Container W (result string))
         (Client : Type)
         (NewClient : string -> string -> string -> string -> option Client)
         (ListQueues : Client -> W -> error * W)
         (a : ActiveMQ.ActiveMQContainer) (w : W),
    (forall reason c w', hdl (PL reason c w') = c) ->
    let o := ActiveMQ.Start rt net PL CS GP NewClient ListQueues a w in
    let o1 := CS (ActiveMQ.base a) w in
    let o2 := GP "61616" (hdl o1) (wld o1) in
    let o3 := GP "8161" (hdl o2) (wld o2) in
    let o4 := GP "1099" (hdl o3) (wld o3) in
    let unchanged := ActiveMQ.brokerURL (hdl o) = ActiveMQ.brokerURL a
                     /\ ActiveMQ.webConsoleURL (hdl o) = ActiveMQ.webConsoleURL a in
    (ActiveMQ.username (hdl o) = ActiveMQ.username a
     /\ ActiveMQ.password (hdl o) = ActiveMQ.password a)
    /\ (forall e, res o1 = Some e ->
          res o = Some ("failed to start ActiveMQ container: " +:+ e) /\ unchanged)
    /\ (res o1 = None -> forall e, res o2 = Err e ->
          res o = Some ("failed to get ActiveMQ broker port: " +:+ e) /\ unchanged)
    /\ (res o1 = None -> forall p1 e, res o2 = Ok p1 -> res o3 = Err e ->
          res o = Some ("failed to get ActiveMQ web console port: " +:+ e) /\ unchanged)
    /\ (res o1 = None -> forall p1 p2 e, res o2 = Ok p1 -> res o3 = Ok p2 -> res o4 = Err e ->
          res o = Some ("failed to get ActiveMQ JMX port: " +:+ e) /\ unchanged)
    /\ (res o1 = None -> forall p1 p2 p3,
          res o2 = Ok p1 -> res o3 = Ok p2 -> res o4 = Ok p3 ->
          let a5 := {| ActiveMQ.base := hdl o4;
                       ActiveMQ.username := ActiveMQ.username a;
                       ActiveMQ.password := ActiveMQ.password a;
                       ActiveMQ.brokerURL := "tcp://localhost:" +:+ p1;
                       ActiveMQ.webConsoleURL := "http://localhost:" +:+ p2 |} in
          let wait := ActiveMQ.waitForReady rt net PL a5 (wld o4) in
          let hc := ActiveMQ.HealthCheck net NewClient ListQueues a5 (wld wait) in
          hdl o = a5
          /\ (res o = None <-> res wait = None /\ res hc = None)
          /\ (forall e, res wait = Some e -> res o = Some e)
          /\ (res wait = None -> forall e, res hc = Some e ->
                res o = Some ("ActiveMQ health check failed: " +:+ e)))
    /\ (res o = None ->
          exists p1 p2,
            ActiveMQ.brokerURL (hdl o) = "tcp://localhost:" +:+ p1
            /\ ActiveMQ.webConsoleURL (hdl o) = "http://localhost:" +:+ p2).
Proof.
  intros W rt net PL CS GP Client NewClient ListQueues a w PL_frame. cbv zeta.
  pose proof (amq_Start_fields rt net PL CS GP NewClient ListQueues PL_frame a w) as H.
  cbv zeta in H.
  destruct (res (CS (ActiveMQ.base a) w)) as [e1|] eqn:E1.
  { destruct H as (Hr & c & Hh). rewrite Hr, Hh. cbn.
    split; [auto|]. split; [intros e [= <-]; auto|].
    repeat split; discriminate. }
  destruct (res (GP "61616" _ _)) as [p1|e2] eqn:E2.
  2:{ destruct H as (Hr & c & Hh). rewrite Hr, Hh. cbn.
      split; [auto|]. split; [discriminate|]. split; [intros _ e [= <-]; auto|].
      repeat split; discriminate. }
  destruct (res (GP "8161" _ _)) as [p2|e3] eqn:E3.
  2:{ destruct H as (Hr & c & Hh). rewrite Hr, Hh. cbn.
      split; [auto|]. split; [discriminate|]. split; [discriminate|].
      split; [intros _ p e [= <-] [= <-]; auto|].
      repeat split; discriminate. }
  destruct (res (GP "1099" _ _)) as [p3|e4] eqn:E4.
  2:{ destruct H as (Hr & c & Hh). rewrite Hr, Hh. cbn.
      split; [auto|]. split; [discriminate|]. split; [discriminate|].
      split; [discriminate|].
      split; [intros _ p p' e [= <-] [= <-] [= <-]; auto|].
      repeat split; discriminate. }
  destruct H as (Hh & Hr). rewrite Hr, Hh.
  unfold ActiveMQ.set_urls, ActiveMQ.set_base.
  cbn [ActiveMQ.base ActiveMQ.username ActiveMQ.password ActiveMQ.brokerURL
       ActiveMQ.webConsoleURL].
  unfold ActiveMQ.set_urls, ActiveMQ.set_base in Hr.
  cbn [ActiveMQ.base ActiveMQ.username ActiveMQ.password ActiveMQ.brokerURL
       ActiveMQ.webConsoleURL] in Hr.
  split; [auto|]. split; [discriminate|]. split; [discriminate|].
  split; [discriminate|]. split; [discriminate|]. split.
  - intros _ q1 q2 q3 [= <-] [= <-] [= <-]. split; [reflexivity|].
    set (wait := ActiveMQ.waitForReady rt net PL _ _).
    set (hc := ActiveMQ.HealthCheck net NewClient ListQueues _ _).
    destruct (res wait) as [e|].
    + split; [split; [discriminate|intros (Hd & _); discriminate]|].
      split; [intros e' [= <-]; reflexivity|discriminate].
    + destruct (res hc) as [e|].
      * split; [split; [discriminate|intros (_ & Hd); discriminate]|].
        split; [discriminate|]. intros _ e' [= <-]. reflexivity.
      * split; [split; auto|]. split; discriminate.
  - intros _. eauto.
Qed.

Lemma amq_Start_spec_witness :
  let o := ActiveMQ.Start Toy.runtime Toy.network (API.PrintLogsOnFailure Toy.client)
             (API.Start Toy.runtime Toy.client) (API.GetPort Toy.client)
             Toy.NewClient Toy.ListQueues Toy.activemq_fresh Toy.w_services in
  res o = None
  /\ ActiveMQ.brokerURL (hdl o) = "tcp://localhost:32771"
  /\ ActiveMQ.webConsoleURL (hdl o) = "http://localhost:32772".
Proof.
  destruct (amq_Start_spec Toy.World Toy.runtime Toy.network
              (API.PrintLogsOnFailure Toy.client)
              (API.Start Toy.runtime Toy.client) (API.GetPort Toy.client)
              unit Toy.NewClient Toy.ListQueues Toy.activemq_fresh Toy.w_services
              (api_PrintLogs_frame Toy.client))
    as (_ & _ & _ & _ & _ & Hok & _).
  destruct (Hok ltac:(vm_compute; reflexivity) "32771" "32772" "32773"
              ltac:(vm_compute; reflexivity) ltac:(vm_compute; reflexivity)
              ltac:(vm_compute; reflexivity)) as (Hh & Hiff & _).
  cbv zeta. split.
  - apply Hiff. split; vm_compute; reflexivity.
  - rewrite Hh. split; reflexivity.
Defined.

(** ** Start and the identifier the handle already holds *)

Section FlagIrrelevant.
Context {W : Type} (rt : Runtime W) (cl : Client W) (sh : Shell W).

Lemma api_PrintLogs_same reason cfg id r r' w :
  same_run (API.PrintLogsOnFailure cl reason
              {| config := cfg; containerID := id; isRunning := r |} w)
           (API.PrintLogsOnFailure cl reason
              {| config := cfg; containerID := id; isRunning := r' |} w).
Proof.
  unfold same_run, API.PrintLogsOnFailure, API.Logs. run_monad.
  unfold errorLine, infoLine.
  cbn [config containerID prepend res hdl wld evs fst snd app].
  repeat (break_match; cbn [config containerID prepend res hdl wld evs fst snd app]);
    repeat split.
Qed.

Lemma cli_PrintLogs_same reason cfg id r r' w :
  same_run (CLI.PrintLogsOnFailure sh reason
              {| config := cfg; containerID := id; isRunning := r |} w)
           (CLI.PrintLogsOnFailure sh reason
              {| config := cfg; containerID := id; isRunning := r' |} w).
Proof.
  unfold same_run, CLI.PrintLogsOnFailure, CLI.Logs, CLI.Exec_Run. run_monad.
  unfold errorLine, infoLine.
  cbn [config containerID prepend res hdl wld evs fst snd app].
  repeat (break_match; cbn [config containerID prepend res hdl wld evs fst snd app]);
    repeat split.
Qed.

Lemma api_stabilityLoop_same n cfg id r r' : forall w,
  same_run (API.stabilityLoop rt cl n {| config := cfg; containerID := id; isRunning := r |} w)
           (API.stabilityLoop rt cl n {| config := cfg; containerID := id; isRunning := r' |} w).
Proof.
  induction n as [|n IH]; intros w; [repeat split|].
  rewrite !api_stabilityLoop_step. cbn [containerID].
  destruct (ctx_err rt w); [repeat split|]. cbv zeta.
  destruct (fst (ContainerInspect cl id w)) as [inspect|e].
  - destruct (Running (State inspect)).
    + destruct (IH (time_Sleep rt 500 (snd (ContainerInspect cl id w)))) as (A & B & C).
      unfold same_run. cbn [res wld evs]. rewrite A, B, C. repeat split.
    + match goal with
      | |- context [API.PrintLogsOnFailure cl ?rs _ ?w1] =>
          destruct (api_PrintLogs_same rs cfg id r r' w1) as (A & B & C)
      end.
      unfold same_run. cbn [res wld evs]. rewrite B, C. repeat split.
  - match goal with
    | |- context [API.PrintLogsOnFailure cl ?rs _ ?w1] =>
        destruct (api_PrintLogs_same rs cfg id r r' w1) as (A & B & C)
    end.
    unfold same_run. cbn [res wld evs]. rewrite B, C. repeat split.
Qed.

Lemma cli_stabilityLoop_same n cfg id r r' : forall w,
  same_run (CLI.stabilityLoop rt sh n {| config := cfg; containerID := id; isRunning := r |} w)
           (CLI.stabilityLoop rt sh n {| config := cfg; containerID := id; isRunning := r' |} w).
Proof.
  induction n as [|n IH]; intros w; [repeat split|].
  rewrite !cli_stabilityLoop_step. cbn [containerID].
  destruct (ctx_err rt w); [repeat split|]. cbv zeta.
  destruct (PErr (fst (Run sh (CLI.inspectStateArgv id) w))) as [e|].
  - match goal with
    | |- context [CLI.PrintLogsOnFailure sh ?rs _ ?w1] =>
        destruct (cli_PrintLogs_same rs cfg id r r' w1) as (A & B & C)
    end.
    unfold same_run. cbn [res wld evs]. rewrite B, C. repeat split.
  - destruct (Unmarshal sh _) as [state|e]; [|repeat split].
    destruct (Running state).
    + destruct (IH (time_Sleep rt 500 (snd (Run sh (CLI.inspectStateArgv id) w))))
        as (A & B & C).
      unfold same_run. cbn [res wld evs]. rewrite A, B, C. repeat split.
    + match goal with
      | |- context [CLI.PrintLogsOnFailure sh ?rs _ ?w1] =>
          destruct (cli_PrintLogs_same rs cfg id r r' w1) as (A & B & C)
      end.
      unfold same_run. cbn [res wld evs]. rewrite B, C. repeat split.
Qed.

Lemma api_waitForStableState_same cfg id r r' w :
  same_run (API.waitForStableState rt cl {| config := cfg; containerID := id; isRunning := r |} w)
           (API.waitForStableState rt cl {| config := cfg; containerID := id; isRunning := r' |} w).
Proof.
  unfold API.waitForStableState. rewrite !bind_Infof.
  rewrite !bind_framed by apply api_stabilityLoop_frame.
  destruct (api_stabilityLoop_same (Z.to_nat API.maxChecks) cfg id r r' w) as (A & B & C).
  rewrite A, B, C.
  clear A B C.
  destruct (res (API.stabilityLoop rt cl (Z.to_nat API.maxChecks)
                   {| config := cfg; containerID := id; isRunning := r' |} w)) as [e|];
    repeat step; unfold ret; tidy; repeat split.
Qed.

Lemma cli_waitForStableState_same cfg id r r' w :
  same_run (CLI.waitForStableState rt sh {| config := cfg; containerID := id; isRunning := r |} w)
           (CLI.waitForStableState rt sh {| config := cfg; containerID := id; isRunning := r' |} w).
Proof.
  unfold CLI.waitForStableState. rewrite !bind_Infof.
  rewrite !bind_framed by apply cli_stabilityLoop_frame.
  destruct (cli_stabilityLoop_same (Z.to_nat CLI.maxChecks) cfg id r r' w) as (A & B & C).
  rewrite A, B, C.
  clear A B C.
  destruct (res (CLI.stabilityLoop rt sh (Z.to_nat CLI.maxChecks)
                   {| config := cfg; containerID := id; isRunning := r' |} w)) as [e|];
    repeat step; unfold ret; tidy; repeat split.
Qed.

Lemma api_createAndStart_same cfg id id' r r' w :
  same_run (API.createAndStartContainer rt cl
              {| config := cfg; containerID := id; isRunning := r |} w)
           (API.createAndStartContainer rt cl
              {| config := cfg; containerID := id'; isRunning := r' |} w).
Proof.
  rewrite !api_createAndStart. cbv zeta. cbn [config]. unfold set_containerID.
  cbn [config isRunning].
  destruct (fst (ImageInspectWithRaw cl (Image cfg) w)) as [m1|];
    [destruct (fst (ImagePull cl (Image cfg) _)) as [m2|]|];
    try (repeat split; fail).
  all: match goal with
       | |- context [fst (ContainerCreate cl ?rq ?w1)] =>
           destruct (fst (ContainerCreate cl rq w1)) as [new|m]
       end; try (repeat split; fail).
  all: match goal with
       | |- context [fst (ContainerStart cl ?i ?w1)] =>
           destruct (fst (ContainerStart cl i w1)) as [m|]
       end.
  all: try match goal with
       | |- context [API.PrintLogsOnFailure cl ?rs _ ?w1] =>
           destruct (api_PrintLogs_same rs cfg new r r' w1) as (A & B & C);
           unfold same_run; cbn [res wld evs]; rewrite B, C; repeat split
       end.
  all: match goal with
       | |- context [API.waitForStableState rt cl _ ?w1] =>
           destruct (api_waitForStableState_same cfg new r r' w1) as (A & B & C);
           rewrite A, B, C
       end.
  all: match goal with
       | |- context [res (API.waitForStableState rt cl ?c1 ?w1)] =>
           destruct (res (API.waitForStableState rt cl c1 w1))
       end; repeat split.
Qed.

Lemma cli_createAndStart_same cfg id id' r r' w :
  same_run (CLI.createAndStartContainer rt sh
              {| config := cfg; containerID := id; isRunning := r |} w)
           (CLI.createAndStartContainer rt sh
              {| config := cfg; containerID := id'; isRunning := r' |} w).
Proof.
  rewrite !cli_createAndStart. cbv zeta. cbn [config]. unfold set_containerID.
  cbn [config isRunning].
  destruct (PErr (fst (Run sh ["docker"; "image"; "inspect"; Image cfg] w))) as [m1|];
    [destruct (PErr (fst (Run sh ["docker"; "pull"; Image cfg] _))) as [m2|]|];
    try (repeat split; fail).
  all: match goal with
       | |- context [PErr (fst (Run sh (CLI.createArgv ?cf) ?w1))] =>
           destruct (PErr (fst (Run sh (CLI.createArgv cf) w1))) as [m|]
       end; try (repeat split; fail).
  all: match goal with
       | |- context [PErr (fst (Run sh (startArgv ?i) ?w1))] =>
           destruct (PErr (fst (Run sh (startArgv i) w1))) as [m|]
       end.
  all: try match goal with
       | |- context [CLI.PrintLogsOnFailure sh ?rs
                       {| config := _; containerID := ?new; isRunning := _ |} ?w1] =>
           destruct (cli_PrintLogs_same rs cfg new r r' w1) as (A & B & C);
           unfold same_run; cbn [res wld evs]; rewrite B, C; repeat split
       end.
  all: match goal with
       | |- context [CLI.waitForStableState rt sh
                       {| config := _; containerID := ?new; isRunning := _ |} ?w1] =>
           destruct (cli_waitForStableState_same cfg new r r' w1) as (A & B & C);
           rewrite A, B, C
       end.
  all: match goal with
       | |- context [res (CLI.waitForStableState rt sh ?c1 ?w1)] =>
           destruct (res (CLI.waitForStableState rt sh c1 w1))
       end; repeat split.
Qed.

End FlagIrrelevant.

(** X21 - Start without reuse does not look at the container the handle
    already holds, in both implementations: on a handle with any identifier
    and any isRunning flag it returns the same result, makes the same
    interactions and leaves the same world as on the handle New gives for
    the same configuration; so it neither stops nor removes the container
    held, and whenever its create call succeeds the identifier held is
    replaced by the new one. *)
Theorem Start_ignores_held_container :
  forall (W : Type) (rt : Runtime W) (cl : Client W) (sh : Shell W)
         (cfg : Config) (id : string) (running : bool) (w : W),
    Reuse cfg = false ->
    let c := {| config := cfg; containerID := id; isRunning := running |} in
    same_run (API.Start rt cl c w) (API.Start rt cl (New cfg) w)
    /\ same_run (CLI.Start rt sh c w) (CLI.Start rt sh (New cfg) w)
    /\ (hdl (API.Start rt cl c w) = c
        \/ In (EvContainerCreate (API.createRequest cfg)
                 (Ok (containerID (hdl (API.Start rt cl c w)))))
              (evs (API.Start rt cl c w)))
    /\ (hdl (CLI.Start rt sh c w) = c
        \/ exists p, In (EvExec (CLI.createArgv cfg) p) (evs (CLI.Start rt sh c w))
                     /\ PErr p = None
                     /\ TrimSpace (PStdout p) = containerID (hdl (CLI.Start rt sh c w))).
Proof.
  intros W rt cl sh cfg id running w Hr. cbv zeta.
  rewrite !api_Start_fresh, !cli_Start_fresh by exact Hr.
  split; [apply api_createAndStart_same|]. split; [apply cli_createAndStart_same|].
  split.
  - apply (api_createAndStart_id rt cl
             {| config := cfg; containerID := id; isRunning := running |} w).
  - apply (cli_createAndStart_id rt sh
             {| config := cfg; containerID := id; isRunning := running |} w).
Qed.

Lemma Start_ignores_held_container_witness :
  let o := API.Start Toy.runtime Toy.client (Toy.handle false true) Toy.w0 in
  evs o = evs (API.Start Toy.runtime Toy.client (Toy.fresh false) Toy.w0)
  /\ containerID (Toy.handle false true) = "abc"
  /\ containerID (hdl o) = "def"
  /\ count is_remove (evs o) = 0%nat.
Proof.
  destruct (Start_ignores_held_container Toy.World Toy.runtime Toy.client Toy.shell
              (Toy.cfg false) "abc" true Toy.w0 eq_refl) as ((_ & _ & He) & _).
  cbv zeta. split; [exact He|]. split; [reflexivity|].
  split; vm_compute; reflexivity.
Defined.

(** ** Concrete runs of the properties without premises *)

Lemma lookupByName_first_match_witness :
  exists pre post,
    [ {| ID := "x1"; Names := ["/webx"]; SummaryStatus := "Up" |};
      {| ID := "x2"; Names := ["/other"; "/web"]; SummaryStatus := "Exited (1)" |} ]
    = (pre ++ {| ID := "x2"; Names := ["/other"; "/web"]; SummaryStatus := "Exited (1)" |}
           :: post)%list
    /\ (forall c n, In c pre -> In n (Names c) -> TrimPrefix n "/" <> "web").
Proof.
  pose proof (lookupByName_first_match "web"
    [ {| ID := "x1"; Names := ["/webx"]; SummaryStatus := "Up" |};
      {| ID := "x2"; Names := ["/other"; "/web"]; SummaryStatus := "Exited (1)" |} ]) as H.
  cbn in H. destruct H as (pre & post & E & _ & Hpre).
  exists pre, post. split; [exact E|exact Hpre].
Defined.


Lemma handle_invariants_witness :
  hdl (API.GetPort Toy.client "80" (Toy.handle false true) Toy.w0) = Toy.handle false true
  /\ containerID (hdl (CLI.Stop Toy.shell (Toy.handle false true) Toy.w0)) = "abc"
  /\ config (hdl (API.Cleanup Toy.client (Toy.handle false true) Toy.w0)) = Toy.cfg false.
Proof.
  destruct (handle_invariants Toy.World Toy.runtime Toy.client Toy.shell
              (Toy.handle false true) Toy.w0 "80" false [])
    as ((Hg & _) & (_ & _ & _ & Hs) & _ & (Hc & _) & _).
  split; [exact Hg|]. split; [exact Hs|exact Hc].
Defined.

(** ** The getters of the ActiveMQ container *)

Lemma prefix_append (p s : string) : String.prefix p (p +:+ s) = true.
Proof.
  induction p as [|a p IH]; [destruct s; reflexivity|].
  change (String a p +:+ s) with (String a (p +:+ s)). cbn [String.prefix].
  destruct (Ascii.ascii_dec a a) as [_|N]; [exact IH|contradiction].
Qed.

(** X22 - the getters of the ActiveMQ container: each returns its field
    without touching the engine or the handle, GetTCPBrokerURL being the
    same as GetBrokerURL; on a container never started GetJMXPort reports
    container not started, in both implementations of GetPort; and after a
    Start that returned nil GetBrokerURL begins with tcp://localhost:,
    GetWebConsoleURL with http://localhost:, and GetCredentials gives the
    credentials the handle had before. *)
Theorem amq_getters :
  forall (W : Type) (rt : Runtime W) (net : Network W) (cl : Client W) (sh : Shell W)
         (PL : string -> M Container W unit)
         (CS : M Container W error) (GP : string -> M Container W (result string))
         (Broker : Type)
         (NewClient : string -> string -> string -> string -> option Broker)
         (ListQueues : Broker -> W -> error * W)
         (a : ActiveMQ.ActiveMQContainer) (w : W),
    (ActiveMQ.GetBrokerURL a w = mkOut (ActiveMQ.brokerURL a) a w []
     /\ ActiveMQ.GetTCPBrokerURL a w = ActiveMQ.GetBrokerURL a w
     /\ ActiveMQ.GetWebConsoleURL a w = mkOut (ActiveMQ.webConsoleURL a) a w []
     /\ ActiveMQ.GetCredentials a w
        = mkOut (ActiveMQ.username a, ActiveMQ.password a) a w [])
    /\ (containerID (ActiveMQ.base a) = "" ->
        res (ActiveMQ.GetJMXPort (API.GetPort cl) a w) = Err "container not started"
        /\ evs (ActiveMQ.GetJMXPort (API.GetPort cl) a w) = []
        /\ res (ActiveMQ.GetJMXPort (CLI.GetPort sh) a w) = Err "container not started"
        /\ evs (ActiveMQ.GetJMXPort (CLI.GetPort sh) a w) = [])
    /\ ((forall reason c w', hdl (PL reason c w') = c) ->
        let o := ActiveMQ.Start rt net PL CS GP NewClient ListQueues a w in
        res o = None ->
        forall w' : W,
          HasPrefix (res (ActiveMQ.GetBrokerURL (hdl o) w')) "tcp://localhost:" = true
          /\ HasPrefix (res (ActiveMQ.GetWebConsoleURL (hdl o) w')) "http://localhost:" = true
          /\ res (ActiveMQ.GetCredentials (hdl o) w')
             = (ActiveMQ.username a, ActiveMQ.password a)).
Proof.
  intros W rt net cl sh PL CS GP Broker NewClient ListQueues a w.
  split; [repeat split|]. split.
  - intros Hid. unfold ActiveMQ.GetJMXPort, ActiveMQ.GetPort. rewrite !embed_eq.
    cbn [res evs]. rewrite api_GetPort_empty, cli_GetPort_empty by exact Hid.
    repeat split.
  - intros PL_frame. cbv zeta. intros Hr w'.
    pose proof (amq_Start_fields rt net PL CS GP NewClient ListQueues PL_frame a w) as H.
    cbv zeta in H.
    destruct (res (CS (ActiveMQ.base a) w)) as [e1|];
      [destruct H as (H & _); rewrite H in Hr; discriminate|].
    destruct (res (GP "61616" _ _)) as [p1|e2];
      [|destruct H as (H & _); rewrite H in Hr; discriminate].
    destruct (res (GP "8161" _ _)) as [p2|e3];
      [|destruct H as (H & _); rewrite H in Hr; discriminate].
    destruct (res (GP "1099" _ _)) as [p3|e4];
      [|destruct H as (H & _); rewrite H in Hr; discriminate].
    destruct H as (Hh & _). rewrite Hh.
    unfold ActiveMQ.GetBrokerURL, ActiveMQ.GetWebConsoleURL, ActiveMQ.GetCredentials.
    rewrite !bind_get. unfold ret, ActiveMQ.set_urls, ActiveMQ.set_base, HasPrefix.
    cbn [res ActiveMQ.brokerURL ActiveMQ.webConsoleURL ActiveMQ.username ActiveMQ.password].
    split; [apply prefix_append|split; [apply prefix_append|reflexivity]].
Qed.

Lemma amq_getters_witness :
  res (ActiveMQ.GetJMXPort (API.GetPort Toy.client) Toy.activemq_fresh Toy.w0)
  = Err "container not started"
  /\ (let o := ActiveMQ.Start Toy.runtime Toy.network (API.PrintLogsOnFailure Toy.client)
                 (API.Start Toy.runtime Toy.client) (API.GetPort Toy.client)
                 Toy.NewClient Toy.ListQueues Toy.activemq_fresh Toy.w_services in
      HasPrefix (res (ActiveMQ.GetBrokerURL (hdl o) (wld o))) "tcp://localhost:" = true
      /\ res (ActiveMQ.GetCredentials (hdl o) (wld o)) = ("admin", "admin")).
Proof.
  destruct (amq_getters Toy.World Toy.runtime Toy.network Toy.client Toy.shell
              (API.PrintLogsOnFailure Toy.client)
              (API.Start Toy.runtime Toy.client) (API.GetPort Toy.client)
              unit Toy.NewClient Toy.ListQueues Toy.activemq_fresh Toy.w0)
    as (_ & Hj & _).
  destruct (amq_getters Toy.World Toy.runtime Toy.network Toy.client Toy.shell
              (API.PrintLogsOnFailure Toy.client)
              (API.Start Toy.runtime Toy.client) (API.GetPort Toy.client)
              unit Toy.NewClient Toy.ListQueues Toy.activemq_fresh Toy.w_services)
    as (_ & _ & Hs).
  split; [exact (proj1 (Hj eq_refl))|].
  cbv zeta.
  match goal with
  | |- context [ActiveMQ.GetBrokerURL _ ?w'] =>
      destruct (Hs (api_PrintLogs_frame Toy.client) ltac:(vm_compute; reflexivity) w')
        as (Hb & _ & Hc)
  end.
  split; [exact Hb|exact Hc].
Defined.

(** ** Exec on the Docker API client *)

Section ExecFacts.
Context {W : Type} (ex : ExecClient W).

Lemma api_Exec_eq cmd c w :
  API.Exec ex cmd c w =
    if String.eqb (containerID c) "" then
      mkOut ("", Some "container not started") c w []
    else
    let r1 := ContainerExecCreate ex (containerID c) cmd w in
    match fst r1 with
    | Err e =>
        mkOut ("", Some ("failed to create exec instance: " +:+ e)) c (snd r1)
              [EvCall "ContainerExecCreate"]
    | Ok execID =>
        let r2 := ContainerExecAttach ex execID (snd r1) in
        match fst r2 with
        | Err e =>
            mkOut ("", Some ("failed to attach to exec instance: " +:+ e)) c (snd r2)
                  [EvCall "ContainerExecCreate"; EvCall "ContainerExecAttach"]
        | Ok resp =>
            let r3 := io_ReadAll ex resp (snd r2) in
            match snd (fst r3) with
            | Some e =>
                mkOut ("", Some ("failed to read exec output: " +:+ e)) c
                      (resp_Close ex resp (snd r3))
                      [EvCall "ContainerExecCreate"; EvCall "ContainerExecAttach";
                       EvCall "io.ReadAll"; EvClose resp]
            | None =>
                let output := fst (fst r3) in
                let r4 := ContainerExecInspect ex execID (snd r3) in
                mkOut (match fst r4 with
                       | Err e => ("", Some ("failed to inspect exec result: " +:+ e))
                       | Ok code =>
                           (output,
                            if (code =? 0)%Z then None
                            else Some ("command failed with exit code " +:+ itoa code
                                       +:+ ": " +:+ output))
                       end)
                      c (resp_Close ex resp (snd r4))
                      [EvCall "ContainerExecCreate"; EvCall "ContainerExecAttach";
                       EvCall "io.ReadAll"; EvCall "ContainerExecInspect"; EvClose resp]
            end
        end
    end.
Proof.
  unfold API.Exec. cbv zeta. repeat step.
  destruct (String.eqb (containerID c) ""); [reflexivity|].
  repeat step. destruct (fst (ContainerExecCreate ex _ _ w)) as [execID|e];
    [|unfold ret; tidy; reflexivity].
  repeat step. destruct (fst (ContainerExecAttach ex execID _)) as [resp|e];
    [|unfold ret; tidy; reflexivity].
  repeat step. destruct (snd (fst (io_ReadAll ex resp _))) as [e|].
  - repeat step. unfold bind, ret. tidy. reflexivity.
  - repeat step. destruct (fst (ContainerExecInspect ex execID _)) as [code|e].
    + destruct (code =? 0)%Z; repeat step; unfold bind, ret; tidy; reflexivity.
    + repeat step. unfold bind, ret. tidy. reflexivity.
Qed.

End ExecFacts.

(** X23 - Exec on the Docker API client: on a handle without identifier it
    returns container not started and does not touch the engine; otherwise
    it creates the exec, attaches, reads the whole output and inspects the
    exec, stopping at the first step that fails with that step's message
    and an empty output; only when the inspection succeeds does it return
    the output, together with nil for exit code 0 and with command failed
    with exit code N followed by the output for any other code; the handle
    is never changed; and the attached response is closed, as the last
    interaction, exactly when the attach succeeded. *)
Theorem api_Exec_contract :
  forall (W : Type) (ex : ExecClient W) (cmd : list string) (c : Container) (w : W),
    let o := API.Exec ex cmd c w in
    hdl o = c
    /\ (containerID c = "" -> o = mkOut ("", Some "container not started") c w [])
    /\ (containerID c <> "" ->
        let r1 := ContainerExecCreate ex (containerID c) cmd w in
        (forall e, fst r1 = Err e ->
           res o = ("", Some ("failed to create exec instance: " +:+ e))
           /\ evs o = [EvCall "ContainerExecCreate"])
        /\ (forall execID, fst r1 = Ok execID ->
              let r2 := ContainerExecAttach ex execID (snd r1) in
              (forall e, fst r2 = Err e ->
                 res o = ("", Some ("failed to attach to exec instance: " +:+ e))
                 /\ evs o = [EvCall "ContainerExecCreate"; EvCall "ContainerExecAttach"])
              /\ (forall resp, fst r2 = Ok resp ->
                    let r3 := io_ReadAll ex resp (snd r2) in
                    let r4 := ContainerExecInspect ex execID (snd r3) in
                    (exists pre, evs o = (pre ++ [EvClose resp])%list
                                 /\ count (fun e => match e with
                                                    | EvClose _ => true
                                                    | _ => false
                                                    end) pre = 0%nat)
                    /\ (forall e, snd (fst r3) = Some e ->
                          res o = ("", Some ("failed to read exec output: " +:+ e)))
                    /\ (snd (fst r3) = None -> forall e, fst r4 = Err e ->
                          res o = ("", Some ("failed to inspect exec result: " +:+ e)))
                    /\ (snd (fst r3) = None -> fst r4 = Ok 0 ->
                          res o = (fst (fst r3), None))
                    /\ (snd (fst r3) = None -> forall code, fst r4 = Ok code -> code <> 0 ->
                          res o = (fst (fst r3),
                                   Some ("command failed with exit code " +:+ itoa code
                                         +:+ ": " +:+ fst (fst r3))))))).
Proof.
  intros W ex cmd c w. cbv zeta. rewrite api_Exec_eq. cbv zeta.
  split; [|split].
  - repeat (break_match; cbn [hdl]); reflexivity.
  - intros ->. reflexivity.
  - intros Hid. destruct (String.eqb_spec (containerID c) ""); [contradiction|].
    split.
    + intros e ->. split; reflexivity.
    + intros execID ->. split.
      * intros e ->. split; reflexivity.
      * intros resp ->. 
        destruct (snd (fst (io_ReadAll ex resp _))) as [e3|] eqn:E3; cbn [res evs].
        { split; [eexists [_; _; _]; split; reflexivity|].
          split; [intros e [= <-]; reflexivity|].
          repeat split; discriminate. }
        split; [eexists [_; _; _; _]; split; reflexivity|].
        split; [discriminate|].
        split; [intros _ e ->; reflexivity|].
        split; [intros _ ->; reflexivity|].
        intros _ code -> Hc. destruct (Z.eqb_spec code 0); [contradiction|reflexivity].
Qed.

Lemma api_Exec_contract_witness :
  API.Exec Toy.exec_client ["ls"] (Toy.fresh false) Toy.w0
  = mkOut ("", Some "container not started") (Toy.fresh false) Toy.w0 []
  /\ res (API.Exec Toy.exec_client ["ls"] (Toy.handle false true) Toy.w0)
     = ("hello", Some "command failed with exit code 2: hello")
  /\ exists pre,
       evs (API.Exec Toy.exec_client ["ls"] (Toy.handle false true) Toy.w0)
       = (pre ++ [EvClose 7])%list.
Proof.
  destruct (api_Exec_contract Toy.World Toy.exec_client ["ls"] (Toy.fresh false) Toy.w0)
    as (_ & H0 & _).
  destruct (api_Exec_contract Toy.World Toy.exec_client ["ls"] (Toy.handle false true)
              Toy.w0) as (_ & _ & H1).
  destruct (H1 ltac:(discriminate)) as (_ & H2).
  destruct (H2 "exec1" eq_refl) as (_ & H3).
  destruct (H3 7 eq_refl) as ((pre & Hpre & _) & _ & _ & _ & Hbad).
  split; [exact (H0 eq_refl)|]. split.
  - apply (Hbad eq_refl 2 eq_refl). discriminate.
  - exists pre. exact Hpre.
Defined.

(** * The contracts of the controller, tied to the answers of the engine *)

(** ** Stop, twice *)

(** C6, as the code has it.  [Stop] is a no-op without any engine call when
    the identifier is empty.  When the identifier is set it issues exactly
    one stop call, with the fixed grace period of 30 seconds, and on success
    clears [isRunning] and keeps the identifier.  [Stop] keeps no memory of
    having stopped the container: a second [Stop] after a successful one
    issues the same stop call again, in the world the first one left, and
    returns what the engine answers to it, [nil] exactly when the engine
    accepts the repeated call and the wrapped error otherwise; the handle
    stays as the first [Stop] left it in both cases. *)
Theorem C6_Stop_amended :
  forall (W : Type) (cl : Client W) (sh : Shell W) (c : Container) (w : W),
    (containerID c = "" ->
       API.Stop cl c w = mkOut None c w [] /\ CLI.Stop sh c w = mkOut None c w [])
    /\ (containerID c <> "" ->
        let r := ContainerStop cl (containerID c) 30 w in
        let o := API.Stop cl c w in
        evs o = [EvContainerStop (containerID c) 30 (fst r)]
        /\ wld o = snd r
        /\ (fst r = None ->
            res o = None /\ isRunning (hdl o) = false
            /\ containerID (hdl o) = containerID c /\ config (hdl o) = config c))
    /\ (containerID c <> "" ->
        let r := Run sh (stopArgv (containerID c)) w in
        let o := CLI.Stop sh c w in
        evs o = [EvExec (stopArgv (containerID c)) (fst r)]
        /\ wld o = snd r
        /\ (PErr (fst r) = None ->
            res o = None /\ isRunning (hdl o) = false
            /\ containerID (hdl o) = containerID c /\ config (hdl o) = config c))
    /\ (containerID c <> "" ->
        let o1 := API.Stop cl c w in
        let r2 := ContainerStop cl (containerID c) 30 (wld o1) in
        let o2 := API.Stop cl (hdl o1) (wld o1) in
        res o1 = None ->
        evs o2 = [EvContainerStop (containerID c) 30 (fst r2)]
        /\ wld o2 = snd r2
        /\ hdl o2 = hdl o1
        /\ (res o2 = None <-> fst r2 = None)
        /\ (forall e, fst r2 = Some e ->
              res o2 = Some ("failed to stop container: " +:+ e)))
    /\ (containerID c <> "" ->
        let o1 := CLI.Stop sh c w in
        let r2 := Run sh (stopArgv (containerID c)) (wld o1) in
        let o2 := CLI.Stop sh (hdl o1) (wld o1) in
        res o1 = None ->
        evs o2 = [EvExec (stopArgv (containerID c)) (fst r2)]
        /\ wld o2 = snd r2
        /\ hdl o2 = hdl o1
        /\ (res o2 = None <-> PErr (fst r2) = None)
        /\ (forall e, PErr (fst r2) = Some e ->
              res o2 = Some ("failed to stop container: " +:+ e))).
Proof.
  intros W cl sh c w.
  split; [|split; [|split; [|split]]].
  - intros Hid. split; [now apply api_Stop_empty | now apply cli_Stop_empty].
  - intros Hid r o. subst r o. rewrite api_Stop_set by assumption.
    cbn [res hdl wld evs]. split; [reflexivity|]. split; [reflexivity|].
    intros E. rewrite E. auto.
  - intros Hid r o. subst r o. rewrite cli_Stop_set by assumption.
    cbn [res hdl wld evs]. split; [reflexivity|]. split; [reflexivity|].
    intros E. rewrite E. auto.
  - intros Hid o1 r2 o2 Hres. subst o2 r2 o1.
    rewrite (api_Stop_set cl c w Hid) in *. cbn [res hdl wld evs] in *.
    destruct (fst (ContainerStop cl (containerID c) 30 w)) as [e1|]; [discriminate|].
    rewrite api_Stop_set by exact Hid. cbn [res hdl wld evs set_isRunning containerID].
    destruct (fst (ContainerStop cl (containerID c) 30
                     (snd (ContainerStop cl (containerID c) 30 w)))) as [e2|].
    + repeat split; try reflexivity; try discriminate.
      intros e [= <-]. reflexivity.
    + repeat split; try reflexivity. intros e [=].
  - intros Hid o1 r2 o2 Hres. subst o2 r2 o1.
    rewrite (cli_Stop_set sh c w Hid) in *. cbn [res hdl wld evs] in *.
    destruct (PErr (fst (Run sh (stopArgv (containerID c)) w))) as [e1|]; [discriminate|].
    rewrite cli_Stop_set by exact Hid. cbn [res hdl wld evs set_isRunning containerID].
    destruct (PErr (fst (Run sh (stopArgv (containerID c))
                           (snd (Run sh (stopArgv (containerID c)) w))))) as [e2|].
    + repeat split; try reflexivity; try discriminate.
      intros e [= <-]. reflexivity.
    + repeat split; try reflexivity. intros e [=].
Qed.

Lemma C6_Stop_amended_witness :
  (let c := Toy.handle false true in
   let o1 := API.Stop Toy.client c Toy.w0 in
   let o2 := API.Stop Toy.client (hdl o1) (wld o1) in
   res o1 = None /\ isRunning (hdl o1) = false /\ containerID (hdl o1) = "abc"
   /\ res o2 = None /\ hdl o2 = hdl o1 /\ evs o2 = [EvContainerStop "abc" 30 None])
  /\ (let c := Toy.handle false true in
      let o1 := CLI.Stop Toy.shell c Toy.w0 in
      let o2 := CLI.Stop Toy.shell (hdl o1) (wld o1) in
      res o1 = None /\ isRunning (hdl o1) = false /\ containerID (hdl o1) = "abc"
      /\ res o2 = None /\ hdl o2 = hdl o1).
Proof.
  destruct (C6_Stop_amended Toy.World Toy.client Toy.shell (Toy.handle false true) Toy.w0)
    as (_ & Hapi & Hcli & Hapi2 & Hcli2).
  assert (Hid : containerID (Toy.handle false true) <> "") by discriminate.
  split; cbv zeta.
  - destruct (Hapi Hid) as (_ & _ & Hok).
    destruct (Hok eq_refl) as (R1 & I1 & C1 & _).
    destruct (Hapi2 Hid R1) as (E2 & _ & H2 & Hiff & _).
    split; [exact R1|]. split; [exact I1|]. split; [exact C1|].
    split; [apply Hiff; reflexivity|]. split; [exact H2 | exact E2].
  - destruct (Hcli Hid) as (_ & _ & Hok).
    destruct (Hok eq_refl) as (R1 & I1 & C1 & _).
    destruct (Hcli2 Hid R1) as (_ & _ & H2 & Hiff & _).
    split; [exact R1|]. split; [exact I1|]. split; [exact C1|].
    split; [apply Hiff; reflexivity | exact H2].
Defined.

(** C6 as stated fails.  On an engine that knows a container no more once
    it has stopped it, the first [Stop] of the handle of container [abc]
    returns [nil] and clears [isRunning]; the second [Stop], right after it,
    issues the stop call again and returns the error of the engine, wrapped.
    The same happens with the [docker] binary. *)
Lemma C6_Stop_counterexample :
  (let c := Toy.handle false true in
   let o1 := API.Stop Toy.client_removing c Toy.w0 in
   let o2 := API.Stop Toy.client_removing (hdl o1) (wld o1) in
   res o1 = None
   /\ hdl o1 = Toy.handle false false
   /\ evs o1 = [EvContainerStop "abc" 30 None]
   /\ res o2 = Some "failed to stop container: No such container: abc"
   /\ evs o2 = [EvContainerStop "abc" 30 (Some "No such container: abc")])
  /\ (let c := Toy.handle false true in
      let o1 := CLI.Stop Toy.shell_removing c Toy.w0 in
      let o2 := CLI.Stop Toy.shell_removing (hdl o1) (wld o1) in
      res o1 = None
      /\ hdl o1 = Toy.handle false false
      /\ res o2 = Some "failed to stop container: No such container: abc"
      /\ evs o2 = [EvExec (stopArgv "abc") (Toy.proc (Some "No such container: abc") "")]).
Proof.
  split; cbv zeta; repeat split; vm_compute; reflexivity.
Qed.

(** ** The rounds of the stability check *)

Lemma rounds_stop {W} (g : Z -> W -> bool) (t : Z -> W -> W) n : forall i w,
  rounds_go_on g t i n w = false ->
  exists k, (k < n)%nat /\ rounds_go_on g t i k w = true
            /\ g (i + Z.of_nat k) (world_at t i k w) = false.
Proof.
  induction n as [|n IH]; intros i w H; [discriminate|].
  cbn [rounds_go_on] in H. destruct (g i w) eqn:G.
  - cbn [andb] in H. destruct (IH _ _ H) as (k & Hk & Hgo & Hstop).
    exists (Datatypes.S k). split; [lia|]. cbn [rounds_go_on world_at].
    rewrite G, Hgo. split; [reflexivity|].
    replace (i + Z.of_nat (Datatypes.S k)) with (i + 1 + Z.of_nat k) by lia. exact Hstop.
  - exists 0%nat. split; [lia|]. split; [reflexivity|].
    cbn [world_at]. now replace (i + Z.of_nat 0) with i by lia.
Qed.

Lemma rounds_prefix {W} (g : Z -> W -> bool) (t : Z -> W -> W) n : forall k i w,
  (k <= n)%nat -> rounds_go_on g t i n w = true -> rounds_go_on g t i k w = true.
Proof.
  induction n as [|n IH]; intros k i w Hk H.
  - now replace k with 0%nat by lia.
  - destruct k as [|k]; [reflexivity|].
    cbn [rounds_go_on] in *. apply andb_true_iff in H. destruct H as (G & H).
    rewrite G. cbn [andb]. apply IH; [lia | exact H].
Qed.

Lemma not_cancelled_true {W} (rt : Runtime W) w :
  not_cancelled rt w = true -> ctx_err rt w = None.
Proof. unfold not_cancelled. now destruct (ctx_err rt w). Qed.

Section StabilityRounds.
Context {W : Type} (rt : Runtime W) (cl : Client W) (sh : Shell W).

Lemma api_rounds k : forall m i c w,
  rounds_go_on (api_goes_on rt cl (containerID c)) (api_tick rt cl (containerID c)) i k w
  = true ->
  exists pre,
    API.stabilityLoop rt cl (k + m) c w
    = prepend pre (API.stabilityLoop rt cl m c
                     (world_at (api_tick rt cl (containerID c)) i k w))
    /\ count api_is_check pre = k
    /\ count is_sleep pre = k
    /\ count is_ctx_check pre = k.
Proof.
  induction k as [|k IH]; intros m i c w H.
  - exists []. cbn [world_at Nat.add]. rewrite prepend_nil. auto.
  - cbn [rounds_go_on] in H. apply andb_true_iff in H. destruct H as (G & H).
    unfold api_goes_on in G. apply andb_true_iff in G. destruct G as (Hc & Hr).
    apply not_cancelled_true in Hc.
    unfold api_running, api_check, api_reports_running in Hr.
    destruct (IH m _ c _ H) as (pre & Heq & C1 & C2 & C3).
    cbn [Nat.add world_at]. rewrite api_stabilityLoop_step, Hc. cbv zeta.
    destruct (fst (ContainerInspect cl (containerID c) w)) as [inspect|e] eqn:E;
      [|discriminate].
    rewrite Hr. unfold api_tick in Heq at 1. unfold API.checkInterval in Heq.
    unfold api_tick at 1. unfold API.checkInterval.
    rewrite Heq.
    exists (EvCtxDone None :: EvContainerInspect (containerID c) (Ok inspect)
            :: EvSleep 500 :: pre).
    split.
    { destruct (API.stabilityLoop rt cl m c _) as [xr xh xw xe]. reflexivity. }
    rewrite !count_cons. cbn. rewrite C1, C2, C3. auto.
Qed.

Lemma cli_rounds k : forall m i c w,
  rounds_go_on (cli_goes_on rt sh (containerID c)) (cli_tick rt sh (containerID c)) i k w
  = true ->
  exists pre,
    CLI.stabilityLoop rt sh (k + m) c w
    = prepend pre (CLI.stabilityLoop rt sh m c
                     (world_at (cli_tick rt sh (containerID c)) i k w))
    /\ count cli_is_check pre = k
    /\ count is_sleep pre = k
    /\ count is_ctx_check pre = k.
Proof.
  induction k as [|k IH]; intros m i c w H.
  - exists []. cbn [world_at Nat.add]. rewrite prepend_nil. auto.
  - cbn [rounds_go_on] in H. apply andb_true_iff in H. destruct H as (G & H).
    unfold cli_goes_on in G. apply andb_true_iff in G. destruct G as (Hc & Hr).
    apply not_cancelled_true in Hc.
    unfold cli_running, cli_check, cli_reports_running in Hr.
    destruct (IH m _ c _ H) as (pre & Heq & C1 & C2 & C3).
    cbn [Nat.add world_at]. rewrite cli_stabilityLoop_step, Hc. cbv zeta.
    destruct (PErr (fst (Run sh (CLI.inspectStateArgv (containerID c)) w))) as [e|] eqn:E;
      [discriminate|].
    destruct (Unmarshal sh _) as [state|e] eqn:U; [|discriminate].
    rewrite Hr. unfold cli_tick in Heq at 1. unfold CLI.checkInterval in Heq.
    unfold cli_tick at 1. unfold CLI.checkInterval.
    rewrite Heq.
    exists (EvCtxDone None
            :: EvExec (CLI.inspectStateArgv (containerID c))
                      (fst (Run sh (CLI.inspectStateArgv (containerID c)) w))
            :: EvSleep 500 :: pre).
    split.
    { destruct (CLI.stabilityLoop rt sh m c _) as [xr xh xw xe]. reflexivity. }
    rewrite !count_cons. cbn. rewrite C1, C2, C3. auto.
Qed.

End StabilityRounds.

Section StabilityRuns.
Context {W : Type} (rt : Runtime W) (cl : Client W) (sh : Shell W).

(** [waitForStableState] is a line of log, the loop with six rounds, and a
    second line when the loop ran to its end. *)
Lemma api_waitForStableState_eq c w :
  API.waitForStableState rt cl c w =
    let l := API.stabilityLoop rt cl 6 c w in
    mkOut (match res l with Some err => err | None => None end) c (wld l)
          (infoLine c ("Monitoring container stability for "
                       +:+ fmtDuration API.stabilityPeriod +:+ "...")
           :: evs l
           ++ match res l with
              | Some _ => []
              | None => [infoLine c ("Container stability check passed - "
                                     +:+ "running consistently for "
                                     +:+ fmtDuration API.stabilityPeriod)]
              end).
Proof.
  unfold API.waitForStableState. change (Z.to_nat API.maxChecks) with 6%nat.
  rewrite bind_Infof. rewrite bind_framed by apply api_stabilityLoop_frame.
  cbv zeta. destruct (API.stabilityLoop rt cl 6 c w) as [r h w' e].
  cbn [res hdl wld evs]. destruct r as [err|].
  - unfold ret. cbn [prepend app]. rewrite app_nil_r. reflexivity.
  - rewrite bind_Infof. unfold ret. cbn [prepend app]. reflexivity.
Qed.

Lemma cli_waitForStableState_eq c w :
  CLI.waitForStableState rt sh c w =
    let l := CLI.stabilityLoop rt sh 6 c w in
    mkOut (match res l with Some err => err | None => None end) c (wld l)
          (infoLine c ("Monitoring container stability for "
                       +:+ fmtDuration CLI.stabilityPeriod +:+ "...")
           :: evs l
           ++ match res l with
              | Some _ => []
              | None => [infoLine c ("Container stability check passed - "
                                     +:+ "running consistently for "
                                     +:+ fmtDuration CLI.stabilityPeriod)]
              end).
Proof.
  unfold CLI.waitForStableState. change (Z.to_nat CLI.maxChecks) with 6%nat.
  rewrite bind_Infof. rewrite bind_framed by apply cli_stabilityLoop_frame.
  cbv zeta. destruct (CLI.stabilityLoop rt sh 6 c w) as [r h w' e].
  cbn [res hdl wld evs]. destruct r as [err|].
  - unfold ret. cbn [prepend app]. rewrite app_nil_r. reflexivity.
  - rewrite bind_Infof. unfold ret. cbn [prepend app]. reflexivity.
Qed.

(** A round that starts with the context not done and whose inspection does
    not report the container running is the last one. *)
Lemma api_round_fails m c w :
  ctx_err rt w = None ->
  api_running cl (containerID c) w = false ->
  exists msg w' diag,
    API.stabilityLoop rt cl (Datatypes.S m) c w
    = mkOut (Some (Some msg)) c w'
            (EvCtxDone None :: api_check cl (containerID c) w :: diag)
    /\ List.Forall (fun e => is_diag e = true) diag.
Proof.
  intros Hc Hr. rewrite api_stabilityLoop_step, Hc. cbv zeta.
  unfold api_running, api_check, api_reports_running in *.
  destruct (fst (ContainerInspect cl (containerID c) w)) as [inspect|e].
  - rewrite Hr. rewrite api_PrintLogs_frame.
    do 3 eexists. split; [reflexivity | apply api_PrintLogs_diag].
  - rewrite api_PrintLogs_frame.
    do 3 eexists. split; [reflexivity|].
    constructor; [reflexivity | apply api_PrintLogs_diag].
Qed.

Lemma cli_round_fails m c w :
  ctx_err rt w = None ->
  cli_running sh (containerID c) w = false ->
  exists msg w' diag,
    CLI.stabilityLoop rt sh (Datatypes.S m) c w
    = mkOut (Some (Some msg)) c w'
            (EvCtxDone None :: cli_check sh (containerID c) w :: diag)
    /\ List.Forall (fun e => is_diag e = true) diag.
Proof.
  intros Hc Hr. rewrite cli_stabilityLoop_step, Hc. cbv zeta.
  unfold cli_running, cli_check, cli_reports_running in *.
  destruct (PErr (fst (Run sh (CLI.inspectStateArgv (containerID c)) w))) as [e|].
  - rewrite cli_PrintLogs_frame.
    do 3 eexists. split; [reflexivity|].
    constructor; [reflexivity | apply cli_PrintLogs_diag].
  - destruct (Unmarshal sh _) as [state|e].
    + rewrite Hr. rewrite cli_PrintLogs_frame.
      do 3 eexists. split; [reflexivity | apply cli_PrintLogs_diag].
    + do 3 eexists. split; [reflexivity | constructor].
Qed.

(** A round that starts with the context done is the last one. *)
Lemma api_round_cancelled m c w e :
  ctx_err rt w = Some e ->
  API.stabilityLoop rt cl (Datatypes.S m) c w
  = mkOut (Some (Some e)) c w [EvCtxDone (Some e)].
Proof. intros H. now rewrite api_stabilityLoop_step, H. Qed.

Lemma cli_round_cancelled m c w e :
  ctx_err rt w = Some e ->
  CLI.stabilityLoop rt sh (Datatypes.S m) c w
  = mkOut (Some (Some e)) c w [EvCtxDone (Some e)].
Proof. intros H. now rewrite cli_stabilityLoop_step, H. Qed.

(** The stability check of the API client, by the rounds that go on. *)
Lemma api_stable_success c w :
  rounds_go_on (api_goes_on rt cl (containerID c)) (api_tick rt cl (containerID c)) 0 6 w
  = true ->
  let o := API.waitForStableState rt cl c w in
  res o = None
  /\ wld o = world_at (api_tick rt cl (containerID c)) 0 6 w
  /\ count api_is_check (evs o) = 6%nat
  /\ count is_sleep (evs o) = 6%nat
  /\ count is_ctx_check (evs o) = 6%nat.
Proof.
  intros H. destruct (api_rounds rt cl 6 0 0 c w H) as (pre & Heq & C1 & C2 & C3).
  cbv zeta. rewrite api_waitForStableState_eq. cbv zeta.
  change (6 + 0)%nat with 6%nat in Heq. rewrite Heq.
  cbn [API.stabilityLoop]. unfold ret. cbn [prepend res hdl wld evs].
  rewrite !count_cons, !count_app, C1, C2, C3. unfold infoLine. cbn.
  repeat split; lia.
Qed.

Lemma cli_stable_success c w :
  rounds_go_on (cli_goes_on rt sh (containerID c)) (cli_tick rt sh (containerID c)) 0 6 w
  = true ->
  let o := CLI.waitForStableState rt sh c w in
  res o = None
  /\ wld o = world_at (cli_tick rt sh (containerID c)) 0 6 w
  /\ count cli_is_check (evs o) = 6%nat
  /\ count is_sleep (evs o) = 6%nat
  /\ count is_ctx_check (evs o) = 6%nat.
Proof.
  intros H. destruct (cli_rounds rt sh 6 0 0 c w H) as (pre & Heq & C1 & C2 & C3).
  cbv zeta. rewrite cli_waitForStableState_eq. cbv zeta.
  change (6 + 0)%nat with 6%nat in Heq. rewrite Heq.
  cbn [CLI.stabilityLoop]. unfold ret. cbn [prepend res hdl wld evs].
  rewrite !count_cons, !count_app, C1, C2, C3. unfold infoLine. cbn.
  repeat split; lia.
Qed.

Lemma api_stable_failure c w k :
  (k < 6)%nat ->
  rounds_go_on (api_goes_on rt cl (containerID c)) (api_tick rt cl (containerID c)) 0 k w
  = true ->
  let wk := world_at (api_tick rt cl (containerID c)) 0 k w in
  ctx_err rt wk = None ->
  api_running cl (containerID c) wk = false ->
  let o := API.waitForStableState rt cl c w in
  res o <> None
  /\ count is_sleep (evs o) = k
  /\ count is_ctx_check (evs o) = Datatypes.S k
  /\ exists pre diag,
       evs o = (pre ++ api_check cl (containerID c) wk :: diag)%list
       /\ count api_is_check pre = k
       /\ count is_sleep pre = k
       /\ List.Forall (fun e => is_diag e = true) diag.
Proof.
  intros Hk H wk Hc Hr. subst wk.
  destruct (api_rounds rt cl k (6 - k) 0 c w H) as (pre & Heq & C1 & C2 & C3).
  replace (k + (6 - k))%nat with 6%nat in Heq by lia.
  destruct (6 - k)%nat as [|m] eqn:Em; [lia|].
  destruct (api_round_fails m c _ Hc Hr) as (msg & w' & diag & Hround & Hdiag).
  rewrite Hround in Heq. cbn [prepend] in Heq.
  cbv zeta. rewrite api_waitForStableState_eq. cbv zeta. rewrite Heq.
  cbn [res hdl wld evs]. rewrite app_nil_r.
  split; [discriminate|].
  assert (S0 : count is_sleep diag = 0%nat)
    by (apply (count_none _ _ _ diag_not_sleep Hdiag)).
  assert (X0 : count is_ctx_check diag = 0%nat)
    by (apply (count_none _ _ _ diag_not_ctx Hdiag)).
  split; [|split].
  - rewrite !count_cons, !count_app, !count_cons, C2, S0. unfold infoLine, api_check. cbn. lia.
  - rewrite !count_cons, !count_app, !count_cons, C3, X0. unfold infoLine, api_check. cbn. lia.
  - exists (infoLine c ("Monitoring container stability for "
                        +:+ fmtDuration API.stabilityPeriod +:+ "...")
            :: pre ++ [EvCtxDone None])%list, diag.
    split; [cbn [app]; rewrite <- app_assoc; reflexivity|].
    split; [|split; [|exact Hdiag]].
    + rewrite count_cons, count_app, C1. unfold infoLine. cbn. lia.
    + rewrite count_cons, count_app, C2. unfold infoLine. cbn. lia.
Qed.

Lemma cli_stable_failure c w k :
  (k < 6)%nat ->
  rounds_go_on (cli_goes_on rt sh (containerID c)) (cli_tick rt sh (containerID c)) 0 k w
  = true ->
  let wk := world_at (cli_tick rt sh (containerID c)) 0 k w in
  ctx_err rt wk = None ->
  cli_running sh (containerID c) wk = false ->
  let o := CLI.waitForStableState rt sh c w in
  res o <> None
  /\ count is_sleep (evs o) = k
  /\ count is_ctx_check (evs o) = Datatypes.S k
  /\ exists pre diag,
       evs o = (pre ++ cli_check sh (containerID c) wk :: diag)%list
       /\ count cli_is_check pre = k
       /\ count is_sleep pre = k
       /\ List.Forall (fun e => is_diag e = true) diag.
Proof.
  intros Hk H wk Hc Hr. subst wk.
  destruct (cli_rounds rt sh k (6 - k) 0 c w H) as (pre & Heq & C1 & C2 & C3).
  replace (k + (6 - k))%nat with 6%nat in Heq by lia.
  destruct (6 - k)%nat as [|m] eqn:Em; [lia|].
  destruct (cli_round_fails m c _ Hc Hr) as (msg & w' & diag & Hround & Hdiag).
  rewrite Hround in Heq. cbn [prepend] in Heq.
  cbv zeta. rewrite cli_waitForStableState_eq. cbv zeta. rewrite Heq.
  cbn [res hdl wld evs]. rewrite app_nil_r.
  split; [discriminate|].
  assert (S0 : count is_sleep diag = 0%nat)
    by (apply (count_none _ _ _ diag_not_sleep Hdiag)).
  assert (X0 : count is_ctx_check diag = 0%nat)
    by (apply (count_none _ _ _ diag_not_ctx Hdiag)).
  split; [|split].
  - rewrite !count_cons, !count_app, !count_cons, C2, S0. unfold infoLine, cli_check. cbn. lia.
  - rewrite !count_cons, !count_app, !count_cons, C3, X0. unfold infoLine, cli_check. cbn. lia.
  - exists (infoLine c ("Monitoring container stability for "
                        +:+ fmtDuration CLI.stabilityPeriod +:+ "...")
            :: pre ++ [EvCtxDone None])%list, diag.
    split; [cbn [app]; rewrite <- app_assoc; reflexivity|].
    split; [|split; [|exact Hdiag]].
    + rewrite count_cons, count_app, C1. unfold infoLine. cbn. lia.
    + rewrite count_cons, count_app, C2. unfold infoLine. cbn. lia.
Qed.

(** A context found done at the start of round [k] ends the check there. *)
Lemma api_stable_cancelled c w k e :
  (k < 6)%nat ->
  rounds_go_on (api_goes_on rt cl (containerID c)) (api_tick rt cl (containerID c)) 0 k w
  = true ->
  let wk := world_at (api_tick rt cl (containerID c)) 0 k w in
  ctx_err rt wk = Some e ->
  let o := API.waitForStableState rt cl c w in
  res o = Some e /\ hdl o = c /\ wld o = wk
  /\ count api_is_check (evs o) = k
  /\ count is_sleep (evs o) = k
  /\ exists pre, evs o = (pre ++ [EvCtxDone (Some e)])%list.
Proof.
  intros Hk H wk Hc. subst wk.
  destruct (api_rounds rt cl k (6 - k) 0 c w H) as (pre & Heq & C1 & C2 & C3).
  replace (k + (6 - k))%nat with 6%nat in Heq by lia.
  destruct (6 - k)%nat as [|m] eqn:Em; [lia|].
  rewrite (api_round_cancelled m c _ e Hc) in Heq. cbn [prepend] in Heq.
  cbv zeta. rewrite api_waitForStableState_eq. cbv zeta. rewrite Heq.
  cbn [res hdl wld evs]. rewrite app_nil_r.
  split; [reflexivity|]. split; [reflexivity|]. split; [reflexivity|].
  split; [|split].
  - rewrite count_cons, count_app, C1. unfold infoLine. cbn. lia.
  - rewrite count_cons, count_app, C2. unfold infoLine. cbn. lia.
  - exists (infoLine c ("Monitoring container stability for "
                        +:+ fmtDuration API.stabilityPeriod +:+ "...") :: pre).
    reflexivity.
Qed.

Lemma cli_stable_cancelled c w k e :
  (k < 6)%nat ->
  rounds_go_on (cli_goes_on rt sh (containerID c)) (cli_tick rt sh (containerID c)) 0 k w
  = true ->
  let wk := world_at (cli_tick rt sh (containerID c)) 0 k w in
  ctx_err rt wk = Some e ->
  let o := CLI.waitForStableState rt sh c w in
  res o = Some e /\ hdl o = c /\ wld o = wk
  /\ count cli_is_check (evs o) = k
  /\ count is_sleep (evs o) = k
  /\ exists pre, evs o = (pre ++ [EvCtxDone (Some e)])%list.
Proof.
  intros Hk H wk Hc. subst wk.
  destruct (cli_rounds rt sh k (6 - k) 0 c w H) as (pre & Heq & C1 & C2 & C3).
  replace (k + (6 - k))%nat with 6%nat in Heq by lia.
  destruct (6 - k)%nat as [|m] eqn:Em; [lia|].
  rewrite (cli_round_cancelled m c _ e Hc) in Heq. cbn [prepend] in Heq.
  cbv zeta. rewrite cli_waitForStableState_eq. cbv zeta. rewrite Heq.
  cbn [res hdl wld evs]. rewrite app_nil_r.
  split; [reflexivity|]. split; [reflexivity|]. split; [reflexivity|].
  split; [|split].
  - rewrite count_cons, count_app, C1. unfold infoLine. cbn. lia.
  - rewrite count_cons, count_app, C2. unfold infoLine. cbn. lia.
  - exists (infoLine c ("Monitoring container stability for "
                        +:+ fmtDuration CLI.stabilityPeriod +:+ "...") :: pre).
    reflexivity.
Qed.

(** The check returns [nil] exactly when its six rounds all go on. *)
Lemma api_stable_iff c w :
  res (API.waitForStableState rt cl c w) = None
  <-> rounds_go_on (api_goes_on rt cl (containerID c)) (api_tick rt cl (containerID c))
        0 6 w = true.
Proof.
  split; [|apply api_stable_success].
  intros Hres.
  destruct (rounds_go_on _ _ 0 6 w) eqn:G; [reflexivity|]. exfalso.
  destruct (rounds_stop _ _ _ _ _ G) as (k & Hk & Hgo & Hstop).
  unfold api_goes_on in Hstop. unfold not_cancelled in Hstop.
  destruct (ctx_err rt (world_at (api_tick rt cl (containerID c)) 0 k w)) as [e|] eqn:Hc.
  - destruct (api_stable_cancelled c w k e Hk Hgo Hc) as (R & _). congruence.
  - cbn [andb] in Hstop.
    destruct (api_stable_failure c w k Hk Hgo Hc Hstop) as (R & _). contradiction.
Qed.

Lemma cli_stable_iff c w :
  res (CLI.waitForStableState rt sh c w) = None
  <-> rounds_go_on (cli_goes_on rt sh (containerID c)) (cli_tick rt sh (containerID c))
        0 6 w = true.
Proof.
  split; [|apply cli_stable_success].
  intros Hres.
  destruct (rounds_go_on _ _ 0 6 w) eqn:G; [reflexivity|]. exfalso.
  destruct (rounds_stop _ _ _ _ _ G) as (k & Hk & Hgo & Hstop).
  unfold cli_goes_on in Hstop. unfold not_cancelled in Hstop.
  destruct (ctx_err rt (world_at (cli_tick rt sh (containerID c)) 0 k w)) as [e|] eqn:Hc.
  - destruct (cli_stable_cancelled c w k e Hk Hgo Hc) as (R & _). congruence.
  - cbn [andb] in Hstop.
    destruct (cli_stable_failure c w k Hk Hgo Hc Hstop) as (R & _). contradiction.
Qed.

End StabilityRuns.

(** C1. The stability check polls the state of the container every 500ms
    over a window of 3 seconds, six checks in all: each round looks at the
    context, asks the engine for the state and, the container being
    reported running, sleeps 500ms.  It returns [nil] exactly when the six
    rounds all go on, that is when every one of the six inspections the
    engine answers reports the container running (and the context is never
    found done); it has then made six inspections and slept six times.  When
    the inspection of round [k] is the first that does not report the
    container running, the check fails there: it has slept [k] times, it
    looks at the context no more, and all it does after that inspection is
    diagnostics.  With [k = 0]: a container reported not running on the very
    first check makes the check fail without a single sleep.  The same
    holds of the traces alone, whatever the engine. *)
Theorem C1_stability_check :
  forall (W : Type) (rt : Runtime W) (cl : Client W) (sh : Shell W) (c : Container) (w : W),
    (API.checkInterval = 500 /\ API.stabilityPeriod = 3000 /\ API.maxChecks = 6
     /\ CLI.checkInterval = 500 /\ CLI.stabilityPeriod = 3000 /\ CLI.maxChecks = 6)
    /\ stability_contract api_is_check api_reports_running
         (API.waitForStableState rt cl c w)
    /\ stability_contract cli_is_check (cli_reports_running sh)
         (CLI.waitForStableState rt sh c w)
    /\ (let id := containerID c in
        let go := api_goes_on rt cl id in
        let tick := api_tick rt cl id in
        let o := API.waitForStableState rt cl c w in
        (res o = None <-> rounds_go_on go tick 0 6 w = true)
        /\ (rounds_go_on go tick 0 6 w = true ->
            wld o = world_at tick 0 6 w
            /\ count api_is_check (evs o) = 6%nat
            /\ count is_sleep (evs o) = 6%nat
            /\ count is_ctx_check (evs o) = 6%nat)
        /\ (forall k, (k < 6)%nat ->
              rounds_go_on go tick 0 k w = true ->
              ctx_err rt (world_at tick 0 k w) = None ->
              api_running cl id (world_at tick 0 k w) = false ->
              res o <> None
              /\ count is_sleep (evs o) = k
              /\ count is_ctx_check (evs o) = Datatypes.S k
              /\ exists pre diag,
                   evs o = (pre ++ api_check cl id (world_at tick 0 k w) :: diag)%list
                   /\ count api_is_check pre = k
                   /\ count is_sleep pre = k
                   /\ List.Forall (fun e => is_diag e = true) diag))
    /\ (let id := containerID c in
        let go := cli_goes_on rt sh id in
        let tick := cli_tick rt sh id in
        let o := CLI.waitForStableState rt sh c w in
        (res o = None <-> rounds_go_on go tick 0 6 w = true)
        /\ (rounds_go_on go tick 0 6 w = true ->
            wld o = world_at tick 0 6 w
            /\ count cli_is_check (evs o) = 6%nat
            /\ count is_sleep (evs o) = 6%nat
            /\ count is_ctx_check (evs o) = 6%nat)
        /\ (forall k, (k < 6)%nat ->
              rounds_go_on go tick 0 k w = true ->
              ctx_err rt (world_at tick 0 k w) = None ->
              cli_running sh id (world_at tick 0 k w) = false ->
              res o <> None
              /\ count is_sleep (evs o) = k
              /\ count is_ctx_check (evs o) = Datatypes.S k
              /\ exists pre diag,
                   evs o = (pre ++ cli_check sh id (world_at tick 0 k w) :: diag)%list
                   /\ count cli_is_check pre = k
                   /\ count is_sleep pre = k
                   /\ List.Forall (fun e => is_diag e = true) diag)).
Proof.
  intros W rt cl sh c w. split; [repeat split|]. split; [|split; [|split]].
  - eapply (stable_run_contract api_is_check api_reports_running
              api_check_not_sleep api_check_not_ctx ltac:(reflexivity)).
    + apply (api_stabilityLoop_shape rt cl 6 c w).
    + rewrite api_waitForStableState_eq. reflexivity.
    + rewrite api_waitForStableState_eq. reflexivity.
  - eapply (stable_run_contract cli_is_check (cli_reports_running sh)
              cli_check_not_sleep cli_check_not_ctx ltac:(reflexivity)).
    + apply (cli_stabilityLoop_shape rt sh 6 c w).
    + rewrite cli_waitForStableState_eq. reflexivity.
    + rewrite cli_waitForStableState_eq. reflexivity.
  - cbv zeta. split; [apply api_stable_iff|]. split.
    + intros H. destruct (api_stable_success rt cl c w H) as (_ & Hw & Hc).
      split; [exact Hw | exact Hc].
    + intros k Hk Hgo Hc Hr. exact (api_stable_failure rt cl c w k Hk Hgo Hc Hr).
  - cbv zeta. split; [apply cli_stable_iff|]. split.
    + intros H. destruct (cli_stable_success rt sh c w H) as (_ & Hw & Hc).
      split; [exact Hw | exact Hc].
    + intros k Hk Hgo Hc Hr. exact (cli_stable_failure rt sh c w k Hk Hgo Hc Hr).
Qed.

Lemma C1_stability_check_witness :
  (let o := API.waitForStableState Toy.runtime Toy.client (Toy.handle false false) Toy.w0 in
   res o = None /\ count api_is_check (evs o) = 6%nat /\ count is_sleep (evs o) = 6%nat
   /\ Toy.clock (wld o) = 3000)
  /\ (let o := CLI.waitForStableState Toy.runtime Toy.shell (Toy.handle false false)
                 Toy.w0 in
      res o = None /\ count cli_is_check (evs o) = 6%nat /\ count is_sleep (evs o) = 6%nat
      /\ Toy.clock (wld o) = 3000)
  /\ (let o := API.waitForStableState Toy.runtime Toy.client (Toy.handle false false)
                 Toy.w_exited in
      res o <> None /\ count is_sleep (evs o) = 0%nat /\ count is_ctx_check (evs o) = 1%nat)
  /\ (let o := CLI.waitForStableState Toy.runtime Toy.shell (Toy.handle false false)
                 (Toy.with_inspects [Ok (Toy.inspectJSON true []);
                                     Ok (Toy.inspectJSON true []);
                                     Ok (Toy.inspectJSON false [])] Toy.w0) in
      res o <> None /\ count is_sleep (evs o) = 2%nat /\ count is_ctx_check (evs o) = 3%nat).
Proof.
  split; [|split; [|split]]; cbv zeta.
  - destruct (C1_stability_check Toy.World Toy.runtime Toy.client Toy.shell
                (Toy.handle false false) Toy.w0) as (_ & _ & _ & (Hiff & Hok & _) & _).
    destruct (Hok eq_refl) as (Hw & Hc & Hs & _).
    split; [apply Hiff; reflexivity|]. split; [exact Hc|]. split; [exact Hs|].
    rewrite Hw. reflexivity.
  - destruct (C1_stability_check Toy.World Toy.runtime Toy.client Toy.shell
                (Toy.handle false false) Toy.w0) as (_ & _ & _ & _ & (Hiff & Hok & _)).
    destruct (Hok eq_refl) as (Hw & Hc & Hs & _).
    split; [apply Hiff; reflexivity|]. split; [exact Hc|]. split; [exact Hs|].
    rewrite Hw. reflexivity.
  - destruct (C1_stability_check Toy.World Toy.runtime Toy.client Toy.shell
                (Toy.handle false false) Toy.w_exited) as (_ & _ & _ & (_ & _ & Hfail) & _).
    destruct (Hfail 0%nat ltac:(lia) eq_refl eq_refl eq_refl) as (Hr & Hs & Hx & _).
    split; [exact Hr|]. split; [exact Hs | exact Hx].
  - destruct (C1_stability_check Toy.World Toy.runtime Toy.client Toy.shell
                (Toy.handle false false)
                (Toy.with_inspects [Ok (Toy.inspectJSON true []);
                                    Ok (Toy.inspectJSON true []);
                                    Ok (Toy.inspectJSON false [])] Toy.w0))
      as (_ & _ & _ & _ & (_ & _ & Hfail)).
    destruct (Hfail 2%nat ltac:(lia) eq_refl eq_refl eq_refl) as (Hr & Hs & Hx & _).
    split; [exact Hr|]. split; [exact Hs | exact Hx].
Defined.

(** ** The rounds of the readiness probes *)

Lemma count_quiet_ctx (q : list Event) :
  List.Forall (fun e => is_quiet e = true) q -> count is_ctx_check q = 0%nat.
Proof. apply count_none. apply quiet_not_ctx. Qed.

Section ProbeRounds.
Context {W : Type} (rt : Runtime W) (db : Database W) (net : Network W).
Context (PL : string -> M Container W unit).
Hypothesis PL_frame : forall reason c w, hdl (PL reason c w) = c.
Hypothesis PL_diag :
  forall reason c w, List.Forall (fun e => is_diag e = true) (evs (PL reason c w)).

Lemma PL_events_quiet reason c w :
  List.Forall (fun e => is_quiet e = true) (evs (PL reason c w)).
Proof.
  eapply List.Forall_impl; [|apply PL_diag]. intros e. apply diag_quiet.
Qed.

Lemma sql_rounds N d k : forall m i s w,
  rounds_go_on (sql_goes_on rt db s) (sql_tick rt db N d s) i k w = true ->
  exists pre,
    SQLServer.readyLoop rt db N d (k + m) i s w
    = prepend pre (SQLServer.readyLoop rt db N d m (i + Z.of_nat k) s
                     (world_at (sql_tick rt db N d s) i k w))
    /\ count is_test pre = k
    /\ count is_ctx_check pre = k
    /\ (i + Z.of_nat k <= N - 1 -> count is_sleep pre = k).
Proof.
  induction k as [|k IH]; intros m i s w H.
  - exists []. cbn [world_at Nat.add]. rewrite prepend_nil.
    replace (i + Z.of_nat 0) with i by lia. auto.
  - cbn [rounds_go_on] in H. apply andb_true_iff in H. destruct H as (G & H).
    unfold sql_goes_on in G. apply andb_true_iff in G. destruct G as (Hc & Hr).
    apply not_cancelled_true in Hc. apply negb_true_iff in Hr.
    destruct (IH m _ s _ H) as (pre & Heq & C1 & C2 & C3).
    destruct (sql_testConnection_trace db s w) as (Hh & q & Hq & Hquiet).
    cbn [Nat.add world_at]. rewrite sql_readyLoop_step, Hc. cbv zeta.
    rewrite Hr, Hh.
    change (if (i <? N - 1)%Z
            then time_Sleep rt d (wld (SQLServer.testConnection db s w))
            else wld (SQLServer.testConnection db s w))
      with (sql_tick rt db N d s i w).
    rewrite Heq.
    replace (i + 1 + Z.of_nat k) with (i + Z.of_nat (Datatypes.S k)) by lia.
    exists (EvCtxDone None :: evs (SQLServer.testConnection db s w)
            ++ (if (i <? N - 1)%Z then [EvSleep d] else []) ++ pre)%list.
    split.
    { match goal with
      | |- _ = prepend _ ?X => destruct X as [xr xh xw xe]
      end.
      cbn [prepend res hdl wld evs app]. rewrite <- !app_assoc. reflexivity. }
    rewrite Hq. repeat rewrite ?count_cons, ?count_app.
    rewrite (count_quiet_test q Hquiet), (count_quiet_ctx q Hquiet),
            (count_quiet_sleep q Hquiet), C1, C2.
    cbn [is_test is_sleep is_ctx_check String.eqb Ascii.eqb Bool.eqb].
    split; [destruct (i <? N - 1)%Z; cbn; lia|].
    split; [destruct (i <? N - 1)%Z; cbn; lia|].
    intros Hle. rewrite C3 by lia.
    destruct (Z.ltb_spec i (N - 1)); [cbn; lia | lia].
Qed.

Lemma sql_ready_cancelled N d s w k e :
  (k < Z.to_nat N)%nat ->
  rounds_go_on (sql_goes_on rt db s) (sql_tick rt db N d s) 0 k w = true ->
  let wk := world_at (sql_tick rt db N d s) 0 k w in
  ctx_err rt wk = Some e ->
  let o := SQLServer.waitForReadyWith rt db N d s w in
  res o = Some e /\ hdl o = s /\ wld o = wk
  /\ count is_test (evs o) = k
  /\ count is_sleep (evs o) = k
  /\ exists pre, evs o = (pre ++ [EvCtxDone (Some e)])%list.
Proof.
  intros Hk H wk Hc. subst wk.
  destruct (sql_rounds N d k (Z.to_nat N - k) 0 s w H) as (pre & Heq & C1 & C2 & C3).
  replace (k + (Z.to_nat N - k))%nat with (Z.to_nat N) in Heq by lia.
  destruct (Z.to_nat N - k)%nat as [|m] eqn:Em; [lia|].
  rewrite sql_readyLoop_step, Hc in Heq. cbn [prepend] in Heq.
  cbv zeta. unfold SQLServer.waitForReadyWith. rewrite bind_eq, Heq.
  cbn [res hdl wld evs]. unfold ret. cbn [prepend res hdl wld evs].
  rewrite app_nil_r.
  split; [reflexivity|]. split; [reflexivity|]. split; [reflexivity|].
  rewrite !count_app, C1, C3 by lia. cbn.
  split; [lia|]. split; [lia|]. now exists pre.
Qed.

Lemma amq_rounds N d k : forall m i a w,
  rounds_go_on (amq_goes_on rt net a) (amq_tick rt net PL N d a) i k w = true ->
  exists pre,
    ActiveMQ.readyLoop rt net PL N d (k + m) i a w
    = prepend pre (ActiveMQ.readyLoop rt net PL N d m (i + Z.of_nat k) a
                     (world_at (amq_tick rt net PL N d a) i k w))
    /\ count is_test pre = k
    /\ count is_ctx_check pre = k
    /\ (i + Z.of_nat k <= N - 1 -> count is_sleep pre = k).
Proof.
  induction k as [|k IH]; intros m i a w H.
  - exists []. cbn [world_at Nat.add]. rewrite prepend_nil.
    replace (i + Z.of_nat 0) with i by lia. auto.
  - cbn [rounds_go_on] in H. apply andb_true_iff in H. destruct H as (G & H).
    unfold amq_goes_on in G. apply andb_true_iff in G. destruct G as (Hc & Hr).
    apply not_cancelled_true in Hc. apply negb_true_iff in Hr.
    destruct (IH m _ a _ H) as (pre & Heq & C1 & C2 & C3).
    destruct (amq_testConnection_trace net a w) as (Hh & q & Hq & Hquiet).
    cbn [Nat.add world_at].
    rewrite (amq_readyLoop_step rt net PL PL_frame), Hc. cbv zeta.
    rewrite Hr.
    match goal with
    | |- context [ActiveMQ.readyLoop rt net PL N d (k + m) (i + 1) a ?w2] =>
        change w2 with (amq_tick rt net PL N d a i w)
    end.
    rewrite Heq.
    replace (i + 1 + Z.of_nat k) with (i + Z.of_nat (Datatypes.S k)) by lia.
    rewrite prepend_prepend.
    eexists. split; [reflexivity|].
    pose proof (PL_events_quiet ("ActiveMQ readiness check failing after " +:+ itoa (i + 1)
                             +:+ " attempts") (ActiveMQ.base a)
                  (wld (ActiveMQ.testConnection net a w))) as Hp.
    rewrite Hq. repeat rewrite ?count_cons, ?count_app.
    rewrite !(count_quiet_test q Hquiet), !(count_quiet_ctx q Hquiet),
            !(count_quiet_sleep q Hquiet), C1, C2.
    assert (E1 : forall p : Event -> bool,
               (forall x, is_quiet x = true -> p x = false) ->
               count p (if (0 <? i)%Z && (Z.rem (i + 1) 10 =? 0)%Z
                        then infoLine (ActiveMQ.base a)
                               ("Printing container logs for debugging after "
                                +:+ itoa (i + 1) +:+ " failed attempts")
                             :: evs (PL ("ActiveMQ readiness check failing after "
                                         +:+ itoa (i + 1) +:+ " attempts")
                                       (ActiveMQ.base a)
                                       (wld (ActiveMQ.testConnection net a w)))
                        else []) = 0%nat).
    { intros p Hpq. destruct ((0 <? i)%Z && (Z.rem (i + 1) 10 =? 0)%Z); [|reflexivity].
      apply (count_none p is_quiet); [exact Hpq|].
      constructor; [reflexivity | exact Hp]. }
    rewrite (E1 is_test quiet_not_test), (E1 is_ctx_check quiet_not_ctx),
            (E1 is_sleep quiet_not_sleep).
    unfold infoLine.
    cbn [is_test is_sleep is_ctx_check String.eqb Ascii.eqb Bool.eqb].
    split; [destruct (i <? N - 1)%Z; cbn; lia|].
    split; [destruct (i <? N - 1)%Z; cbn; lia|].
    intros Hle. rewrite C3 by lia.
    destruct (Z.ltb_spec i (N - 1)); [cbn; lia | lia].
Qed.

Lemma amq_ready_cancelled N d a w k e :
  (k < Z.to_nat N)%nat ->
  rounds_go_on (amq_goes_on rt net a) (amq_tick rt net PL N d a) 0 k w = true ->
  let wk := world_at (amq_tick rt net PL N d a) 0 k w in
  ctx_err rt wk = Some e ->
  let o := ActiveMQ.waitForReadyWith rt net PL N d a w in
  res o = Some e /\ hdl o = a /\ wld o = wk
  /\ count is_test (evs o) = k
  /\ count is_sleep (evs o) = k
  /\ exists pre,
       evs o = (pre ++ [EvCtxDone (Some e);
                        infoLine (ActiveMQ.base a)
                          "Context cancelled during readiness check"])%list.
Proof.
  intros Hk H wk Hc. subst wk.
  destruct (amq_rounds N d k (Z.to_nat N - k) 0 a w H) as (pre & Heq & C1 & C2 & C3).
  replace (k + (Z.to_nat N - k))%nat with (Z.to_nat N) in Heq by lia.
  destruct (Z.to_nat N - k)%nat as [|m] eqn:Em; [lia|].
  rewrite (amq_round_cancelled rt net PL N d m _ a _ e Hc) in Heq. cbn [prepend] in Heq.
  cbv zeta. unfold ActiveMQ.waitForReadyWith.
  rewrite (bind_out _ _ _ _ _ _ _ _ (amq_Infof _ a w)).
  rewrite bind_eq, Heq. cbn [res hdl wld evs]. unfold ret. cbn [prepend res hdl wld evs app].
  rewrite app_nil_r.
  split; [reflexivity|]. split; [reflexivity|]. split; [reflexivity|].
  rewrite !count_cons, !count_app, C1, C3 by lia. unfold infoLine. cbn.
  split; [lia|]. split; [lia|].
  eexists (_ :: pre). reflexivity.
Qed.

End ProbeRounds.

(** C4. Every polling loop looks at the context before each attempt: the
    first interaction of every round of the stability check and of both
    readiness probes is the check of [ctx.Done()], and a round that finds
    the context done returns [ctx.Err()] there and then, whatever the budget
    left.  On a whole run: when the rounds before round [k] went on and the
    context is done in the world in which round [k] starts, the stability
    check and both readiness probes return the error of the context and
    leave the world as round [k] found it; they have made [k] inspections
    (invoked the predicate [k] times) and slept [k] times, none of them
    after the context was found done, and the check of the context is their
    last interaction (followed, in the ActiveMQ probe, by one line of log).
    With [k = 0]: a context done on entry makes them return at once.  Read
    off the trace alone: a check that found the context done is the last
    interaction of the run, which returns the error of the context. *)
Theorem C4_cancellation :
  forall (W : Type) (rt : Runtime W) (cl : Client W) (sh : Shell W)
         (db : Database W) (net : Network W),
    (forall n c w,
       (exists rest, evs (API.stabilityLoop rt cl (Datatypes.S n) c w)
                     = EvCtxDone (ctx_err rt w) :: rest)
       /\ (exists rest, evs (CLI.stabilityLoop rt sh (Datatypes.S n) c w)
                        = EvCtxDone (ctx_err rt w) :: rest))
    /\ (forall PL N d n i s a w,
          (exists rest, evs (SQLServer.readyLoop rt db N d (Datatypes.S n) i s w)
                        = EvCtxDone (ctx_err rt w) :: rest)
          /\ (exists rest, evs (ActiveMQ.readyLoop rt net PL N d (Datatypes.S n) i a w)
                           = EvCtxDone (ctx_err rt w) :: rest))
    /\ (forall n c w e,
          ctx_err rt w = Some e ->
          API.stabilityLoop rt cl (Datatypes.S n) c w
          = mkOut (Some (Some e)) c w [EvCtxDone (Some e)]
          /\ CLI.stabilityLoop rt sh (Datatypes.S n) c w
             = mkOut (Some (Some e)) c w [EvCtxDone (Some e)])
    /\ (forall PL N d n i s a w e,
          ctx_err rt w = Some e ->
          SQLServer.readyLoop rt db N d (Datatypes.S n) i s w
          = mkOut (Some (Some e)) s w [EvCtxDone (Some e)]
          /\ ActiveMQ.readyLoop rt net PL N d (Datatypes.S n) i a w
             = mkOut (Some (Some e)) a w
                     [EvCtxDone (Some e);
                      infoLine (ActiveMQ.base a) "Context cancelled during readiness check"])
    /\ (forall c w k e,
          (k < 6)%nat ->
          (let tick := api_tick rt cl (containerID c) in
           let o := API.waitForStableState rt cl c w in
           rounds_go_on (api_goes_on rt cl (containerID c)) tick 0 k w = true ->
           ctx_err rt (world_at tick 0 k w) = Some e ->
           res o = Some e /\ hdl o = c /\ wld o = world_at tick 0 k w
           /\ count api_is_check (evs o) = k
           /\ count is_sleep (evs o) = k
           /\ exists pre, evs o = (pre ++ [EvCtxDone (Some e)])%list)
          /\ (let tick := cli_tick rt sh (containerID c) in
              let o := CLI.waitForStableState rt sh c w in
              rounds_go_on (cli_goes_on rt sh (containerID c)) tick 0 k w = true ->
              ctx_err rt (world_at tick 0 k w) = Some e ->
              res o = Some e /\ hdl o = c /\ wld o = world_at tick 0 k w
              /\ count cli_is_check (evs o) = k
              /\ count is_sleep (evs o) = k
              /\ exists pre, evs o = (pre ++ [EvCtxDone (Some e)])%list))
    /\ (forall N d s w k e,
          (k < Z.to_nat N)%nat ->
          let tick := sql_tick rt db N d s in
          let o := SQLServer.waitForReadyWith rt db N d s w in
          rounds_go_on (sql_goes_on rt db s) tick 0 k w = true ->
          ctx_err rt (world_at tick 0 k w) = Some e ->
          res o = Some e /\ hdl o = s /\ wld o = world_at tick 0 k w
          /\ count is_test (evs o) = k
          /\ count is_sleep (evs o) = k
          /\ exists pre, evs o = (pre ++ [EvCtxDone (Some e)])%list)
    /\ (forall N d a w k e,
          (k < Z.to_nat N)%nat ->
          (let PL := API.PrintLogsOnFailure cl in
           let tick := amq_tick rt net PL N d a in
           let o := ActiveMQ.waitForReadyWith rt net PL N d a w in
           rounds_go_on (amq_goes_on rt net a) tick 0 k w = true ->
           ctx_err rt (world_at tick 0 k w) = Some e ->
           res o = Some e /\ hdl o = a /\ wld o = world_at tick 0 k w
           /\ count is_test (evs o) = k
           /\ count is_sleep (evs o) = k
           /\ exists pre,
                evs o = (pre ++ [EvCtxDone (Some e);
                                 infoLine (ActiveMQ.base a)
                                   "Context cancelled during readiness check"])%list)
          /\ (let PL := CLI.PrintLogsOnFailure sh in
              let tick := amq_tick rt net PL N d a in
              let o := ActiveMQ.waitForReadyWith rt net PL N d a w in
              rounds_go_on (amq_goes_on rt net a) tick 0 k w = true ->
              ctx_err rt (world_at tick 0 k w) = Some e ->
              res o = Some e /\ hdl o = a /\ wld o = world_at tick 0 k w
              /\ count is_test (evs o) = k
              /\ count is_sleep (evs o) = k
              /\ exists pre,
                   evs o = (pre ++ [EvCtxDone (Some e);
                                    infoLine (ActiveMQ.base a)
                                      "Context cancelled during readiness check"])%list))
    /\ (forall c w e,
          (let o := API.waitForStableState rt cl c w in
           In (EvCtxDone (Some e)) (evs o) ->
           res o = Some e /\ exists pre, evs o = (pre ++ [EvCtxDone (Some e)])%list)
          /\ (let o := CLI.waitForStableState rt sh c w in
              In (EvCtxDone (Some e)) (evs o) ->
              res o = Some e /\ exists pre, evs o = (pre ++ [EvCtxDone (Some e)])%list))
    /\ (forall N d s w e,
          let o := SQLServer.waitForReadyWith rt db N d s w in
          In (EvCtxDone (Some e)) (evs o) ->
          res o = Some e /\ exists pre, evs o = (pre ++ [EvCtxDone (Some e)])%list)
    /\ (forall N d a w e,
          (let o := ActiveMQ.waitForReadyWith rt net (API.PrintLogsOnFailure cl) N d a w in
           In (EvCtxDone (Some e)) (evs o) ->
           res o = Some e
           /\ exists pre,
                evs o = (pre ++ [EvCtxDone (Some e);
                                 infoLine (ActiveMQ.base a)
                                   "Context cancelled during readiness check"])%list)
          /\ (let o := ActiveMQ.waitForReadyWith rt net (CLI.PrintLogsOnFailure sh) N d a w in
              In (EvCtxDone (Some e)) (evs o) ->
              res o = Some e
              /\ exists pre,
                   evs o = (pre ++ [EvCtxDone (Some e);
                                    infoLine (ActiveMQ.base a)
                                      "Context cancelled during readiness check"])%list)).
Proof.
  intros W rt cl sh db net.
  split; [|split; [|split; [|split; [|split; [|split; [|split; [|split; [|split]]]]]]]].
  - intros n c w. split; [apply api_round_checks_first | apply cli_round_checks_first].
  - intros PL N d n i s a w.
    split; [apply sql_round_checks_first | apply amq_round_checks_first].
  - intros n c w e H. split.
    + now apply api_round_cancelled.
    + now apply cli_round_cancelled.
  - intros PL N d n i s a w e H. split.
    + rewrite sql_readyLoop_step, H. reflexivity.
    + now apply amq_round_cancelled.
  - intros c w k e Hk. split; cbv zeta; intros Hgo Hc.
    + exact (api_stable_cancelled rt cl c w k e Hk Hgo Hc).
    + exact (cli_stable_cancelled rt sh c w k e Hk Hgo Hc).
  - intros N d s w k e Hk. cbv zeta. intros Hgo Hc.
    exact (sql_ready_cancelled rt db N d s w k e Hk Hgo Hc).
  - intros N d a w k e Hk. split; cbv zeta; intros Hgo Hc.
    + exact (amq_ready_cancelled rt net (API.PrintLogsOnFailure cl)
               (api_PrintLogs_frame cl) (api_PrintLogs_diag cl) N d a w k e Hk Hgo Hc).
    + exact (amq_ready_cancelled rt net (CLI.PrintLogsOnFailure sh)
               (cli_PrintLogs_frame sh) (cli_PrintLogs_diag sh) N d a w k e Hk Hgo Hc).
  - intros c w e. split; intros o; subst o.
    + eapply (stable_run_cancelled_run api_is_check api_reports_running api_check_not_ctx).
      * apply (api_stabilityLoop_shape rt cl 6 c w).
      * rewrite api_waitForStableState_eq. reflexivity.
      * rewrite api_waitForStableState_eq. reflexivity.
    + eapply (stable_run_cancelled_run cli_is_check (cli_reports_running sh)
                cli_check_not_ctx).
      * apply (cli_stabilityLoop_shape rt sh 6 c w).
      * rewrite cli_waitForStableState_eq. reflexivity.
      * rewrite cli_waitForStableState_eq. reflexivity.
  - intros N d s w e. apply sql_waitForReady_cancelled.
  - intros N d a w e. split.
    + apply (amq_waitForReady_cancelled rt net (API.PrintLogsOnFailure cl)
               (api_PrintLogs_frame cl) (api_PrintLogs_diag cl)).
    + apply (amq_waitForReady_cancelled rt net (CLI.PrintLogsOnFailure sh)
               (cli_PrintLogs_frame sh) (cli_PrintLogs_diag sh)).
Qed.

Lemma C4_cancellation_witness :
  (let o := API.waitForStableState Toy.runtime Toy.client (Toy.handle false true)
              (Toy.with_deadline 1000 Toy.w0) in
   res o = Some "context deadline exceeded"
   /\ count api_is_check (evs o) = 2%nat /\ Toy.clock (wld o) = 1000)
  /\ (let o := CLI.waitForStableState Toy.runtime Toy.shell (Toy.handle false true)
                 (Toy.with_deadline 1000 Toy.w0) in
      res o = Some "context deadline exceeded"
      /\ count cli_is_check (evs o) = 2%nat /\ Toy.clock (wld o) = 1000)
  /\ (let o := SQLServer.waitForReadyWith Toy.runtime Toy.database 30 2000 Toy.sqlserver
                 (Toy.with_deadline 4000 Toy.w0) in
      res o = Some "context deadline exceeded"
      /\ count is_test (evs o) = 2%nat /\ Toy.clock (wld o) = 4000)
  /\ (let o := ActiveMQ.waitForReadyWith Toy.runtime Toy.network
                 (CLI.PrintLogsOnFailure Toy.shell) 60 2000 Toy.activemq
                 (Toy.with_deadline 4000 Toy.w0) in
      res o = Some "context deadline exceeded"
      /\ count is_test (evs o) = 2%nat /\ count is_sleep (evs o) = 2%nat).
Proof.
  destruct (C4_cancellation Toy.World Toy.runtime Toy.client Toy.shell
              Toy.database Toy.network) as (_ & _ & _ & _ & Hstab & Hsql & Hamq & _).
  split; [|split; [|split]]; cbv zeta.
  - destruct (Hstab (Toy.handle false true) (Toy.with_deadline 1000 Toy.w0) 2%nat
                "context deadline exceeded" ltac:(lia)) as (Ha & _).
    destruct (Ha eq_refl eq_refl) as (Hr & _ & Hw & Hc & _).
    split; [exact Hr|]. split; [exact Hc|]. rewrite Hw. reflexivity.
  - destruct (Hstab (Toy.handle false true) (Toy.with_deadline 1000 Toy.w0) 2%nat
                "context deadline exceeded" ltac:(lia)) as (_ & Hb).
    destruct (Hb eq_refl eq_refl) as (Hr & _ & Hw & Hc & _).
    split; [exact Hr|]. split; [exact Hc|]. rewrite Hw. reflexivity.
  - destruct (Hsql 30 2000 Toy.sqlserver (Toy.with_deadline 4000 Toy.w0) 2%nat
                "context deadline exceeded" ltac:(cbn; lia) eq_refl eq_refl)
      as (Hr & _ & Hw & Hc & _).
    split; [exact Hr|]. split; [exact Hc|]. rewrite Hw. reflexivity.
  - destruct (Hamq 60 2000 Toy.activemq (Toy.with_deadline 4000 Toy.w0) 2%nat
                "context deadline exceeded" ltac:(cbn; lia)) as (_ & Hb).
    destruct (Hb eq_refl eq_refl) as (Hr & _ & _ & Hc & Hs & _).
    split; [exact Hr|]. split; [exact Hc | exact Hs].
Defined.

(** ** Start on the reuse path *)

Lemma lookupByName_split name containers ctr :
  API.lookupByName name containers = Some ctr ->
  exists pre post,
    containers = (pre ++ ctr :: post)%list
    /\ (forall c n, In c pre -> In n (Names c) -> TrimPrefix n "/" <> name).
Proof.
  revert ctr. induction containers as [|c0 rest IH]; intros ctr; cbn [API.lookupByName];
    [discriminate|].
  destruct (existsb (fun n => String.eqb (TrimPrefix n "/") name) (Names c0)) eqn:E.
  - intros [= <-]. exists [], rest. split; [reflexivity|]. intros c n [].
  - intros H. destruct (IH _ H) as (pre & post & -> & Hpre).
    exists (c0 :: pre), post. split; [reflexivity|].
    intros c n [<-|Hc] Hn.
    + intros He. rewrite <- Bool.not_true_iff_false in E. apply E.
      apply List.existsb_exists. exists n. split; [exact Hn|]. now apply String.eqb_eq.
    + now apply (Hpre c).
Qed.

(** C2, as the code has it.  A [Start] with reuse enabled first looks for
    the container.  On the API client it lists the containers and takes the
    first one, in the order of the listing, one of whose names is the name
    of the configuration once a leading slash is cut: the comparison is the
    equality of strings.  On the [docker] binary it compares no name itself:
    it runs [docker ps -a --filter name=^NAME$ --format {{.ID}}<tab>{{.Status}}]
    with the name of the configuration put in as it is, and takes from the
    trimmed output the text before the first tab as the identifier and the
    text after it as the status.  In both, the identifier and the running
    flag (the status shows "Up") go to the handle and no create call is
    made.  If the flag is set, [Start] returns [nil] at once, without a
    start call; otherwise it issues the start call on that identifier and
    sets [isRunning] when the call succeeds.  It inspects no state and does
    not sleep: the stability check is not run on this path. *)
Theorem C2_reuse_amended :
  forall (W : Type) (rt : Runtime W) (cl : Client W) (sh : Shell W) (c : Container) (w : W),
    Reuse (config c) = true ->
    (forall containers ctr0 n,
       fst (ContainerList cl true w) = Ok containers ->
       List.Forall (fun s => ID s <> "") containers ->
       In ctr0 containers -> In n (Names ctr0) -> TrimPrefix n "/" = Name (config c) ->
       exists ctr,
         API.lookupByName (Name (config c)) containers = Some ctr
         /\ In ctr containers
         /\ (exists n', In n' (Names ctr) /\ TrimPrefix n' "/" = Name (config c))
         /\ (exists pre post,
               containers = (pre ++ ctr :: post)%list
               /\ forall c0 n0, In c0 pre -> In n0 (Names c0) ->
                                TrimPrefix n0 "/" <> Name (config c))
         /\ let o := API.Start rt cl c w in
            let w1 := snd (ContainerList cl true w) in
            let r := ContainerStart cl (ID ctr) w1 in
            count is_create (evs o) = 0%nat
            /\ count api_is_check (evs o) = 0%nat
            /\ count is_sleep (evs o) = 0%nat
            /\ containerID (hdl o) = ID ctr
            /\ (Contains (SummaryStatus ctr) "Up" = true ->
                o = mkOut None
                      {| config := config c; containerID := ID ctr; isRunning := true |}
                      w1 [EvContainerList true (Ok containers)])
            /\ (Contains (SummaryStatus ctr) "Up" = false ->
                evs o = [EvContainerList true (Ok containers);
                         EvContainerStart (ID ctr) (fst r)]
                /\ (fst r = None -> res o = None /\ isRunning (hdl o) = true)
                /\ (forall e, fst r = Some e ->
                      res o = Some ("failed to start existing container: " +:+ e)
                      /\ isRunning (hdl o) = false)))
    /\ (psArgv (Name (config c))
        = ["docker"; "ps"; "-a"; "--filter"; "name=^" +:+ Name (config c) +:+ "$";
           "--format"; "{{.ID}}" +:+ String tab "{{.Status}}"]
        /\ forall id status rest,
          let p := fst (Run sh (psArgv (Name (config c))) w) in
          PErr p = None ->
          TrimSpace (PStdout p) <> "" ->
          Split (TrimSpace (PStdout p)) tab = id :: status :: rest ->
          id <> "" ->
          let o := CLI.Start rt sh c w in
          let w1 := snd (Run sh (psArgv (Name (config c))) w) in
          let r := Run sh (startArgv id) w1 in
          count is_create (evs o) = 0%nat
          /\ count cli_is_check (evs o) = 0%nat
          /\ count is_sleep (evs o) = 0%nat
          /\ containerID (hdl o) = id
          /\ (HasPrefix status "Up" = true ->
              o = mkOut None {| config := config c; containerID := id; isRunning := true |}
                    w1 [EvExec (psArgv (Name (config c))) p])
          /\ (HasPrefix status "Up" = false ->
              evs o = [EvExec (psArgv (Name (config c))) p; EvExec (startArgv id) (fst r)]
              /\ (PErr (fst r) = None -> res o = None /\ isRunning (hdl o) = true)
              /\ (forall e, PErr (fst r) = Some e ->
                    res o = Some ("failed to start existing container: " +:+ e)
                    /\ isRunning (hdl o) = false))).
Proof.
  intros W rt cl sh c w Hre. split.
  - intros containers ctr0 n Hls Hids Hin Hn Heq.
    destruct (lookupByName_finds _ _ _ _ Hin Hn Heq) as (ctr & Hlk).
    destruct (lookupByName_spec _ _ _ Hlk) as (Hc & Hex).
    exists ctr. split; [exact Hlk|]. split; [exact Hc|]. split; [exact Hex|].
    split; [exact (lookupByName_split _ _ _ Hlk)|].
    assert (Hid : ID ctr <> "").
    { rewrite List.Forall_forall in Hids. now apply Hids. }
    cbv zeta. rewrite (api_Start_reuse rt cl c w containers ctr Hre Hls Hlk Hid).
    rewrite api_ensureRunning. cbn [isRunning containerID].
    destruct (Contains (SummaryStatus ctr) "Up"); cbv zeta; cbn [prepend app res hdl wld evs].
    + repeat split; try reflexivity; discriminate.
    + destruct (fst (ContainerStart cl (ID ctr) (snd (ContainerList cl true w)))) as [e|];
        cbn [hdl containerID set_isRunning isRunning].
      * repeat split; try reflexivity; try discriminate; congruence.
      * repeat split; try reflexivity; discriminate.
  - split; [reflexivity|].
    intros id status rest p He Hout Hsp Hid. cbv zeta.
    rewrite (cli_Start_reuse rt sh c w id status rest Hre He Hout Hsp Hid).
    rewrite cli_ensureRunning. cbn [isRunning containerID].
    destruct (HasPrefix status "Up"); cbv zeta; cbn [prepend app res hdl wld evs].
    + repeat split; try reflexivity; discriminate.
    + destruct (PErr (fst (Run sh (startArgv id) (snd (Run sh (psArgv (Name (config c))) w)))))
        as [e|]; cbn [hdl containerID set_isRunning isRunning].
      * repeat split; try reflexivity; try discriminate; congruence.
      * repeat split; try reflexivity; discriminate.
Qed.

Lemma C2_reuse_amended_witness :
  (let o := API.Start Toy.runtime Toy.client (New (Toy.cfg true)) Toy.w_listed_exited in
   res o = None /\ containerID (hdl o) = "abc" /\ isRunning (hdl o) = true
   /\ count is_create (evs o) = 0%nat /\ count is_start (evs o) = 1%nat)
  /\ (let o := CLI.Start Toy.runtime Toy.shell (New (Toy.cfg true)) Toy.w_listed_exited in
      res o = None /\ containerID (hdl o) = "abc" /\ isRunning (hdl o) = true
      /\ count is_create (evs o) = 0%nat /\ count is_start (evs o) = 1%nat).
Proof.
  destruct (C2_reuse_amended Toy.World Toy.runtime Toy.client Toy.shell
              (New (Toy.cfg true)) Toy.w_listed_exited eq_refl) as (Hapi & _ & Hcli).
  split; cbv zeta.
  - destruct (Hapi _ {| ID := "abc"; Names := ["/web"];
                        SummaryStatus := "Exited (0) 5 minutes ago" |} "/web"
                eq_refl ltac:(repeat constructor; discriminate)
                ltac:(left; reflexivity) ltac:(left; reflexivity) eq_refl)
      as (ctr & Hlk & _ & _ & _ & Hrun).
    injection Hlk as <-.
    destruct Hrun as (Hcr & _ & _ & Hid & _ & Hstart).
    destruct (Hstart eq_refl) as (Hevs & Hok & _).
    destruct (Hok eq_refl) as (Hres & Hrunning).
    split; [exact Hres|]. split; [exact Hid|]. split; [exact Hrunning|].
    split; [exact Hcr|]. rewrite Hevs. reflexivity.
  - destruct (Hcli "abc" "Exited (0) 5 minutes ago" [] eq_refl
                ltac:(vm_compute; discriminate) eq_refl ltac:(discriminate))
      as (Hcr & _ & _ & Hid & _ & Hstart).
    destruct (Hstart eq_refl) as (Hevs & Hok & _).
    destruct (Hok eq_refl) as (Hres & Hrunning).
    split; [exact Hres|]. split; [exact Hid|]. split; [exact Hrunning|].
    split; [exact Hcr|]. rewrite Hevs. reflexivity.
Defined.

(** C2 as stated fails.  With reuse enabled and container [abc] named [web]
    listed as up, [Start] returns [nil] after the listing alone: it makes no
    start call and no state inspection, and it never sleeps, so neither step
    3 nor the stability check is performed.  With the container listed as
    exited it makes the start call and still no state inspection. *)
Lemma C2_reuse_counterexample :
  (let o := API.Start Toy.runtime Toy.client (New (Toy.cfg true)) Toy.w0 in
   Reuse (config (New (Toy.cfg true))) = true
   /\ res o = None /\ containerID (hdl o) = "abc"
   /\ evs o = [EvContainerList true (Toy.listing Toy.w0)]
   /\ count is_start (evs o) = 0%nat
   /\ count api_is_check (evs o) = 0%nat
   /\ count is_sleep (evs o) = 0%nat)
  /\ (let o := API.Start Toy.runtime Toy.client (New (Toy.cfg true)) Toy.w_listed_exited in
      res o = None /\ containerID (hdl o) = "abc"
      /\ count is_start (evs o) = 1%nat
      /\ count api_is_check (evs o) = 0%nat
      /\ count is_sleep (evs o) = 0%nat)
  /\ (let o := CLI.Start Toy.runtime Toy.shell (New (Toy.cfg true)) Toy.w0 in
      res o = None /\ containerID (hdl o) = "abc"
      /\ count is_start (evs o) = 0%nat
      /\ count cli_is_check (evs o) = 0%nat
      /\ count is_sleep (evs o) = 0%nat).
Proof.
  split; [|split]; cbv zeta; repeat split; vm_compute; reflexivity.
Qed.

(** ** Diagnostics *)

Section DiagnosticsTrace.
Context {W : Type} (rt : Runtime W) (cl : Client W) (sh : Shell W).

Lemma api_PrintLogs_noid reason c w :
  containerID c = "" ->
  API.PrintLogsOnFailure cl reason c w
  = mkOut tt c w [errorLine c ("Container startup failed: " +:+ reason);
                  errorLine c "No container ID available for log retrieval"].
Proof.
  intros Hid. unfold API.PrintLogsOnFailure. run_monad. rewrite Hid. reflexivity.
Qed.

Lemma cli_PrintLogs_noid reason c w :
  containerID c = "" ->
  CLI.PrintLogsOnFailure sh reason c w
  = mkOut tt c w [errorLine c ("Container startup failed: " +:+ reason);
                  errorLine c "No container ID available for log retrieval"].
Proof.
  intros Hid. unfold CLI.PrintLogsOnFailure. run_monad. rewrite Hid. reflexivity.
Qed.

(** What [PrintLogsOnFailure] does on a handle with an identifier, call by
    call (API client). *)
Lemma api_PrintLogs_eq reason c w :
  containerID c <> "" ->
  API.PrintLogsOnFailure cl reason c w =
    let id := containerID c in
    let r1 := ContainerInspect cl id w in
    let mid :=
      match fst r1 with
      | Ok inspect =>
          [errorLine c ("Container Status - State: " +:+ Status (State inspect)
                        +:+ ", ExitCode: " +:+ itoa (ExitCode (State inspect))
                        +:+ ", Error: " +:+ Error (State inspect));
           errorLine c ("Container Started At: " +:+ StartedAt (State inspect)
                        +:+ ", Finished At: " +:+ FinishedAt (State inspect))]
      | Err e => [errorLine c ("Failed to inspect container for status: " +:+ e)]
      end in
    let r2 := ContainerLogs cl id false (snd r1) in
    let head := (errorLine c ("Container startup failed: " +:+ reason)
                 :: EvContainerInspect id (fst r1)
                 :: mid ++ [infoLine c "Retrieving container logs for debugging...";
                            EvContainerLogs id false (fst r2)])%list in
    match fst r2 with
    | Err e =>
        mkOut tt c (snd r2)
              (head ++ [errorLine c ("Failed to retrieve container logs: "
                                     +:+ "failed to get container logs: " +:+ e)])
    | Ok logs =>
        let r3 := ReaderRead cl logs 8192 (snd r2) in
        let n := Z.of_nat (String.length (fst (fst r3))) in
        let lines :=
          match snd (fst r3) with
          | io_err e => [errorLine c ("Failed to read container logs: " +:+ e)]
          | _ =>
              if (0 <? n)%Z then
                [errorLine c ("=== Container Logs (last " +:+ itoa n +:+ " bytes) ===");
                 errorLine c (fst (fst r3));
                 errorLine c "=== End Container Logs ==="]
              else [errorLine c "No container logs available"]
          end in
        mkOut tt c (ReaderClose cl logs (snd r3))
              (head ++ EvRead logs 8192 (fst (fst r3)) (snd (fst r3))
                    :: lines ++ [EvClose logs])
    end.
Proof.
  intros Hid. unfold API.PrintLogsOnFailure. repeat step.
  destruct (String.eqb_spec (containerID c) "") as [|_]; [contradiction|].
  repeat step. cbv zeta.
  destruct (fst (ContainerInspect cl (containerID c) w)) as [inspect|e1];
    repeat step; rewrite bind_eq, api_Logs_eq;
    (destruct (String.eqb_spec (containerID c) "") as [|_]; [contradiction|]);
    cbv zeta; cbn [res hdl wld evs];
    (destruct (fst (ContainerLogs cl (containerID c) false
                      (snd (ContainerInspect cl (containerID c) w)))) as [logs|e2]);
    repeat step; tidy.
  all: try reflexivity.
  all: destruct (snd (fst (ReaderRead cl logs 8192 _))) as [| |e3];
    try destruct (0 <? _)%Z; repeat step; tidy; reflexivity.
Qed.

(** The same for the [docker] binary; reading the buffer that holds the
    output of [docker logs] cannot fail. *)
Lemma cli_PrintLogs_eq reason c w :
  containerID c <> "" ->
  CLI.PrintLogsOnFailure sh reason c w =
    let id := containerID c in
    let r1 := Run sh (CLI.inspectStateArgv id) w in
    let mid :=
      match PErr (fst r1) with
      | None =>
          match Unmarshal sh (PStdout (fst r1)) with
          | Ok state =>
              [errorLine c ("Container Status - State: " +:+ Status state
                            +:+ ", ExitCode: " +:+ itoa (ExitCode state)
                            +:+ ", Error: " +:+ Error state);
               errorLine c ("Container Started At: " +:+ StartedAt state
                            +:+ ", Finished At: " +:+ FinishedAt state)]
          | Err _ => []
          end
      | Some e => [errorLine c ("Failed to inspect container for status: " +:+ e)]
      end in
    let r2 := Run sh (logsArgv id) (snd r1) in
    let head := (errorLine c ("Container startup failed: " +:+ reason)
                 :: EvExec (CLI.inspectStateArgv id) (fst r1)
                 :: mid ++ [infoLine c "Retrieving container logs for debugging...";
                            EvExec (logsArgv id) (fst r2)])%list in
    match PErr (fst r2) with
    | Some e =>
        mkOut tt c (snd r2)
              (head ++ [errorLine c ("Failed to retrieve container logs: "
                                     +:+ "failed to get container logs: " +:+ e)])
    | None =>
        let rd := CLI.bufferRead (POut (fst r2)) 8192 in
        let n := Z.of_nat (String.length (fst rd)) in
        let lines :=
          match snd rd with
          | io_err e => [errorLine c ("Failed to read container logs: " +:+ e)]
          | _ =>
              if (0 <? n)%Z then
                [errorLine c ("=== Container Logs (last " +:+ itoa n +:+ " bytes) ===");
                 errorLine c (fst rd);
                 errorLine c "=== End Container Logs ==="]
              else [errorLine c "No container logs available"]
          end in
        mkOut tt c (snd r2) (head ++ lines)
    end.
Proof.
  intros Hid. unfold CLI.PrintLogsOnFailure, CLI.Exec_Run. repeat step.
  destruct (String.eqb_spec (containerID c) "") as [|_]; [contradiction|].
  repeat step. cbv zeta. fold (CLI.inspectStateArgv (containerID c)).
  destruct (PErr (fst (Run sh (CLI.inspectStateArgv (containerID c)) w))) as [e1|];
    [|destruct (Unmarshal sh _) as [state|e1']];
    repeat step; rewrite bind_eq, cli_Logs_eq;
    (destruct (String.eqb_spec (containerID c) "") as [|_]; [contradiction|]);
    cbv zeta; cbn [res hdl wld evs app]; fold (logsArgv (containerID c));
    (destruct (PErr (fst (Run sh (logsArgv (containerID c))
                            (snd (Run sh (CLI.inspectStateArgv (containerID c)) w)))))
       as [e2|]);
    repeat step; tidy.
  all: try reflexivity.
  all: destruct (snd (CLI.bufferRead _ 8192)) as [| |e3];
    try destruct (0 <? _)%Z; repeat step; tidy; reflexivity.
Qed.

Lemma bufferRead_no_error data size e : snd (CLI.bufferRead data size) <> io_err e.
Proof.
  unfold CLI.bufferRead. destruct data; cbn [snd]; [destruct (Nat.eqb size 0)|];
    discriminate.
Qed.

End DiagnosticsTrace.

Section DiagnosticsCallers.
Context {W : Type} (rt : Runtime W) (cl : Client W) (sh : Shell W).

Lemma api_PrintLogs_trace reason c w :
  containerID c <> "" ->
  let id := containerID c in
  let r1 := ContainerInspect cl id w in
  let r2 := ContainerLogs cl id false (snd r1) in
  let o := API.PrintLogsOnFailure cl reason c w in
  exists mid rest,
    evs o = (errorLine c ("Container startup failed: " +:+ reason)
             :: EvContainerInspect id (fst r1)
             :: mid ++ infoLine c "Retrieving container logs for debugging..."
             :: EvContainerLogs id false (fst r2) :: rest)%list
    /\ List.Forall (fun e => is_log e = true) mid
    /\ (forall e, fst r1 = Err e ->
          mid = [errorLine c ("Failed to inspect container for status: " +:+ e)])
    /\ (forall e, fst r2 = Err e ->
          rest = [errorLine c ("Failed to retrieve container logs: "
                               +:+ "failed to get container logs: " +:+ e)]
          /\ wld o = snd r2)
    /\ (forall logs, fst r2 = Ok logs ->
          let r3 := ReaderRead cl logs 8192 (snd r2) in
          wld o = ReaderClose cl logs (snd r3)
          /\ exists lines,
               rest = (EvRead logs 8192 (fst (fst r3)) (snd (fst r3))
                       :: lines ++ [EvClose logs])%list
               /\ List.Forall (fun e => is_log e = true) lines
               /\ (forall e, snd (fst r3) = io_err e ->
                     lines = [errorLine c ("Failed to read container logs: " +:+ e)])).
Proof.
  intros Hid. cbv zeta. rewrite (api_PrintLogs_eq cl reason c w Hid). cbv zeta.
  set (r1 := ContainerInspect cl (containerID c) w).
  set (r2 := ContainerLogs cl (containerID c) false (snd r1)).
  set (mid := match fst r1 with Ok _ => _ | Err _ => _ end).
  assert (Hmid : List.Forall (fun e => is_log e = true) mid).
  { subst mid. destruct (fst r1); repeat constructor. }
  assert (Herr : forall e, fst r1 = Err e ->
            mid = [errorLine c ("Failed to inspect container for status: " +:+ e)]).
  { intros e He. subst mid. rewrite He. reflexivity. }
  clearbody mid.
  destruct (fst r2) as [logs|e2] eqn:E2; cbn [res hdl wld evs].
  - set (r3 := ReaderRead cl logs 8192 (snd r2)).
    set (lines := match snd (fst r3) with io_err _ => _ | _ => _ end).
    exists mid, (EvRead logs 8192 (fst (fst r3)) (snd (fst r3)) :: lines ++ [EvClose logs])%list.
    split; [cbn [app]; rewrite <- app_assoc; reflexivity|].
    split; [exact Hmid|]. split; [exact Herr|]. split; [intros e [=]|].
    intros l [= <-]. split; [reflexivity|]. exists lines. split; [reflexivity|].
    split.
    + subst lines. destruct (snd (fst r3)); try destruct (0 <? _)%Z; repeat constructor.
    + intros e He. subst lines. fold r3 in He. rewrite He. reflexivity.
  - exists mid, [errorLine c ("Failed to retrieve container logs: "
                              +:+ "failed to get container logs: " +:+ e2)].
    split; [cbn [app]; rewrite <- app_assoc; reflexivity|].
    split; [exact Hmid|]. split; [exact Herr|]. split; [|intros l [=]].
    intros e [= <-]. split; reflexivity.
Qed.

Lemma cli_PrintLogs_trace reason c w :
  containerID c <> "" ->
  let id := containerID c in
  let r1 := Run sh (CLI.inspectStateArgv id) w in
  let r2 := Run sh (logsArgv id) (snd r1) in
  let o := CLI.PrintLogsOnFailure sh reason c w in
  wld o = snd r2
  /\ exists mid rest,
       evs o = (errorLine c ("Container startup failed: " +:+ reason)
                :: EvExec (CLI.inspectStateArgv id) (fst r1)
                :: mid ++ infoLine c "Retrieving container logs for debugging..."
                :: EvExec (logsArgv id) (fst r2) :: rest)%list
       /\ List.Forall (fun e => is_log e = true) mid
       /\ List.Forall (fun e => is_log e = true) rest
       /\ (forall e, PErr (fst r1) = Some e ->
             mid = [errorLine c ("Failed to inspect container for status: " +:+ e)])
       /\ (forall e, PErr (fst r1) = None ->
             Unmarshal sh (PStdout (fst r1)) = Err e -> mid = [])
       /\ (forall e, PErr (fst r2) = Some e ->
             rest = [errorLine c ("Failed to retrieve container logs: "
                                  +:+ "failed to get container logs: " +:+ e)]).
Proof.
  intros Hid. cbv zeta. rewrite (cli_PrintLogs_eq sh reason c w Hid). cbv zeta.
  set (r1 := Run sh (CLI.inspectStateArgv (containerID c)) w).
  set (r2 := Run sh (logsArgv (containerID c)) (snd r1)).
  set (mid := match PErr (fst r1) with Some _ => _ | None => _ end).
  assert (Hmid : List.Forall (fun e => is_log e = true) mid).
  { subst mid. destruct (PErr (fst r1)); [|destruct (Unmarshal sh _)]; repeat constructor. }
  assert (Herr : forall e, PErr (fst r1) = Some e ->
            mid = [errorLine c ("Failed to inspect container for status: " +:+ e)]).
  { intros e He. subst mid. rewrite He. reflexivity. }
  assert (Hbad : forall e, PErr (fst r1) = None ->
            Unmarshal sh (PStdout (fst r1)) = Err e -> mid = []).
  { intros e He Hu. subst mid. rewrite He, Hu. reflexivity. }
  clearbody mid.
  destruct (PErr (fst r2)) as [e2|] eqn:E2; cbn [res hdl wld evs].
  - split; [reflexivity|].
    exists mid, [errorLine c ("Failed to retrieve container logs: "
                              +:+ "failed to get container logs: " +:+ e2)].
    split; [cbn [app]; rewrite <- app_assoc; reflexivity|].
    split; [exact Hmid|]. split; [repeat constructor|].
    split; [exact Herr|]. split; [exact Hbad|].
    intros e [= <-]. reflexivity.
  - split; [reflexivity|].
    set (lines := match snd (CLI.bufferRead _ 8192) with io_err _ => _ | _ => _ end).
    exists mid, lines.
    split; [cbn [app]; rewrite <- app_assoc; reflexivity|].
    split; [exact Hmid|]. split.
    { subst lines. destruct (snd (CLI.bufferRead _ 8192)); try destruct (0 <? _)%Z;
        repeat constructor. }
    split; [exact Herr|]. split; [exact Hbad|]. intros e [=].
Qed.

(** The stability check returns its own error whatever the diagnostics it
    runs first meet. *)
Lemma api_stable_error_at c w k :
  (k < 6)%nat ->
  rounds_go_on (api_goes_on rt cl (containerID c)) (api_tick rt cl (containerID c)) 0 k w
  = true ->
  let wk := world_at (api_tick rt cl (containerID c)) 0 k w in
  ctx_err rt wk = None ->
  (forall e, fst (ContainerInspect cl (containerID c) wk) = Err e ->
     res (API.waitForStableState rt cl c w) = Some ("failed to inspect container: " +:+ e))
  /\ (forall inspect,
        fst (ContainerInspect cl (containerID c) wk) = Ok inspect ->
        Running (State inspect) = false ->
        res (API.waitForStableState rt cl c w)
        = Some ("container exited with status " +:+ Status (State inspect)
                +:+ " (exit code: " +:+ itoa (ExitCode (State inspect)) +:+ ")")).
Proof.
  intros Hk H wk Hc. subst wk.
  destruct (api_rounds rt cl k (6 - k) 0 c w H) as (pre & Heq & _).
  replace (k + (6 - k))%nat with 6%nat in Heq by lia.
  destruct (6 - k)%nat as [|m] eqn:Em; [lia|].
  rewrite (api_stabilityLoop_step rt cl m c
             (world_at (api_tick rt cl (containerID c)) 0 k w)), Hc in Heq.
  cbv zeta in Heq.
  split.
  - intros e He. rewrite He in Heq.
    rewrite api_waitForStableState_eq. cbv zeta. rewrite Heq, res_prepend. reflexivity.
  - intros inspect He Hr. rewrite He, Hr in Heq.
    rewrite api_waitForStableState_eq. cbv zeta. rewrite Heq, res_prepend. reflexivity.
Qed.

Lemma cli_stable_error_at c w k :
  (k < 6)%nat ->
  rounds_go_on (cli_goes_on rt sh (containerID c)) (cli_tick rt sh (containerID c)) 0 k w
  = true ->
  let wk := world_at (cli_tick rt sh (containerID c)) 0 k w in
  ctx_err rt wk = None ->
  let p := fst (Run sh (CLI.inspectStateArgv (containerID c)) wk) in
  (forall e, PErr p = Some e ->
     res (CLI.waitForStableState rt sh c w) = Some ("failed to inspect container: " +:+ e))
  /\ (forall state,
        PErr p = None -> Unmarshal sh (PStdout p) = Ok state -> Running state = false ->
        res (CLI.waitForStableState rt sh c w)
        = Some ("container exited with status " +:+ Status state
                +:+ " (exit code: " +:+ itoa (ExitCode state) +:+ ")")).
Proof.
  intros Hk H wk Hc. subst wk. cbv zeta.
  destruct (cli_rounds rt sh k (6 - k) 0 c w H) as (pre & Heq & _).
  replace (k + (6 - k))%nat with 6%nat in Heq by lia.
  destruct (6 - k)%nat as [|m] eqn:Em; [lia|].
  rewrite (cli_stabilityLoop_step rt sh m c
             (world_at (cli_tick rt sh (containerID c)) 0 k w)), Hc in Heq.
  cbv zeta in Heq.
  split.
  - intros e He. rewrite He in Heq.
    rewrite cli_waitForStableState_eq. cbv zeta. rewrite Heq, res_prepend. reflexivity.
  - intros state He Hu Hr. rewrite He, Hu, Hr in Heq.
    rewrite cli_waitForStableState_eq. cbv zeta. rewrite Heq, res_prepend. reflexivity.
Qed.

(** So does [createAndStartContainer] when the start call fails. *)
Lemma api_createAndStart_start_error c w id m :
  let r1 := ImageInspectWithRaw cl (Image (config c)) w in
  let r2 := ImagePull cl (Image (config c)) (snd r1) in
  fst r1 = None \/ fst r2 = None ->
  let w1 := match fst r1 with None => snd r1 | Some _ => snd r2 end in
  let r3 := ContainerCreate cl (API.createRequest (config c)) w1 in
  fst r3 = Ok id ->
  fst (ContainerStart cl id (snd r3)) = Some m ->
  let o := API.createAndStartContainer rt cl c w in
  res o = Some ("failed to start container: " +:+ m)
  /\ exists pre,
       evs o = (pre ++ evs (API.PrintLogsOnFailure cl ("Failed to start container: " +:+ m)
                              (set_containerID id c)
                              (snd (ContainerStart cl id (snd r3)))))%list.
Proof.
  intros r1 r2 H1 w1 r3 H3 H4 o. subst o r3 w1 r2 r1.
  rewrite api_createAndStart. cbv zeta.
  destruct (fst (ImageInspectWithRaw cl (Image (config c)) w)) as [m1|].
  - destruct H1 as [H1|H1]; [discriminate|]. rewrite H1, H3, H4.
    cbn [res evs]. split; [reflexivity|]. eexists. reflexivity.
  - rewrite H3, H4. cbn [res evs]. split; [reflexivity|]. eexists. reflexivity.
Qed.

Lemma cli_createAndStart_start_error c w m :
  let r1 := Run sh ["docker"; "image"; "inspect"; Image (config c)] w in
  let r2 := Run sh ["docker"; "pull"; Image (config c)] (snd r1) in
  PErr (fst r1) = None \/ PErr (fst r2) = None ->
  let w1 := match PErr (fst r1) with None => snd r1 | Some _ => snd r2 end in
  let r3 := Run sh (CLI.createArgv (config c)) w1 in
  let id := TrimSpace (PStdout (fst r3)) in
  PErr (fst r3) = None ->
  PErr (fst (Run sh (startArgv id) (snd r3))) = Some m ->
  let o := CLI.createAndStartContainer rt sh c w in
  res o = Some ("failed to start container: " +:+ m)
  /\ exists pre,
       evs o = (pre ++ evs (CLI.PrintLogsOnFailure sh ("Failed to start container: " +:+ m)
                              (set_containerID id c)
                              (snd (Run sh (startArgv id) (snd r3)))))%list.
Proof.
  intros r1 r2 H1 w1 r3 id H3 H4 o. subst o id r3 w1 r2 r1.
  rewrite cli_createAndStart. cbv zeta.
  destruct (PErr (fst (Run sh ["docker"; "image"; "inspect"; Image (config c)] w)))
    as [m1|].
  - destruct H1 as [H1|H1]; [discriminate|]. rewrite H1, H3, H4.
    cbn [res evs]. split; [reflexivity|]. eexists. reflexivity.
  - rewrite H3, H4. cbn [res evs]. split; [reflexivity|]. eexists. reflexivity.
Qed.

End DiagnosticsCallers.

(** C8, as the code has it.  The diagnostics routine has no error to return
    and leaves the handle as it found it; it only logs, inspects and reads
    logs.  Without an identifier it writes two lines and makes no call.
    With one it inspects the state, writes what it learnt, fetches the logs
    in the world the inspection left, whatever the inspection answered, and
    reads them.  On the API client each failure is written to the log and
    passed over: a failed inspection, a failed fetch (which ends the
    routine), a failed read (after which the stream is still closed).  On
    the [docker] binary a failed inspection command and a failed fetch are
    written to the log likewise, and reading the fetched output cannot
    fail; but when the inspection command succeeds and its output does not
    decode, nothing is written about it: the routine goes on to the logs in
    silence.  The callers return their own error afterwards: the stability
    check the error of the check that failed, [createAndStartContainer] the
    error of the start call. *)
Theorem C8_diagnostics_amended :
  forall (W : Type) (rt : Runtime W) (cl : Client W) (sh : Shell W)
         (reason : string) (c : Container) (w : W),
    (hdl (API.PrintLogsOnFailure cl reason c w) = c
     /\ List.Forall (fun e => is_diag e = true) (evs (API.PrintLogsOnFailure cl reason c w))
     /\ hdl (CLI.PrintLogsOnFailure sh reason c w) = c
     /\ List.Forall (fun e => is_diag e = true) (evs (CLI.PrintLogsOnFailure sh reason c w)))
    /\ (containerID c = "" ->
        API.PrintLogsOnFailure cl reason c w
        = mkOut tt c w [errorLine c ("Container startup failed: " +:+ reason);
                        errorLine c "No container ID available for log retrieval"]
        /\ CLI.PrintLogsOnFailure sh reason c w
           = mkOut tt c w [errorLine c ("Container startup failed: " +:+ reason);
                           errorLine c "No container ID available for log retrieval"])
    /\ (containerID c <> "" ->
        let id := containerID c in
        let r1 := ContainerInspect cl id w in
        let r2 := ContainerLogs cl id false (snd r1) in
        let o := API.PrintLogsOnFailure cl reason c w in
        exists mid rest,
          evs o = (errorLine c ("Container startup failed: " +:+ reason)
                   :: EvContainerInspect id (fst r1)
                   :: mid ++ infoLine c "Retrieving container logs for debugging..."
                   :: EvContainerLogs id false (fst r2) :: rest)%list
          /\ List.Forall (fun e => is_log e = true) mid
          /\ (forall e, fst r1 = Err e ->
                mid = [errorLine c ("Failed to inspect container for status: " +:+ e)])
          /\ (forall e, fst r2 = Err e ->
                rest = [errorLine c ("Failed to retrieve container logs: "
                                     +:+ "failed to get container logs: " +:+ e)]
                /\ wld o = snd r2)
          /\ (forall logs, fst r2 = Ok logs ->
                let r3 := ReaderRead cl logs 8192 (snd r2) in
                wld o = ReaderClose cl logs (snd r3)
                /\ exists lines,
                     rest = (EvRead logs 8192 (fst (fst r3)) (snd (fst r3))
                             :: lines ++ [EvClose logs])%list
                     /\ List.Forall (fun e => is_log e = true) lines
                     /\ (forall e, snd (fst r3) = io_err e ->
                           lines = [errorLine c ("Failed to read container logs: "
                                                 +:+ e)])))
    /\ (containerID c <> "" ->
        let id := containerID c in
        let r1 := Run sh (CLI.inspectStateArgv id) w in
        let r2 := Run sh (logsArgv id) (snd r1) in
        let o := CLI.PrintLogsOnFailure sh reason c w in
        wld o = snd r2
        /\ (forall data e, snd (CLI.bufferRead data 8192) <> io_err e)
        /\ exists mid rest,
             evs o = (errorLine c ("Container startup failed: " +:+ reason)
                      :: EvExec (CLI.inspectStateArgv id) (fst r1)
                      :: mid ++ infoLine c "Retrieving container logs for debugging..."
                      :: EvExec (logsArgv id) (fst r2) :: rest)%list
             /\ List.Forall (fun e => is_log e = true) mid
             /\ List.Forall (fun e => is_log e = true) rest
             /\ (forall e, PErr (fst r1) = Some e ->
                   mid = [errorLine c ("Failed to inspect container for status: " +:+ e)])
             /\ (forall e, PErr (fst r1) = None ->
                   Unmarshal sh (PStdout (fst r1)) = Err e -> mid = [])
             /\ (forall e, PErr (fst r2) = Some e ->
                   rest = [errorLine c ("Failed to retrieve container logs: "
                                        +:+ "failed to get container logs: " +:+ e)]))
    /\ (forall k, (k < 6)%nat ->
          (let tick := api_tick rt cl (containerID c) in
           let wk := world_at tick 0 k w in
           rounds_go_on (api_goes_on rt cl (containerID c)) tick 0 k w = true ->
           ctx_err rt wk = None ->
           (forall e, fst (ContainerInspect cl (containerID c) wk) = Err e ->
              res (API.waitForStableState rt cl c w)
              = Some ("failed to inspect container: " +:+ e))
           /\ (forall inspect,
                 fst (ContainerInspect cl (containerID c) wk) = Ok inspect ->
                 Running (State inspect) = false ->
                 res (API.waitForStableState rt cl c w)
                 = Some ("container exited with status " +:+ Status (State inspect)
                         +:+ " (exit code: " +:+ itoa (ExitCode (State inspect))
                         +:+ ")")))
          /\ (let tick := cli_tick rt sh (containerID c) in
              let wk := world_at tick 0 k w in
              let p := fst (Run sh (CLI.inspectStateArgv (containerID c)) wk) in
              rounds_go_on (cli_goes_on rt sh (containerID c)) tick 0 k w = true ->
              ctx_err rt wk = None ->
              (forall e, PErr p = Some e ->
                 res (CLI.waitForStableState rt sh c w)
                 = Some ("failed to inspect container: " +:+ e))
              /\ (forall state,
                    PErr p = None -> Unmarshal sh (PStdout p) = Ok state ->
                    Running state = false ->
                    res (CLI.waitForStableState rt sh c w)
                    = Some ("container exited with status " +:+ Status state
                            +:+ " (exit code: " +:+ itoa (ExitCode state) +:+ ")"))))
    /\ (forall id m,
          let r1 := ImageInspectWithRaw cl (Image (config c)) w in
          let r2 := ImagePull cl (Image (config c)) (snd r1) in
          fst r1 = None \/ fst r2 = None ->
          let w1 := match fst r1 with None => snd r1 | Some _ => snd r2 end in
          let r3 := ContainerCreate cl (API.createRequest (config c)) w1 in
          fst r3 = Ok id ->
          fst (ContainerStart cl id (snd r3)) = Some m ->
          let o := API.createAndStartContainer rt cl c w in
          res o = Some ("failed to start container: " +:+ m)
          /\ exists pre,
               evs o = (pre ++ evs (API.PrintLogsOnFailure cl
                                      ("Failed to start container: " +:+ m)
                                      (set_containerID id c)
                                      (snd (ContainerStart cl id (snd r3)))))%list)
    /\ (forall m,
          let r1 := Run sh ["docker"; "image"; "inspect"; Image (config c)] w in
          let r2 := Run sh ["docker"; "pull"; Image (config c)] (snd r1) in
          PErr (fst r1) = None \/ PErr (fst r2) = None ->
          let w1 := match PErr (fst r1) with None => snd r1 | Some _ => snd r2 end in
          let r3 := Run sh (CLI.createArgv (config c)) w1 in
          let id := TrimSpace (PStdout (fst r3)) in
          PErr (fst r3) = None ->
          PErr (fst (Run sh (startArgv id) (snd r3))) = Some m ->
          let o := CLI.createAndStartContainer rt sh c w in
          res o = Some ("failed to start container: " +:+ m)
          /\ exists pre,
               evs o = (pre ++ evs (CLI.PrintLogsOnFailure sh
                                      ("Failed to start container: " +:+ m)
                                      (set_containerID id c)
                                      (snd (Run sh (startArgv id) (snd r3)))))%list).
Proof.
  intros W rt cl sh reason c w.
  split; [|split; [|split; [|split; [|split; [|split]]]]].
  - split; [apply api_PrintLogs_frame|]. split; [apply api_PrintLogs_diag|].
    split; [apply cli_PrintLogs_frame | apply cli_PrintLogs_diag].
  - intros Hid. split; [now apply api_PrintLogs_noid | now apply cli_PrintLogs_noid].
  - intros Hid. exact (api_PrintLogs_trace cl reason c w Hid).
  - intros Hid. cbv zeta.
    destruct (cli_PrintLogs_trace sh reason c w Hid) as (Hw & Htr).
    split; [exact Hw|]. split; [|exact Htr].
    intros data e. apply bufferRead_no_error.
  - intros k Hk. split; cbv zeta; intros Hgo Hc.
    + exact (api_stable_error_at rt cl c w k Hk Hgo Hc).
    + exact (cli_stable_error_at rt sh c w k Hk Hgo Hc).
  - intros id m r1 r2 H1 w1 r3 H3 H4.
    exact (api_createAndStart_start_error rt cl c w id m H1 H3 H4).
  - intros m r1 r2 H1 w1 r3 id H3 H4.
    exact (cli_createAndStart_start_error rt sh c w m H1 H3 H4).
Qed.

Lemma C8_diagnostics_amended_witness :
  (let c := Toy.handle false true in
   let w := Toy.with_inspects [] Toy.w0 in
   let o := API.PrintLogsOnFailure Toy.client "boom" c w in
   In (errorLine c "Failed to inspect container for status: No such container") (evs o)
   /\ In (EvContainerLogs "abc" false (Ok 3)) (evs o)
   /\ res (API.waitForStableState Toy.runtime Toy.client c w)
      = Some "failed to inspect container: No such container")
  /\ (let c := Toy.handle false true in
      let w := Toy.with_inspects [] Toy.w0 in
      let o := CLI.PrintLogsOnFailure Toy.shell "boom" c w in
      In (errorLine c "Failed to inspect container for status: No such container") (evs o)
      /\ In (EvExec (logsArgv "abc") (Toy.proc None "started")) (evs o)
      /\ res (CLI.waitForStableState Toy.runtime Toy.shell c w)
         = Some "failed to inspect container: No such container").
Proof.
  destruct (C8_diagnostics_amended Toy.World Toy.runtime Toy.client Toy.shell "boom"
              (Toy.handle false true) (Toy.with_inspects [] Toy.w0))
    as (_ & _ & Hapi & Hcli & Hstab & _).
  assert (Hid : containerID (Toy.handle false true) <> "") by discriminate.
  destruct (Hstab 0%nat ltac:(lia)) as (Ha & Hb).
  destruct (Ha eq_refl eq_refl) as (A1 & _).
  destruct (Hb eq_refl eq_refl) as (B1 & _).
  split; cbv zeta.
  - destruct (Hapi Hid) as (mid & rest & Hevs & _ & Hmid & _).
    rewrite Hevs, (Hmid _ eq_refl).
    split; [right; right; left; reflexivity|].
    split; [right; right; right; right; left; reflexivity|].
    exact (A1 _ eq_refl).
  - destruct (Hcli Hid) as (_ & _ & mid & rest & Hevs & _ & _ & Hmid & _).
    rewrite Hevs, (Hmid _ eq_refl).
    split; [right; right; left; reflexivity|].
    split; [right; right; right; right; left; reflexivity|].
    exact (B1 _ eq_refl).
Defined.

(** C8 as stated fails on the [docker] binary.  The state inspection of
    container [abc] succeeds and prints something that does not decode; the
    routine writes the reason, runs the inspection, and goes straight on to
    the logs: among the seven interactions it makes, no line of log tells
    that the state could not be read. *)
Lemma C8_diagnostics_counterexample :
  let c := Toy.handle false true in
  let p := fst (Run Toy.shell_garbled (CLI.inspectStateArgv "abc") Toy.w0) in
  let o := CLI.PrintLogsOnFailure Toy.shell_garbled "boom" c Toy.w0 in
  PErr p = None
  /\ Unmarshal Toy.shell_garbled (PStdout p) = Err "invalid character"
  /\ evs o = [errorLine c "Container startup failed: boom";
              EvExec (CLI.inspectStateArgv "abc") p;
              infoLine c "Retrieving container logs for debugging...";
              EvExec (logsArgv "abc") (Toy.proc None "started");
              errorLine c "=== Container Logs (last 7 bytes) ===";
              errorLine c "started";
              errorLine c "=== End Container Logs ==="].
Proof.
  cbv zeta. split; [reflexivity|]. split; [reflexivity|]. vm_compute. reflexivity.
Qed.
